(** * A shallow embedding of the NES emulator core

    The development follows the C++ sources: the cartridge and its mapper
    interface (with the MMC3 mapper in full), the PPU with its register
    file and pixel pipeline, the APU, the 6502 interpreter with all its
    opcodes, and the system bus with its memory map, controller ports, OAM
    DMA engine and interrupt routing.  The definitions come first; the
    properties proved about them follow, ending with the statements of
    the specification that are checked here.

    Conventions.
    - A [uint8_t], [uint16_t] or [uint64_t] is a [Z]; every place where the
      C++ value is truncated by an assignment carries an explicit [u8],
      [u16] or [u64].  Bit operators are [Z.land], [Z.lor], [Z.lxor],
      [Z.shiftl], [Z.shiftr].
    - A [std::array] or [std::vector] of bytes is a [list Z]; [byte_at]
      reads an element and [byte_set] does the in-place update.
    - A method that mutates its object takes the object and returns the
      new one; a method that also returns a value returns a pair.
    - The object graph built by the [Emulator] constructor (a bus connected
      to one CPU, one PPU and one APU, and a cartridge once a ROM is
      loaded) is the record [System]; the nullable cartridge pointer is an
      [option]. *)

From Stdlib Require Import ZArith List Bool Lia.
From stdpp Require Import base list.
Import ListNotations.
Local Open Scope Z_scope.

(** ** Machine integers and byte arrays *)

Definition u8 (x : Z) : Z := x mod 256.
Definition u16 (x : Z) : Z := x mod 65536.
Definition u64 (x : Z) : Z := x mod 18446744073709551616.

(** [x != 0] for an integer used as a C++ [bool]. *)
Definition nonzero (x : Z) : bool := negb (x =? 0).

(** [b ? 1 : 0], the integer value of a C++ [bool]. *)
Definition b2z (b : bool) : Z := if b then 1 else 0.

(** [a[i]] on a byte array; the index is always in range in the sources. *)
Definition byte_at (a : list Z) (i : Z) : Z := default 0 (a !! Z.to_nat i).

(** [a[i] = v]. *)
Definition byte_set (a : list Z) (i : Z) (v : Z) : list Z := <[Z.to_nat i := v]> a.

(** [n] copies of the byte [v]: [fill(v)] on an array of size [n]. *)
Definition filled (n : Z) (v : Z) : list Z := replicate (Z.to_nat n) v.

(** [std::vector::resize(n, v)]: keep the first [n] elements, pad with [v]. *)
Definition vec_resize (n : Z) (v : Z) (a : list Z) : list Z :=
  take (Z.to_nat n) a ++ replicate (Z.to_nat n - length a)%nat v.

(** [memcpy(dst, &src[off], n)] into a vector just resized to [n] elements:
    the [n] bytes of [src] starting at [off]. *)
Definition slice (src : list Z) (off n : Z) : list Z :=
  take (Z.to_nat n) (drop (Z.to_nat off) src).

(** ** A small state monad

    The CPU and the bus thread the whole machine through nested calls. *)

Definition State (S A : Type) : Type := S -> A * S.

Definition ret {S A : Type} (a : A) : State S A := fun s => (a, s).

Definition bind {S A B : Type} (m : State S A) (k : A -> State S B) : State S B :=
  fun s => let '(a, s') := m s in k a s'.

Definition gets {S A : Type} (f : S -> A) : State S A := fun s => (f s, s).

Definition modify {S : Type} (f : S -> S) : State S unit := fun s => (tt, f s).

Definition exec {S A : Type} (m : State S A) (s : S) : S := snd (m s).

Definition eval {S A : Type} (m : State S A) (s : S) : A := fst (m s).

Declare Scope st_scope.
Delimit Scope st_scope with st.
Notation "x <- m ;; k" := (bind m (fun x => k))
  (at level 100, m at level 99, right associativity) : st_scope.
Notation "m ;;; k" := (bind m (fun _ => k))
  (at level 100, right associativity) : st_scope.

(** Nametable wiring, [Mapper::Mirror] and [Cartridge::Mirror]: the two
    enumerations have the same five names and [Cartridge::get_mirror]
    maps each name to itself. *)
Inductive Mirror : Type :=
  | HORIZONTAL | VERTICAL | ONESCREEN_LO | ONESCREEN_HI | FOUR_SCREEN.

(** ** The mapper interface (mapper.hpp)

    [class Mapper] is an abstract base class; a mapper is any state type
    with these operations.  The [uint8_t& data] out-parameter is written
    only on the handled path by every mapper of the repository, so a read
    returns [Some data] for [true] and [None] for [false]; the callers
    initialise [data] to [0x00].  PRG ROM is never written through the
    pointer; CHR memory is (CHR RAM), so [ppu_write] returns it. *)

Class Mapper (M : Type) : Type := {
  m_cpu_read : Z -> list Z -> M -> option Z * M;
  m_cpu_write : Z -> Z -> list Z -> M -> bool * M;
  m_ppu_read : Z -> list Z -> M -> option Z * M;
  m_ppu_write : Z -> Z -> list Z -> M -> bool * (M * list Z);
  m_reset : M -> M;
  m_irq_state : M -> bool;
  m_irq_clear : M -> M;
  m_scanline : M -> M;
  m_get_mirror : M -> Mirror
}.

(** ** Mapper 004, MMC3 (mapper004.hpp, mapper004.cpp) *)

Module Mapper004.

Record t : Type := mk {
  prg_banks : Z;
  chr_banks : Z;
  mirror : Mirror;
  target_register : Z;
  prg_bank_mode : bool;
  chr_inversion : bool;
  registers : list Z;
  chr_bank : list Z;
  prg_bank : list Z;
  prg_ram : list Z;
  irq_counter : Z;
  irq_latch : Z;
  irq_enable : bool;
  irq_active : bool;
  irq_reload : bool
}.

Definition set_mirror (v : Mirror) (r : t) : t :=
  {| prg_banks := prg_banks r; chr_banks := chr_banks r; mirror := v;
     target_register := target_register r; prg_bank_mode := prg_bank_mode r;
     chr_inversion := chr_inversion r; registers := registers r; chr_bank := chr_bank r;
     prg_bank := prg_bank r; prg_ram := prg_ram r; irq_counter := irq_counter r;
     irq_latch := irq_latch r; irq_enable := irq_enable r; irq_active := irq_active r;
     irq_reload := irq_reload r |}.
Definition set_target_register (v : Z) (r : t) : t :=
  {| prg_banks := prg_banks r; chr_banks := chr_banks r; mirror := mirror r;
     target_register := v; prg_bank_mode := prg_bank_mode r;
     chr_inversion := chr_inversion r; registers := registers r; chr_bank := chr_bank r;
     prg_bank := prg_bank r; prg_ram := prg_ram r; irq_counter := irq_counter r;
     irq_latch := irq_latch r; irq_enable := irq_enable r; irq_active := irq_active r;
     irq_reload := irq_reload r |}.
Definition set_prg_bank_mode (v : bool) (r : t) : t :=
  {| prg_banks := prg_banks r; chr_banks := chr_banks r; mirror := mirror r;
     target_register := target_register r; prg_bank_mode := v;
     chr_inversion := chr_inversion r; registers := registers r; chr_bank := chr_bank r;
     prg_bank := prg_bank r; prg_ram := prg_ram r; irq_counter := irq_counter r;
     irq_latch := irq_latch r; irq_enable := irq_enable r; irq_active := irq_active r;
     irq_reload := irq_reload r |}.
Definition set_chr_inversion (v : bool) (r : t) : t :=
  {| prg_banks := prg_banks r; chr_banks := chr_banks r; mirror := mirror r;
     target_register := target_register r; prg_bank_mode := prg_bank_mode r;
     chr_inversion := v; registers := registers r; chr_bank := chr_bank r;
     prg_bank := prg_bank r; prg_ram := prg_ram r; irq_counter := irq_counter r;
     irq_latch := irq_latch r; irq_enable := irq_enable r; irq_active := irq_active r;
     irq_reload := irq_reload r |}.
Definition set_registers (v : list Z) (r : t) : t :=
  {| prg_banks := prg_banks r; chr_banks := chr_banks r; mirror := mirror r;
     target_register := target_register r; prg_bank_mode := prg_bank_mode r;
     chr_inversion := chr_inversion r; registers := v; chr_bank := chr_bank r;
     prg_bank := prg_bank r; prg_ram := prg_ram r; irq_counter := irq_counter r;
     irq_latch := irq_latch r; irq_enable := irq_enable r; irq_active := irq_active r;
     irq_reload := irq_reload r |}.
Definition set_chr_bank (v : list Z) (r : t) : t :=
  {| prg_banks := prg_banks r; chr_banks := chr_banks r; mirror := mirror r;
     target_register := target_register r; prg_bank_mode := prg_bank_mode r;
     chr_inversion := chr_inversion r; registers := registers r; chr_bank := v;
     prg_bank := prg_bank r; prg_ram := prg_ram r; irq_counter := irq_counter r;
     irq_latch := irq_latch r; irq_enable := irq_enable r; irq_active := irq_active r;
     irq_reload := irq_reload r |}.
Definition set_prg_bank (v : list Z) (r : t) : t :=
  {| prg_banks := prg_banks r; chr_banks := chr_banks r; mirror := mirror r;
     target_register := target_register r; prg_bank_mode := prg_bank_mode r;
     chr_inversion := chr_inversion r; registers := registers r; chr_bank := chr_bank r;
     prg_bank := v; prg_ram := prg_ram r; irq_counter := irq_counter r;
     irq_latch := irq_latch r; irq_enable := irq_enable r; irq_active := irq_active r;
     irq_reload := irq_reload r |}.
Definition set_prg_ram (v : list Z) (r : t) : t :=
  {| prg_banks := prg_banks r; chr_banks := chr_banks r; mirror := mirror r;
     target_register := target_register r; prg_bank_mode := prg_bank_mode r;
     chr_inversion := chr_inversion r; registers := registers r; chr_bank := chr_bank r;
     prg_bank := prg_bank r; prg_ram := v; irq_counter := irq_counter r;
     irq_latch := irq_latch r; irq_enable := irq_enable r; irq_active := irq_active r;
     irq_reload := irq_reload r |}.
Definition set_irq_counter (v : Z) (r : t) : t :=
  {| prg_banks := prg_banks r; chr_banks := chr_banks r; mirror := mirror r;
     target_register := target_register r; prg_bank_mode := prg_bank_mode r;
     chr_inversion := chr_inversion r; registers := registers r; chr_bank := chr_bank r;
     prg_bank := prg_bank r; prg_ram := prg_ram r; irq_counter := v;
     irq_latch := irq_latch r; irq_enable := irq_enable r; irq_active := irq_active r;
     irq_reload := irq_reload r |}.
Definition set_irq_latch (v : Z) (r : t) : t :=
  {| prg_banks := prg_banks r; chr_banks := chr_banks r; mirror := mirror r;
     target_register := target_register r; prg_bank_mode := prg_bank_mode r;
     chr_inversion := chr_inversion r; registers := registers r; chr_bank := chr_bank r;
     prg_bank := prg_bank r; prg_ram := prg_ram r; irq_counter := irq_counter r;
     irq_latch := v; irq_enable := irq_enable r; irq_active := irq_active r;
     irq_reload := irq_reload r |}.
Definition set_irq_enable (v : bool) (r : t) : t :=
  {| prg_banks := prg_banks r; chr_banks := chr_banks r; mirror := mirror r;
     target_register := target_register r; prg_bank_mode := prg_bank_mode r;
     chr_inversion := chr_inversion r; registers := registers r; chr_bank := chr_bank r;
     prg_bank := prg_bank r; prg_ram := prg_ram r; irq_counter := irq_counter r;
     irq_latch := irq_latch r; irq_enable := v; irq_active := irq_active r;
     irq_reload := irq_reload r |}.
Definition set_irq_active (v : bool) (r : t) : t :=
  {| prg_banks := prg_banks r; chr_banks := chr_banks r; mirror := mirror r;
     target_register := target_register r; prg_bank_mode := prg_bank_mode r;
     chr_inversion := chr_inversion r; registers := registers r; chr_bank := chr_bank r;
     prg_bank := prg_bank r; prg_ram := prg_ram r; irq_counter := irq_counter r;
     irq_latch := irq_latch r; irq_enable := irq_enable r; irq_active := v;
     irq_reload := irq_reload r |}.
Definition set_irq_reload (v : bool) (r : t) : t :=
  {| prg_banks := prg_banks r; chr_banks := chr_banks r; mirror := mirror r;
     target_register := target_register r; prg_bank_mode := prg_bank_mode r;
     chr_inversion := chr_inversion r; registers := registers r; chr_bank := chr_bank r;
     prg_bank := prg_bank r; prg_ram := prg_ram r; irq_counter := irq_counter r;
     irq_latch := irq_latch r; irq_enable := irq_enable r; irq_active := irq_active r;
     irq_reload := v |}.

(** [Mapper004::update_banks]. *)
Definition update_banks (m : t) : t :=
  let r := registers m in
  let m1 :=
    if negb (chr_inversion m) then
      set_chr_bank
        [ Z.land (byte_at r 0) 0xFE; Z.lor (byte_at r 0) 0x01;
          Z.land (byte_at r 1) 0xFE; Z.lor (byte_at r 1) 0x01;
          byte_at r 2; byte_at r 3; byte_at r 4; byte_at r 5 ] m
    else
      set_chr_bank
        [ byte_at r 2; byte_at r 3; byte_at r 4; byte_at r 5;
          Z.land (byte_at r 0) 0xFE; Z.lor (byte_at r 0) 0x01;
          Z.land (byte_at r 1) 0xFE; Z.lor (byte_at r 1) 0x01 ] m in
  if negb (prg_bank_mode m1) then
    set_prg_bank
      [ byte_at r 6; byte_at r 7;
        u8 (prg_banks m1 * 2 - 2); u8 (prg_banks m1 * 2 - 1) ] m1
  else
    set_prg_bank
      [ u8 (prg_banks m1 * 2 - 2); byte_at r 7;
        byte_at r 6; u8 (prg_banks m1 * 2 - 1) ] m1.

(** [Mapper004::reset].  The bank counts are fixed by the constructor. *)
Definition reset (m : t) : t :=
  update_banks
    {| prg_banks := prg_banks m; chr_banks := chr_banks m;
       mirror := HORIZONTAL;
       target_register := 0x00; prg_bank_mode := false; chr_inversion := false;
       registers := replicate 8 0; chr_bank := replicate 8 0;
       prg_bank := replicate 4 0; prg_ram := prg_ram m;
       irq_counter := 0x00; irq_latch := 0x00;
       irq_enable := false; irq_active := false; irq_reload := false |}.

(** The constructor [Mapper004(prg_banks, chr_banks)]: 8 KiB of zeroed PRG
    RAM, then [reset]. *)
Definition create (prg_banks chr_banks : Z) : t :=
  reset
    {| prg_banks := prg_banks; chr_banks := chr_banks; mirror := HORIZONTAL;
       target_register := 0; prg_bank_mode := false; chr_inversion := false;
       registers := replicate 8 0; chr_bank := replicate 8 0;
       prg_bank := replicate 4 0; prg_ram := filled 8192 0;
       irq_counter := 0; irq_latch := 0;
       irq_enable := false; irq_active := false; irq_reload := false |}.

(** The local [mapped_addr] of [Mapper004::cpu_read] for an address in
    [$8000-$FFFF]: the selected 8 KiB bank, wrapped to the PRG ROM size,
    times [0x2000], plus the offset in the bank. *)
Definition prg_mapped_addr (m : t) (addr : Z) : Z :=
  let bank_idx := u8 ((addr - 0x8000) / 0x2000) in
  let bank := byte_at (prg_bank m) bank_idx in
  let total_8kb_banks := prg_banks m * 2 in
  let bank := u8 (bank mod total_8kb_banks) in
  bank * 0x2000 + Z.land addr 0x1FFF.

(** [Mapper004::cpu_read]. *)
Definition cpu_read (addr : Z) (prg_rom : list Z) (m : t) : option Z * t :=
  if (0x6000 <=? addr) && (addr <=? 0x7FFF) then
    (Some (byte_at (prg_ram m) (Z.land addr 0x1FFF)), m)
  else if (0x8000 <=? addr) && (addr <=? 0xFFFF) then
    (Some (byte_at prg_rom (prg_mapped_addr m addr)), m)
  else (None, m).

(** [Mapper004::cpu_write]. *)
Definition cpu_write (addr data : Z) (prg_rom : list Z) (m : t) : bool * t :=
  if (0x6000 <=? addr) && (addr <=? 0x7FFF) then
    (true, set_prg_ram (byte_set (prg_ram m) (Z.land addr 0x1FFF) data) m)
  else if (0x8000 <=? addr) && (addr <=? 0x9FFF) then
    if nonzero (Z.land addr 0x0001) then
      (true, update_banks
               (set_registers (byte_set (registers m) (target_register m) data) m))
    else
      (true, update_banks
               (set_chr_inversion (nonzero (Z.land data 0x80))
                 (set_prg_bank_mode (nonzero (Z.land data 0x40))
                   (set_target_register (Z.land data 0x07) m))))
  else if (0xA000 <=? addr) && (addr <=? 0xBFFF) then
    if nonzero (Z.land addr 0x0001) then (true, m)
    else
      (true, set_mirror (if nonzero (Z.land data 0x01) then HORIZONTAL else VERTICAL) m)
  else if (0xC000 <=? addr) && (addr <=? 0xDFFF) then
    if nonzero (Z.land addr 0x0001) then (true, set_irq_reload true m)
    else (true, set_irq_latch data m)
  else if (0xE000 <=? addr) && (addr <=? 0xFFFF) then
    if nonzero (Z.land addr 0x0001) then (true, set_irq_enable true m)
    else (true, set_irq_active false (set_irq_enable false m))
  else (false, m).

(** [Mapper004::ppu_read].  The bank is wrapped only when the cartridge
    has CHR ROM. *)
Definition ppu_read (addr : Z) (chr_rom : list Z) (m : t) : option Z * t :=
  if (0x0000 <=? addr) && (addr <=? 0x1FFF) then
    let bank_idx := u8 (addr / 0x0400) in
    let bank := byte_at (chr_bank m) bank_idx in
    let bank :=
      if 0 <? chr_banks m then u8 (bank mod (chr_banks m * 8)) else bank in
    let mapped_addr := bank * 0x0400 + addr mod 0x0400 in
    (Some (byte_at chr_rom mapped_addr), m)
  else (None, m).

(** [Mapper004::ppu_write]: only CHR RAM is writable. *)
Definition ppu_write (addr data : Z) (chr_rom : list Z) (m : t)
  : bool * (t * list Z) :=
  if (0x0000 <=? addr) && (addr <=? 0x1FFF) && (chr_banks m =? 0) then
    let bank := byte_at (chr_bank m) (addr / 0x0400) in
    let mapped_addr := bank * 0x0400 + addr mod 0x0400 in
    (true, (m, byte_set chr_rom mapped_addr data))
  else (false, (m, chr_rom)).

(** [Mapper004::irq_state], [Mapper004::irq_clear]. *)
Definition irq_state (m : t) : bool := irq_active m.

Definition irq_clear (m : t) : t := set_irq_active false m.

(** [Mapper004::scanline]: the scanline IRQ counter. *)
Definition scanline (m : t) : t :=
  let m1 :=
    if irq_reload m || (irq_counter m =? 0) then
      set_irq_reload false (set_irq_counter (irq_latch m) m)
    else
      set_irq_counter (u8 (irq_counter m - 1)) m in
  if (irq_counter m1 =? 0) && irq_enable m1 then set_irq_active true m1 else m1.

(** [k] calls of [scanline()] in a row. *)
Fixpoint pulses (k : nat) (m : t) : t :=
  match k with
  | O => m
  | S k' => scanline (pulses k' m)
  end.

(** [Mapper004::get_mirror]. *)
Definition get_mirror (m : t) : Mirror := mirror m.

End Mapper004.

#[export] Instance Mapper004_Mapper : Mapper Mapper004.t := {
  m_cpu_read := Mapper004.cpu_read;
  m_cpu_write := Mapper004.cpu_write;
  m_ppu_read := Mapper004.ppu_read;
  m_ppu_write := Mapper004.ppu_write;
  m_reset := Mapper004.reset;
  m_irq_state := Mapper004.irq_state;
  m_irq_clear := Mapper004.irq_clear;
  m_scanline := Mapper004.scanline;
  m_get_mirror := Mapper004.get_mirror
}.

(** ** The other mappers

    Each class keeps the base-class members [prg_banks], [chr_banks] and
    [mirror] ([HORIZONTAL] after the [Mapper] constructor) and inherits
    [irq_state] (always false), [irq_clear] and [scanline] (no effect).
    The ROM pointers handed to a mapper come from non-empty vectors
    ([Cartridge::cpu_read] and its siblings test that), so the
    [if (prg_rom)] and [if (chr_rom)] guards are always taken. *)

(** [uint32_t] wrap-around of a mapped address. *)
Definition u32 (x : Z) : Z := x mod 4294967296.

(** *** Mapper 000, NROM (mapper000.hpp, mapper000.cpp) *)

Module Mapper000.

Record t : Type := mk {
  prg_banks : Z;
  chr_banks : Z;
  mirror : Mirror
}.

(** The constructor [Mapper000(prg_banks, chr_banks)]. *)
Definition create (prg_banks chr_banks : Z) : t :=
  {| prg_banks := prg_banks; chr_banks := chr_banks; mirror := HORIZONTAL |}.

(** [Mapper000::cpu_read]. *)
Definition cpu_read (addr : Z) (prg_rom : list Z) (m : t) : option Z * t :=
  if (0x8000 <=? addr) && (addr <=? 0xFFFF) then
    let mapped_addr :=
      if prg_banks m =? 1 then Z.land addr 0x3FFF else Z.land addr 0x7FFF in
    (Some (byte_at prg_rom mapped_addr), m)
  else (None, m).

(** [Mapper000::cpu_write]. *)
Definition cpu_write (addr data : Z) (prg_rom : list Z) (m : t) : bool * t :=
  (false, m).

(** [Mapper000::ppu_read]. *)
Definition ppu_read (addr : Z) (chr_rom : list Z) (m : t) : option Z * t :=
  if (0x0000 <=? addr) && (addr <=? 0x1FFF) then (Some (byte_at chr_rom addr), m)
  else (None, m).

(** [Mapper000::ppu_write]: only CHR RAM is writable. *)
Definition ppu_write (addr data : Z) (chr_rom : list Z) (m : t)
  : bool * (t * list Z) :=
  if (0x0000 <=? addr) && (addr <=? 0x1FFF) then
    if chr_banks m =? 0 then (true, (m, byte_set chr_rom addr data))
    else (false, (m, chr_rom))
  else (false, (m, chr_rom)).

(** [Mapper000::reset]. *)
Definition reset (m : t) : t := m.

(** [Mapper::get_mirror]. *)
Definition get_mirror (m : t) : Mirror := mirror m.

End Mapper000.

#[export] Instance Mapper000_Mapper : Mapper Mapper000.t := {
  m_cpu_read := Mapper000.cpu_read;
  m_cpu_write := Mapper000.cpu_write;
  m_ppu_read := Mapper000.ppu_read;
  m_ppu_write := Mapper000.ppu_write;
  m_reset := Mapper000.reset;
  m_irq_state := fun _ => false;
  m_irq_clear := fun m => m;
  m_scanline := fun m => m;
  m_get_mirror := Mapper000.get_mirror
}.

(** *** Mapper 001, MMC1 (mapper001.hpp, mapper001.cpp) *)

Module Mapper001.

Record t : Type := mk {
  prg_banks : Z;
  chr_banks : Z;
  mirror : Mirror;
  load_register : Z;
  load_count : Z;
  control_register : Z;
  chr_bank_0 : Z;
  chr_bank_1 : Z;
  prg_bank : Z;
  chr_ram : list Z;
  prg_ram : list Z
}.

Definition set_mirror (v : Mirror) (r : t) : t :=
  {| prg_banks := prg_banks r; chr_banks := chr_banks r; mirror := v;
     load_register := load_register r; load_count := load_count r;
     control_register := control_register r; chr_bank_0 := chr_bank_0 r;
     chr_bank_1 := chr_bank_1 r; prg_bank := prg_bank r; chr_ram := chr_ram r;
     prg_ram := prg_ram r |}.
Definition set_load_register (v : Z) (r : t) : t :=
  {| prg_banks := prg_banks r; chr_banks := chr_banks r; mirror := mirror r;
     load_register := v; load_count := load_count r;
     control_register := control_register r; chr_bank_0 := chr_bank_0 r;
     chr_bank_1 := chr_bank_1 r; prg_bank := prg_bank r; chr_ram := chr_ram r;
     prg_ram := prg_ram r |}.
Definition set_load_count (v : Z) (r : t) : t :=
  {| prg_banks := prg_banks r; chr_banks := chr_banks r; mirror := mirror r;
     load_register := load_register r; load_count := v;
     control_register := control_register r; chr_bank_0 := chr_bank_0 r;
     chr_bank_1 := chr_bank_1 r; prg_bank := prg_bank r; chr_ram := chr_ram r;
     prg_ram := prg_ram r |}.
Definition set_control_register (v : Z) (r : t) : t :=
  {| prg_banks := prg_banks r; chr_banks := chr_banks r; mirror := mirror r;
     load_register := load_register r; load_count := load_count r; control_register := v;
     chr_bank_0 := chr_bank_0 r; chr_bank_1 := chr_bank_1 r; prg_bank := prg_bank r;
     chr_ram := chr_ram r; prg_ram := prg_ram r |}.
Definition set_chr_bank_0 (v : Z) (r : t) : t :=
  {| prg_banks := prg_banks r; chr_banks := chr_banks r; mirror := mirror r;
     load_register := load_register r; load_count := load_count r;
     control_register := control_register r; chr_bank_0 := v; chr_bank_1 := chr_bank_1 r;
     prg_bank := prg_bank r; chr_ram := chr_ram r; prg_ram := prg_ram r |}.
Definition set_chr_bank_1 (v : Z) (r : t) : t :=
  {| prg_banks := prg_banks r; chr_banks := chr_banks r; mirror := mirror r;
     load_register := load_register r; load_count := load_count r;
     control_register := control_register r; chr_bank_0 := chr_bank_0 r; chr_bank_1 := v;
     prg_bank := prg_bank r; chr_ram := chr_ram r; prg_ram := prg_ram r |}.
Definition set_prg_bank (v : Z) (r : t) : t :=
  {| prg_banks := prg_banks r; chr_banks := chr_banks r; mirror := mirror r;
     load_register := load_register r; load_count := load_count r;
     control_register := control_register r; chr_bank_0 := chr_bank_0 r;
     chr_bank_1 := chr_bank_1 r; prg_bank := v; chr_ram := chr_ram r;
     prg_ram := prg_ram r |}.
Definition set_chr_ram (v : list Z) (r : t) : t :=
  {| prg_banks := prg_banks r; chr_banks := chr_banks r; mirror := mirror r;
     load_register := load_register r; load_count := load_count r;
     control_register := control_register r; chr_bank_0 := chr_bank_0 r;
     chr_bank_1 := chr_bank_1 r; prg_bank := prg_bank r; chr_ram := v;
     prg_ram := prg_ram r |}.
Definition set_prg_ram (v : list Z) (r : t) : t :=
  {| prg_banks := prg_banks r; chr_banks := chr_banks r; mirror := mirror r;
     load_register := load_register r; load_count := load_count r;
     control_register := control_register r; chr_bank_0 := chr_bank_0 r;
     chr_bank_1 := chr_bank_1 r; prg_bank := prg_bank r; chr_ram := chr_ram r;
     prg_ram := v |}.

(** [Mapper001::reset]: the two RAMs are not cleared. *)
Definition reset (m : t) : t :=
  {| prg_banks := prg_banks m; chr_banks := chr_banks m; mirror := HORIZONTAL;
     load_register := 0x00; load_count := 0; control_register := 0x1C;
     chr_bank_0 := 0; chr_bank_1 := 0; prg_bank := 0;
     chr_ram := chr_ram m; prg_ram := prg_ram m |}.

(** The constructor: 8 KiB of CHR RAM and of PRG RAM, then [reset]. *)
Definition create (prg_banks chr_banks : Z) : t :=
  reset
    {| prg_banks := prg_banks; chr_banks := chr_banks; mirror := HORIZONTAL;
       load_register := 0; load_count := 0; control_register := 0;
       chr_bank_0 := 0; chr_bank_1 := 0; prg_bank := 0;
       chr_ram := vec_resize 8192 0 []; prg_ram := vec_resize 8192 0 [] |}.

(** The local [mapped_addr] of [Mapper001::cpu_read] for an address in
    [$8000-$FFFF], by the PRG mode in bits 2-3 of the control register. *)
Definition prg_mapped_addr (m : t) (addr : Z) : Z :=
  let prg_mode := u8 (Z.land (Z.shiftr (control_register m) 2) 0x03) in
  if (prg_mode =? 0) || (prg_mode =? 1) then
    let bank := Z.land (Z.shiftr (prg_bank m) 1) 0x0F in
    u32 (bank * 0x8000 + Z.land addr 0x7FFF)
  else if prg_mode =? 2 then
    if (0x8000 <=? addr) && (addr <=? 0xBFFF) then Z.land addr 0x3FFF
    else u32 (Z.land (prg_bank m) 0x0F * 0x4000 + Z.land addr 0x3FFF)
  else
    if (0x8000 <=? addr) && (addr <=? 0xBFFF)
    then u32 (Z.land (prg_bank m) 0x0F * 0x4000 + Z.land addr 0x3FFF)
    else u32 ((prg_banks m - 1) * 0x4000 + Z.land addr 0x3FFF).

(** [Mapper001::cpu_read]. *)
Definition cpu_read (addr : Z) (prg_rom : list Z) (m : t) : option Z * t :=
  if (0x6000 <=? addr) && (addr <=? 0x7FFF) then
    (Some (byte_at (prg_ram m) (Z.land addr 0x1FFF)), m)
  else if (0x8000 <=? addr) && (addr <=? 0xFFFF) then
    (Some (byte_at prg_rom (prg_mapped_addr m addr)), m)
  else (None, m).

(** The mirroring selected by bits 0-1 of the control register. *)
Definition mirror_of_control (c : Z) : Mirror :=
  let k := Z.land c 0x03 in
  if k =? 0 then ONESCREEN_LO
  else if k =? 1 then ONESCREEN_HI
  else if k =? 2 then VERTICAL
  else HORIZONTAL.

(** The register update after the fifth bit, by address bits 13-14. *)
Definition load (addr : Z) (m : t) : t :=
  let target := u8 (Z.land (Z.shiftr addr 13) 0x03) in
  if target =? 0 then
    let m := set_control_register (Z.land (load_register m) 0x1F) m in
    set_mirror (mirror_of_control (control_register m)) m
  else if target =? 1 then set_chr_bank_0 (Z.land (load_register m) 0x1F) m
  else if target =? 2 then set_chr_bank_1 (Z.land (load_register m) 0x1F) m
  else if target =? 3 then set_prg_bank (Z.land (load_register m) 0x0F) m
  else m.

(** [Mapper001::cpu_write]: PRG RAM, and the serial port. *)
Definition cpu_write (addr data : Z) (prg_rom : list Z) (m : t) : bool * t :=
  if (0x6000 <=? addr) && (addr <=? 0x7FFF) then
    (true, set_prg_ram (byte_set (prg_ram m) (Z.land addr 0x1FFF) data) m)
  else if (0x8000 <=? addr) && (addr <=? 0xFFFF) then
    if nonzero (Z.land data 0x80) then
      let m := set_load_register 0x00 m in
      let m := set_load_count 0 m in
      (true, set_control_register (u8 (Z.lor (control_register m) 0x0C)) m)
    else
      let m := set_load_register (u8 (Z.shiftr (load_register m) 1)) m in
      let m := set_load_register
                 (u8 (Z.lor (load_register m) (Z.shiftl (Z.land data 0x01) 4))) m in
      let m := set_load_count (u8 (load_count m + 1)) m in
      if load_count m =? 5 then
        let m := load addr m in
        let m := set_load_register 0x00 m in
        (true, set_load_count 0 m)
      else (true, m)
  else (false, m).

(** [Mapper001::ppu_read]. *)
Definition ppu_read (addr : Z) (chr_rom : list Z) (m : t) : option Z * t :=
  if (0x0000 <=? addr) && (addr <=? 0x1FFF) then
    let chr_mode := u8 (Z.land (Z.shiftr (control_register m) 4) 0x01) in
    if chr_banks m =? 0 then (Some (byte_at (chr_ram m) addr), m)
    else if chr_mode =? 0 then
      let bank := Z.land (Z.shiftr (chr_bank_0 m) 1) 0x1F in
      (Some (byte_at chr_rom (u32 (bank * 0x2000 + addr))), m)
    else if (0x0000 <=? addr) && (addr <=? 0x0FFF) then
      (Some (byte_at chr_rom (u32 (chr_bank_0 m * 0x1000 + Z.land addr 0x0FFF))), m)
    else
      (Some (byte_at chr_rom (u32 (chr_bank_1 m * 0x1000 + Z.land addr 0x0FFF))), m)
  else (None, m).

(** [Mapper001::ppu_write]: the mapper's own CHR RAM, when the cartridge
    has no CHR ROM. *)
Definition ppu_write (addr data : Z) (chr_rom : list Z) (m : t)
  : bool * (t * list Z) :=
  if (0x0000 <=? addr) && (addr <=? 0x1FFF) then
    if chr_banks m =? 0
    then (true, (set_chr_ram (byte_set (chr_ram m) addr data) m, chr_rom))
    else (false, (m, chr_rom))
  else (false, (m, chr_rom)).

(** [Mapper001::get_mirror]. *)
Definition get_mirror (m : t) : Mirror := mirror m.

End Mapper001.

#[export] Instance Mapper001_Mapper : Mapper Mapper001.t := {
  m_cpu_read := Mapper001.cpu_read;
  m_cpu_write := Mapper001.cpu_write;
  m_ppu_read := Mapper001.ppu_read;
  m_ppu_write := Mapper001.ppu_write;
  m_reset := Mapper001.reset;
  m_irq_state := fun _ => false;
  m_irq_clear := fun m => m;
  m_scanline := fun m => m;
  m_get_mirror := Mapper001.get_mirror
}.

(** *** Mapper 002, UxROM (mapper002.hpp, mapper002.cpp) *)

Module Mapper002.

Record t : Type := mk {
  prg_banks : Z;
  chr_banks : Z;
  mirror : Mirror;
  prg_bank_select : Z;
  chr_ram : list Z
}.

Definition set_prg_bank_select (v : Z) (r : t) : t :=
  {| prg_banks := prg_banks r; chr_banks := chr_banks r; mirror := mirror r;
     prg_bank_select := v; chr_ram := chr_ram r |}.
Definition set_chr_ram (v : list Z) (r : t) : t :=
  {| prg_banks := prg_banks r; chr_banks := chr_banks r; mirror := mirror r;
     prg_bank_select := prg_bank_select r; chr_ram := v |}.

(** The constructor: bank 0 selected, 8 KiB of CHR RAM. *)
Definition create (prg_banks chr_banks : Z) : t :=
  {| prg_banks := prg_banks; chr_banks := chr_banks; mirror := HORIZONTAL;
     prg_bank_select := 0; chr_ram := vec_resize 8192 0 [] |}.

(** The local [mapped_addr] of [Mapper002::cpu_read] for an address in
    [$8000-$FFFF]: the selected bank below [$C000], the last bank above. *)
Definition prg_mapped_addr (m : t) (addr : Z) : Z :=
  if (0x8000 <=? addr) && (addr <=? 0xBFFF)
  then u32 (prg_bank_select m * 0x4000 + Z.land addr 0x3FFF)
  else u32 ((prg_banks m - 1) * 0x4000 + Z.land addr 0x3FFF).

(** [prg_rom[i]] through the raw pointer [prg_rom]: the byte at [i] when
    [i] is inside the store.  The mapper does not check the index, and
    past the end of the store the C++ read has no defined result:
    [None]. *)
Definition prg_at (prg_rom : list Z) (i : Z) : option Z :=
  if (0 <=? i) && (i <? Z.of_nat (length prg_rom))
  then Some (byte_at prg_rom i)
  else None.

(** [Mapper002::cpu_read].  The bank register is not reduced to the banks
    the ROM has (see [cpu_write]), so the read of the switchable window
    can leave the store; the result is [None] then, and otherwise the
    answer of the mapper: the byte read, or nothing outside
    [$8000-$FFFF]. *)
Definition cpu_read (addr : Z) (prg_rom : list Z) (m : t) : option (option Z * t) :=
  if (0x8000 <=? addr) && (addr <=? 0xBFFF) then
    match prg_at prg_rom (prg_mapped_addr m addr) with
    | Some data => Some (Some data, m)
    | None => None
    end
  else if (0xC000 <=? addr) && (addr <=? 0xFFFF) then
    match prg_at prg_rom (prg_mapped_addr m addr) with
    | Some data => Some (Some data, m)
    | None => None
    end
  else Some (None, m).

(** The read as the machine takes it.  The machine model has no failing
    state: where [cpu_read] has no result it goes on with the 0 that
    [byte_at] gives outside a store.  What is proved about the bytes
    UxROM returns is proved about [cpu_read]. *)
Definition cpu_read_total (addr : Z) (prg_rom : list Z) (m : t) : option Z * t :=
  match cpu_read addr prg_rom m with
  | Some r => r
  | None => (Some 0, m)
  end.

(** [Mapper002::cpu_write]: the bank select register. *)
Definition cpu_write (addr data : Z) (prg_rom : list Z) (m : t) : bool * t :=
  if (0x8000 <=? addr) && (addr <=? 0xFFFF)
  then (true, set_prg_bank_select (Z.land data 0x0F) m)
  else (false, m).

(** [Mapper002::ppu_read]: from the mapper's own CHR RAM. *)
Definition ppu_read (addr : Z) (chr_rom : list Z) (m : t) : option Z * t :=
  if (0x0000 <=? addr) && (addr <=? 0x1FFF) then (Some (byte_at (chr_ram m) addr), m)
  else (None, m).

(** [Mapper002::ppu_write]: into the mapper's own CHR RAM. *)
Definition ppu_write (addr data : Z) (chr_rom : list Z) (m : t)
  : bool * (t * list Z) :=
  if (0x0000 <=? addr) && (addr <=? 0x1FFF)
  then (true, (set_chr_ram (byte_set (chr_ram m) addr data) m, chr_rom))
  else (false, (m, chr_rom)).

(** [Mapper002::reset]. *)
Definition reset (m : t) : t := set_prg_bank_select 0 m.

(** [Mapper::get_mirror]. *)
Definition get_mirror (m : t) : Mirror := mirror m.

End Mapper002.

#[export] Instance Mapper002_Mapper : Mapper Mapper002.t := {
  m_cpu_read := Mapper002.cpu_read_total;
  m_cpu_write := Mapper002.cpu_write;
  m_ppu_read := Mapper002.ppu_read;
  m_ppu_write := Mapper002.ppu_write;
  m_reset := Mapper002.reset;
  m_irq_state := fun _ => false;
  m_irq_clear := fun m => m;
  m_scanline := fun m => m;
  m_get_mirror := Mapper002.get_mirror
}.

(** *** Mapper 003, CNROM (mapper003.hpp, mapper003.cpp) *)

Module Mapper003.

Record t : Type := mk {
  prg_banks : Z;
  chr_banks : Z;
  mirror : Mirror;
  chr_bank_select : Z
}.

Definition set_chr_bank_select (v : Z) (r : t) : t :=
  {| prg_banks := prg_banks r; chr_banks := chr_banks r; mirror := mirror r;
     chr_bank_select := v |}.

(** The constructor. *)
Definition create (prg_banks chr_banks : Z) : t :=
  {| prg_banks := prg_banks; chr_banks := chr_banks; mirror := HORIZONTAL;
     chr_bank_select := 0 |}.

(** [Mapper003::cpu_read]. *)
Definition cpu_read (addr : Z) (prg_rom : list Z) (m : t) : option Z * t :=
  if (0x8000 <=? addr) && (addr <=? 0xFFFF) then
    let mapped_addr := Z.land addr (if 1 <? prg_banks m then 0x7FFF else 0x3FFF) in
    (Some (byte_at prg_rom mapped_addr), m)
  else (None, m).

(** [Mapper003::cpu_write]: the CHR bank select, wrapped to the banks
    the cartridge has. *)
Definition cpu_write (addr data : Z) (prg_rom : list Z) (m : t) : bool * t :=
  if (0x8000 <=? addr) && (addr <=? 0xFFFF) then
    let m := set_chr_bank_select data m in
    let m :=
      if 0 <? chr_banks m
      then set_chr_bank_select (u8 (chr_bank_select m mod chr_banks m)) m
      else m in
    (true, m)
  else (false, m).

(** The local [mapped_addr] of [Mapper003::ppu_read]. *)
Definition chr_mapped_addr (m : t) (addr : Z) : Z :=
  u32 (chr_bank_select m * 0x2000 + addr).

(** [Mapper003::ppu_read]. *)
Definition ppu_read (addr : Z) (chr_rom : list Z) (m : t) : option Z * t :=
  if (0x0000 <=? addr) && (addr <=? 0x1FFF)
  then (Some (byte_at chr_rom (chr_mapped_addr m addr)), m)
  else (None, m).

(** [Mapper003::ppu_write]. *)
Definition ppu_write (addr data : Z) (chr_rom : list Z) (m : t)
  : bool * (t * list Z) :=
  (false, (m, chr_rom)).

(** [Mapper003::reset]. *)
Definition reset (m : t) : t := set_chr_bank_select 0 m.

(** [Mapper::get_mirror]. *)
Definition get_mirror (m : t) : Mirror := mirror m.

End Mapper003.

#[export] Instance Mapper003_Mapper : Mapper Mapper003.t := {
  m_cpu_read := Mapper003.cpu_read;
  m_cpu_write := Mapper003.cpu_write;
  m_ppu_read := Mapper003.ppu_read;
  m_ppu_write := Mapper003.ppu_write;
  m_reset := Mapper003.reset;
  m_irq_state := fun _ => false;
  m_irq_clear := fun m => m;
  m_scanline := fun m => m;
  m_get_mirror := Mapper003.get_mirror
}.

(** *** Mapper 066, GxROM (mapper066.hpp, mapper066.cpp) *)

Module Mapper066.

Record t : Type := mk {
  prg_banks : Z;
  chr_banks : Z;
  mirror : Mirror;
  prg_bank_select : Z;
  chr_bank_select : Z
}.

Definition set_prg_bank_select (v : Z) (r : t) : t :=
  {| prg_banks := prg_banks r; chr_banks := chr_banks r; mirror := mirror r;
     prg_bank_select := v; chr_bank_select := chr_bank_select r |}.
Definition set_chr_bank_select (v : Z) (r : t) : t :=
  {| prg_banks := prg_banks r; chr_banks := chr_banks r; mirror := mirror r;
     prg_bank_select := prg_bank_select r; chr_bank_select := v |}.

(** [Mapper066::reset]. *)
Definition reset (m : t) : t := set_chr_bank_select 0 (set_prg_bank_select 0 m).

(** The constructor: [reset]. *)
Definition create (prg_banks chr_banks : Z) : t :=
  reset
    {| prg_banks := prg_banks; chr_banks := chr_banks; mirror := HORIZONTAL;
       prg_bank_select := 0; chr_bank_select := 0 |}.

(** The local [mapped_addr] of [Mapper066::cpu_read]: a 32 KiB bank. *)
Definition prg_mapped_addr (m : t) (addr : Z) : Z :=
  let bank := u32 (prg_bank_select m * 2) in
  u32 (bank * 0x4000 + Z.land addr 0x7FFF).

(** [Mapper066::cpu_read]. *)
Definition cpu_read (addr : Z) (prg_rom : list Z) (m : t) : option Z * t :=
  if (0x8000 <=? addr) && (addr <=? 0xFFFF)
  then (Some (byte_at prg_rom (prg_mapped_addr m addr)), m)
  else (None, m).

(** [Mapper066::cpu_write]: both bank selects, wrapped to the banks the
    cartridge has. *)
Definition cpu_write (addr data : Z) (prg_rom : list Z) (m : t) : bool * t :=
  if (0x8000 <=? addr) && (addr <=? 0xFFFF) then
    let m := set_prg_bank_select (Z.land (Z.shiftr data 4) 0x03) m in
    let m := set_chr_bank_select (Z.land data 0x03) m in
    let max_prg_32k := u8 (prg_banks m / 2) in
    let m :=
      if 0 <? max_prg_32k
      then set_prg_bank_select (u8 (prg_bank_select m mod max_prg_32k)) m
      else m in
    let m :=
      if 0 <? chr_banks m
      then set_chr_bank_select (u8 (chr_bank_select m mod chr_banks m)) m
      else m in
    (true, m)
  else (false, m).

(** The local [mapped_addr] of [Mapper066::ppu_read]: an 8 KiB bank. *)
Definition chr_mapped_addr (m : t) (addr : Z) : Z :=
  u32 (chr_bank_select m * 0x2000 + addr).

(** [Mapper066::ppu_read]. *)
Definition ppu_read (addr : Z) (chr_rom : list Z) (m : t) : option Z * t :=
  if (0x0000 <=? addr) && (addr <=? 0x1FFF)
  then (Some (byte_at chr_rom (chr_mapped_addr m addr)), m)
  else (None, m).

(** [Mapper066::ppu_write]. *)
Definition ppu_write (addr data : Z) (chr_rom : list Z) (m : t)
  : bool * (t * list Z) :=
  (false, (m, chr_rom)).

(** [Mapper::get_mirror]. *)
Definition get_mirror (m : t) : Mirror := mirror m.

End Mapper066.

#[export] Instance Mapper066_Mapper : Mapper Mapper066.t := {
  m_cpu_read := Mapper066.cpu_read;
  m_cpu_write := Mapper066.cpu_write;
  m_ppu_read := Mapper066.ppu_read;
  m_ppu_write := Mapper066.ppu_write;
  m_reset := Mapper066.reset;
  m_irq_state := fun _ => false;
  m_irq_clear := fun m => m;
  m_scanline := fun m => m;
  m_get_mirror := Mapper066.get_mirror
}.

(** *** Mapper 071, Camerica (mapper071.hpp, mapper071.cpp) *)

Module Mapper071.

Record t : Type := mk {
  prg_banks : Z;
  chr_banks : Z;
  mirror : Mirror;
  prg_bank_select : Z;
  chr_ram : list Z
}.

Definition set_mirror (v : Mirror) (r : t) : t :=
  {| prg_banks := prg_banks r; chr_banks := chr_banks r; mirror := v;
     prg_bank_select := prg_bank_select r; chr_ram := chr_ram r |}.
Definition set_prg_bank_select (v : Z) (r : t) : t :=
  {| prg_banks := prg_banks r; chr_banks := chr_banks r; mirror := mirror r;
     prg_bank_select := v; chr_ram := chr_ram r |}.
Definition set_chr_ram (v : list Z) (r : t) : t :=
  {| prg_banks := prg_banks r; chr_banks := chr_banks r; mirror := mirror r;
     prg_bank_select := prg_bank_select r; chr_ram := v |}.

(** [Mapper071::reset]. *)
Definition reset (m : t) : t := set_mirror ONESCREEN_LO (set_prg_bank_select 0 m).

(** The constructor: 8 KiB of CHR RAM, then [reset]. *)
Definition create (prg_banks chr_banks : Z) : t :=
  reset
    {| prg_banks := prg_banks; chr_banks := chr_banks; mirror := HORIZONTAL;
       prg_bank_select := 0; chr_ram := vec_resize 8192 0 [] |}.

(** The local [mapped_addr] of [Mapper071::cpu_read] for an address in
    [$8000-$FFFF]: the selected bank below [$C000], the last bank above. *)
Definition prg_mapped_addr (m : t) (addr : Z) : Z :=
  if (0x8000 <=? addr) && (addr <=? 0xBFFF)
  then u32 (prg_bank_select m * 0x4000 + Z.land addr 0x3FFF)
  else u32 ((prg_banks m - 1) * 0x4000 + Z.land addr 0x3FFF).

(** [Mapper071::cpu_read]. *)
Definition cpu_read (addr : Z) (prg_rom : list Z) (m : t) : option Z * t :=
  if (0x8000 <=? addr) && (addr <=? 0xBFFF) then
    (Some (byte_at prg_rom (prg_mapped_addr m addr)), m)
  else if (0xC000 <=? addr) && (addr <=? 0xFFFF) then
    (Some (byte_at prg_rom (prg_mapped_addr m addr)), m)
  else (None, m).

(** [Mapper071::cpu_write]: mirroring control below [$A000], the bank
    select from [$C000] up, wrapped to the banks the cartridge has. *)
Definition cpu_write (addr data : Z) (prg_rom : list Z) (m : t) : bool * t :=
  if (0x8000 <=? addr) && (addr <=? 0x9FFF) then
    (true, set_mirror (if nonzero (Z.land data 0x10) then ONESCREEN_HI else ONESCREEN_LO) m)
  else if (0xC000 <=? addr) && (addr <=? 0xFFFF) then
    let m := set_prg_bank_select (Z.land data 0x0F) m in
    let m :=
      if 0 <? prg_banks m
      then set_prg_bank_select (u8 (prg_bank_select m mod prg_banks m)) m
      else m in
    (true, m)
  else (false, m).

(** [Mapper071::ppu_read]: from the mapper's own CHR RAM. *)
Definition ppu_read (addr : Z) (chr_rom : list Z) (m : t) : option Z * t :=
  if (0x0000 <=? addr) && (addr <=? 0x1FFF) then (Some (byte_at (chr_ram m) addr), m)
  else (None, m).

(** [Mapper071::ppu_write]: into the mapper's own CHR RAM. *)
Definition ppu_write (addr data : Z) (chr_rom : list Z) (m : t)
  : bool * (t * list Z) :=
  if (0x0000 <=? addr) && (addr <=? 0x1FFF)
  then (true, (set_chr_ram (byte_set (chr_ram m) addr data) m, chr_rom))
  else (false, (m, chr_rom)).

(** [Mapper071::get_mirror]. *)
Definition get_mirror (m : t) : Mirror := mirror m.

End Mapper071.

#[export] Instance Mapper071_Mapper : Mapper Mapper071.t := {
  m_cpu_read := Mapper071.cpu_read;
  m_cpu_write := Mapper071.cpu_write;
  m_ppu_read := Mapper071.ppu_read;
  m_ppu_write := Mapper071.ppu_write;
  m_reset := Mapper071.reset;
  m_irq_state := fun _ => false;
  m_irq_clear := fun m => m;
  m_scanline := fun m => m;
  m_get_mirror := Mapper071.get_mirror
}.
(** ** The cartridge (cartridge.hpp, cartridge.cpp) *)

Module Cartridge.
Section WithMapper.
Context {M : Type} {MP : Mapper M}.

Record t : Type := mk {
  valid : bool;
  prg_rom : list Z;
  chr_rom : list Z;
  prg_ram : list Z;
  mapper_id : Z;
  prg_banks : Z;
  chr_banks : Z;
  mirror_mode : Mirror;
  battery_backed : bool;
  mapper : option M
}.

Definition set_valid (v : bool) (r : t) : t :=
  {| valid := v; prg_rom := prg_rom r; chr_rom := chr_rom r; prg_ram := prg_ram r;
     mapper_id := mapper_id r; prg_banks := prg_banks r; chr_banks := chr_banks r;
     mirror_mode := mirror_mode r; battery_backed := battery_backed r; mapper := mapper r |}.
Definition set_prg_rom (v : list Z) (r : t) : t :=
  {| valid := valid r; prg_rom := v; chr_rom := chr_rom r; prg_ram := prg_ram r;
     mapper_id := mapper_id r; prg_banks := prg_banks r; chr_banks := chr_banks r;
     mirror_mode := mirror_mode r; battery_backed := battery_backed r; mapper := mapper r |}.
Definition set_chr_rom (v : list Z) (r : t) : t :=
  {| valid := valid r; prg_rom := prg_rom r; chr_rom := v; prg_ram := prg_ram r;
     mapper_id := mapper_id r; prg_banks := prg_banks r; chr_banks := chr_banks r;
     mirror_mode := mirror_mode r; battery_backed := battery_backed r; mapper := mapper r |}.
Definition set_prg_ram (v : list Z) (r : t) : t :=
  {| valid := valid r; prg_rom := prg_rom r; chr_rom := chr_rom r; prg_ram := v;
     mapper_id := mapper_id r; prg_banks := prg_banks r; chr_banks := chr_banks r;
     mirror_mode := mirror_mode r; battery_backed := battery_backed r; mapper := mapper r |}.
Definition set_mapper_id (v : Z) (r : t) : t :=
  {| valid := valid r; prg_rom := prg_rom r; chr_rom := chr_rom r; prg_ram := prg_ram r;
     mapper_id := v; prg_banks := prg_banks r; chr_banks := chr_banks r;
     mirror_mode := mirror_mode r; battery_backed := battery_backed r; mapper := mapper r |}.
Definition set_prg_banks (v : Z) (r : t) : t :=
  {| valid := valid r; prg_rom := prg_rom r; chr_rom := chr_rom r; prg_ram := prg_ram r;
     mapper_id := mapper_id r; prg_banks := v; chr_banks := chr_banks r;
     mirror_mode := mirror_mode r; battery_backed := battery_backed r; mapper := mapper r |}.
Definition set_chr_banks (v : Z) (r : t) : t :=
  {| valid := valid r; prg_rom := prg_rom r; chr_rom := chr_rom r; prg_ram := prg_ram r;
     mapper_id := mapper_id r; prg_banks := prg_banks r; chr_banks := v;
     mirror_mode := mirror_mode r; battery_backed := battery_backed r; mapper := mapper r |}.
Definition set_mirror_mode (v : Mirror) (r : t) : t :=
  {| valid := valid r; prg_rom := prg_rom r; chr_rom := chr_rom r; prg_ram := prg_ram r;
     mapper_id := mapper_id r; prg_banks := prg_banks r; chr_banks := chr_banks r;
     mirror_mode := v; battery_backed := battery_backed r; mapper := mapper r |}.
Definition set_battery_backed (v : bool) (r : t) : t :=
  {| valid := valid r; prg_rom := prg_rom r; chr_rom := chr_rom r; prg_ram := prg_ram r;
     mapper_id := mapper_id r; prg_banks := prg_banks r; chr_banks := chr_banks r;
     mirror_mode := mirror_mode r; battery_backed := v; mapper := mapper r |}.
Definition set_mapper (v : option M) (r : t) : t :=
  {| valid := valid r; prg_rom := prg_rom r; chr_rom := chr_rom r; prg_ram := prg_ram r;
     mapper_id := mapper_id r; prg_banks := prg_banks r; chr_banks := chr_banks r;
     mirror_mode := mirror_mode r; battery_backed := battery_backed r; mapper := v |}.

(** [std::vector::empty]. *)
Definition is_empty (a : list Z) : bool :=
  match a with [] => true | _ => false end.

(** [Cartridge::load_ines]: parse the iNES header of the file image
    [data] (at least 16 bytes, checked by the constructor) and fill the
    ROM stores.  Returns the [bool] result and the updated cartridge. *)
Definition load_ines (data : list Z) (dirty_header : bool) (c : t) : bool * t :=
  let c := set_prg_banks (byte_at data 4) c in
  let c := set_chr_banks (byte_at data 5) c in
  let mapper1 := u8 (Z.shiftr (byte_at data 6) 4) in
  let mapper2 := if dirty_header then 0 else u8 (Z.shiftr (byte_at data 7) 4) in
  let c := set_mapper_id (u8 (Z.lor mapper1 (Z.shiftl mapper2 4))) c in
  let c :=
    if nonzero (Z.land (byte_at data 6) 0x08) then set_mirror_mode FOUR_SCREEN c
    else set_mirror_mode
           (if nonzero (Z.land (byte_at data 6) 0x01) then VERTICAL else HORIZONTAL) c in
  let c := set_battery_backed (nonzero (Z.land (byte_at data 6) 0x02)) c in
  let offset := 16 in
  let has_trainer := nonzero (Z.land (byte_at data 6) 0x04) in
  let offset := if has_trainer then offset + 512 else offset in
  let prg_size := prg_banks c * 16384 in
  if Z.of_nat (length data) <? offset + prg_size then (false, c)
  else
    let c := set_prg_rom (slice data offset prg_size) c in
    let offset := offset + prg_size in
    let c :=
      if chr_banks c =? 0 then
        set_chr_rom (vec_resize 8192 0 (chr_rom c)) c
      else
        let chr_size := chr_banks c * 8192 in
        let chr_size :=
          if Z.of_nat (length data) <? offset + chr_size
          then Z.of_nat (length data) - offset
          else chr_size in
        set_chr_rom (slice data offset chr_size) c in
    let c := set_prg_ram (vec_resize 8192 0 (prg_ram c)) c in
    (true, c).

(** [Cartridge::load_nes2]: the NES 2.0 size and mapper fields are parsed
    into the 8-bit members, then the iNES loader does the rest (and
    assigns those members again). *)
Definition load_nes2 (data : list Z) (c : t) : bool * t :=
  let size_field (lsb msb : Z) (unit : Z) : Z :=
    if msb =? 0x0F then
      let exponent := Z.land (Z.shiftr lsb 2) 0x3F in
      let multiplier := Z.land lsb 0x03 in
      u8 (Z.shiftl 1 exponent * (multiplier * 2 + 1) / unit)
    else u8 (Z.lor lsb (Z.shiftl msb 8)) in
  let c := set_prg_banks
             (size_field (byte_at data 4) (Z.land (byte_at data 9) 0x0F) 16384) c in
  let c := set_chr_banks
             (size_field (byte_at data 5) (Z.land (Z.shiftr (byte_at data 9) 4) 0x0F) 8192) c in
  let mapper_lo := Z.shiftr (byte_at data 6) 4 in
  let mapper_mid := Z.shiftr (byte_at data 7) 4 in
  let mapper_hi := Z.land (byte_at data 8) 0x0F in
  let c := set_mapper_id
             (u8 (Z.lor (Z.lor mapper_lo (Z.shiftl mapper_mid 4)) (Z.shiftl mapper_hi 8))) c in
  load_ines data false c.

(** The cartridge object as the constructor leaves it before a loader
    runs: [valid] false, empty stores, no mapper. *)
Definition blank : t :=
  {| valid := false; prg_rom := []; chr_rom := []; prg_ram := [];
     mapper_id := 0; prg_banks := 0; chr_banks := 0;
     mirror_mode := HORIZONTAL; battery_backed := false; mapper := None |}.

(** The constructor [Cartridge(filename)] on the bytes [data] of the
    file: size and magic checks, format detection, the loader, and on
    success [create_mapper].  [make_mapper id prg_banks chr_banks] stands
    for the [switch] of [create_mapper] over the mapper classes. *)
Definition construct (make_mapper : Z -> Z -> Z -> M) (data : list Z) : t :=
  if Z.of_nat (length data) <? 16 then blank
  else if negb ((byte_at data 0 =? 0x4E) && (byte_at data 1 =? 0x45)
                && (byte_at data 2 =? 0x53) && (byte_at data 3 =? 0x1A)) then blank
  else
    let '(ok, c) :=
      if Z.land (byte_at data 7) 0x0C =? 0x08 then load_nes2 data blank
      else
        let dirty_header :=
          negb ((byte_at data 12 =? 0) && (byte_at data 13 =? 0)
                && (byte_at data 14 =? 0) && (byte_at data 15 =? 0)) in
        load_ines data dirty_header blank in
    let c := set_valid ok c in
    if ok
    then set_mapper (Some (make_mapper (mapper_id c) (prg_banks c) (chr_banks c))) c
    else c.

(** [Cartridge::cpu_read]. *)
Definition cpu_read (addr : Z) (c : t) : option Z * t :=
  match mapper c with
  | Some m =>
      if negb (is_empty (prg_rom c)) then
        let '(r, m') := m_cpu_read addr (prg_rom c) m in
        (r, set_mapper (Some m') c)
      else (None, c)
  | None => (None, c)
  end.

(** [Cartridge::cpu_write]. *)
Definition cpu_write (addr data : Z) (c : t) : bool * t :=
  match mapper c with
  | Some m =>
      if negb (is_empty (prg_rom c)) then
        let '(r, m') := m_cpu_write addr data (prg_rom c) m in
        (r, set_mapper (Some m') c)
      else (false, c)
  | None => (false, c)
  end.

(** [Cartridge::ppu_read]. *)
Definition ppu_read (addr : Z) (c : t) : option Z * t :=
  match mapper c with
  | Some m =>
      if negb (is_empty (chr_rom c)) then
        let '(r, m') := m_ppu_read addr (chr_rom c) m in
        (r, set_mapper (Some m') c)
      else (None, c)
  | None => (None, c)
  end.

(** [Cartridge::ppu_write]. *)
Definition ppu_write (addr data : Z) (c : t) : bool * t :=
  match mapper c with
  | Some m =>
      if negb (is_empty (chr_rom c)) then
        let '(r, (m', chr')) := m_ppu_write addr data (chr_rom c) m in
        (r, set_chr_rom chr' (set_mapper (Some m') c))
      else (false, c)
  | None => (false, c)
  end.

(** [Cartridge::irq_state], [irq_clear], [scanline]. *)
Definition irq_state (c : t) : bool :=
  match mapper c with Some m => m_irq_state m | None => false end.

Definition irq_clear (c : t) : t :=
  match mapper c with
  | Some m => set_mapper (Some (m_irq_clear m)) c
  | None => c
  end.

Definition scanline (c : t) : t :=
  match mapper c with
  | Some m => set_mapper (Some (m_scanline m)) c
  | None => c
  end.

(** [Cartridge::get_mirror]. *)
Definition get_mirror (c : t) : Mirror :=
  match mapper c with Some m => m_get_mirror m | None => mirror_mode c end.

End WithMapper.
Arguments t M : clear implicits.
End Cartridge.

(** ** The PPU: state and CPU-visible register file (ppu.hpp, ppu.cpp) *)

Module PPU.

(** The rendering pipeline state of [class PPU]: counters, background
    latches and shifters, secondary OAM and the frame buffer.  An
    [ObjectAttributeEntry] array is kept as raw bytes, four per entry
    (y, id, attribute, x). *)
Record Render : Type := mkRender {
  scanline : Z;
  cycle : Z;
  frame_count : Z;
  frame_ready : bool;
  bg_next_tile_id : Z;
  bg_next_tile_attrib : Z;
  bg_next_tile_lsb : Z;
  bg_next_tile_msb : Z;
  bg_shifter_pattern_lo : Z;
  bg_shifter_pattern_hi : Z;
  bg_shifter_attrib_lo : Z;
  bg_shifter_attrib_hi : Z;
  sprite_count : Z;
  sprite_zero_hit_possible : bool;
  sprite_zero_being_rendered : bool;
  sprite_scanline : list Z;
  sprite_shifter_pattern_lo : list Z;
  sprite_shifter_pattern_hi : list Z;
  screen : list Z
}.

Definition set_scanline (v : Z) (r : Render) : Render :=
  {| scanline := v; cycle := cycle r; frame_count := frame_count r;
     frame_ready := frame_ready r; bg_next_tile_id := bg_next_tile_id r;
     bg_next_tile_attrib := bg_next_tile_attrib r; bg_next_tile_lsb := bg_next_tile_lsb r;
     bg_next_tile_msb := bg_next_tile_msb r;
     bg_shifter_pattern_lo := bg_shifter_pattern_lo r;
     bg_shifter_pattern_hi := bg_shifter_pattern_hi r;
     bg_shifter_attrib_lo := bg_shifter_attrib_lo r;
     bg_shifter_attrib_hi := bg_shifter_attrib_hi r; sprite_count := sprite_count r;
     sprite_zero_hit_possible := sprite_zero_hit_possible r;
     sprite_zero_being_rendered := sprite_zero_being_rendered r;
     sprite_scanline := sprite_scanline r;
     sprite_shifter_pattern_lo := sprite_shifter_pattern_lo r;
     sprite_shifter_pattern_hi := sprite_shifter_pattern_hi r; screen := screen r |}.
Definition set_cycle (v : Z) (r : Render) : Render :=
  {| scanline := scanline r; cycle := v; frame_count := frame_count r;
     frame_ready := frame_ready r; bg_next_tile_id := bg_next_tile_id r;
     bg_next_tile_attrib := bg_next_tile_attrib r; bg_next_tile_lsb := bg_next_tile_lsb r;
     bg_next_tile_msb := bg_next_tile_msb r;
     bg_shifter_pattern_lo := bg_shifter_pattern_lo r;
     bg_shifter_pattern_hi := bg_shifter_pattern_hi r;
     bg_shifter_attrib_lo := bg_shifter_attrib_lo r;
     bg_shifter_attrib_hi := bg_shifter_attrib_hi r; sprite_count := sprite_count r;
     sprite_zero_hit_possible := sprite_zero_hit_possible r;
     sprite_zero_being_rendered := sprite_zero_being_rendered r;
     sprite_scanline := sprite_scanline r;
     sprite_shifter_pattern_lo := sprite_shifter_pattern_lo r;
     sprite_shifter_pattern_hi := sprite_shifter_pattern_hi r; screen := screen r |}.
Definition set_frame_count (v : Z) (r : Render) : Render :=
  {| scanline := scanline r; cycle := cycle r; frame_count := v;
     frame_ready := frame_ready r; bg_next_tile_id := bg_next_tile_id r;
     bg_next_tile_attrib := bg_next_tile_attrib r; bg_next_tile_lsb := bg_next_tile_lsb r;
     bg_next_tile_msb := bg_next_tile_msb r;
     bg_shifter_pattern_lo := bg_shifter_pattern_lo r;
     bg_shifter_pattern_hi := bg_shifter_pattern_hi r;
     bg_shifter_attrib_lo := bg_shifter_attrib_lo r;
     bg_shifter_attrib_hi := bg_shifter_attrib_hi r; sprite_count := sprite_count r;
     sprite_zero_hit_possible := sprite_zero_hit_possible r;
     sprite_zero_being_rendered := sprite_zero_being_rendered r;
     sprite_scanline := sprite_scanline r;
     sprite_shifter_pattern_lo := sprite_shifter_pattern_lo r;
     sprite_shifter_pattern_hi := sprite_shifter_pattern_hi r; screen := screen r |}.
Definition set_frame_ready (v : bool) (r : Render) : Render :=
  {| scanline := scanline r; cycle := cycle r; frame_count := frame_count r;
     frame_ready := v; bg_next_tile_id := bg_next_tile_id r;
     bg_next_tile_attrib := bg_next_tile_attrib r; bg_next_tile_lsb := bg_next_tile_lsb r;
     bg_next_tile_msb := bg_next_tile_msb r;
     bg_shifter_pattern_lo := bg_shifter_pattern_lo r;
     bg_shifter_pattern_hi := bg_shifter_pattern_hi r;
     bg_shifter_attrib_lo := bg_shifter_attrib_lo r;
     bg_shifter_attrib_hi := bg_shifter_attrib_hi r; sprite_count := sprite_count r;
     sprite_zero_hit_possible := sprite_zero_hit_possible r;
     sprite_zero_being_rendered := sprite_zero_being_rendered r;
     sprite_scanline := sprite_scanline r;
     sprite_shifter_pattern_lo := sprite_shifter_pattern_lo r;
     sprite_shifter_pattern_hi := sprite_shifter_pattern_hi r; screen := screen r |}.
Definition set_bg_next_tile_id (v : Z) (r : Render) : Render :=
  {| scanline := scanline r; cycle := cycle r; frame_count := frame_count r;
     frame_ready := frame_ready r; bg_next_tile_id := v;
     bg_next_tile_attrib := bg_next_tile_attrib r; bg_next_tile_lsb := bg_next_tile_lsb r;
     bg_next_tile_msb := bg_next_tile_msb r;
     bg_shifter_pattern_lo := bg_shifter_pattern_lo r;
     bg_shifter_pattern_hi := bg_shifter_pattern_hi r;
     bg_shifter_attrib_lo := bg_shifter_attrib_lo r;
     bg_shifter_attrib_hi := bg_shifter_attrib_hi r; sprite_count := sprite_count r;
     sprite_zero_hit_possible := sprite_zero_hit_possible r;
     sprite_zero_being_rendered := sprite_zero_being_rendered r;
     sprite_scanline := sprite_scanline r;
     sprite_shifter_pattern_lo := sprite_shifter_pattern_lo r;
     sprite_shifter_pattern_hi := sprite_shifter_pattern_hi r; screen := screen r |}.
Definition set_bg_next_tile_attrib (v : Z) (r : Render) : Render :=
  {| scanline := scanline r; cycle := cycle r; frame_count := frame_count r;
     frame_ready := frame_ready r; bg_next_tile_id := bg_next_tile_id r;
     bg_next_tile_attrib := v; bg_next_tile_lsb := bg_next_tile_lsb r;
     bg_next_tile_msb := bg_next_tile_msb r;
     bg_shifter_pattern_lo := bg_shifter_pattern_lo r;
     bg_shifter_pattern_hi := bg_shifter_pattern_hi r;
     bg_shifter_attrib_lo := bg_shifter_attrib_lo r;
     bg_shifter_attrib_hi := bg_shifter_attrib_hi r; sprite_count := sprite_count r;
     sprite_zero_hit_possible := sprite_zero_hit_possible r;
     sprite_zero_being_rendered := sprite_zero_being_rendered r;
     sprite_scanline := sprite_scanline r;
     sprite_shifter_pattern_lo := sprite_shifter_pattern_lo r;
     sprite_shifter_pattern_hi := sprite_shifter_pattern_hi r; screen := screen r |}.
Definition set_bg_next_tile_lsb (v : Z) (r : Render) : Render :=
  {| scanline := scanline r; cycle := cycle r; frame_count := frame_count r;
     frame_ready := frame_ready r; bg_next_tile_id := bg_next_tile_id r;
     bg_next_tile_attrib := bg_next_tile_attrib r; bg_next_tile_lsb := v;
     bg_next_tile_msb := bg_next_tile_msb r;
     bg_shifter_pattern_lo := bg_shifter_pattern_lo r;
     bg_shifter_pattern_hi := bg_shifter_pattern_hi r;
     bg_shifter_attrib_lo := bg_shifter_attrib_lo r;
     bg_shifter_attrib_hi := bg_shifter_attrib_hi r; sprite_count := sprite_count r;
     sprite_zero_hit_possible := sprite_zero_hit_possible r;
     sprite_zero_being_rendered := sprite_zero_being_rendered r;
     sprite_scanline := sprite_scanline r;
     sprite_shifter_pattern_lo := sprite_shifter_pattern_lo r;
     sprite_shifter_pattern_hi := sprite_shifter_pattern_hi r; screen := screen r |}.
Definition set_bg_next_tile_msb (v : Z) (r : Render) : Render :=
  {| scanline := scanline r; cycle := cycle r; frame_count := frame_count r;
     frame_ready := frame_ready r; bg_next_tile_id := bg_next_tile_id r;
     bg_next_tile_attrib := bg_next_tile_attrib r; bg_next_tile_lsb := bg_next_tile_lsb r;
     bg_next_tile_msb := v; bg_shifter_pattern_lo := bg_shifter_pattern_lo r;
     bg_shifter_pattern_hi := bg_shifter_pattern_hi r;
     bg_shifter_attrib_lo := bg_shifter_attrib_lo r;
     bg_shifter_attrib_hi := bg_shifter_attrib_hi r; sprite_count := sprite_count r;
     sprite_zero_hit_possible := sprite_zero_hit_possible r;
     sprite_zero_being_rendered := sprite_zero_being_rendered r;
     sprite_scanline := sprite_scanline r;
     sprite_shifter_pattern_lo := sprite_shifter_pattern_lo r;
     sprite_shifter_pattern_hi := sprite_shifter_pattern_hi r; screen := screen r |}.
Definition set_bg_shifter_pattern_lo (v : Z) (r : Render) : Render :=
  {| scanline := scanline r; cycle := cycle r; frame_count := frame_count r;
     frame_ready := frame_ready r; bg_next_tile_id := bg_next_tile_id r;
     bg_next_tile_attrib := bg_next_tile_attrib r; bg_next_tile_lsb := bg_next_tile_lsb r;
     bg_next_tile_msb := bg_next_tile_msb r; bg_shifter_pattern_lo := v;
     bg_shifter_pattern_hi := bg_shifter_pattern_hi r;
     bg_shifter_attrib_lo := bg_shifter_attrib_lo r;
     bg_shifter_attrib_hi := bg_shifter_attrib_hi r; sprite_count := sprite_count r;
     sprite_zero_hit_possible := sprite_zero_hit_possible r;
     sprite_zero_being_rendered := sprite_zero_being_rendered r;
     sprite_scanline := sprite_scanline r;
     sprite_shifter_pattern_lo := sprite_shifter_pattern_lo r;
     sprite_shifter_pattern_hi := sprite_shifter_pattern_hi r; screen := screen r |}.
Definition set_bg_shifter_pattern_hi (v : Z) (r : Render) : Render :=
  {| scanline := scanline r; cycle := cycle r; frame_count := frame_count r;
     frame_ready := frame_ready r; bg_next_tile_id := bg_next_tile_id r;
     bg_next_tile_attrib := bg_next_tile_attrib r; bg_next_tile_lsb := bg_next_tile_lsb r;
     bg_next_tile_msb := bg_next_tile_msb r;
     bg_shifter_pattern_lo := bg_shifter_pattern_lo r; bg_shifter_pattern_hi := v;
     bg_shifter_attrib_lo := bg_shifter_attrib_lo r;
     bg_shifter_attrib_hi := bg_shifter_attrib_hi r; sprite_count := sprite_count r;
     sprite_zero_hit_possible := sprite_zero_hit_possible r;
     sprite_zero_being_rendered := sprite_zero_being_rendered r;
     sprite_scanline := sprite_scanline r;
     sprite_shifter_pattern_lo := sprite_shifter_pattern_lo r;
     sprite_shifter_pattern_hi := sprite_shifter_pattern_hi r; screen := screen r |}.
Definition set_bg_shifter_attrib_lo (v : Z) (r : Render) : Render :=
  {| scanline := scanline r; cycle := cycle r; frame_count := frame_count r;
     frame_ready := frame_ready r; bg_next_tile_id := bg_next_tile_id r;
     bg_next_tile_attrib := bg_next_tile_attrib r; bg_next_tile_lsb := bg_next_tile_lsb r;
     bg_next_tile_msb := bg_next_tile_msb r;
     bg_shifter_pattern_lo := bg_shifter_pattern_lo r;
     bg_shifter_pattern_hi := bg_shifter_pattern_hi r; bg_shifter_attrib_lo := v;
     bg_shifter_attrib_hi := bg_shifter_attrib_hi r; sprite_count := sprite_count r;
     sprite_zero_hit_possible := sprite_zero_hit_possible r;
     sprite_zero_being_rendered := sprite_zero_being_rendered r;
     sprite_scanline := sprite_scanline r;
     sprite_shifter_pattern_lo := sprite_shifter_pattern_lo r;
     sprite_shifter_pattern_hi := sprite_shifter_pattern_hi r; screen := screen r |}.
Definition set_bg_shifter_attrib_hi (v : Z) (r : Render) : Render :=
  {| scanline := scanline r; cycle := cycle r; frame_count := frame_count r;
     frame_ready := frame_ready r; bg_next_tile_id := bg_next_tile_id r;
     bg_next_tile_attrib := bg_next_tile_attrib r; bg_next_tile_lsb := bg_next_tile_lsb r;
     bg_next_tile_msb := bg_next_tile_msb r;
     bg_shifter_pattern_lo := bg_shifter_pattern_lo r;
     bg_shifter_pattern_hi := bg_shifter_pattern_hi r;
     bg_shifter_attrib_lo := bg_shifter_attrib_lo r; bg_shifter_attrib_hi := v;
     sprite_count := sprite_count r;
     sprite_zero_hit_possible := sprite_zero_hit_possible r;
     sprite_zero_being_rendered := sprite_zero_being_rendered r;
     sprite_scanline := sprite_scanline r;
     sprite_shifter_pattern_lo := sprite_shifter_pattern_lo r;
     sprite_shifter_pattern_hi := sprite_shifter_pattern_hi r; screen := screen r |}.
Definition set_sprite_count (v : Z) (r : Render) : Render :=
  {| scanline := scanline r; cycle := cycle r; frame_count := frame_count r;
     frame_ready := frame_ready r; bg_next_tile_id := bg_next_tile_id r;
     bg_next_tile_attrib := bg_next_tile_attrib r; bg_next_tile_lsb := bg_next_tile_lsb r;
     bg_next_tile_msb := bg_next_tile_msb r;
     bg_shifter_pattern_lo := bg_shifter_pattern_lo r;
     bg_shifter_pattern_hi := bg_shifter_pattern_hi r;
     bg_shifter_attrib_lo := bg_shifter_attrib_lo r;
     bg_shifter_attrib_hi := bg_shifter_attrib_hi r; sprite_count := v;
     sprite_zero_hit_possible := sprite_zero_hit_possible r;
     sprite_zero_being_rendered := sprite_zero_being_rendered r;
     sprite_scanline := sprite_scanline r;
     sprite_shifter_pattern_lo := sprite_shifter_pattern_lo r;
     sprite_shifter_pattern_hi := sprite_shifter_pattern_hi r; screen := screen r |}.
Definition set_sprite_zero_hit_possible (v : bool) (r : Render) : Render :=
  {| scanline := scanline r; cycle := cycle r; frame_count := frame_count r;
     frame_ready := frame_ready r; bg_next_tile_id := bg_next_tile_id r;
     bg_next_tile_attrib := bg_next_tile_attrib r; bg_next_tile_lsb := bg_next_tile_lsb r;
     bg_next_tile_msb := bg_next_tile_msb r;
     bg_shifter_pattern_lo := bg_shifter_pattern_lo r;
     bg_shifter_pattern_hi := bg_shifter_pattern_hi r;
     bg_shifter_attrib_lo := bg_shifter_attrib_lo r;
     bg_shifter_attrib_hi := bg_shifter_attrib_hi r; sprite_count := sprite_count r;
     sprite_zero_hit_possible := v;
     sprite_zero_being_rendered := sprite_zero_being_rendered r;
     sprite_scanline := sprite_scanline r;
     sprite_shifter_pattern_lo := sprite_shifter_pattern_lo r;
     sprite_shifter_pattern_hi := sprite_shifter_pattern_hi r; screen := screen r |}.
Definition set_sprite_zero_being_rendered (v : bool) (r : Render) : Render :=
  {| scanline := scanline r; cycle := cycle r; frame_count := frame_count r;
     frame_ready := frame_ready r; bg_next_tile_id := bg_next_tile_id r;
     bg_next_tile_attrib := bg_next_tile_attrib r; bg_next_tile_lsb := bg_next_tile_lsb r;
     bg_next_tile_msb := bg_next_tile_msb r;
     bg_shifter_pattern_lo := bg_shifter_pattern_lo r;
     bg_shifter_pattern_hi := bg_shifter_pattern_hi r;
     bg_shifter_attrib_lo := bg_shifter_attrib_lo r;
     bg_shifter_attrib_hi := bg_shifter_attrib_hi r; sprite_count := sprite_count r;
     sprite_zero_hit_possible := sprite_zero_hit_possible r;
     sprite_zero_being_rendered := v; sprite_scanline := sprite_scanline r;
     sprite_shifter_pattern_lo := sprite_shifter_pattern_lo r;
     sprite_shifter_pattern_hi := sprite_shifter_pattern_hi r; screen := screen r |}.
Definition set_sprite_scanline (v : list Z) (r : Render) : Render :=
  {| scanline := scanline r; cycle := cycle r; frame_count := frame_count r;
     frame_ready := frame_ready r; bg_next_tile_id := bg_next_tile_id r;
     bg_next_tile_attrib := bg_next_tile_attrib r; bg_next_tile_lsb := bg_next_tile_lsb r;
     bg_next_tile_msb := bg_next_tile_msb r;
     bg_shifter_pattern_lo := bg_shifter_pattern_lo r;
     bg_shifter_pattern_hi := bg_shifter_pattern_hi r;
     bg_shifter_attrib_lo := bg_shifter_attrib_lo r;
     bg_shifter_attrib_hi := bg_shifter_attrib_hi r; sprite_count := sprite_count r;
     sprite_zero_hit_possible := sprite_zero_hit_possible r;
     sprite_zero_being_rendered := sprite_zero_being_rendered r; sprite_scanline := v;
     sprite_shifter_pattern_lo := sprite_shifter_pattern_lo r;
     sprite_shifter_pattern_hi := sprite_shifter_pattern_hi r; screen := screen r |}.
Definition set_sprite_shifter_pattern_lo (v : list Z) (r : Render) : Render :=
  {| scanline := scanline r; cycle := cycle r; frame_count := frame_count r;
     frame_ready := frame_ready r; bg_next_tile_id := bg_next_tile_id r;
     bg_next_tile_attrib := bg_next_tile_attrib r; bg_next_tile_lsb := bg_next_tile_lsb r;
     bg_next_tile_msb := bg_next_tile_msb r;
     bg_shifter_pattern_lo := bg_shifter_pattern_lo r;
     bg_shifter_pattern_hi := bg_shifter_pattern_hi r;
     bg_shifter_attrib_lo := bg_shifter_attrib_lo r;
     bg_shifter_attrib_hi := bg_shifter_attrib_hi r; sprite_count := sprite_count r;
     sprite_zero_hit_possible := sprite_zero_hit_possible r;
     sprite_zero_being_rendered := sprite_zero_being_rendered r;
     sprite_scanline := sprite_scanline r; sprite_shifter_pattern_lo := v;
     sprite_shifter_pattern_hi := sprite_shifter_pattern_hi r; screen := screen r |}.
Definition set_sprite_shifter_pattern_hi (v : list Z) (r : Render) : Render :=
  {| scanline := scanline r; cycle := cycle r; frame_count := frame_count r;
     frame_ready := frame_ready r; bg_next_tile_id := bg_next_tile_id r;
     bg_next_tile_attrib := bg_next_tile_attrib r; bg_next_tile_lsb := bg_next_tile_lsb r;
     bg_next_tile_msb := bg_next_tile_msb r;
     bg_shifter_pattern_lo := bg_shifter_pattern_lo r;
     bg_shifter_pattern_hi := bg_shifter_pattern_hi r;
     bg_shifter_attrib_lo := bg_shifter_attrib_lo r;
     bg_shifter_attrib_hi := bg_shifter_attrib_hi r; sprite_count := sprite_count r;
     sprite_zero_hit_possible := sprite_zero_hit_possible r;
     sprite_zero_being_rendered := sprite_zero_being_rendered r;
     sprite_scanline := sprite_scanline r;
     sprite_shifter_pattern_lo := sprite_shifter_pattern_lo r;
     sprite_shifter_pattern_hi := v; screen := screen r |}.
Definition set_screen (v : list Z) (r : Render) : Render :=
  {| scanline := scanline r; cycle := cycle r; frame_count := frame_count r;
     frame_ready := frame_ready r; bg_next_tile_id := bg_next_tile_id r;
     bg_next_tile_attrib := bg_next_tile_attrib r; bg_next_tile_lsb := bg_next_tile_lsb r;
     bg_next_tile_msb := bg_next_tile_msb r;
     bg_shifter_pattern_lo := bg_shifter_pattern_lo r;
     bg_shifter_pattern_hi := bg_shifter_pattern_hi r;
     bg_shifter_attrib_lo := bg_shifter_attrib_lo r;
     bg_shifter_attrib_hi := bg_shifter_attrib_hi r; sprite_count := sprite_count r;
     sprite_zero_hit_possible := sprite_zero_hit_possible r;
     sprite_zero_being_rendered := sprite_zero_being_rendered r;
     sprite_scanline := sprite_scanline r;
     sprite_shifter_pattern_lo := sprite_shifter_pattern_lo r;
     sprite_shifter_pattern_hi := sprite_shifter_pattern_hi r; screen := v |}.

(** The registers and memories of [class PPU].  The three register unions
    are kept as their [reg] byte, the loopy registers as their 16-bit
    [reg]; bit-field members are the accessors below. *)
Record t : Type := mk {
  nmi : bool;
  control : Z;
  mask : Z;
  status : Z;
  oam_addr : Z;
  data_buffer : Z;
  vram_addr : Z;
  tram_addr : Z;
  fine_x : Z;
  address_latch : bool;
  oam : list Z;
  nametable : list Z;
  palette : list Z;
  render : Render
}.

Definition set_nmi (v : bool) (r : t) : t :=
  {| nmi := v; control := control r; mask := mask r; status := status r;
     oam_addr := oam_addr r; data_buffer := data_buffer r; vram_addr := vram_addr r;
     tram_addr := tram_addr r; fine_x := fine_x r; address_latch := address_latch r;
     oam := oam r; nametable := nametable r; palette := palette r; render := render r |}.
Definition set_control (v : Z) (r : t) : t :=
  {| nmi := nmi r; control := v; mask := mask r; status := status r;
     oam_addr := oam_addr r; data_buffer := data_buffer r; vram_addr := vram_addr r;
     tram_addr := tram_addr r; fine_x := fine_x r; address_latch := address_latch r;
     oam := oam r; nametable := nametable r; palette := palette r; render := render r |}.
Definition set_mask (v : Z) (r : t) : t :=
  {| nmi := nmi r; control := control r; mask := v; status := status r;
     oam_addr := oam_addr r; data_buffer := data_buffer r; vram_addr := vram_addr r;
     tram_addr := tram_addr r; fine_x := fine_x r; address_latch := address_latch r;
     oam := oam r; nametable := nametable r; palette := palette r; render := render r |}.
Definition set_status (v : Z) (r : t) : t :=
  {| nmi := nmi r; control := control r; mask := mask r; status := v;
     oam_addr := oam_addr r; data_buffer := data_buffer r; vram_addr := vram_addr r;
     tram_addr := tram_addr r; fine_x := fine_x r; address_latch := address_latch r;
     oam := oam r; nametable := nametable r; palette := palette r; render := render r |}.
Definition set_oam_addr (v : Z) (r : t) : t :=
  {| nmi := nmi r; control := control r; mask := mask r; status := status r;
     oam_addr := v; data_buffer := data_buffer r; vram_addr := vram_addr r;
     tram_addr := tram_addr r; fine_x := fine_x r; address_latch := address_latch r;
     oam := oam r; nametable := nametable r; palette := palette r; render := render r |}.
Definition set_data_buffer (v : Z) (r : t) : t :=
  {| nmi := nmi r; control := control r; mask := mask r; status := status r;
     oam_addr := oam_addr r; data_buffer := v; vram_addr := vram_addr r;
     tram_addr := tram_addr r; fine_x := fine_x r; address_latch := address_latch r;
     oam := oam r; nametable := nametable r; palette := palette r; render := render r |}.
Definition set_vram_addr (v : Z) (r : t) : t :=
  {| nmi := nmi r; control := control r; mask := mask r; status := status r;
     oam_addr := oam_addr r; data_buffer := data_buffer r; vram_addr := v;
     tram_addr := tram_addr r; fine_x := fine_x r; address_latch := address_latch r;
     oam := oam r; nametable := nametable r; palette := palette r; render := render r |}.
Definition set_tram_addr (v : Z) (r : t) : t :=
  {| nmi := nmi r; control := control r; mask := mask r; status := status r;
     oam_addr := oam_addr r; data_buffer := data_buffer r; vram_addr := vram_addr r;
     tram_addr := v; fine_x := fine_x r; address_latch := address_latch r; oam := oam r;
     nametable := nametable r; palette := palette r; render := render r |}.
Definition set_fine_x (v : Z) (r : t) : t :=
  {| nmi := nmi r; control := control r; mask := mask r; status := status r;
     oam_addr := oam_addr r; data_buffer := data_buffer r; vram_addr := vram_addr r;
     tram_addr := tram_addr r; fine_x := v; address_latch := address_latch r;
     oam := oam r; nametable := nametable r; palette := palette r; render := render r |}.
Definition set_address_latch (v : bool) (r : t) : t :=
  {| nmi := nmi r; control := control r; mask := mask r; status := status r;
     oam_addr := oam_addr r; data_buffer := data_buffer r; vram_addr := vram_addr r;
     tram_addr := tram_addr r; fine_x := fine_x r; address_latch := v; oam := oam r;
     nametable := nametable r; palette := palette r; render := render r |}.
Definition set_oam (v : list Z) (r : t) : t :=
  {| nmi := nmi r; control := control r; mask := mask r; status := status r;
     oam_addr := oam_addr r; data_buffer := data_buffer r; vram_addr := vram_addr r;
     tram_addr := tram_addr r; fine_x := fine_x r; address_latch := address_latch r;
     oam := v; nametable := nametable r; palette := palette r; render := render r |}.
Definition set_nametable (v : list Z) (r : t) : t :=
  {| nmi := nmi r; control := control r; mask := mask r; status := status r;
     oam_addr := oam_addr r; data_buffer := data_buffer r; vram_addr := vram_addr r;
     tram_addr := tram_addr r; fine_x := fine_x r; address_latch := address_latch r;
     oam := oam r; nametable := v; palette := palette r; render := render r |}.
Definition set_palette (v : list Z) (r : t) : t :=
  {| nmi := nmi r; control := control r; mask := mask r; status := status r;
     oam_addr := oam_addr r; data_buffer := data_buffer r; vram_addr := vram_addr r;
     tram_addr := tram_addr r; fine_x := fine_x r; address_latch := address_latch r;
     oam := oam r; nametable := nametable r; palette := v; render := render r |}.
Definition set_render (v : Render) (r : t) : t :=
  {| nmi := nmi r; control := control r; mask := mask r; status := status r;
     oam_addr := oam_addr r; data_buffer := data_buffer r; vram_addr := vram_addr r;
     tram_addr := tram_addr r; fine_x := fine_x r; address_latch := address_latch r;
     oam := oam r; nametable := nametable r; palette := palette r; render := v |}.

(** Read the [w]-bit field at bit [pos] of a register; assign to it (the
    value is truncated to the field width, the other bits are kept). *)
Definition field_get (pos w : Z) (reg : Z) : Z :=
  Z.land (Z.shiftr reg pos) (Z.ones w).

Definition field_set (pos w : Z) (v : Z) (reg : Z) : Z :=
  Z.lor (Z.land reg (Z.lnot (Z.shiftl (Z.ones w) pos)))
        (Z.shiftl (Z.land v (Z.ones w)) pos).

(** [control]: nametable_x:1, nametable_y:1, increment:1, sprite_table:1,
    background_table:1, sprite_size:1, master_slave:1, nmi_enable:1. *)
Definition control_nametable_x (p : t) : Z := field_get 0 1 (control p).
Definition control_nametable_y (p : t) : Z := field_get 1 1 (control p).
Definition control_increment (p : t) : Z := field_get 2 1 (control p).
Definition control_nmi_enable (p : t) : Z := field_get 7 1 (control p).

(** [mask]: grayscale is bit 0. *)
Definition mask_grayscale (p : t) : Z := field_get 0 1 (mask p).

(** [status]: unused:5, sprite_overflow:1, sprite_zero_hit:1, vblank:1. *)
Definition status_sprite_overflow (p : t) : Z := field_get 5 1 (status p).
Definition status_sprite_zero_hit (p : t) : Z := field_get 6 1 (status p).
Definition status_vblank (p : t) : Z := field_get 7 1 (status p).

(** [LoopyRegister]: coarse_x:5, coarse_y:5, nametable_x:1, nametable_y:1,
    fine_y:3, unused:1. *)
Definition loopy_set_coarse_x (v reg : Z) : Z := field_set 0 5 v reg.
Definition loopy_set_coarse_y (v reg : Z) : Z := field_set 5 5 v reg.
Definition loopy_set_nametable_x (v reg : Z) : Z := field_set 10 1 v reg.
Definition loopy_set_nametable_y (v reg : Z) : Z := field_set 11 1 v reg.
Definition loopy_set_fine_y (v reg : Z) : Z := field_set 12 3 v reg.

(** [PPU::reset]. *)
Definition reset (p : t) : t :=
  {| nmi := nmi p;
     control := 0x00; mask := 0x00; status := 0x00;
     oam_addr := 0x00; data_buffer := 0x00;
     vram_addr := 0x0000; tram_addr := 0x0000; fine_x := 0x00;
     address_latch := false;
     oam := filled 256 0xFF;
     nametable := filled 2048 0x00;
     palette := filled 32 0x00;
     render :=
       {| scanline := 0; cycle := 0; frame_count := 0; frame_ready := false;
          bg_next_tile_id := 0x00; bg_next_tile_attrib := 0x00;
          bg_next_tile_lsb := 0x00; bg_next_tile_msb := 0x00;
          bg_shifter_pattern_lo := 0x0000; bg_shifter_pattern_hi := 0x0000;
          bg_shifter_attrib_lo := 0x0000; bg_shifter_attrib_hi := 0x0000;
          sprite_scanline := filled 32 0xFF;
          sprite_count := 0;
          sprite_shifter_pattern_lo := filled 8 0x00;
          sprite_shifter_pattern_hi := filled 8 0x00;
          sprite_zero_hit_possible := false;
          sprite_zero_being_rendered := false;
          screen := filled (256 * 240 * 3) 0x00 |} |}.

(** The constructor [PPU(bus)]: [nmi(false)], then [reset]; the fields
    [reset] overwrites have no earlier value. *)
Definition create : t :=
  reset
    {| nmi := false; control := 0; mask := 0; status := 0; oam_addr := 0;
       data_buffer := 0; vram_addr := 0; tram_addr := 0; fine_x := 0;
       address_latch := false; oam := []; nametable := []; palette := [];
       render :=
         {| scanline := 0; cycle := 0; frame_count := 0; frame_ready := false;
            bg_next_tile_id := 0; bg_next_tile_attrib := 0;
            bg_next_tile_lsb := 0; bg_next_tile_msb := 0;
            bg_shifter_pattern_lo := 0; bg_shifter_pattern_hi := 0;
            bg_shifter_attrib_lo := 0; bg_shifter_attrib_hi := 0;
            sprite_scanline := []; sprite_count := 0;
            sprite_shifter_pattern_lo := []; sprite_shifter_pattern_hi := [];
            sprite_zero_hit_possible := false;
            sprite_zero_being_rendered := false; screen := [] |} |}.

Section WithMapper.
Context {M : Type} {MP : Mapper M}.

(** The nametable index of [ppu_read] and [ppu_write] for an address
    already reduced to [0x0FFF], under the cartridge's mirroring
    ([HORIZONTAL] without a cartridge). *)
Definition nametable_index (cart : option (Cartridge.t M)) (addr : Z) : Z :=
  let mirror :=
    match cart with Some c => Cartridge.get_mirror c | None => HORIZONTAL end in
  match mirror with
  | VERTICAL => Z.land addr 0x07FF
  | HORIZONTAL =>
      if addr <? 0x0800 then Z.land addr 0x03FF else 0x0400 + Z.land addr 0x03FF
  | ONESCREEN_LO => Z.land addr 0x03FF
  | ONESCREEN_HI => 0x0400 + Z.land addr 0x03FF
  | FOUR_SCREEN => Z.land addr 0x07FF
  end.

(** The palette index: [$3F10/$3F14/$3F18/$3F1C] mirror
    [$3F00/$3F04/$3F08/$3F0C]. *)
Definition palette_index (addr : Z) : Z :=
  let addr := Z.land addr 0x001F in
  let addr := if addr =? 0x0010 then 0x0000 else addr in
  let addr := if addr =? 0x0014 then 0x0004 else addr in
  let addr := if addr =? 0x0018 then 0x0008 else addr in
  let addr := if addr =? 0x001C then 0x000C else addr in
  addr.

(** [PPU::ppu_read].  The PPU state is not changed; the cartridge may be
    (mapper latches). *)
Definition ppu_read (addr : Z) (p : t) (cart : option (Cartridge.t M))
  : Z * option (Cartridge.t M) :=
  let addr := Z.land addr 0x3FFF in
  if (0x0000 <=? addr) && (addr <=? 0x1FFF) then
    match cart with
    | Some c =>
        let '(r, c') := Cartridge.ppu_read addr c in
        (default 0x00 r, Some c')
    | None => (0x00, None)
    end
  else if (0x2000 <=? addr) && (addr <=? 0x3EFF) then
    let addr := Z.land addr 0x0FFF in
    (byte_at (nametable p) (nametable_index cart addr), cart)
  else if (0x3F00 <=? addr) && (addr <=? 0x3FFF) then
    (Z.land (byte_at (palette p) (palette_index addr))
            (if nonzero (mask_grayscale p) then 0x30 else 0x3F), cart)
  else (0x00, cart).

(** [PPU::ppu_write]. *)
Definition ppu_write (addr data : Z) (p : t) (cart : option (Cartridge.t M))
  : t * option (Cartridge.t M) :=
  let addr := Z.land addr 0x3FFF in
  if (0x0000 <=? addr) && (addr <=? 0x1FFF) then
    match cart with
    | Some c => (p, Some (snd (Cartridge.ppu_write addr data c)))
    | None => (p, None)
    end
  else if (0x2000 <=? addr) && (addr <=? 0x3EFF) then
    let addr := Z.land addr 0x0FFF in
    (set_nametable (byte_set (nametable p) (nametable_index cart addr) data) p, cart)
  else if (0x3F00 <=? addr) && (addr <=? 0x3FFF) then
    (set_palette (byte_set (palette p) (palette_index addr) data) p, cart)
  else (p, cart).

(** The address step after a [$2007] access. *)
Definition vram_step (p : t) : Z :=
  if nonzero (control_increment p) then 32 else 1.

(** [PPU::cpu_read]: a CPU read of register [addr & 7]. *)
Definition cpu_read (addr : Z) (p : t) (cart : option (Cartridge.t M))
  : Z * (t * option (Cartridge.t M)) :=
  let addr := Z.land addr 0x0007 in
  if addr =? 0x0002 then
    let data := Z.lor (Z.land (status p) 0xE0) (Z.land (data_buffer p) 0x1F) in
    let p := set_status (field_set 7 1 0 (status p)) p in
    let p := set_address_latch false p in
    (data, (p, cart))
  else if addr =? 0x0004 then
    (byte_at (oam p) (oam_addr p), (p, cart))
  else if addr =? 0x0007 then
    let data := data_buffer p in
    let '(b, cart) := ppu_read (vram_addr p) p cart in
    let p := set_data_buffer b p in
    let data := if 0x3F00 <=? vram_addr p then data_buffer p else data in
    let p := set_vram_addr (u16 (vram_addr p + vram_step p)) p in
    (data, (p, cart))
  else (0x00, (p, cart)).

(** [PPU::cpu_write]: a CPU write of [data] to register [addr & 7]. *)
Definition cpu_write (addr data : Z) (p : t) (cart : option (Cartridge.t M))
  : t * option (Cartridge.t M) :=
  let addr := Z.land addr 0x0007 in
  if addr =? 0x0000 then
    let p := set_control data p in
    let p := set_tram_addr
               (loopy_set_nametable_x (control_nametable_x p) (tram_addr p)) p in
    let p := set_tram_addr
               (loopy_set_nametable_y (control_nametable_y p) (tram_addr p)) p in
    (p, cart)
  else if addr =? 0x0001 then (set_mask data p, cart)
  else if addr =? 0x0003 then (set_oam_addr data p, cart)
  else if addr =? 0x0004 then
    let p := set_oam (byte_set (oam p) (oam_addr p) data) p in
    (set_oam_addr (u8 (oam_addr p + 1)) p, cart)
  else if addr =? 0x0005 then
    if negb (address_latch p) then
      let p := set_fine_x (Z.land data 0x07) p in
      let p := set_tram_addr (loopy_set_coarse_x (Z.shiftr data 3) (tram_addr p)) p in
      (set_address_latch true p, cart)
    else
      let p := set_tram_addr (loopy_set_fine_y (Z.land data 0x07) (tram_addr p)) p in
      let p := set_tram_addr (loopy_set_coarse_y (Z.shiftr data 3) (tram_addr p)) p in
      (set_address_latch false p, cart)
  else if addr =? 0x0006 then
    if negb (address_latch p) then
      let p := set_tram_addr
                 (Z.lor (u16 (Z.shiftl (Z.land data 0x3F) 8))
                        (Z.land (tram_addr p) 0x00FF)) p in
      (set_address_latch true p, cart)
    else
      let p := set_tram_addr (Z.lor (Z.land (tram_addr p) 0xFF00) data) p in
      let p := set_vram_addr (tram_addr p) p in
      (set_address_latch false p, cart)
  else if addr =? 0x0007 then
    let '(p, cart) := ppu_write (vram_addr p) data p cart in
    (set_vram_addr (u16 (vram_addr p + vram_step p)) p, cart)
  else (p, cart).


(** *** The pixel pipeline: [PPU::clock] and its helpers

    The pipeline works on the PPU and on the cartridge it is connected
    to (pattern fetches, the mapper's scanline pulse). *)

Local Abbreviation PS := (t * option (Cartridge.t M))%type.
Local Open Scope st_scope.

Definition getp {A : Type} (f : t -> A) : State PS A := gets (fun s => f (fst s)).

Definition modp (f : t -> t) : State PS unit := modify (fun s => (f (fst s), snd s)).

Definition getr {A : Type} (f : Render -> A) : State PS A :=
  getp (fun p => f (render p)).

Definition modr (f : Render -> Render) : State PS unit :=
  modp (fun p => set_render (f (render p)) p).

(** [ppu_read] from inside the pipeline. *)
Definition fetch_byte (addr : Z) : State PS Z := fun s =>
  let '(d, c) := ppu_read addr (fst s) (snd s) in (d, (fst s, c)).

(** [int16_t] wrap-around for the scanline and cycle counters. *)
Definition s16 (x : Z) : Z := (x + 32768) mod 65536 - 32768.

(** Remaining bit-field members. *)
Definition control_sprite_table (p : t) : Z := field_get 3 1 (control p).
Definition control_background_table (p : t) : Z := field_get 4 1 (control p).
Definition control_sprite_size (p : t) : Z := field_get 5 1 (control p).
Definition mask_show_background_left (p : t) : Z := field_get 1 1 (mask p).
Definition mask_show_sprites_left (p : t) : Z := field_get 2 1 (mask p).
Definition mask_show_background (p : t) : Z := field_get 3 1 (mask p).
Definition mask_show_sprites (p : t) : Z := field_get 4 1 (mask p).
Definition loopy_coarse_x (reg : Z) : Z := field_get 0 5 reg.
Definition loopy_coarse_y (reg : Z) : Z := field_get 5 5 reg.
Definition loopy_nametable_x (reg : Z) : Z := field_get 10 1 reg.
Definition loopy_nametable_y (reg : Z) : Z := field_get 11 1 reg.
Definition loopy_fine_y (reg : Z) : Z := field_get 12 3 reg.

(** [mask.show_background || mask.show_sprites]. *)
Definition rendering_enabled (p : t) : bool :=
  nonzero (mask_show_background p) || nonzero (mask_show_sprites p).

(** [PPU::increment_scroll_x]. *)
Definition increment_scroll_x (p : t) : t :=
  if rendering_enabled p then
    let v := vram_addr p in
    if loopy_coarse_x v =? 31 then
      let v := loopy_set_coarse_x 0 v in
      set_vram_addr (loopy_set_nametable_x (Z.lnot (loopy_nametable_x v)) v) p
    else set_vram_addr (loopy_set_coarse_x (loopy_coarse_x v + 1) v) p
  else p.

(** [PPU::increment_scroll_y]. *)
Definition increment_scroll_y (p : t) : t :=
  if rendering_enabled p then
    let v := vram_addr p in
    if loopy_fine_y v <? 7 then
      set_vram_addr (loopy_set_fine_y (loopy_fine_y v + 1) v) p
    else
      let v := loopy_set_fine_y 0 v in
      if loopy_coarse_y v =? 29 then
        let v := loopy_set_coarse_y 0 v in
        set_vram_addr (loopy_set_nametable_y (Z.lnot (loopy_nametable_y v)) v) p
      else if loopy_coarse_y v =? 31 then
        set_vram_addr (loopy_set_coarse_y 0 v) p
      else set_vram_addr (loopy_set_coarse_y (loopy_coarse_y v + 1) v) p
  else p.

(** [PPU::transfer_address_x], [PPU::transfer_address_y]. *)
Definition transfer_address_x (p : t) : t :=
  if rendering_enabled p then
    let v := vram_addr p in
    let v := loopy_set_nametable_x (loopy_nametable_x (tram_addr p)) v in
    set_vram_addr (loopy_set_coarse_x (loopy_coarse_x (tram_addr p)) v) p
  else p.

Definition transfer_address_y (p : t) : t :=
  if rendering_enabled p then
    let v := vram_addr p in
    let v := loopy_set_fine_y (loopy_fine_y (tram_addr p)) v in
    let v := loopy_set_nametable_y (loopy_nametable_y (tram_addr p)) v in
    set_vram_addr (loopy_set_coarse_y (loopy_coarse_y (tram_addr p)) v) p
  else p.

(** [PPU::load_background_shifters]. *)
Definition load_background_shifters (r : Render) : Render :=
  let r := set_bg_shifter_pattern_lo
             (Z.lor (Z.land (bg_shifter_pattern_lo r) 0xFF00) (bg_next_tile_lsb r)) r in
  let r := set_bg_shifter_pattern_hi
             (Z.lor (Z.land (bg_shifter_pattern_hi r) 0xFF00) (bg_next_tile_msb r)) r in
  let r := set_bg_shifter_attrib_lo
             (Z.lor (Z.land (bg_shifter_attrib_lo r) 0xFF00)
                    (if nonzero (Z.land (bg_next_tile_attrib r) 1) then 0xFF else 0x00)) r in
  set_bg_shifter_attrib_hi
    (Z.lor (Z.land (bg_shifter_attrib_hi r) 0xFF00)
           (if nonzero (Z.land (bg_next_tile_attrib r) 2) then 0xFF else 0x00)) r.

(** [PPU::update_shifters]. *)
Definition update_shifters (p : t) : t :=
  if nonzero (mask_show_background p) then
    let r := render p in
    let r := set_bg_shifter_pattern_lo (u16 (Z.shiftl (bg_shifter_pattern_lo r) 1)) r in
    let r := set_bg_shifter_pattern_hi (u16 (Z.shiftl (bg_shifter_pattern_hi r) 1)) r in
    let r := set_bg_shifter_attrib_lo (u16 (Z.shiftl (bg_shifter_attrib_lo r) 1)) r in
    let r := set_bg_shifter_attrib_hi (u16 (Z.shiftl (bg_shifter_attrib_hi r) 1)) r in
    set_render r p
  else p.

(** The background fetch of cycles 2-257 and 321-337, by [(cycle - 1) % 8]. *)
Definition background_fetch : State PS unit :=
  modp update_shifters ;;;
  cy <- getr cycle ;;
  let k := (cy - 1) mod 8 in
  if k =? 0 then
    modr load_background_shifters ;;;
    v <- getp vram_addr ;;
    d <- fetch_byte (Z.lor 0x2000 (Z.land v 0x0FFF)) ;;
    modr (set_bg_next_tile_id d)
  else if k =? 2 then
    v <- getp vram_addr ;;
    d <- fetch_byte
           (Z.lor (Z.lor (Z.lor (Z.lor 0x23C0 (Z.shiftl (loopy_nametable_y v) 11))
                                (Z.shiftl (loopy_nametable_x v) 10))
                         (Z.shiftl (Z.shiftr (loopy_coarse_y v) 2) 3))
                  (Z.shiftr (loopy_coarse_x v) 2)) ;;
    let d := if nonzero (Z.land (loopy_coarse_y v) 0x02) then Z.shiftr d 4 else d in
    let d := if nonzero (Z.land (loopy_coarse_x v) 0x02) then Z.shiftr d 2 else d in
    modr (set_bg_next_tile_attrib (Z.land d 0x03))
  else if k =? 4 then
    p <- getp (fun p => p) ;;
    d <- fetch_byte
           (u16 (Z.shiftl (control_background_table p) 12
                 + Z.shiftl (bg_next_tile_id (render p)) 4
                 + loopy_fine_y (vram_addr p) + 0)) ;;
    modr (set_bg_next_tile_lsb d)
  else if k =? 6 then
    p <- getp (fun p => p) ;;
    d <- fetch_byte
           (u16 (Z.shiftl (control_background_table p) 12
                 + Z.shiftl (bg_next_tile_id (render p)) 4
                 + loopy_fine_y (vram_addr p) + 8)) ;;
    modr (set_bg_next_tile_msb d)
  else if k =? 7 then modp increment_scroll_x
  else ret tt.

(** The four bytes of OAM entry [e]. *)
Definition oam_entry (o : list Z) (e : Z) : list Z :=
  [ byte_at o (4 * e); byte_at o (4 * e + 1);
    byte_at o (4 * e + 2); byte_at o (4 * e + 3) ].

(** [sprite_scanline[i] = entry]. *)
Definition put_entry (sl : list Z) (i : Z) (entry : list Z) : list Z :=
  let sl := byte_set sl (4 * i) (byte_at entry 0) in
  let sl := byte_set sl (4 * i + 1) (byte_at entry 1) in
  let sl := byte_set sl (4 * i + 2) (byte_at entry 2) in
  byte_set sl (4 * i + 3) (byte_at entry 3).

(** The scan over the OAM entries of the sprite evaluation loop, with
    its [break] after the ninth sprite in range. *)
Fixpoint evaluate_sprites (entries : list Z) (o : list Z) (line height : Z)
    (found : Z) (sl : list Z) (hit : bool) : Z * (list Z * bool) :=
  match entries with
  | [] => (found, (sl, hit))
  | e :: rest =>
      let sprite_y := byte_at o (4 * e) in
      let diff := s16 (line - sprite_y) in
      if (0 <=? diff) && (diff <? height) then
        let sl' := if found <? 8 then put_entry sl found (oam_entry o e) else sl in
        let hit' := if (found <? 8) && (e =? 0) then true else hit in
        let found' := u8 (found + 1) in
        if 8 <? found' then (found', (sl', hit'))
        else evaluate_sprites rest o line height found' sl' hit'
      else evaluate_sprites rest o line height found sl hit
  end.

(** Sprite evaluation, cycle 257 of scanlines 0 and later. *)
Definition sprite_evaluation (p : t) : t :=
  let r := render p in
  let r := set_sprite_count 0 r in
  let r := set_sprite_zero_hit_possible false r in
  let r := set_sprite_shifter_pattern_lo (filled 8 0x00) r in
  let r := set_sprite_shifter_pattern_hi (filled 8 0x00) r in
  let r := set_sprite_scanline (filled 32 0xFF) r in
  let sprite_height := if nonzero (control_sprite_size p) then 16 else 8 in
  let '(sprites_found, (sl, hit)) :=
    evaluate_sprites (map Z.of_nat (seq 0 64)) (oam p) (scanline r) sprite_height
      0 (sprite_scanline r) (sprite_zero_hit_possible r) in
  let r := set_sprite_scanline sl r in
  let r := set_sprite_zero_hit_possible hit r in
  let p := set_render r p in
  let p := set_status (field_set 5 1 (b2z (8 <? sprites_found)) (status p)) p in
  set_render
    (set_sprite_count (if 8 <? sprites_found then 8 else sprites_found) (render p)) p.

(** The [flip_byte] lambda. *)
Definition flip_byte (b : Z) : Z :=
  let b := u8 (Z.lor (Z.shiftr (Z.land b 0xF0) 4) (Z.shiftl (Z.land b 0x0F) 4)) in
  let b := u8 (Z.lor (Z.shiftr (Z.land b 0xCC) 2) (Z.shiftl (Z.land b 0x33) 2)) in
  u8 (Z.lor (Z.shiftr (Z.land b 0xAA) 1) (Z.shiftl (Z.land b 0x55) 1)).

(** [sprite_pattern_addr_lo] for secondary-OAM slot [i]. *)
Definition sprite_pattern_addr_lo (p : t) (i : Z) : Z :=
  let r := render p in
  let y := byte_at (sprite_scanline r) (4 * i) in
  let id := byte_at (sprite_scanline r) (4 * i + 1) in
  let attribute := byte_at (sprite_scanline r) (4 * i + 2) in
  let sprite_row := u8 (scanline r - y) in
  let flipped := nonzero (Z.land attribute 0x80) in
  let row := if flipped then 7 - Z.land sprite_row 0x07 else Z.land sprite_row 0x07 in
  if negb (nonzero (control_sprite_size p)) then
    u16 (Z.lor (Z.lor (Z.shiftl (control_sprite_table p) 12) (Z.shiftl id 4)) row)
  else
    let pattern_table := Z.land id 0x01 in
    let tile_id := Z.land id 0xFE in
    let tile :=
      if negb flipped
      then (if sprite_row <? 8 then tile_id else tile_id + 1)
      else (if sprite_row <? 8 then tile_id + 1 else tile_id) in
    u16 (Z.lor (Z.lor (Z.shiftl pattern_table 12) (Z.shiftl tile 4)) row).

(** One iteration of the sprite pattern fetch loop of cycle 340. *)
Definition sprite_fetch_one (i : Z) : State PS unit :=
  p <- getp (fun p => p) ;;
  let addr_lo := sprite_pattern_addr_lo p i in
  let addr_hi := u16 (addr_lo + 8) in
  lo <- fetch_byte addr_lo ;;
  hi <- fetch_byte addr_hi ;;
  let attribute := byte_at (sprite_scanline (render p)) (4 * i + 2) in
  let lo := if nonzero (Z.land attribute 0x40) then flip_byte lo else lo in
  let hi := if nonzero (Z.land attribute 0x40) then flip_byte hi else hi in
  modr (fun r =>
    set_sprite_shifter_pattern_hi (byte_set (sprite_shifter_pattern_hi r) i hi)
      (set_sprite_shifter_pattern_lo (byte_set (sprite_shifter_pattern_lo r) i lo) r)).

(** [for (i = 0; i < n; i++) body(i)]. *)
Fixpoint for_each (ixs : list Z) (body : Z -> State PS unit) : State PS unit :=
  match ixs with
  | [] => ret tt
  | i :: rest => body i ;;; for_each rest body
  end.

Definition upto (n : Z) : list Z := map Z.of_nat (seq 0 (Z.to_nat n)).

Definition sprite_fetch : State PS unit :=
  n <- getr sprite_count ;;
  for_each (upto n) sprite_fetch_one.

Definition palette_colors : list (list Z) :=
  [
    [84; 84; 84]; [0; 30; 116]; [8; 16; 144]; [48; 0; 136]; [68; 0; 100]; [92; 0; 48]; [84; 4; 0]; [60; 24; 0];
    [32; 42; 0]; [8; 58; 0]; [0; 64; 0]; [0; 60; 0]; [0; 50; 60]; [0; 0; 0]; [0; 0; 0]; [0; 0; 0];
    [152; 150; 152]; [8; 76; 196]; [48; 50; 236]; [92; 30; 228]; [136; 20; 176]; [160; 20; 100]; [152; 34; 32]; [120; 60; 0];
    [84; 90; 0]; [40; 114; 0]; [8; 124; 0]; [0; 118; 40]; [0; 102; 120]; [0; 0; 0]; [0; 0; 0]; [0; 0; 0];
    [236; 238; 236]; [76; 154; 236]; [120; 124; 236]; [176; 98; 236]; [228; 84; 236]; [236; 88; 180]; [236; 106; 100]; [212; 136; 32];
    [160; 170; 0]; [116; 196; 0]; [76; 208; 32]; [56; 204; 108]; [56; 180; 204]; [60; 60; 60]; [0; 0; 0]; [0; 0; 0];
    [236; 238; 236]; [168; 204; 236]; [188; 188; 236]; [212; 178; 236]; [236; 174; 236]; [236; 174; 212]; [236; 180; 176]; [228; 196; 144];
    [204; 210; 120]; [180; 222; 120]; [168; 226; 144]; [152; 226; 180]; [160; 214; 228]; [160; 162; 160]; [0; 0; 0]; [0; 0; 0] ].

(** The foreground search of [render_pixel]: the slots in order, stopping
    at the first opaque pixel.  The result is [fg_pixel], [fg_palette],
    [fg_priority] and [sprite_zero_being_rendered]. *)
Fixpoint foreground (ixs : list Z) (r : Render) (acc : Z * Z * Z * bool)
  : Z * Z * Z * bool :=
  match ixs with
  | [] => acc
  | i :: rest =>
      if byte_at (sprite_scanline r) (4 * i + 3) =? 0 then
        let fg_pixel_lo := b2z (0 <? Z.land (byte_at (sprite_shifter_pattern_lo r) i) 0x80) in
        let fg_pixel_hi := b2z (0 <? Z.land (byte_at (sprite_shifter_pattern_hi r) i) 0x80) in
        let fg_pixel := Z.lor (Z.shiftl fg_pixel_hi 1) fg_pixel_lo in
        let attribute := byte_at (sprite_scanline r) (4 * i + 2) in
        let fg_palette := Z.land attribute 0x03 + 0x04 in
        let fg_priority := b2z (Z.land attribute 0x20 =? 0) in
        let '(_, _, _, zero) := acc in
        if negb (fg_pixel =? 0) then
          (fg_pixel, fg_palette, fg_priority, if i =? 0 then true else zero)
        else foreground rest r (fg_pixel, fg_palette, fg_priority, zero)
      else foreground rest r acc
  end.

(** The sprite shifter update at the end of [render_pixel]. *)
Fixpoint advance_sprites (ixs : list Z) (r : Render) : Render :=
  match ixs with
  | [] => r
  | i :: rest =>
      let x := byte_at (sprite_scanline r) (4 * i + 3) in
      let r :=
        if 0 <? x then
          set_sprite_scanline (byte_set (sprite_scanline r) (4 * i + 3) (u8 (x - 1))) r
        else
          set_sprite_shifter_pattern_hi
            (byte_set (sprite_shifter_pattern_hi r) i
               (u8 (Z.shiftl (byte_at (sprite_shifter_pattern_hi r) i) 1)))
            (set_sprite_shifter_pattern_lo
               (byte_set (sprite_shifter_pattern_lo r) i
                  (u8 (Z.shiftl (byte_at (sprite_shifter_pattern_lo r) i) 1))) r) in
      advance_sprites rest r
  end.

(** [PPU::render_pixel]. *)
Definition render_pixel : State PS unit :=
  p <- getp (fun p => p) ;;
  let r := render p in
  let cy := cycle r in
  let bg :=
    if nonzero (mask_show_background p)
       && (nonzero (mask_show_background_left p) || (9 <=? cy)) then
      let bit_mux := Z.shiftr 0x8000 (fine_x p) in
      let p0_pixel := b2z (0 <? Z.land (bg_shifter_pattern_lo r) bit_mux) in
      let p1_pixel := b2z (0 <? Z.land (bg_shifter_pattern_hi r) bit_mux) in
      let bg_pal0 := b2z (0 <? Z.land (bg_shifter_attrib_lo r) bit_mux) in
      let bg_pal1 := b2z (0 <? Z.land (bg_shifter_attrib_hi r) bit_mux) in
      (Z.lor (Z.shiftl p1_pixel 1) p0_pixel, Z.lor (Z.shiftl bg_pal1 1) bg_pal0)
    else (0x00, 0x00) in
  let bg_pixel := fst bg in
  let bg_palette := snd bg in
  let slots := upto (Z.min (sprite_count r) 8) in
  let '(fg_pixel, fg_palette, fg_priority, zero) :=
    if nonzero (mask_show_sprites p)
       && (nonzero (mask_show_sprites_left p) || (9 <=? cy))
    then foreground slots r (0x00, 0x00, 0x00, false)
    else (0x00, 0x00, 0x00, sprite_zero_being_rendered r) in
  modr (set_sprite_zero_being_rendered zero) ;;;
  let '(pixel, palette_idx) :=
    if (bg_pixel =? 0) && (fg_pixel =? 0) then (0x00, 0x00)
    else if (bg_pixel =? 0) && (0 <? fg_pixel) then (fg_pixel, fg_palette)
    else if (0 <? bg_pixel) && (fg_pixel =? 0) then (bg_pixel, bg_palette)
    else if nonzero fg_priority then (fg_pixel, fg_palette)
    else (bg_pixel, bg_palette) in
  (if (0 <? bg_pixel) && (0 <? fg_pixel)
      && sprite_zero_hit_possible r && zero
      && nonzero (mask_show_background p) && nonzero (mask_show_sprites p)
      && (cy <? 256) then
     let left_clip :=
       negb (nonzero (mask_show_background_left p) && nonzero (mask_show_sprites_left p)) in
     if (if left_clip then 9 <=? cy else 2 <=? cy)
     then modp (fun p => set_status (field_set 6 1 1 (status p)) p)
     else ret tt
   else ret tt) ;;;
  c <- fetch_byte (0x3F00 + Z.shiftl palette_idx 2 + pixel) ;;
  let color_idx := Z.land c 0x3F in
  let rgb := default [] (palette_colors !! Z.to_nat color_idx) in
  let x := cy - 1 in
  let y := scanline r in
  let idx := (y * 256 + x) * 3 in
  modr (fun r =>
    set_screen
      (byte_set (byte_set (byte_set (screen r) (idx + 0) (byte_at rgb 0))
                          (idx + 1) (byte_at rgb 1))
                (idx + 2) (byte_at rgb 2)) r) ;;;
  modr (fun r => advance_sprites (upto (Z.min (sprite_count r) 8)) r).

(** The work of scanlines -1 to 239. *)
Definition visible_scanline : State PS unit :=
  p <- getp (fun p => p) ;;
  (if (scanline (render p) =? -1) && (cycle (render p) =? 0)
      && nonzero (Z.land (frame_count (render p)) 1) && rendering_enabled p
   then modr (set_cycle 1) else ret tt) ;;;
  cy <- getr cycle ;;
  (if ((2 <=? cy) && (cy <? 258)) || ((321 <=? cy) && (cy <? 338))
   then background_fetch else ret tt) ;;;
  (if cy =? 256 then modp increment_scroll_y else ret tt) ;;;
  (if cy =? 257 then
     modr load_background_shifters ;;; modp transfer_address_x
   else ret tt) ;;;
  line <- getr scanline ;;
  (if (cy =? 257) && (0 <=? line) then modp sprite_evaluation else ret tt) ;;;
  (if cy =? 340 then sprite_fetch else ret tt) ;;;
  (if (line =? -1) && (280 <=? cy) && (cy <? 305)
   then modp transfer_address_y else ret tt).

(** The mapper's scanline pulse: [cartridge->scanline()]. *)
Definition pulse_scanline : State PS unit :=
  modify (fun s : PS =>
    (fst s, match snd s with Some c => Some (Cartridge.scanline c) | None => None end)).

(** [cycle++] and the scanline and frame wrap. *)
Definition advance (r : Render) : Render :=
  let r := set_cycle (s16 (cycle r + 1)) r in
  if 341 <=? cycle r then
    let r := set_cycle 0 r in
    let r := set_scanline (s16 (scanline r + 1)) r in
    if 261 <=? scanline r then
      set_frame_count (u64 (frame_count r + 1))
        (set_frame_ready true (set_scanline (-1) r))
    else r
  else r.

(** [PPU::clock]: one PPU cycle. *)
Definition clock : State PS unit :=
  line <- getr scanline ;;
  (if (-1 <=? line) && (line <? 240) then visible_scanline else ret tt) ;;;
  line <- getr scanline ;;
  cy <- getr cycle ;;
  (if (241 <=? line) && (line <? 261) && (line =? 241) && (cy =? 1) then
     modp (fun p => set_status (field_set 7 1 1 (status p)) p) ;;;
     modp (fun p => if nonzero (control_nmi_enable p) then set_nmi true p else p)
   else ret tt) ;;;
  (if (line =? -1) && (cy =? 1) then
     modp (fun p => set_status (field_set 7 1 0 (status p)) p) ;;;
     modp (fun p => set_status (field_set 6 1 0 (status p)) p) ;;;
     modp (fun p => set_status (field_set 5 1 0 (status p)) p) ;;;
     modr (set_sprite_zero_being_rendered false)
   else ret tt) ;;;
  (if (0 <=? line) && (line <? 240) && (1 <=? cy) && (cy <? 257)
   then render_pixel else ret tt) ;;;
  p <- getp (fun p => p) ;;
  (if (cycle (render p) =? 260) && rendering_enabled p
      && (0 <=? scanline (render p)) && (scanline (render p) <? 240)
   then pulse_scanline else ret tt) ;;;
  modr advance.

(** [PPU::frame_complete]. *)
Definition frame_complete (p : t) : bool * t :=
  (frame_ready (render p), set_render (set_frame_ready false (render p)) p).

End WithMapper.
End PPU.

(** ** The APU (apu.hpp, apu.cpp)

    The mixer tables and [get_output_sample] are floating point and stay
    outside the model; they read the channel outputs and write nothing. *)

Module Pulse.
Record t : Type := mk {
  enabled : bool;
  duty_cycle : Z;
  halt_length : bool;
  constant_volume : bool;
  volume : Z;
  sweep_enabled : bool;
  sweep_period : Z;
  sweep_negate : bool;
  sweep_shift : Z;
  sweep_counter : Z;
  sweep_reload : bool;
  timer_period : Z;
  timer_counter : Z;
  length_counter : Z;
  envelope_counter : Z;
  envelope_volume : Z;
  envelope_start : bool;
  sequence_counter : Z;
  output : Z
}.

Definition set_enabled (v : bool) (r : t) : t :=
  {| enabled := v; duty_cycle := duty_cycle r; halt_length := halt_length r;
     constant_volume := constant_volume r; volume := volume r;
     sweep_enabled := sweep_enabled r; sweep_period := sweep_period r;
     sweep_negate := sweep_negate r; sweep_shift := sweep_shift r;
     sweep_counter := sweep_counter r; sweep_reload := sweep_reload r;
     timer_period := timer_period r; timer_counter := timer_counter r;
     length_counter := length_counter r; envelope_counter := envelope_counter r;
     envelope_volume := envelope_volume r; envelope_start := envelope_start r;
     sequence_counter := sequence_counter r; output := output r |}.
Definition set_duty_cycle (v : Z) (r : t) : t :=
  {| enabled := enabled r; duty_cycle := v; halt_length := halt_length r;
     constant_volume := constant_volume r; volume := volume r;
     sweep_enabled := sweep_enabled r; sweep_period := sweep_period r;
     sweep_negate := sweep_negate r; sweep_shift := sweep_shift r;
     sweep_counter := sweep_counter r; sweep_reload := sweep_reload r;
     timer_period := timer_period r; timer_counter := timer_counter r;
     length_counter := length_counter r; envelope_counter := envelope_counter r;
     envelope_volume := envelope_volume r; envelope_start := envelope_start r;
     sequence_counter := sequence_counter r; output := output r |}.
Definition set_halt_length (v : bool) (r : t) : t :=
  {| enabled := enabled r; duty_cycle := duty_cycle r; halt_length := v;
     constant_volume := constant_volume r; volume := volume r;
     sweep_enabled := sweep_enabled r; sweep_period := sweep_period r;
     sweep_negate := sweep_negate r; sweep_shift := sweep_shift r;
     sweep_counter := sweep_counter r; sweep_reload := sweep_reload r;
     timer_period := timer_period r; timer_counter := timer_counter r;
     length_counter := length_counter r; envelope_counter := envelope_counter r;
     envelope_volume := envelope_volume r; envelope_start := envelope_start r;
     sequence_counter := sequence_counter r; output := output r |}.
Definition set_constant_volume (v : bool) (r : t) : t :=
  {| enabled := enabled r; duty_cycle := duty_cycle r; halt_length := halt_length r;
     constant_volume := v; volume := volume r; sweep_enabled := sweep_enabled r;
     sweep_period := sweep_period r; sweep_negate := sweep_negate r;
     sweep_shift := sweep_shift r; sweep_counter := sweep_counter r;
     sweep_reload := sweep_reload r; timer_period := timer_period r;
     timer_counter := timer_counter r; length_counter := length_counter r;
     envelope_counter := envelope_counter r; envelope_volume := envelope_volume r;
     envelope_start := envelope_start r; sequence_counter := sequence_counter r;
     output := output r |}.
Definition set_volume (v : Z) (r : t) : t :=
  {| enabled := enabled r; duty_cycle := duty_cycle r; halt_length := halt_length r;
     constant_volume := constant_volume r; volume := v; sweep_enabled := sweep_enabled r;
     sweep_period := sweep_period r; sweep_negate := sweep_negate r;
     sweep_shift := sweep_shift r; sweep_counter := sweep_counter r;
     sweep_reload := sweep_reload r; timer_period := timer_period r;
     timer_counter := timer_counter r; length_counter := length_counter r;
     envelope_counter := envelope_counter r; envelope_volume := envelope_volume r;
     envelope_start := envelope_start r; sequence_counter := sequence_counter r;
     output := output r |}.
Definition set_sweep_enabled (v : bool) (r : t) : t :=
  {| enabled := enabled r; duty_cycle := duty_cycle r; halt_length := halt_length r;
     constant_volume := constant_volume r; volume := volume r; sweep_enabled := v;
     sweep_period := sweep_period r; sweep_negate := sweep_negate r;
     sweep_shift := sweep_shift r; sweep_counter := sweep_counter r;
     sweep_reload := sweep_reload r; timer_period := timer_period r;
     timer_counter := timer_counter r; length_counter := length_counter r;
     envelope_counter := envelope_counter r; envelope_volume := envelope_volume r;
     envelope_start := envelope_start r; sequence_counter := sequence_counter r;
     output := output r |}.
Definition set_sweep_period (v : Z) (r : t) : t :=
  {| enabled := enabled r; duty_cycle := duty_cycle r; halt_length := halt_length r;
     constant_volume := constant_volume r; volume := volume r;
     sweep_enabled := sweep_enabled r; sweep_period := v; sweep_negate := sweep_negate r;
     sweep_shift := sweep_shift r; sweep_counter := sweep_counter r;
     sweep_reload := sweep_reload r; timer_period := timer_period r;
     timer_counter := timer_counter r; length_counter := length_counter r;
     envelope_counter := envelope_counter r; envelope_volume := envelope_volume r;
     envelope_start := envelope_start r; sequence_counter := sequence_counter r;
     output := output r |}.
Definition set_sweep_negate (v : bool) (r : t) : t :=
  {| enabled := enabled r; duty_cycle := duty_cycle r; halt_length := halt_length r;
     constant_volume := constant_volume r; volume := volume r;
     sweep_enabled := sweep_enabled r; sweep_period := sweep_period r; sweep_negate := v;
     sweep_shift := sweep_shift r; sweep_counter := sweep_counter r;
     sweep_reload := sweep_reload r; timer_period := timer_period r;
     timer_counter := timer_counter r; length_counter := length_counter r;
     envelope_counter := envelope_counter r; envelope_volume := envelope_volume r;
     envelope_start := envelope_start r; sequence_counter := sequence_counter r;
     output := output r |}.
Definition set_sweep_shift (v : Z) (r : t) : t :=
  {| enabled := enabled r; duty_cycle := duty_cycle r; halt_length := halt_length r;
     constant_volume := constant_volume r; volume := volume r;
     sweep_enabled := sweep_enabled r; sweep_period := sweep_period r;
     sweep_negate := sweep_negate r; sweep_shift := v; sweep_counter := sweep_counter r;
     sweep_reload := sweep_reload r; timer_period := timer_period r;
     timer_counter := timer_counter r; length_counter := length_counter r;
     envelope_counter := envelope_counter r; envelope_volume := envelope_volume r;
     envelope_start := envelope_start r; sequence_counter := sequence_counter r;
     output := output r |}.
Definition set_sweep_counter (v : Z) (r : t) : t :=
  {| enabled := enabled r; duty_cycle := duty_cycle r; halt_length := halt_length r;
     constant_volume := constant_volume r; volume := volume r;
     sweep_enabled := sweep_enabled r; sweep_period := sweep_period r;
     sweep_negate := sweep_negate r; sweep_shift := sweep_shift r; sweep_counter := v;
     sweep_reload := sweep_reload r; timer_period := timer_period r;
     timer_counter := timer_counter r; length_counter := length_counter r;
     envelope_counter := envelope_counter r; envelope_volume := envelope_volume r;
     envelope_start := envelope_start r; sequence_counter := sequence_counter r;
     output := output r |}.
Definition set_sweep_reload (v : bool) (r : t) : t :=
  {| enabled := enabled r; duty_cycle := duty_cycle r; halt_length := halt_length r;
     constant_volume := constant_volume r; volume := volume r;
     sweep_enabled := sweep_enabled r; sweep_period := sweep_period r;
     sweep_negate := sweep_negate r; sweep_shift := sweep_shift r;
     sweep_counter := sweep_counter r; sweep_reload := v; timer_period := timer_period r;
     timer_counter := timer_counter r; length_counter := length_counter r;
     envelope_counter := envelope_counter r; envelope_volume := envelope_volume r;
     envelope_start := envelope_start r; sequence_counter := sequence_counter r;
     output := output r |}.
Definition set_timer_period (v : Z) (r : t) : t :=
  {| enabled := enabled r; duty_cycle := duty_cycle r; halt_length := halt_length r;
     constant_volume := constant_volume r; volume := volume r;
     sweep_enabled := sweep_enabled r; sweep_period := sweep_period r;
     sweep_negate := sweep_negate r; sweep_shift := sweep_shift r;
     sweep_counter := sweep_counter r; sweep_reload := sweep_reload r; timer_period := v;
     timer_counter := timer_counter r; length_counter := length_counter r;
     envelope_counter := envelope_counter r; envelope_volume := envelope_volume r;
     envelope_start := envelope_start r; sequence_counter := sequence_counter r;
     output := output r |}.
Definition set_timer_counter (v : Z) (r : t) : t :=
  {| enabled := enabled r; duty_cycle := duty_cycle r; halt_length := halt_length r;
     constant_volume := constant_volume r; volume := volume r;
     sweep_enabled := sweep_enabled r; sweep_period := sweep_period r;
     sweep_negate := sweep_negate r; sweep_shift := sweep_shift r;
     sweep_counter := sweep_counter r; sweep_reload := sweep_reload r;
     timer_period := timer_period r; timer_counter := v;
     length_counter := length_counter r; envelope_counter := envelope_counter r;
     envelope_volume := envelope_volume r; envelope_start := envelope_start r;
     sequence_counter := sequence_counter r; output := output r |}.
Definition set_length_counter (v : Z) (r : t) : t :=
  {| enabled := enabled r; duty_cycle := duty_cycle r; halt_length := halt_length r;
     constant_volume := constant_volume r; volume := volume r;
     sweep_enabled := sweep_enabled r; sweep_period := sweep_period r;
     sweep_negate := sweep_negate r; sweep_shift := sweep_shift r;
     sweep_counter := sweep_counter r; sweep_reload := sweep_reload r;
     timer_period := timer_period r; timer_counter := timer_counter r;
     length_counter := v; envelope_counter := envelope_counter r;
     envelope_volume := envelope_volume r; envelope_start := envelope_start r;
     sequence_counter := sequence_counter r; output := output r |}.
Definition set_envelope_counter (v : Z) (r : t) : t :=
  {| enabled := enabled r; duty_cycle := duty_cycle r; halt_length := halt_length r;
     constant_volume := constant_volume r; volume := volume r;
     sweep_enabled := sweep_enabled r; sweep_period := sweep_period r;
     sweep_negate := sweep_negate r; sweep_shift := sweep_shift r;
     sweep_counter := sweep_counter r; sweep_reload := sweep_reload r;
     timer_period := timer_period r; timer_counter := timer_counter r;
     length_counter := length_counter r; envelope_counter := v;
     envelope_volume := envelope_volume r; envelope_start := envelope_start r;
     sequence_counter := sequence_counter r; output := output r |}.
Definition set_envelope_volume (v : Z) (r : t) : t :=
  {| enabled := enabled r; duty_cycle := duty_cycle r; halt_length := halt_length r;
     constant_volume := constant_volume r; volume := volume r;
     sweep_enabled := sweep_enabled r; sweep_period := sweep_period r;
     sweep_negate := sweep_negate r; sweep_shift := sweep_shift r;
     sweep_counter := sweep_counter r; sweep_reload := sweep_reload r;
     timer_period := timer_period r; timer_counter := timer_counter r;
     length_counter := length_counter r; envelope_counter := envelope_counter r;
     envelope_volume := v; envelope_start := envelope_start r;
     sequence_counter := sequence_counter r; output := output r |}.
Definition set_envelope_start (v : bool) (r : t) : t :=
  {| enabled := enabled r; duty_cycle := duty_cycle r; halt_length := halt_length r;
     constant_volume := constant_volume r; volume := volume r;
     sweep_enabled := sweep_enabled r; sweep_period := sweep_period r;
     sweep_negate := sweep_negate r; sweep_shift := sweep_shift r;
     sweep_counter := sweep_counter r; sweep_reload := sweep_reload r;
     timer_period := timer_period r; timer_counter := timer_counter r;
     length_counter := length_counter r; envelope_counter := envelope_counter r;
     envelope_volume := envelope_volume r; envelope_start := v;
     sequence_counter := sequence_counter r; output := output r |}.
Definition set_sequence_counter (v : Z) (r : t) : t :=
  {| enabled := enabled r; duty_cycle := duty_cycle r; halt_length := halt_length r;
     constant_volume := constant_volume r; volume := volume r;
     sweep_enabled := sweep_enabled r; sweep_period := sweep_period r;
     sweep_negate := sweep_negate r; sweep_shift := sweep_shift r;
     sweep_counter := sweep_counter r; sweep_reload := sweep_reload r;
     timer_period := timer_period r; timer_counter := timer_counter r;
     length_counter := length_counter r; envelope_counter := envelope_counter r;
     envelope_volume := envelope_volume r; envelope_start := envelope_start r;
     sequence_counter := v; output := output r |}.
Definition set_output (v : Z) (r : t) : t :=
  {| enabled := enabled r; duty_cycle := duty_cycle r; halt_length := halt_length r;
     constant_volume := constant_volume r; volume := volume r;
     sweep_enabled := sweep_enabled r; sweep_period := sweep_period r;
     sweep_negate := sweep_negate r; sweep_shift := sweep_shift r;
     sweep_counter := sweep_counter r; sweep_reload := sweep_reload r;
     timer_period := timer_period r; timer_counter := timer_counter r;
     length_counter := length_counter r; envelope_counter := envelope_counter r;
     envelope_volume := envelope_volume r; envelope_start := envelope_start r;
     sequence_counter := sequence_counter r; output := v |}.

(** Value initialisation, [pulse = {}]. *)
Definition zero : t :=
  {| enabled := false; duty_cycle := 0; halt_length := false;
     constant_volume := false; volume := 0; sweep_enabled := false;
     sweep_period := 0; sweep_negate := false; sweep_shift := 0;
     sweep_counter := 0; sweep_reload := false; timer_period := 0;
     timer_counter := 0; length_counter := 0; envelope_counter := 0;
     envelope_volume := 0; envelope_start := false; sequence_counter := 0;
     output := 0 |}.

(** [APU::duty_table]. *)
Definition duty_table : list (list Z) :=
  [ [0; 1; 0; 0; 0; 0; 0; 0];
    [0; 1; 1; 0; 0; 0; 0; 0];
    [0; 1; 1; 1; 1; 0; 0; 0];
    [1; 0; 0; 1; 1; 1; 1; 1] ].

(** [APU::Pulse::clock_timer]. *)
Definition clock_timer (p : t) : t :=
  let p :=
    if timer_counter p =? 0 then
      set_sequence_counter (u8 ((sequence_counter p + 1) mod 8))
        (set_timer_counter (timer_period p) p)
    else set_timer_counter (u16 (timer_counter p - 1)) p in
  let muted :=
    negb (enabled p) || (length_counter p =? 0) || (timer_period p <? 8) in
  let muted :=
    if sweep_enabled p && (0 <? sweep_shift p) then
      let change := u16 (Z.shiftr (timer_period p) (sweep_shift p)) in
      let target :=
        if sweep_negate p then u16 (timer_period p - change)
        else u16 (timer_period p + change) in
      if 0x7FF <? target then true else muted
    else muted in
  if negb muted then
    set_output
      (u8 (byte_at (default [] (duty_table !! Z.to_nat (duty_cycle p)))
                   (sequence_counter p)
           * (if constant_volume p then volume p else envelope_volume p))) p
  else set_output 0 p.

(** [APU::Pulse::clock_envelope]. *)
Definition clock_envelope (p : t) : t :=
  if envelope_start p then
    set_envelope_counter (volume p)
      (set_envelope_volume 15 (set_envelope_start false p))
  else if envelope_counter p =? 0 then
    let p := set_envelope_counter (volume p) p in
    if envelope_volume p =? 0 then
      if halt_length p then set_envelope_volume 15 p else p
    else set_envelope_volume (u8 (envelope_volume p - 1)) p
  else set_envelope_counter (u8 (envelope_counter p - 1)) p.

(** [APU::Pulse::clock_sweep]. *)
Definition clock_sweep (channel_one : bool) (p : t) : t :=
  let p :=
    if (sweep_counter p =? 0) && sweep_enabled p && (0 <? sweep_shift p)
       && (8 <=? timer_period p) then
      let change := u16 (Z.shiftr (timer_period p) (sweep_shift p)) in
      if sweep_negate p then
        let p := set_timer_period (u16 (timer_period p - change)) p in
        if channel_one then set_timer_period (u16 (timer_period p - 1)) p else p
      else set_timer_period (u16 (timer_period p + change)) p
    else p in
  if (sweep_counter p =? 0) || sweep_reload p then
    set_sweep_reload false (set_sweep_counter (sweep_period p) p)
  else set_sweep_counter (u8 (sweep_counter p - 1)) p.

(** [APU::Pulse::clock_length]. *)
Definition clock_length (p : t) : t :=
  if negb (halt_length p) && (0 <? length_counter p)
  then set_length_counter (u8 (length_counter p - 1)) p else p.

End Pulse.

Module Triangle.
Record t : Type := mk {
  enabled : bool;
  control_flag : bool;
  linear_counter_load : Z;
  timer_period : Z;
  timer_counter : Z;
  length_counter : Z;
  linear_counter : Z;
  linear_counter_reload : bool;
  sequence_counter : Z;
  output : Z
}.

Definition set_enabled (v : bool) (r : t) : t :=
  {| enabled := v; control_flag := control_flag r;
     linear_counter_load := linear_counter_load r; timer_period := timer_period r;
     timer_counter := timer_counter r; length_counter := length_counter r;
     linear_counter := linear_counter r; linear_counter_reload := linear_counter_reload r;
     sequence_counter := sequence_counter r; output := output r |}.
Definition set_control_flag (v : bool) (r : t) : t :=
  {| enabled := enabled r; control_flag := v;
     linear_counter_load := linear_counter_load r; timer_period := timer_period r;
     timer_counter := timer_counter r; length_counter := length_counter r;
     linear_counter := linear_counter r; linear_counter_reload := linear_counter_reload r;
     sequence_counter := sequence_counter r; output := output r |}.
Definition set_linear_counter_load (v : Z) (r : t) : t :=
  {| enabled := enabled r; control_flag := control_flag r; linear_counter_load := v;
     timer_period := timer_period r; timer_counter := timer_counter r;
     length_counter := length_counter r; linear_counter := linear_counter r;
     linear_counter_reload := linear_counter_reload r;
     sequence_counter := sequence_counter r; output := output r |}.
Definition set_timer_period (v : Z) (r : t) : t :=
  {| enabled := enabled r; control_flag := control_flag r;
     linear_counter_load := linear_counter_load r; timer_period := v;
     timer_counter := timer_counter r; length_counter := length_counter r;
     linear_counter := linear_counter r; linear_counter_reload := linear_counter_reload r;
     sequence_counter := sequence_counter r; output := output r |}.
Definition set_timer_counter (v : Z) (r : t) : t :=
  {| enabled := enabled r; control_flag := control_flag r;
     linear_counter_load := linear_counter_load r; timer_period := timer_period r;
     timer_counter := v; length_counter := length_counter r;
     linear_counter := linear_counter r; linear_counter_reload := linear_counter_reload r;
     sequence_counter := sequence_counter r; output := output r |}.
Definition set_length_counter (v : Z) (r : t) : t :=
  {| enabled := enabled r; control_flag := control_flag r;
     linear_counter_load := linear_counter_load r; timer_period := timer_period r;
     timer_counter := timer_counter r; length_counter := v;
     linear_counter := linear_counter r; linear_counter_reload := linear_counter_reload r;
     sequence_counter := sequence_counter r; output := output r |}.
Definition set_linear_counter (v : Z) (r : t) : t :=
  {| enabled := enabled r; control_flag := control_flag r;
     linear_counter_load := linear_counter_load r; timer_period := timer_period r;
     timer_counter := timer_counter r; length_counter := length_counter r;
     linear_counter := v; linear_counter_reload := linear_counter_reload r;
     sequence_counter := sequence_counter r; output := output r |}.
Definition set_linear_counter_reload (v : bool) (r : t) : t :=
  {| enabled := enabled r; control_flag := control_flag r;
     linear_counter_load := linear_counter_load r; timer_period := timer_period r;
     timer_counter := timer_counter r; length_counter := length_counter r;
     linear_counter := linear_counter r; linear_counter_reload := v;
     sequence_counter := sequence_counter r; output := output r |}.
Definition set_sequence_counter (v : Z) (r : t) : t :=
  {| enabled := enabled r; control_flag := control_flag r;
     linear_counter_load := linear_counter_load r; timer_period := timer_period r;
     timer_counter := timer_counter r; length_counter := length_counter r;
     linear_counter := linear_counter r; linear_counter_reload := linear_counter_reload r;
     sequence_counter := v; output := output r |}.
Definition set_output (v : Z) (r : t) : t :=
  {| enabled := enabled r; control_flag := control_flag r;
     linear_counter_load := linear_counter_load r; timer_period := timer_period r;
     timer_counter := timer_counter r; length_counter := length_counter r;
     linear_counter := linear_counter r; linear_counter_reload := linear_counter_reload r;
     sequence_counter := sequence_counter r; output := v |}.

Definition zero : t :=
  {| enabled := false; control_flag := false; linear_counter_load := 0;
     timer_period := 0; timer_counter := 0; length_counter := 0;
     linear_counter := 0; linear_counter_reload := false;
     sequence_counter := 0; output := 0 |}.

(** [APU::triangle_sequence]. *)
Definition triangle_sequence : list Z :=
  [ 15; 14; 13; 12; 11; 10; 9; 8; 7; 6; 5; 4; 3; 2; 1; 0;
    0; 1; 2; 3; 4; 5; 6; 7; 8; 9; 10; 11; 12; 13; 14; 15 ].

(** [APU::Triangle::clock_timer]. *)
Definition clock_timer (p : t) : t :=
  let p :=
    if timer_counter p =? 0 then
      let p := set_timer_counter (timer_period p) p in
      if (0 <? length_counter p) && (0 <? linear_counter p)
      then set_sequence_counter (u8 ((sequence_counter p + 1) mod 32)) p else p
    else set_timer_counter (u16 (timer_counter p - 1)) p in
  if enabled p && (0 <? length_counter p) && (0 <? linear_counter p)
  then set_output (byte_at triangle_sequence (sequence_counter p)) p
  else set_output 0 p.

(** [APU::Triangle::clock_linear_counter]. *)
Definition clock_linear_counter (p : t) : t :=
  let p :=
    if linear_counter_reload p then set_linear_counter (linear_counter_load p) p
    else if 0 <? linear_counter p then set_linear_counter (u8 (linear_counter p - 1)) p
    else p in
  if negb (control_flag p) then set_linear_counter_reload false p else p.

(** [APU::Triangle::clock_length]. *)
Definition clock_length (p : t) : t :=
  if negb (control_flag p) && (0 <? length_counter p)
  then set_length_counter (u8 (length_counter p - 1)) p else p.

End Triangle.

Module Noise.
Record t : Type := mk {
  enabled : bool;
  halt_length : bool;
  constant_volume : bool;
  volume : Z;
  mode : bool;
  timer_period : Z;
  timer_counter : Z;
  length_counter : Z;
  envelope_counter : Z;
  envelope_volume : Z;
  envelope_start : bool;
  shift_register : Z;
  output : Z
}.

Definition set_enabled (v : bool) (r : t) : t :=
  {| enabled := v; halt_length := halt_length r; constant_volume := constant_volume r;
     volume := volume r; mode := mode r; timer_period := timer_period r;
     timer_counter := timer_counter r; length_counter := length_counter r;
     envelope_counter := envelope_counter r; envelope_volume := envelope_volume r;
     envelope_start := envelope_start r; shift_register := shift_register r;
     output := output r |}.
Definition set_halt_length (v : bool) (r : t) : t :=
  {| enabled := enabled r; halt_length := v; constant_volume := constant_volume r;
     volume := volume r; mode := mode r; timer_period := timer_period r;
     timer_counter := timer_counter r; length_counter := length_counter r;
     envelope_counter := envelope_counter r; envelope_volume := envelope_volume r;
     envelope_start := envelope_start r; shift_register := shift_register r;
     output := output r |}.
Definition set_constant_volume (v : bool) (r : t) : t :=
  {| enabled := enabled r; halt_length := halt_length r; constant_volume := v;
     volume := volume r; mode := mode r; timer_period := timer_period r;
     timer_counter := timer_counter r; length_counter := length_counter r;
     envelope_counter := envelope_counter r; envelope_volume := envelope_volume r;
     envelope_start := envelope_start r; shift_register := shift_register r;
     output := output r |}.
Definition set_volume (v : Z) (r : t) : t :=
  {| enabled := enabled r; halt_length := halt_length r;
     constant_volume := constant_volume r; volume := v; mode := mode r;
     timer_period := timer_period r; timer_counter := timer_counter r;
     length_counter := length_counter r; envelope_counter := envelope_counter r;
     envelope_volume := envelope_volume r; envelope_start := envelope_start r;
     shift_register := shift_register r; output := output r |}.
Definition set_mode (v : bool) (r : t) : t :=
  {| enabled := enabled r; halt_length := halt_length r;
     constant_volume := constant_volume r; volume := volume r; mode := v;
     timer_period := timer_period r; timer_counter := timer_counter r;
     length_counter := length_counter r; envelope_counter := envelope_counter r;
     envelope_volume := envelope_volume r; envelope_start := envelope_start r;
     shift_register := shift_register r; output := output r |}.
Definition set_timer_period (v : Z) (r : t) : t :=
  {| enabled := enabled r; halt_length := halt_length r;
     constant_volume := constant_volume r; volume := volume r; mode := mode r;
     timer_period := v; timer_counter := timer_counter r;
     length_counter := length_counter r; envelope_counter := envelope_counter r;
     envelope_volume := envelope_volume r; envelope_start := envelope_start r;
     shift_register := shift_register r; output := output r |}.
Definition set_timer_counter (v : Z) (r : t) : t :=
  {| enabled := enabled r; halt_length := halt_length r;
     constant_volume := constant_volume r; volume := volume r; mode := mode r;
     timer_period := timer_period r; timer_counter := v;
     length_counter := length_counter r; envelope_counter := envelope_counter r;
     envelope_volume := envelope_volume r; envelope_start := envelope_start r;
     shift_register := shift_register r; output := output r |}.
Definition set_length_counter (v : Z) (r : t) : t :=
  {| enabled := enabled r; halt_length := halt_length r;
     constant_volume := constant_volume r; volume := volume r; mode := mode r;
     timer_period := timer_period r; timer_counter := timer_counter r;
     length_counter := v; envelope_counter := envelope_counter r;
     envelope_volume := envelope_volume r; envelope_start := envelope_start r;
     shift_register := shift_register r; output := output r |}.
Definition set_envelope_counter (v : Z) (r : t) : t :=
  {| enabled := enabled r; halt_length := halt_length r;
     constant_volume := constant_volume r; volume := volume r; mode := mode r;
     timer_period := timer_period r; timer_counter := timer_counter r;
     length_counter := length_counter r; envelope_counter := v;
     envelope_volume := envelope_volume r; envelope_start := envelope_start r;
     shift_register := shift_register r; output := output r |}.
Definition set_envelope_volume (v : Z) (r : t) : t :=
  {| enabled := enabled r; halt_length := halt_length r;
     constant_volume := constant_volume r; volume := volume r; mode := mode r;
     timer_period := timer_period r; timer_counter := timer_counter r;
     length_counter := length_counter r; envelope_counter := envelope_counter r;
     envelope_volume := v; envelope_start := envelope_start r;
     shift_register := shift_register r; output := output r |}.
Definition set_envelope_start (v : bool) (r : t) : t :=
  {| enabled := enabled r; halt_length := halt_length r;
     constant_volume := constant_volume r; volume := volume r; mode := mode r;
     timer_period := timer_period r; timer_counter := timer_counter r;
     length_counter := length_counter r; envelope_counter := envelope_counter r;
     envelope_volume := envelope_volume r; envelope_start := v;
     shift_register := shift_register r; output := output r |}.
Definition set_shift_register (v : Z) (r : t) : t :=
  {| enabled := enabled r; halt_length := halt_length r;
     constant_volume := constant_volume r; volume := volume r; mode := mode r;
     timer_period := timer_period r; timer_counter := timer_counter r;
     length_counter := length_counter r; envelope_counter := envelope_counter r;
     envelope_volume := envelope_volume r; envelope_start := envelope_start r;
     shift_register := v; output := output r |}.
Definition set_output (v : Z) (r : t) : t :=
  {| enabled := enabled r; halt_length := halt_length r;
     constant_volume := constant_volume r; volume := volume r; mode := mode r;
     timer_period := timer_period r; timer_counter := timer_counter r;
     length_counter := length_counter r; envelope_counter := envelope_counter r;
     envelope_volume := envelope_volume r; envelope_start := envelope_start r;
     shift_register := shift_register r; output := v |}.

Definition zero : t :=
  {| enabled := false; halt_length := false; constant_volume := false;
     volume := 0; mode := false; timer_period := 0; timer_counter := 0;
     length_counter := 0; envelope_counter := 0; envelope_volume := 0;
     envelope_start := false; shift_register := 0; output := 0 |}.

(** One shift of the LFSR, the body of the [timer_counter == 0] branch of
    [clock_timer]: [feedback] is bit 0 XOR bit 6 ([mode]) or bit 1, the
    register moves right by one and [feedback] enters at bit 14. *)
Definition lfsr_step (mode : bool) (shift_register : Z) : Z :=
  let feedback := u16 (Z.land shift_register 0x0001) in
  let feedback :=
    if mode then u16 (Z.lxor feedback (Z.land (Z.shiftr shift_register 6) 0x0001))
    else u16 (Z.lxor feedback (Z.land (Z.shiftr shift_register 1) 0x0001)) in
  let shift_register := u16 (Z.shiftr shift_register 1) in
  u16 (Z.lor shift_register (Z.shiftl feedback 14)).

(** [APU::Noise::clock_timer]. *)
Definition clock_timer (p : t) : t :=
  let p :=
    if timer_counter p =? 0 then
      let p := set_timer_counter (timer_period p) p in
      set_shift_register (lfsr_step (mode p) (shift_register p)) p
    else set_timer_counter (u16 (timer_counter p - 1)) p in
  if enabled p && (0 <? length_counter p)
     && (Z.land (shift_register p) 0x0001 =? 0)
  then set_output (if constant_volume p then volume p else envelope_volume p) p
  else set_output 0 p.

(** [APU::Noise::clock_envelope]. *)
Definition clock_envelope (p : t) : t :=
  if envelope_start p then
    set_envelope_counter (volume p)
      (set_envelope_volume 15 (set_envelope_start false p))
  else if envelope_counter p =? 0 then
    let p := set_envelope_counter (volume p) p in
    if envelope_volume p =? 0 then
      if halt_length p then set_envelope_volume 15 p else p
    else set_envelope_volume (u8 (envelope_volume p - 1)) p
  else set_envelope_counter (u8 (envelope_counter p - 1)) p.

(** [APU::Noise::clock_length]. *)
Definition clock_length (p : t) : t :=
  if negb (halt_length p) && (0 <? length_counter p)
  then set_length_counter (u8 (length_counter p - 1)) p else p.

End Noise.

Module DMC.
(** [read_callback] is a function pointer; the only function ever
    installed is [Bus::dmc_read_callback], so the field records whether
    the pointer is set. *)
Record t : Type := mk {
  enabled : bool;
  irq_enabled : bool;
  loop : bool;
  rate : Z;
  output_level : Z;
  sample_address : Z;
  sample_length : Z;
  current_address : Z;
  bytes_remaining : Z;
  sample_buffer : Z;
  sample_buffer_empty : bool;
  shift_register : Z;
  bits_remaining : Z;
  silence : bool;
  timer_period : Z;
  timer_counter : Z;
  read_callback : bool
}.

Definition set_enabled (v : bool) (r : t) : t :=
  {| enabled := v; irq_enabled := irq_enabled r; loop := loop r; rate := rate r;
     output_level := output_level r; sample_address := sample_address r;
     sample_length := sample_length r; current_address := current_address r;
     bytes_remaining := bytes_remaining r; sample_buffer := sample_buffer r;
     sample_buffer_empty := sample_buffer_empty r; shift_register := shift_register r;
     bits_remaining := bits_remaining r; silence := silence r;
     timer_period := timer_period r; timer_counter := timer_counter r;
     read_callback := read_callback r |}.
Definition set_irq_enabled (v : bool) (r : t) : t :=
  {| enabled := enabled r; irq_enabled := v; loop := loop r; rate := rate r;
     output_level := output_level r; sample_address := sample_address r;
     sample_length := sample_length r; current_address := current_address r;
     bytes_remaining := bytes_remaining r; sample_buffer := sample_buffer r;
     sample_buffer_empty := sample_buffer_empty r; shift_register := shift_register r;
     bits_remaining := bits_remaining r; silence := silence r;
     timer_period := timer_period r; timer_counter := timer_counter r;
     read_callback := read_callback r |}.
Definition set_loop (v : bool) (r : t) : t :=
  {| enabled := enabled r; irq_enabled := irq_enabled r; loop := v; rate := rate r;
     output_level := output_level r; sample_address := sample_address r;
     sample_length := sample_length r; current_address := current_address r;
     bytes_remaining := bytes_remaining r; sample_buffer := sample_buffer r;
     sample_buffer_empty := sample_buffer_empty r; shift_register := shift_register r;
     bits_remaining := bits_remaining r; silence := silence r;
     timer_period := timer_period r; timer_counter := timer_counter r;
     read_callback := read_callback r |}.
Definition set_rate (v : Z) (r : t) : t :=
  {| enabled := enabled r; irq_enabled := irq_enabled r; loop := loop r; rate := v;
     output_level := output_level r; sample_address := sample_address r;
     sample_length := sample_length r; current_address := current_address r;
     bytes_remaining := bytes_remaining r; sample_buffer := sample_buffer r;
     sample_buffer_empty := sample_buffer_empty r; shift_register := shift_register r;
     bits_remaining := bits_remaining r; silence := silence r;
     timer_period := timer_period r; timer_counter := timer_counter r;
     read_callback := read_callback r |}.
Definition set_output_level (v : Z) (r : t) : t :=
  {| enabled := enabled r; irq_enabled := irq_enabled r; loop := loop r; rate := rate r;
     output_level := v; sample_address := sample_address r;
     sample_length := sample_length r; current_address := current_address r;
     bytes_remaining := bytes_remaining r; sample_buffer := sample_buffer r;
     sample_buffer_empty := sample_buffer_empty r; shift_register := shift_register r;
     bits_remaining := bits_remaining r; silence := silence r;
     timer_period := timer_period r; timer_counter := timer_counter r;
     read_callback := read_callback r |}.
Definition set_sample_address (v : Z) (r : t) : t :=
  {| enabled := enabled r; irq_enabled := irq_enabled r; loop := loop r; rate := rate r;
     output_level := output_level r; sample_address := v;
     sample_length := sample_length r; current_address := current_address r;
     bytes_remaining := bytes_remaining r; sample_buffer := sample_buffer r;
     sample_buffer_empty := sample_buffer_empty r; shift_register := shift_register r;
     bits_remaining := bits_remaining r; silence := silence r;
     timer_period := timer_period r; timer_counter := timer_counter r;
     read_callback := read_callback r |}.
Definition set_sample_length (v : Z) (r : t) : t :=
  {| enabled := enabled r; irq_enabled := irq_enabled r; loop := loop r; rate := rate r;
     output_level := output_level r; sample_address := sample_address r;
     sample_length := v; current_address := current_address r;
     bytes_remaining := bytes_remaining r; sample_buffer := sample_buffer r;
     sample_buffer_empty := sample_buffer_empty r; shift_register := shift_register r;
     bits_remaining := bits_remaining r; silence := silence r;
     timer_period := timer_period r; timer_counter := timer_counter r;
     read_callback := read_callback r |}.
Definition set_current_address (v : Z) (r : t) : t :=
  {| enabled := enabled r; irq_enabled := irq_enabled r; loop := loop r; rate := rate r;
     output_level := output_level r; sample_address := sample_address r;
     sample_length := sample_length r; current_address := v;
     bytes_remaining := bytes_remaining r; sample_buffer := sample_buffer r;
     sample_buffer_empty := sample_buffer_empty r; shift_register := shift_register r;
     bits_remaining := bits_remaining r; silence := silence r;
     timer_period := timer_period r; timer_counter := timer_counter r;
     read_callback := read_callback r |}.
Definition set_bytes_remaining (v : Z) (r : t) : t :=
  {| enabled := enabled r; irq_enabled := irq_enabled r; loop := loop r; rate := rate r;
     output_level := output_level r; sample_address := sample_address r;
     sample_length := sample_length r; current_address := current_address r;
     bytes_remaining := v; sample_buffer := sample_buffer r;
     sample_buffer_empty := sample_buffer_empty r; shift_register := shift_register r;
     bits_remaining := bits_remaining r; silence := silence r;
     timer_period := timer_period r; timer_counter := timer_counter r;
     read_callback := read_callback r |}.
Definition set_sample_buffer (v : Z) (r : t) : t :=
  {| enabled := enabled r; irq_enabled := irq_enabled r; loop := loop r; rate := rate r;
     output_level := output_level r; sample_address := sample_address r;
     sample_length := sample_length r; current_address := current_address r;
     bytes_remaining := bytes_remaining r; sample_buffer := v;
     sample_buffer_empty := sample_buffer_empty r; shift_register := shift_register r;
     bits_remaining := bits_remaining r; silence := silence r;
     timer_period := timer_period r; timer_counter := timer_counter r;
     read_callback := read_callback r |}.
Definition set_sample_buffer_empty (v : bool) (r : t) : t :=
  {| enabled := enabled r; irq_enabled := irq_enabled r; loop := loop r; rate := rate r;
     output_level := output_level r; sample_address := sample_address r;
     sample_length := sample_length r; current_address := current_address r;
     bytes_remaining := bytes_remaining r; sample_buffer := sample_buffer r;
     sample_buffer_empty := v; shift_register := shift_register r;
     bits_remaining := bits_remaining r; silence := silence r;
     timer_period := timer_period r; timer_counter := timer_counter r;
     read_callback := read_callback r |}.
Definition set_shift_register (v : Z) (r : t) : t :=
  {| enabled := enabled r; irq_enabled := irq_enabled r; loop := loop r; rate := rate r;
     output_level := output_level r; sample_address := sample_address r;
     sample_length := sample_length r; current_address := current_address r;
     bytes_remaining := bytes_remaining r; sample_buffer := sample_buffer r;
     sample_buffer_empty := sample_buffer_empty r; shift_register := v;
     bits_remaining := bits_remaining r; silence := silence r;
     timer_period := timer_period r; timer_counter := timer_counter r;
     read_callback := read_callback r |}.
Definition set_bits_remaining (v : Z) (r : t) : t :=
  {| enabled := enabled r; irq_enabled := irq_enabled r; loop := loop r; rate := rate r;
     output_level := output_level r; sample_address := sample_address r;
     sample_length := sample_length r; current_address := current_address r;
     bytes_remaining := bytes_remaining r; sample_buffer := sample_buffer r;
     sample_buffer_empty := sample_buffer_empty r; shift_register := shift_register r;
     bits_remaining := v; silence := silence r; timer_period := timer_period r;
     timer_counter := timer_counter r; read_callback := read_callback r |}.
Definition set_silence (v : bool) (r : t) : t :=
  {| enabled := enabled r; irq_enabled := irq_enabled r; loop := loop r; rate := rate r;
     output_level := output_level r; sample_address := sample_address r;
     sample_length := sample_length r; current_address := current_address r;
     bytes_remaining := bytes_remaining r; sample_buffer := sample_buffer r;
     sample_buffer_empty := sample_buffer_empty r; shift_register := shift_register r;
     bits_remaining := bits_remaining r; silence := v; timer_period := timer_period r;
     timer_counter := timer_counter r; read_callback := read_callback r |}.
Definition set_timer_period (v : Z) (r : t) : t :=
  {| enabled := enabled r; irq_enabled := irq_enabled r; loop := loop r; rate := rate r;
     output_level := output_level r; sample_address := sample_address r;
     sample_length := sample_length r; current_address := current_address r;
     bytes_remaining := bytes_remaining r; sample_buffer := sample_buffer r;
     sample_buffer_empty := sample_buffer_empty r; shift_register := shift_register r;
     bits_remaining := bits_remaining r; silence := silence r; timer_period := v;
     timer_counter := timer_counter r; read_callback := read_callback r |}.
Definition set_timer_counter (v : Z) (r : t) : t :=
  {| enabled := enabled r; irq_enabled := irq_enabled r; loop := loop r; rate := rate r;
     output_level := output_level r; sample_address := sample_address r;
     sample_length := sample_length r; current_address := current_address r;
     bytes_remaining := bytes_remaining r; sample_buffer := sample_buffer r;
     sample_buffer_empty := sample_buffer_empty r; shift_register := shift_register r;
     bits_remaining := bits_remaining r; silence := silence r;
     timer_period := timer_period r; timer_counter := v; read_callback := read_callback r |}.
Definition set_read_callback (v : bool) (r : t) : t :=
  {| enabled := enabled r; irq_enabled := irq_enabled r; loop := loop r; rate := rate r;
     output_level := output_level r; sample_address := sample_address r;
     sample_length := sample_length r; current_address := current_address r;
     bytes_remaining := bytes_remaining r; sample_buffer := sample_buffer r;
     sample_buffer_empty := sample_buffer_empty r; shift_register := shift_register r;
     bits_remaining := bits_remaining r; silence := silence r;
     timer_period := timer_period r; timer_counter := timer_counter r; read_callback := v |}.

Definition zero : t :=
  {| enabled := false; irq_enabled := false; loop := false; rate := 0;
     output_level := 0; sample_address := 0; sample_length := 0;
     current_address := 0; bytes_remaining := 0; sample_buffer := 0;
     sample_buffer_empty := false; shift_register := 0; bits_remaining := 0;
     silence := false; timer_period := 0; timer_counter := 0;
     read_callback := false |}.

(** [APU::DMC::start_sample]. *)
Definition start_sample (d : t) : t :=
  set_bytes_remaining (sample_length d) (set_current_address (sample_address d) d).

End DMC.

Module APU.
Record t : Type := mk {
  pulse1 : Pulse.t;
  pulse2 : Pulse.t;
  triangle : Triangle.t;
  noise : Noise.t;
  dmc : DMC.t;
  frame_counter_mode : bool;
  irq_inhibit : bool;
  frame_counter : Z;
  frame_step : Z;
  cycles : Z
}.

Definition set_pulse1 (v : Pulse.t) (r : t) : t :=
  {| pulse1 := v; pulse2 := pulse2 r; triangle := triangle r; noise := noise r;
     dmc := dmc r; frame_counter_mode := frame_counter_mode r;
     irq_inhibit := irq_inhibit r; frame_counter := frame_counter r;
     frame_step := frame_step r; cycles := cycles r |}.
Definition set_pulse2 (v : Pulse.t) (r : t) : t :=
  {| pulse1 := pulse1 r; pulse2 := v; triangle := triangle r; noise := noise r;
     dmc := dmc r; frame_counter_mode := frame_counter_mode r;
     irq_inhibit := irq_inhibit r; frame_counter := frame_counter r;
     frame_step := frame_step r; cycles := cycles r |}.
Definition set_triangle (v : Triangle.t) (r : t) : t :=
  {| pulse1 := pulse1 r; pulse2 := pulse2 r; triangle := v; noise := noise r;
     dmc := dmc r; frame_counter_mode := frame_counter_mode r;
     irq_inhibit := irq_inhibit r; frame_counter := frame_counter r;
     frame_step := frame_step r; cycles := cycles r |}.
Definition set_noise (v : Noise.t) (r : t) : t :=
  {| pulse1 := pulse1 r; pulse2 := pulse2 r; triangle := triangle r; noise := v;
     dmc := dmc r; frame_counter_mode := frame_counter_mode r;
     irq_inhibit := irq_inhibit r; frame_counter := frame_counter r;
     frame_step := frame_step r; cycles := cycles r |}.
Definition set_dmc (v : DMC.t) (r : t) : t :=
  {| pulse1 := pulse1 r; pulse2 := pulse2 r; triangle := triangle r; noise := noise r;
     dmc := v; frame_counter_mode := frame_counter_mode r; irq_inhibit := irq_inhibit r;
     frame_counter := frame_counter r; frame_step := frame_step r; cycles := cycles r |}.
Definition set_frame_counter_mode (v : bool) (r : t) : t :=
  {| pulse1 := pulse1 r; pulse2 := pulse2 r; triangle := triangle r; noise := noise r;
     dmc := dmc r; frame_counter_mode := v; irq_inhibit := irq_inhibit r;
     frame_counter := frame_counter r; frame_step := frame_step r; cycles := cycles r |}.
Definition set_irq_inhibit (v : bool) (r : t) : t :=
  {| pulse1 := pulse1 r; pulse2 := pulse2 r; triangle := triangle r; noise := noise r;
     dmc := dmc r; frame_counter_mode := frame_counter_mode r; irq_inhibit := v;
     frame_counter := frame_counter r; frame_step := frame_step r; cycles := cycles r |}.
Definition set_frame_counter (v : Z) (r : t) : t :=
  {| pulse1 := pulse1 r; pulse2 := pulse2 r; triangle := triangle r; noise := noise r;
     dmc := dmc r; frame_counter_mode := frame_counter_mode r;
     irq_inhibit := irq_inhibit r; frame_counter := v; frame_step := frame_step r;
     cycles := cycles r |}.
Definition set_frame_step (v : Z) (r : t) : t :=
  {| pulse1 := pulse1 r; pulse2 := pulse2 r; triangle := triangle r; noise := noise r;
     dmc := dmc r; frame_counter_mode := frame_counter_mode r;
     irq_inhibit := irq_inhibit r; frame_counter := frame_counter r; frame_step := v;
     cycles := cycles r |}.
Definition set_cycles (v : Z) (r : t) : t :=
  {| pulse1 := pulse1 r; pulse2 := pulse2 r; triangle := triangle r; noise := noise r;
     dmc := dmc r; frame_counter_mode := frame_counter_mode r;
     irq_inhibit := irq_inhibit r; frame_counter := frame_counter r;
     frame_step := frame_step r; cycles := v |}.

(** [APU::length_table], [APU::noise_period_table], [APU::dmc_rate_table]. *)
Definition length_table : list Z :=
  [ 10; 254; 20; 2; 40; 4; 80; 6; 160; 8; 60; 10; 14; 12; 26; 14;
    12; 16; 24; 18; 48; 20; 96; 22; 192; 24; 72; 26; 16; 28; 32; 30 ].

Definition noise_period_table : list Z :=
  [ 4; 8; 16; 32; 64; 96; 128; 160; 202; 254; 380; 508; 762; 1016; 2034; 4068 ].

Definition dmc_rate_table : list Z :=
  [ 428; 380; 340; 320; 286; 254; 226; 214; 190; 160; 142; 128; 106; 84; 72; 54 ].

(** [APU::reset]. *)
Definition reset (a : t) : t :=
  {| pulse1 := Pulse.zero; pulse2 := Pulse.zero;
     triangle := Triangle.zero;
     noise := Noise.set_shift_register 1 Noise.zero;
     dmc := DMC.set_sample_buffer_empty true DMC.zero;
     frame_counter_mode := false; irq_inhibit := false;
     frame_counter := 0; frame_step := 0; cycles := 0 |}.

(** The constructor [APU()]: [cycles(0)], then [reset]. *)
Definition create : t :=
  reset
    {| pulse1 := Pulse.zero; pulse2 := Pulse.zero; triangle := Triangle.zero;
       noise := Noise.zero; dmc := DMC.zero; frame_counter_mode := false;
       irq_inhibit := false; frame_counter := 0; frame_step := 0; cycles := 0 |}.

(** [APU::set_dmc_read_callback] with [&Bus::dmc_read_callback]. *)
Definition set_dmc_read_callback (a : t) : t :=
  set_dmc (DMC.set_read_callback true (dmc a)) a.

(** [APU::clock_quarter_frame], [APU::clock_half_frame]. *)
Definition clock_quarter_frame (a : t) : t :=
  let a := set_pulse1 (Pulse.clock_envelope (pulse1 a)) a in
  let a := set_pulse2 (Pulse.clock_envelope (pulse2 a)) a in
  let a := set_triangle (Triangle.clock_linear_counter (triangle a)) a in
  set_noise (Noise.clock_envelope (noise a)) a.

Definition clock_half_frame (a : t) : t :=
  let a := set_pulse1 (Pulse.clock_length (pulse1 a)) a in
  let a := set_pulse1 (Pulse.clock_sweep true (pulse1 a)) a in
  let a := set_pulse2 (Pulse.clock_length (pulse2 a)) a in
  let a := set_pulse2 (Pulse.clock_sweep false (pulse2 a)) a in
  let a := set_triangle (Triangle.clock_length (triangle a)) a in
  set_noise (Noise.clock_length (noise a)) a.

(** [APU::cpu_read]: only [$4015] is readable. *)
Definition cpu_read (addr : Z) (a : t) : Z * t :=
  if addr =? 0x4015 then
    let data := 0x00 in
    let data := Z.lor data (if 0 <? Pulse.length_counter (pulse1 a) then 0x01 else 0x00) in
    let data := Z.lor data (if 0 <? Pulse.length_counter (pulse2 a) then 0x02 else 0x00) in
    let data := Z.lor data (if 0 <? Triangle.length_counter (triangle a) then 0x04 else 0x00) in
    let data := Z.lor data (if 0 <? Noise.length_counter (noise a) then 0x08 else 0x00) in
    let data := Z.lor data (if 0 <? DMC.bytes_remaining (dmc a) then 0x10 else 0x00) in
    (data, a)
  else (0x00, a).

(** The writes of one pulse channel: registers 0 to 3 of its block. *)
Definition pulse_write (reg data : Z) (p : Pulse.t) : Pulse.t :=
  if reg =? 0 then
    Pulse.set_volume (Z.land data 0x0F)
      (Pulse.set_constant_volume (nonzero (Z.land (Z.shiftr data 4) 0x01))
        (Pulse.set_halt_length (nonzero (Z.land (Z.shiftr data 5) 0x01))
          (Pulse.set_duty_cycle (Z.land (Z.shiftr data 6) 0x03) p)))
  else if reg =? 1 then
    Pulse.set_sweep_reload true
      (Pulse.set_sweep_shift (Z.land data 0x07)
        (Pulse.set_sweep_negate (nonzero (Z.land (Z.shiftr data 3) 0x01))
          (Pulse.set_sweep_period (Z.land (Z.shiftr data 4) 0x07)
            (Pulse.set_sweep_enabled (nonzero (Z.land (Z.shiftr data 7) 0x01)) p))))
  else if reg =? 2 then
    Pulse.set_timer_period (Z.lor (Z.land (Pulse.timer_period p) 0xFF00) data) p
  else
    Pulse.set_envelope_start true
      (Pulse.set_sequence_counter 0
        (Pulse.set_length_counter (byte_at length_table (Z.land (Z.shiftr data 3) 0x1F))
          (Pulse.set_timer_period
             (Z.lor (Z.land (Pulse.timer_period p) 0x00FF)
                    (Z.shiftl (Z.land data 0x07) 8)) p))).

(** [APU::cpu_write]. *)
Definition cpu_write (addr data : Z) (a : t) : t :=
  if (0x4000 <=? addr) && (addr <=? 0x4003) then
    set_pulse1 (pulse_write (addr - 0x4000) data (pulse1 a)) a
  else if (0x4004 <=? addr) && (addr <=? 0x4007) then
    set_pulse2 (pulse_write (addr - 0x4004) data (pulse2 a)) a
  else if addr =? 0x4008 then
    set_triangle
      (Triangle.set_linear_counter_load (Z.land data 0x7F)
        (Triangle.set_control_flag (nonzero (Z.land (Z.shiftr data 7) 0x01))
          (triangle a))) a
  else if addr =? 0x400A then
    set_triangle
      (Triangle.set_timer_period
         (Z.lor (Z.land (Triangle.timer_period (triangle a)) 0xFF00) data)
         (triangle a)) a
  else if addr =? 0x400B then
    set_triangle
      (Triangle.set_linear_counter_reload true
        (Triangle.set_length_counter
           (byte_at length_table (Z.land (Z.shiftr data 3) 0x1F))
           (Triangle.set_timer_period
              (Z.lor (Z.land (Triangle.timer_period (triangle a)) 0x00FF)
                     (Z.shiftl (Z.land data 0x07) 8))
              (triangle a)))) a
  else if addr =? 0x400C then
    set_noise
      (Noise.set_volume (Z.land data 0x0F)
        (Noise.set_constant_volume (nonzero (Z.land (Z.shiftr data 4) 0x01))
          (Noise.set_halt_length (nonzero (Z.land (Z.shiftr data 5) 0x01))
            (noise a)))) a
  else if addr =? 0x400E then
    set_noise
      (Noise.set_timer_period (byte_at noise_period_table (Z.land data 0x0F))
        (Noise.set_mode (nonzero (Z.land (Z.shiftr data 7) 0x01)) (noise a))) a
  else if addr =? 0x400F then
    set_noise
      (Noise.set_envelope_start true
        (Noise.set_length_counter
           (byte_at length_table (Z.land (Z.shiftr data 3) 0x1F)) (noise a))) a
  else if addr =? 0x4010 then
    let d := dmc a in
    let d := DMC.set_irq_enabled (nonzero (Z.land (Z.shiftr data 7) 0x01)) d in
    let d := DMC.set_loop (nonzero (Z.land (Z.shiftr data 6) 0x01)) d in
    let d := DMC.set_rate (Z.land data 0x0F) d in
    let d := DMC.set_timer_period (byte_at dmc_rate_table (DMC.rate d)) d in
    set_dmc d a
  else if addr =? 0x4011 then
    set_dmc (DMC.set_output_level (Z.land data 0x7F) (dmc a)) a
  else if addr =? 0x4012 then
    set_dmc (DMC.set_sample_address (u16 (0xC000 + data * 64)) (dmc a)) a
  else if addr =? 0x4013 then
    set_dmc (DMC.set_sample_length (u16 (data * 16 + 1)) (dmc a)) a
  else if addr =? 0x4015 then
    let a := set_pulse1 (Pulse.set_enabled (nonzero (Z.land data 0x01)) (pulse1 a)) a in
    let a := set_pulse2 (Pulse.set_enabled (nonzero (Z.land data 0x02)) (pulse2 a)) a in
    let a := set_triangle (Triangle.set_enabled (nonzero (Z.land data 0x04)) (triangle a)) a in
    let a := set_noise (Noise.set_enabled (nonzero (Z.land data 0x08)) (noise a)) a in
    let a := set_dmc (DMC.set_enabled (nonzero (Z.land data 0x10)) (dmc a)) a in
    let a := if negb (Pulse.enabled (pulse1 a))
             then set_pulse1 (Pulse.set_length_counter 0 (pulse1 a)) a else a in
    let a := if negb (Pulse.enabled (pulse2 a))
             then set_pulse2 (Pulse.set_length_counter 0 (pulse2 a)) a else a in
    let a := if negb (Triangle.enabled (triangle a))
             then set_triangle (Triangle.set_length_counter 0 (triangle a)) a else a in
    let a := if negb (Noise.enabled (noise a))
             then set_noise (Noise.set_length_counter 0 (noise a)) a else a in
    if negb (DMC.enabled (dmc a)) then
      set_dmc (DMC.set_bytes_remaining 0 (dmc a)) a
    else if DMC.bytes_remaining (dmc a) =? 0 then
      set_dmc (DMC.start_sample (dmc a)) a
    else a
  else if addr =? 0x4017 then
    let a := set_frame_counter_mode (nonzero (Z.land (Z.shiftr data 7) 0x01)) a in
    let a := set_irq_inhibit (nonzero (Z.land (Z.shiftr data 6) 0x01)) a in
    if frame_counter_mode a then clock_half_frame (clock_quarter_frame a) else a
  else a.

(** The part of [APU::clock] before the DMC timer: the frame sequencer
    and the pulse, triangle and noise timers. *)
Definition clock_channels (a : t) : t :=
  let c := cycles a in
  let at2 (x : Z) : bool := (c =? x) || (c =? x + 1) in
  let quarter_frame :=
    if negb (frame_counter_mode a)
    then at2 3728 || at2 7456 || at2 11185 || at2 14914
    else at2 3728 || at2 7456 || at2 11185 || at2 18640 in
  let half_frame :=
    if negb (frame_counter_mode a)
    then at2 7456 || at2 14914
    else at2 7456 || at2 18640 in
  let a :=
    if negb (frame_counter_mode a)
    then (if at2 14914 then set_cycles 0 a else a)
    else (if at2 18640 then set_cycles 0 a else a) in
  let a := if quarter_frame then clock_quarter_frame a else a in
  let a := if half_frame then clock_half_frame a else a in
  let a :=
    if cycles a mod 2 =? 0 then
      let a := set_pulse1 (Pulse.clock_timer (pulse1 a)) a in
      set_pulse2 (Pulse.clock_timer (pulse2 a)) a
    else a in
  let a := set_triangle (Triangle.clock_timer (triangle a)) a in
  set_noise (Noise.clock_timer (noise a)) a.

End APU.

(** ** CPU registers, bus fields and the assembled machine *)

Module CPUState.
(** The data members of [class CPU] (cpu.hpp). *)
Record t : Type := mk {
  A : Z;
  X : Z;
  Y : Z;
  SP : Z;
  PC : Z;
  P : Z;
  total_cycles : Z;
  cycles_remaining : Z;
  addr_abs : Z;
  addr_rel : Z;
  opcode : Z;
  fetched : Z
}.

Definition set_A (v : Z) (r : t) : t :=
  {| A := v; X := X r; Y := Y r; SP := SP r; PC := PC r; P := P r;
     total_cycles := total_cycles r; cycles_remaining := cycles_remaining r;
     addr_abs := addr_abs r; addr_rel := addr_rel r; opcode := opcode r;
     fetched := fetched r |}.
Definition set_X (v : Z) (r : t) : t :=
  {| A := A r; X := v; Y := Y r; SP := SP r; PC := PC r; P := P r;
     total_cycles := total_cycles r; cycles_remaining := cycles_remaining r;
     addr_abs := addr_abs r; addr_rel := addr_rel r; opcode := opcode r;
     fetched := fetched r |}.
Definition set_Y (v : Z) (r : t) : t :=
  {| A := A r; X := X r; Y := v; SP := SP r; PC := PC r; P := P r;
     total_cycles := total_cycles r; cycles_remaining := cycles_remaining r;
     addr_abs := addr_abs r; addr_rel := addr_rel r; opcode := opcode r;
     fetched := fetched r |}.
Definition set_SP (v : Z) (r : t) : t :=
  {| A := A r; X := X r; Y := Y r; SP := v; PC := PC r; P := P r;
     total_cycles := total_cycles r; cycles_remaining := cycles_remaining r;
     addr_abs := addr_abs r; addr_rel := addr_rel r; opcode := opcode r;
     fetched := fetched r |}.
Definition set_PC (v : Z) (r : t) : t :=
  {| A := A r; X := X r; Y := Y r; SP := SP r; PC := v; P := P r;
     total_cycles := total_cycles r; cycles_remaining := cycles_remaining r;
     addr_abs := addr_abs r; addr_rel := addr_rel r; opcode := opcode r;
     fetched := fetched r |}.
Definition set_P (v : Z) (r : t) : t :=
  {| A := A r; X := X r; Y := Y r; SP := SP r; PC := PC r; P := v;
     total_cycles := total_cycles r; cycles_remaining := cycles_remaining r;
     addr_abs := addr_abs r; addr_rel := addr_rel r; opcode := opcode r;
     fetched := fetched r |}.
Definition set_total_cycles (v : Z) (r : t) : t :=
  {| A := A r; X := X r; Y := Y r; SP := SP r; PC := PC r; P := P r; total_cycles := v;
     cycles_remaining := cycles_remaining r; addr_abs := addr_abs r;
     addr_rel := addr_rel r; opcode := opcode r; fetched := fetched r |}.
Definition set_cycles_remaining (v : Z) (r : t) : t :=
  {| A := A r; X := X r; Y := Y r; SP := SP r; PC := PC r; P := P r;
     total_cycles := total_cycles r; cycles_remaining := v; addr_abs := addr_abs r;
     addr_rel := addr_rel r; opcode := opcode r; fetched := fetched r |}.
Definition set_addr_abs (v : Z) (r : t) : t :=
  {| A := A r; X := X r; Y := Y r; SP := SP r; PC := PC r; P := P r;
     total_cycles := total_cycles r; cycles_remaining := cycles_remaining r;
     addr_abs := v; addr_rel := addr_rel r; opcode := opcode r; fetched := fetched r |}.
Definition set_addr_rel (v : Z) (r : t) : t :=
  {| A := A r; X := X r; Y := Y r; SP := SP r; PC := PC r; P := P r;
     total_cycles := total_cycles r; cycles_remaining := cycles_remaining r;
     addr_abs := addr_abs r; addr_rel := v; opcode := opcode r; fetched := fetched r |}.
Definition set_opcode (v : Z) (r : t) : t :=
  {| A := A r; X := X r; Y := Y r; SP := SP r; PC := PC r; P := P r;
     total_cycles := total_cycles r; cycles_remaining := cycles_remaining r;
     addr_abs := addr_abs r; addr_rel := addr_rel r; opcode := v; fetched := fetched r |}.
Definition set_fetched (v : Z) (r : t) : t :=
  {| A := A r; X := X r; Y := Y r; SP := SP r; PC := PC r; P := P r;
     total_cycles := total_cycles r; cycles_remaining := cycles_remaining r;
     addr_abs := addr_abs r; addr_rel := addr_rel r; opcode := opcode r; fetched := v |}.
End CPUState.

Module BusState.
(** The data members of [class Bus] (bus.hpp) other than the pointers to
    the chips. *)
Record t : Type := mk {
  ram : list Z;
  controller_state : list Z;
  controller_shift : list Z;
  system_clock_counter : Z;
  dma_transfer : bool;
  dma_page : Z;
  dma_addr : Z;
  dma_data : Z;
  dma_dummy : bool
}.

Definition set_ram (v : list Z) (r : t) : t :=
  {| ram := v; controller_state := controller_state r;
     controller_shift := controller_shift r;
     system_clock_counter := system_clock_counter r; dma_transfer := dma_transfer r;
     dma_page := dma_page r; dma_addr := dma_addr r; dma_data := dma_data r;
     dma_dummy := dma_dummy r |}.
Definition set_controller_state (v : list Z) (r : t) : t :=
  {| ram := ram r; controller_state := v; controller_shift := controller_shift r;
     system_clock_counter := system_clock_counter r; dma_transfer := dma_transfer r;
     dma_page := dma_page r; dma_addr := dma_addr r; dma_data := dma_data r;
     dma_dummy := dma_dummy r |}.
Definition set_controller_shift (v : list Z) (r : t) : t :=
  {| ram := ram r; controller_state := controller_state r; controller_shift := v;
     system_clock_counter := system_clock_counter r; dma_transfer := dma_transfer r;
     dma_page := dma_page r; dma_addr := dma_addr r; dma_data := dma_data r;
     dma_dummy := dma_dummy r |}.
Definition set_system_clock_counter (v : Z) (r : t) : t :=
  {| ram := ram r; controller_state := controller_state r;
     controller_shift := controller_shift r; system_clock_counter := v;
     dma_transfer := dma_transfer r; dma_page := dma_page r; dma_addr := dma_addr r;
     dma_data := dma_data r; dma_dummy := dma_dummy r |}.
Definition set_dma_transfer (v : bool) (r : t) : t :=
  {| ram := ram r; controller_state := controller_state r;
     controller_shift := controller_shift r;
     system_clock_counter := system_clock_counter r; dma_transfer := v;
     dma_page := dma_page r; dma_addr := dma_addr r; dma_data := dma_data r;
     dma_dummy := dma_dummy r |}.
Definition set_dma_page (v : Z) (r : t) : t :=
  {| ram := ram r; controller_state := controller_state r;
     controller_shift := controller_shift r;
     system_clock_counter := system_clock_counter r; dma_transfer := dma_transfer r;
     dma_page := v; dma_addr := dma_addr r; dma_data := dma_data r;
     dma_dummy := dma_dummy r |}.
Definition set_dma_addr (v : Z) (r : t) : t :=
  {| ram := ram r; controller_state := controller_state r;
     controller_shift := controller_shift r;
     system_clock_counter := system_clock_counter r; dma_transfer := dma_transfer r;
     dma_page := dma_page r; dma_addr := v; dma_data := dma_data r;
     dma_dummy := dma_dummy r |}.
Definition set_dma_data (v : Z) (r : t) : t :=
  {| ram := ram r; controller_state := controller_state r;
     controller_shift := controller_shift r;
     system_clock_counter := system_clock_counter r; dma_transfer := dma_transfer r;
     dma_page := dma_page r; dma_addr := dma_addr r; dma_data := v;
     dma_dummy := dma_dummy r |}.
Definition set_dma_dummy (v : bool) (r : t) : t :=
  {| ram := ram r; controller_state := controller_state r;
     controller_shift := controller_shift r;
     system_clock_counter := system_clock_counter r; dma_transfer := dma_transfer r;
     dma_page := dma_page r; dma_addr := dma_addr r; dma_data := dma_data r;
     dma_dummy := v |}.
End BusState.

Module Sys.
Section WithMapper.
Context {M : Type}.
(** The machine the [Emulator] constructor wires up: the bus with its
    CPU, PPU and APU connected, and the cartridge slot. *)
Record t : Type := mk {
  cpu : CPUState.t;
  ppu : PPU.t;
  apu : APU.t;
  bus : BusState.t;
  cartridge : option (Cartridge.t M)
}.

Definition set_cpu (v : CPUState.t) (r : t) : t :=
  {| cpu := v; ppu := ppu r; apu := apu r; bus := bus r; cartridge := cartridge r |}.
Definition set_ppu (v : PPU.t) (r : t) : t :=
  {| cpu := cpu r; ppu := v; apu := apu r; bus := bus r; cartridge := cartridge r |}.
Definition set_apu (v : APU.t) (r : t) : t :=
  {| cpu := cpu r; ppu := ppu r; apu := v; bus := bus r; cartridge := cartridge r |}.
Definition set_bus (v : BusState.t) (r : t) : t :=
  {| cpu := cpu r; ppu := ppu r; apu := apu r; bus := v; cartridge := cartridge r |}.
Definition set_cartridge (v : option (Cartridge.t M)) (r : t) : t :=
  {| cpu := cpu r; ppu := ppu r; apu := apu r; bus := bus r; cartridge := v |}.
End WithMapper.
Arguments t M : clear implicits.
End Sys.

(** ** Bus memory map (bus.cpp) *)

Module Bus.
Section WithMapper.
Context {M : Type} {MP : Mapper M}.
Local Abbreviation System := (Sys.t M).

(** The constructor [Bus()]. *)
Definition create : BusState.t :=
  {| BusState.ram := filled 2048 0x00;
     BusState.controller_state := [0x00; 0x00];
     BusState.controller_shift := [0x00; 0x00];
     BusState.system_clock_counter := 0;
     BusState.dma_transfer := false;
     BusState.dma_page := 0x00; BusState.dma_addr := 0x00;
     BusState.dma_data := 0x00; BusState.dma_dummy := true |}.

(** [cartridge && cartridge->cpu_read(addr, data)]. *)
Definition cart_cpu_read (addr : Z) (s : System) : option Z * System :=
  match Sys.cartridge s with
  | Some c =>
      let '(r, c') := Cartridge.cpu_read addr c in
      (r, Sys.set_cartridge (Some c') s)
  | None => (None, s)
  end.

(** [cartridge && cartridge->cpu_write(addr, data)]. *)
Definition cart_cpu_write (addr data : Z) (s : System) : bool * System :=
  match Sys.cartridge s with
  | Some c =>
      let '(r, c') := Cartridge.cpu_write addr data c in
      (r, Sys.set_cartridge (Some c') s)
  | None => (false, s)
  end.

(** One read of a controller port: the MSB of the shift register, then
    the register moves left by one. *)
Definition controller_read (i : Z) (s : System) : Z * System :=
  let b := Sys.bus s in
  let sh := byte_at (BusState.controller_shift b) i in
  let data := b2z (0 <? Z.land sh 0x80) in
  let b := BusState.set_controller_shift
             (byte_set (BusState.controller_shift b) i (u8 (Z.shiftl sh 1))) b in
  (data, Sys.set_bus b s).

(** [Bus::cpu_read]. *)
Definition cpu_read (addr : Z) : State System Z := fun s =>
  let '(r, s) := cart_cpu_read addr s in
  match r with
  | Some data => (data, s)
  | None =>
      if (0x0000 <=? addr) && (addr <=? 0x1FFF) then
        (byte_at (BusState.ram (Sys.bus s)) (Z.land addr 0x07FF), s)
      else if (0x2000 <=? addr) && (addr <=? 0x3FFF) then
        let '(data, (p, c)) :=
          PPU.cpu_read (Z.land addr 0x0007) (Sys.ppu s) (Sys.cartridge s) in
        (data, Sys.set_cartridge c (Sys.set_ppu p s))
      else if (0x4000 <=? addr) && (addr <=? 0x4015) then
        let '(data, a) := APU.cpu_read addr (Sys.apu s) in
        (data, Sys.set_apu a s)
      else if addr =? 0x4016 then controller_read 0 s
      else if addr =? 0x4017 then controller_read 1 s
      else (0x00, s)
  end.

(** [Bus::cpu_write]. *)
Definition cpu_write (addr data : Z) : State System unit := fun s =>
  let '(handled, s) := cart_cpu_write addr data s in
  if handled then (tt, s)
  else if (0x0000 <=? addr) && (addr <=? 0x1FFF) then
    let b := Sys.bus s in
    (tt, Sys.set_bus
           (BusState.set_ram (byte_set (BusState.ram b) (Z.land addr 0x07FF) data) b) s)
  else if (0x2000 <=? addr) && (addr <=? 0x3FFF) then
    let '(p, c) :=
      PPU.cpu_write (Z.land addr 0x0007) data (Sys.ppu s) (Sys.cartridge s) in
    (tt, Sys.set_cartridge c (Sys.set_ppu p s))
  else if ((0x4000 <=? addr) && (addr <=? 0x4013)) || (addr =? 0x4015)
          || (addr =? 0x4017) then
    (tt, Sys.set_apu (APU.cpu_write addr data (Sys.apu s)) s)
  else if addr =? 0x4014 then
    let b := Sys.bus s in
    (tt, Sys.set_bus
           (BusState.set_dma_transfer true
             (BusState.set_dma_addr 0x00 (BusState.set_dma_page data b))) s)
  else if addr =? 0x4016 then
    let b := Sys.bus s in
    let st := BusState.controller_state b in
    let sh := BusState.controller_shift b in
    let sh := byte_set sh 0 (byte_at st 0) in
    let sh := byte_set sh 1 (byte_at st 1) in
    (tt, Sys.set_bus (BusState.set_controller_shift sh b) s)
  else (tt, s).

(** [Bus::set_controller_state]. *)
Definition set_controller_state (controller state : Z) (s : System) : System :=
  if controller <? 2 then
    let b := Sys.bus s in
    Sys.set_bus
      (BusState.set_controller_state
         (byte_set (BusState.controller_state b) controller state) b) s
  else s.

(** [Bus::dmc_read_callback]: the bus instance always exists while the
    machine does. *)
Definition dmc_read_callback (addr : Z) : State System Z := cpu_read addr.

End WithMapper.
End Bus.

(** ** The 6502 interpreter (cpu.hpp, cpu.cpp) *)

Module CPU.

(** [enum Flags]: the mask of each status bit. *)
Inductive Flags : Type :=
  | FlagC | FlagZ | FlagI | FlagD | FlagB | FlagU | FlagV | FlagN.

Definition flag_mask (f : Flags) : Z :=
  match f with
  | FlagC => 1 | FlagZ => 2 | FlagI => 4 | FlagD => 8
  | FlagB => 16 | FlagU => 32 | FlagV => 64 | FlagN => 128
  end.

(** The member functions an [Instruction] entry points to. *)
Inductive AddrMode : Type :=
  | IMP | IMM | ZP0 | ZPX | ZPY | REL | ABS | ABX | ABY | IND | IZX | IZY.

Inductive Operation : Type :=
  | ADC | AHX | ALR | ANC | AND | ARR | ASL | AXS | BCC | BCS | BEQ | BIT
  | BMI | BNE | BPL | BRK | BVC | BVS | CLC | CLD | CLI | CLV | CMP | CPX
  | CPY | DCP | DEC | DEX | DEY | EOR | INC | INX | INY | ISC | JAM | JMP
  | JSR | LAS | LAX | LDA | LDX | LDY | LSR | NOP | ORA | PHA | PHP | PLA
  | PLP | RLA | ROL | ROR | RRA | RTI | RTS | SAX | SBC | SEC | SED | SEI
  | SHX | SHY | SLO | SRE | STA | STX | STY | TAS | TAX | TAY | TSX | TXA
  | TXS | TYA | XAA | XXX.

Record Instruction : Type := mkInstruction {
  operate : Operation;
  addrmode : AddrMode;
  cycles : Z
}.

(** [CPU::instruction_table]: for each opcode the operation, the addressing
    mode and the base cycle count.  The [name] string of an entry is the
    name of its operation. *)
Definition instruction_table : list Instruction :=
  [
    mkInstruction BRK IMM 7; mkInstruction ORA IZX 6; mkInstruction JAM IMP 2; mkInstruction SLO IZX 8;
    mkInstruction NOP ZP0 3; mkInstruction ORA ZP0 3; mkInstruction ASL ZP0 5; mkInstruction SLO ZP0 5;
    mkInstruction PHP IMP 3; mkInstruction ORA IMM 2; mkInstruction ASL IMP 2; mkInstruction ANC IMM 2;
    mkInstruction NOP ABS 4; mkInstruction ORA ABS 4; mkInstruction ASL ABS 6; mkInstruction SLO ABS 6;
    mkInstruction BPL REL 2; mkInstruction ORA IZY 5; mkInstruction JAM IMP 2; mkInstruction SLO IZY 8;
    mkInstruction NOP ZPX 4; mkInstruction ORA ZPX 4; mkInstruction ASL ZPX 6; mkInstruction SLO ZPX 6;
    mkInstruction CLC IMP 2; mkInstruction ORA ABY 4; mkInstruction NOP IMP 2; mkInstruction SLO ABY 7;
    mkInstruction NOP ABX 4; mkInstruction ORA ABX 4; mkInstruction ASL ABX 7; mkInstruction SLO ABX 7;
    mkInstruction JSR ABS 6; mkInstruction AND IZX 6; mkInstruction JAM IMP 2; mkInstruction RLA IZX 8;
    mkInstruction BIT ZP0 3; mkInstruction AND ZP0 3; mkInstruction ROL ZP0 5; mkInstruction RLA ZP0 5;
    mkInstruction PLP IMP 4; mkInstruction AND IMM 2; mkInstruction ROL IMP 2; mkInstruction ANC IMM 2;
    mkInstruction BIT ABS 4; mkInstruction AND ABS 4; mkInstruction ROL ABS 6; mkInstruction RLA ABS 6;
    mkInstruction BMI REL 2; mkInstruction AND IZY 5; mkInstruction JAM IMP 2; mkInstruction RLA IZY 8;
    mkInstruction NOP ZPX 4; mkInstruction AND ZPX 4; mkInstruction ROL ZPX 6; mkInstruction RLA ZPX 6;
    mkInstruction SEC IMP 2; mkInstruction AND ABY 4; mkInstruction NOP IMP 2; mkInstruction RLA ABY 7;
    mkInstruction NOP ABX 4; mkInstruction AND ABX 4; mkInstruction ROL ABX 7; mkInstruction RLA ABX 7;
    mkInstruction RTI IMP 6; mkInstruction EOR IZX 6; mkInstruction JAM IMP 2; mkInstruction SRE IZX 8;
    mkInstruction NOP ZP0 3; mkInstruction EOR ZP0 3; mkInstruction LSR ZP0 5; mkInstruction SRE ZP0 5;
    mkInstruction PHA IMP 3; mkInstruction EOR IMM 2; mkInstruction LSR IMP 2; mkInstruction ALR IMM 2;
    mkInstruction JMP ABS 3; mkInstruction EOR ABS 4; mkInstruction LSR ABS 6; mkInstruction SRE ABS 6;
    mkInstruction BVC REL 2; mkInstruction EOR IZY 5; mkInstruction JAM IMP 2; mkInstruction SRE IZY 8;
    mkInstruction NOP ZPX 4; mkInstruction EOR ZPX 4; mkInstruction LSR ZPX 6; mkInstruction SRE ZPX 6;
    mkInstruction CLI IMP 2; mkInstruction EOR ABY 4; mkInstruction NOP IMP 2; mkInstruction SRE ABY 7;
    mkInstruction NOP ABX 4; mkInstruction EOR ABX 4; mkInstruction LSR ABX 7; mkInstruction SRE ABX 7;
    mkInstruction RTS IMP 6; mkInstruction ADC IZX 6; mkInstruction JAM IMP 2; mkInstruction RRA IZX 8;
    mkInstruction NOP ZP0 3; mkInstruction ADC ZP0 3; mkInstruction ROR ZP0 5; mkInstruction RRA ZP0 5;
    mkInstruction PLA IMP 4; mkInstruction ADC IMM 2; mkInstruction ROR IMP 2; mkInstruction ARR IMM 2;
    mkInstruction JMP IND 5; mkInstruction ADC ABS 4; mkInstruction ROR ABS 6; mkInstruction RRA ABS 6;
    mkInstruction BVS REL 2; mkInstruction ADC IZY 5; mkInstruction JAM IMP 2; mkInstruction RRA IZY 8;
    mkInstruction NOP ZPX 4; mkInstruction ADC ZPX 4; mkInstruction ROR ZPX 6; mkInstruction RRA ZPX 6;
    mkInstruction SEI IMP 2; mkInstruction ADC ABY 4; mkInstruction NOP IMP 2; mkInstruction RRA ABY 7;
    mkInstruction NOP ABX 4; mkInstruction ADC ABX 4; mkInstruction ROR ABX 7; mkInstruction RRA ABX 7;
    mkInstruction NOP IMM 2; mkInstruction STA IZX 6; mkInstruction NOP IMM 2; mkInstruction SAX IZX 6;
    mkInstruction STY ZP0 3; mkInstruction STA ZP0 3; mkInstruction STX ZP0 3; mkInstruction SAX ZP0 3;
    mkInstruction DEY IMP 2; mkInstruction NOP IMM 2; mkInstruction TXA IMP 2; mkInstruction XAA IMM 2;
    mkInstruction STY ABS 4; mkInstruction STA ABS 4; mkInstruction STX ABS 4; mkInstruction SAX ABS 4;
    mkInstruction BCC REL 2; mkInstruction STA IZY 6; mkInstruction JAM IMP 2; mkInstruction AHX IZY 6;
    mkInstruction STY ZPX 4; mkInstruction STA ZPX 4; mkInstruction STX ZPY 4; mkInstruction SAX ZPY 4;
    mkInstruction TYA IMP 2; mkInstruction STA ABY 5; mkInstruction TXS IMP 2; mkInstruction TAS ABY 5;
    mkInstruction SHY ABX 5; mkInstruction STA ABX 5; mkInstruction SHX ABY 5; mkInstruction AHX ABY 5;
    mkInstruction LDY IMM 2; mkInstruction LDA IZX 6; mkInstruction LDX IMM 2; mkInstruction LAX IZX 6;
    mkInstruction LDY ZP0 3; mkInstruction LDA ZP0 3; mkInstruction LDX ZP0 3; mkInstruction LAX ZP0 3;
    mkInstruction TAY IMP 2; mkInstruction LDA IMM 2; mkInstruction TAX IMP 2; mkInstruction LAX IMM 2;
    mkInstruction LDY ABS 4; mkInstruction LDA ABS 4; mkInstruction LDX ABS 4; mkInstruction LAX ABS 4;
    mkInstruction BCS REL 2; mkInstruction LDA IZY 5; mkInstruction JAM IMP 2; mkInstruction LAX IZY 5;
    mkInstruction LDY ZPX 4; mkInstruction LDA ZPX 4; mkInstruction LDX ZPY 4; mkInstruction LAX ZPY 4;
    mkInstruction CLV IMP 2; mkInstruction LDA ABY 4; mkInstruction TSX IMP 2; mkInstruction LAS ABY 4;
    mkInstruction LDY ABX 4; mkInstruction LDA ABX 4; mkInstruction LDX ABY 4; mkInstruction LAX ABY 4;
    mkInstruction CPY IMM 2; mkInstruction CMP IZX 6; mkInstruction NOP IMM 2; mkInstruction DCP IZX 8;
    mkInstruction CPY ZP0 3; mkInstruction CMP ZP0 3; mkInstruction DEC ZP0 5; mkInstruction DCP ZP0 5;
    mkInstruction INY IMP 2; mkInstruction CMP IMM 2; mkInstruction DEX IMP 2; mkInstruction AXS IMM 2;
    mkInstruction CPY ABS 4; mkInstruction CMP ABS 4; mkInstruction DEC ABS 6; mkInstruction DCP ABS 6;
    mkInstruction BNE REL 2; mkInstruction CMP IZY 5; mkInstruction JAM IMP 2; mkInstruction DCP IZY 8;
    mkInstruction NOP ZPX 4; mkInstruction CMP ZPX 4; mkInstruction DEC ZPX 6; mkInstruction DCP ZPX 6;
    mkInstruction CLD IMP 2; mkInstruction CMP ABY 4; mkInstruction NOP IMP 2; mkInstruction DCP ABY 7;
    mkInstruction NOP ABX 4; mkInstruction CMP ABX 4; mkInstruction DEC ABX 7; mkInstruction DCP ABX 7;
    mkInstruction CPX IMM 2; mkInstruction SBC IZX 6; mkInstruction NOP IMM 2; mkInstruction ISC IZX 8;
    mkInstruction CPX ZP0 3; mkInstruction SBC ZP0 3; mkInstruction INC ZP0 5; mkInstruction ISC ZP0 5;
    mkInstruction INX IMP 2; mkInstruction SBC IMM 2; mkInstruction NOP IMP 2; mkInstruction SBC IMM 2;
    mkInstruction CPX ABS 4; mkInstruction SBC ABS 4; mkInstruction INC ABS 6; mkInstruction ISC ABS 6;
    mkInstruction BEQ REL 2; mkInstruction SBC IZY 5; mkInstruction JAM IMP 2; mkInstruction ISC IZY 8;
    mkInstruction NOP ZPX 4; mkInstruction SBC ZPX 4; mkInstruction INC ZPX 6; mkInstruction ISC ZPX 6;
    mkInstruction SED IMP 2; mkInstruction SBC ABY 4; mkInstruction NOP IMP 2; mkInstruction ISC ABY 7;
    mkInstruction NOP ABX 4; mkInstruction SBC ABX 4; mkInstruction INC ABX 7; mkInstruction ISC ABX 7 ].

(** [instruction_table[opcode]]. *)
Definition instr (opcode : Z) : Instruction :=
  default (mkInstruction XXX IMP 0) (instruction_table !! Z.to_nat opcode).

(** [instruction_table[opcode].addrmode == &CPU::IMP]. *)
Definition is_IMP (opcode : Z) : bool :=
  match addrmode (instr opcode) with IMP => true | _ => false end.

(** Status-register arithmetic on the [P] byte. *)
Definition with_flag (f : Flags) (value : bool) (p : Z) : Z :=
  if value then u8 (Z.lor p (flag_mask f))
  else u8 (Z.land p (Z.lnot (flag_mask f))).

Definition has_flag (f : Flags) (p : Z) : bool := nonzero (Z.land p (flag_mask f)).

Section WithMapper.
Context {M : Type} {MP : Mapper M}.
Local Abbreviation System := (Sys.t M).
Local Abbreviation St := (State System).
Local Open Scope st_scope.

(** Access to the CPU's own members. *)
Definition getc {A : Type} (f : CPUState.t -> A) : St A :=
  gets (fun s => f (Sys.cpu s)).

Definition modc (f : CPUState.t -> CPUState.t) : St unit :=
  modify (fun s => Sys.set_cpu (f (Sys.cpu s)) s).

(** [CPU::read], [CPU::write]. *)
Definition read (addr : Z) : St Z := Bus.cpu_read addr.

Definition write (addr data : Z) : St unit := Bus.cpu_write addr data.

(** [CPU::push], [CPU::pop], [CPU::push16], [CPU::pop16]. *)
Definition push (data : Z) : St unit :=
  sp <- getc CPUState.SP ;;
  write (0x0100 + sp) data ;;;
  modc (fun c => CPUState.set_SP (u8 (CPUState.SP c - 1)) c).

Definition pop : St Z :=
  modc (fun c => CPUState.set_SP (u8 (CPUState.SP c + 1)) c) ;;;
  sp <- getc CPUState.SP ;;
  read (0x0100 + sp).

Definition push16 (data : Z) : St unit :=
  push (Z.land (Z.shiftr data 8) 0xFF) ;;;
  push (Z.land data 0xFF).

Definition pop16 : St Z :=
  lo <- pop ;;
  hi <- pop ;;
  ret (Z.lor (u16 (Z.shiftl hi 8)) lo).

(** [CPU::set_flag], [CPU::get_flag]. *)
Definition set_flag (f : Flags) (value : bool) : St unit :=
  modc (fun c => CPUState.set_P (with_flag f value (CPUState.P c)) c).

Definition get_flag (f : Flags) : St bool :=
  getc (fun c => has_flag f (CPUState.P c)).

(** [CPU::reset]. *)
Definition reset : St unit :=
  lo <- read 0xFFFC ;;
  hi <- read 0xFFFD ;;
  modc (fun c =>
    {| CPUState.A := 0x00; CPUState.X := 0x00; CPUState.Y := 0x00;
       CPUState.SP := 0xFD;
       CPUState.PC := Z.lor (u16 (Z.shiftl hi 8)) lo;
       CPUState.P := Z.lor (Z.lor 0x00 (flag_mask FlagU)) (flag_mask FlagI);
       CPUState.total_cycles := CPUState.total_cycles c;
       CPUState.cycles_remaining := 8;
       CPUState.addr_abs := 0x0000; CPUState.addr_rel := 0x0000;
       CPUState.opcode := CPUState.opcode c;
       CPUState.fetched := 0x00 |}).

(** [CPU::irq]: the maskable interrupt entry. *)
Definition irq : St unit :=
  i <- get_flag FlagI ;;
  if negb i then
    pc <- getc CPUState.PC ;;
    push16 pc ;;;
    set_flag FlagB false ;;;
    set_flag FlagU true ;;;
    set_flag FlagI true ;;;
    p <- getc CPUState.P ;;
    push p ;;;
    lo <- read 0xFFFE ;;
    hi <- read 0xFFFF ;;
    modc (CPUState.set_PC (Z.lor (u16 (Z.shiftl hi 8)) lo)) ;;;
    modc (CPUState.set_cycles_remaining 7)
  else ret tt.

(** [CPU::nmi]: the non-maskable interrupt entry. *)
Definition nmi : St unit :=
  pc <- getc CPUState.PC ;;
  push16 pc ;;;
  set_flag FlagB false ;;;
  set_flag FlagU true ;;;
  set_flag FlagI true ;;;
  p <- getc CPUState.P ;;
  push p ;;;
  lo <- read 0xFFFA ;;
  hi <- read 0xFFFB ;;
  modc (CPUState.set_PC (Z.lor (u16 (Z.shiftl hi 8)) lo)) ;;;
  modc (CPUState.set_cycles_remaining 8).

(** [CPU::fetch]. *)
Definition fetch : St Z :=
  op <- getc CPUState.opcode ;;
  (if negb (is_IMP op) then
     a <- getc CPUState.addr_abs ;;
     v <- read a ;;
     modc (CPUState.set_fetched v)
   else ret tt) ;;;
  getc CPUState.fetched.

(** Frequent member updates. *)
Definition inc_PC : St unit :=
  modc (fun c => CPUState.set_PC (u16 (CPUState.PC c + 1)) c).

Definition set_ZN (v : Z) : St unit :=
  set_flag FlagZ (v =? 0x00) ;;;
  set_flag FlagN (nonzero (Z.land v 0x80)).

(** [A = v] or [write(addr_abs, v)], by the addressing mode of the
    current opcode. *)
Definition store_result (v : Z) : St unit :=
  op <- getc CPUState.opcode ;;
  if is_IMP op then modc (CPUState.set_A v)
  else a <- getc CPUState.addr_abs ;; write a v.

(** *** Addressing modes; the result is the page-cross flag. *)

Definition am_IMP : St Z :=
  modc (fun c => CPUState.set_fetched (CPUState.A c) c) ;;; ret 0.

Definition am_IMM : St Z :=
  modc (fun c => CPUState.set_addr_abs (CPUState.PC c) c) ;;; inc_PC ;;; ret 0.

Definition am_ZP0 : St Z :=
  pc <- getc CPUState.PC ;;
  v <- read pc ;;
  modc (CPUState.set_addr_abs v) ;;;
  inc_PC ;;;
  modc (fun c => CPUState.set_addr_abs (Z.land (CPUState.addr_abs c) 0x00FF) c) ;;;
  ret 0.

Definition am_ZPX : St Z :=
  pc <- getc CPUState.PC ;;
  v <- read pc ;;
  x <- getc CPUState.X ;;
  modc (CPUState.set_addr_abs (u16 (v + x))) ;;;
  inc_PC ;;;
  modc (fun c => CPUState.set_addr_abs (Z.land (CPUState.addr_abs c) 0x00FF) c) ;;;
  ret 0.

Definition am_ZPY : St Z :=
  pc <- getc CPUState.PC ;;
  v <- read pc ;;
  y <- getc CPUState.Y ;;
  modc (CPUState.set_addr_abs (u16 (v + y))) ;;;
  inc_PC ;;;
  modc (fun c => CPUState.set_addr_abs (Z.land (CPUState.addr_abs c) 0x00FF) c) ;;;
  ret 0.

Definition am_REL : St Z :=
  pc <- getc CPUState.PC ;;
  v <- read pc ;;
  modc (CPUState.set_addr_rel v) ;;;
  inc_PC ;;;
  modc (fun c =>
    if nonzero (Z.land (CPUState.addr_rel c) 0x80)
    then CPUState.set_addr_rel (Z.lor (CPUState.addr_rel c) 0xFF00) c else c) ;;;
  ret 0.

(** The two operand bytes [lo], [hi] at [PC]. *)
Definition operand16 : St (Z * Z) :=
  pc <- getc CPUState.PC ;;
  lo <- read pc ;;
  inc_PC ;;;
  pc <- getc CPUState.PC ;;
  hi <- read pc ;;
  inc_PC ;;;
  ret (lo, hi).

Definition am_ABS : St Z :=
  lh <- operand16 ;;
  modc (CPUState.set_addr_abs (Z.lor (u16 (Z.shiftl (snd lh) 8)) (fst lh))) ;;;
  ret 0.

(** [addr_abs += index] and the page-cross test against [hi << 8]. *)
Definition index_by (index hi : Z) : St Z :=
  modc (fun c => CPUState.set_addr_abs (u16 (CPUState.addr_abs c + index)) c) ;;;
  a <- getc CPUState.addr_abs ;;
  ret (if Z.land a 0xFF00 =? Z.shiftl hi 8 then 0 else 1).

Definition am_ABX : St Z :=
  lh <- operand16 ;;
  modc (CPUState.set_addr_abs (Z.lor (u16 (Z.shiftl (snd lh) 8)) (fst lh))) ;;;
  x <- getc CPUState.X ;;
  index_by x (snd lh).

Definition am_ABY : St Z :=
  lh <- operand16 ;;
  modc (CPUState.set_addr_abs (Z.lor (u16 (Z.shiftl (snd lh) 8)) (fst lh))) ;;;
  y <- getc CPUState.Y ;;
  index_by y (snd lh).

(** The operands of [|] are read left to right. *)
Definition am_IND : St Z :=
  lh <- operand16 ;;
  let ptr := Z.lor (u16 (Z.shiftl (snd lh) 8)) (fst lh) in
  (if fst lh =? 0x00FF then
     h <- read (Z.land ptr 0xFF00) ;;
     l <- read ptr ;;
     modc (CPUState.set_addr_abs (u16 (Z.lor (Z.shiftl h 8) l)))
   else
     h <- read (u16 (ptr + 1)) ;;
     l <- read ptr ;;
     modc (CPUState.set_addr_abs (u16 (Z.lor (Z.shiftl h 8) l)))) ;;;
  ret 0.

Definition am_IZX : St Z :=
  pc <- getc CPUState.PC ;;
  t <- read pc ;;
  inc_PC ;;;
  x <- getc CPUState.X ;;
  lo <- read (Z.land (t + x) 0x00FF) ;;
  hi <- read (Z.land (t + x + 1) 0x00FF) ;;
  modc (CPUState.set_addr_abs (Z.lor (u16 (Z.shiftl hi 8)) lo)) ;;;
  ret 0.

Definition am_IZY : St Z :=
  pc <- getc CPUState.PC ;;
  t <- read pc ;;
  inc_PC ;;;
  lo <- read (Z.land t 0x00FF) ;;
  hi <- read (Z.land (t + 1) 0x00FF) ;;
  modc (CPUState.set_addr_abs (Z.lor (u16 (Z.shiftl hi 8)) lo)) ;;;
  y <- getc CPUState.Y ;;
  index_by y hi.

Definition run_addrmode (m : AddrMode) : St Z :=
  match m with
  | IMP => am_IMP | IMM => am_IMM | ZP0 => am_ZP0 | ZPX => am_ZPX
  | ZPY => am_ZPY | REL => am_REL | ABS => am_ABS | ABX => am_ABX
  | ABY => am_ABY | IND => am_IND | IZX => am_IZX | IZY => am_IZY
  end.

(** *** Operations; the result says whether the page-cross cycle applies. *)

Definition op_ADC : St Z :=
  fetched <- fetch ;;
  a <- getc CPUState.A ;;
  c <- get_flag FlagC ;;
  let temp := u16 (a + fetched + b2z c) in
  set_flag FlagC (255 <? temp) ;;;
  set_flag FlagZ (Z.land temp 0x00FF =? 0) ;;;
  set_flag FlagV
    (nonzero (Z.land (Z.land (Z.lnot (Z.lxor a fetched)) (Z.lxor a temp)) 0x0080)) ;;;
  set_flag FlagN (nonzero (Z.land temp 0x80)) ;;;
  modc (CPUState.set_A (Z.land temp 0xFF)) ;;;
  ret 1.

Definition op_AND : St Z :=
  fetched <- fetch ;;
  modc (fun c => CPUState.set_A (Z.land (CPUState.A c) fetched) c) ;;;
  a <- getc CPUState.A ;;
  set_ZN a ;;;
  ret 1.

Definition op_ASL : St Z :=
  fetched <- fetch ;;
  let temp := u16 (Z.shiftl fetched 1) in
  set_flag FlagC (0 <? Z.land temp 0xFF00) ;;;
  set_flag FlagZ (Z.land temp 0x00FF =? 0x00) ;;;
  set_flag FlagN (nonzero (Z.land temp 0x80)) ;;;
  store_result (Z.land temp 0xFF) ;;;
  ret 0.

(** The common body of the eight branch operations, taken when flag [f]
    has value [v]. *)
Definition branch_on (f : Flags) (v : bool) : St Z :=
  x <- get_flag f ;;
  (if Bool.eqb x v then
     modc (fun c => CPUState.set_cycles_remaining (u8 (CPUState.cycles_remaining c + 1)) c) ;;;
     modc (fun c => CPUState.set_addr_abs (u16 (CPUState.PC c + CPUState.addr_rel c)) c) ;;;
     modc (fun c =>
       if Z.land (CPUState.addr_abs c) 0xFF00 =? Z.land (CPUState.PC c) 0xFF00 then c
       else CPUState.set_cycles_remaining (u8 (CPUState.cycles_remaining c + 1)) c) ;;;
     modc (fun c => CPUState.set_PC (CPUState.addr_abs c) c)
   else ret tt) ;;;
  ret 0.

Definition op_BCC : St Z := branch_on FlagC false.
Definition op_BCS : St Z := branch_on FlagC true.
Definition op_BEQ : St Z := branch_on FlagZ true.
Definition op_BMI : St Z := branch_on FlagN true.
Definition op_BNE : St Z := branch_on FlagZ false.
Definition op_BPL : St Z := branch_on FlagN false.
Definition op_BVC : St Z := branch_on FlagV false.
Definition op_BVS : St Z := branch_on FlagV true.

Definition op_BIT : St Z :=
  fetched <- fetch ;;
  a <- getc CPUState.A ;;
  let temp := Z.land a fetched in
  set_flag FlagZ (Z.land temp 0x00FF =? 0x00) ;;;
  set_flag FlagN (nonzero (Z.land fetched (Z.shiftl 1 7))) ;;;
  set_flag FlagV (nonzero (Z.land fetched (Z.shiftl 1 6))) ;;;
  ret 0.

(** The two vector reads are taken left to right. *)
Definition op_BRK : St Z :=
  inc_PC ;;;
  set_flag FlagI true ;;;
  pc <- getc CPUState.PC ;;
  push16 pc ;;;
  set_flag FlagB true ;;;
  p <- getc CPUState.P ;;
  push p ;;;
  set_flag FlagB false ;;;
  lo <- read 0xFFFE ;;
  hi <- read 0xFFFF ;;
  modc (CPUState.set_PC (Z.lor lo (u16 (Z.shiftl hi 8)))) ;;;
  ret 0.

Definition op_CLC : St Z := set_flag FlagC false ;;; ret 0.
Definition op_CLD : St Z := set_flag FlagD false ;;; ret 0.
Definition op_CLI : St Z := set_flag FlagI false ;;; ret 0.
Definition op_CLV : St Z := set_flag FlagV false ;;; ret 0.

(** The common body of CMP, CPX and CPY on register value [r]. *)
Definition compare (r fetched : Z) : St unit :=
  let temp := u16 (r - fetched) in
  set_flag FlagC (fetched <=? r) ;;;
  set_flag FlagZ (Z.land temp 0x00FF =? 0x0000) ;;;
  set_flag FlagN (nonzero (Z.land temp 0x0080)).

Definition op_CMP : St Z :=
  fetched <- fetch ;; a <- getc CPUState.A ;; compare a fetched ;;; ret 1.

Definition op_CPX : St Z :=
  fetched <- fetch ;; x <- getc CPUState.X ;; compare x fetched ;;; ret 0.

Definition op_CPY : St Z :=
  fetched <- fetch ;; y <- getc CPUState.Y ;; compare y fetched ;;; ret 0.

Definition op_DEC : St Z :=
  fetched <- fetch ;;
  let temp := u16 (fetched - 1) in
  a <- getc CPUState.addr_abs ;;
  write a (Z.land temp 0x00FF) ;;;
  set_flag FlagZ (Z.land temp 0x00FF =? 0x0000) ;;;
  set_flag FlagN (nonzero (Z.land temp 0x0080)) ;;;
  ret 0.

Definition op_DEX : St Z :=
  modc (fun c => CPUState.set_X (u8 (CPUState.X c - 1)) c) ;;;
  x <- getc CPUState.X ;; set_ZN x ;;; ret 0.

Definition op_DEY : St Z :=
  modc (fun c => CPUState.set_Y (u8 (CPUState.Y c - 1)) c) ;;;
  y <- getc CPUState.Y ;; set_ZN y ;;; ret 0.

Definition op_EOR : St Z :=
  fetched <- fetch ;;
  modc (fun c => CPUState.set_A (Z.lxor (CPUState.A c) fetched) c) ;;;
  a <- getc CPUState.A ;; set_ZN a ;;; ret 1.

Definition op_INC : St Z :=
  fetched <- fetch ;;
  let temp := u16 (fetched + 1) in
  a <- getc CPUState.addr_abs ;;
  write a (Z.land temp 0x00FF) ;;;
  set_flag FlagZ (Z.land temp 0x00FF =? 0x0000) ;;;
  set_flag FlagN (nonzero (Z.land temp 0x0080)) ;;;
  ret 0.

Definition op_INX : St Z :=
  modc (fun c => CPUState.set_X (u8 (CPUState.X c + 1)) c) ;;;
  x <- getc CPUState.X ;; set_ZN x ;;; ret 0.

Definition op_INY : St Z :=
  modc (fun c => CPUState.set_Y (u8 (CPUState.Y c + 1)) c) ;;;
  y <- getc CPUState.Y ;; set_ZN y ;;; ret 0.

Definition op_JMP : St Z :=
  modc (fun c => CPUState.set_PC (CPUState.addr_abs c) c) ;;; ret 0.

Definition op_JSR : St Z :=
  modc (fun c => CPUState.set_PC (u16 (CPUState.PC c - 1)) c) ;;;
  pc <- getc CPUState.PC ;;
  push16 pc ;;;
  modc (fun c => CPUState.set_PC (CPUState.addr_abs c) c) ;;;
  ret 0.

Definition op_LDA : St Z :=
  fetched <- fetch ;; modc (CPUState.set_A fetched) ;;; set_ZN fetched ;;; ret 1.

Definition op_LDX : St Z :=
  fetched <- fetch ;; modc (CPUState.set_X fetched) ;;; set_ZN fetched ;;; ret 1.

Definition op_LDY : St Z :=
  fetched <- fetch ;; modc (CPUState.set_Y fetched) ;;; set_ZN fetched ;;; ret 1.

Definition op_LSR : St Z :=
  fetched <- fetch ;;
  set_flag FlagC (nonzero (Z.land fetched 0x0001)) ;;;
  let temp := Z.shiftr fetched 1 in
  set_flag FlagZ (Z.land temp 0x00FF =? 0x0000) ;;;
  set_flag FlagN (nonzero (Z.land temp 0x0080)) ;;;
  store_result (Z.land temp 0xFF) ;;;
  ret 0.

Definition op_NOP : St Z :=
  op <- getc CPUState.opcode ;;
  ret (if (op =? 0x1C) || (op =? 0x3C) || (op =? 0x5C) || (op =? 0x7C)
          || (op =? 0xDC) || (op =? 0xFC) then 1 else 0).

Definition op_ORA : St Z :=
  fetched <- fetch ;;
  modc (fun c => CPUState.set_A (Z.lor (CPUState.A c) fetched) c) ;;;
  a <- getc CPUState.A ;; set_ZN a ;;; ret 1.

Definition op_PHA : St Z :=
  a <- getc CPUState.A ;; push a ;;; ret 0.

Definition op_PHP : St Z :=
  p <- getc CPUState.P ;;
  push (Z.lor (Z.lor p (flag_mask FlagB)) (flag_mask FlagU)) ;;;
  set_flag FlagB false ;;;
  set_flag FlagU false ;;;
  ret 0.

Definition op_PLA : St Z :=
  v <- pop ;; modc (CPUState.set_A v) ;;; set_ZN v ;;; ret 0.

Definition op_PLP : St Z :=
  v <- pop ;;
  modc (CPUState.set_P v) ;;;
  set_flag FlagU true ;;;
  ret 0.

Definition op_ROL : St Z :=
  fetched <- fetch ;;
  c <- get_flag FlagC ;;
  let temp := Z.lor (u16 (Z.shiftl fetched 1)) (b2z c) in
  set_flag FlagC (nonzero (Z.land temp 0xFF00)) ;;;
  set_flag FlagZ (Z.land temp 0x00FF =? 0x0000) ;;;
  set_flag FlagN (nonzero (Z.land temp 0x0080)) ;;;
  store_result (Z.land temp 0xFF) ;;;
  ret 0.

Definition op_ROR : St Z :=
  fetched <- fetch ;;
  c <- get_flag FlagC ;;
  let temp := Z.lor (u16 (Z.shiftl (b2z c) 7)) (Z.shiftr fetched 1) in
  set_flag FlagC (nonzero (Z.land fetched 0x01)) ;;;
  set_flag FlagZ (Z.land temp 0x00FF =? 0x00) ;;;
  set_flag FlagN (nonzero (Z.land temp 0x0080)) ;;;
  store_result (Z.land temp 0xFF) ;;;
  ret 0.

Definition op_RTI : St Z :=
  v <- pop ;;
  modc (CPUState.set_P v) ;;;
  set_flag FlagB false ;;;
  set_flag FlagU false ;;;
  pc <- pop16 ;;
  modc (CPUState.set_PC pc) ;;;
  ret 0.

Definition op_RTS : St Z :=
  pc <- pop16 ;;
  modc (CPUState.set_PC pc) ;;;
  inc_PC ;;;
  ret 0.

Definition op_SBC : St Z :=
  fetched <- fetch ;;
  let value := Z.lxor fetched 0x00FF in
  a <- getc CPUState.A ;;
  c <- get_flag FlagC ;;
  let temp := u16 (a + value + b2z c) in
  set_flag FlagC (nonzero (Z.land temp 0xFF00)) ;;;
  set_flag FlagZ (Z.land temp 0x00FF =? 0) ;;;
  set_flag FlagV
    (nonzero (Z.land (Z.land (Z.lxor temp a) (Z.lxor temp value)) 0x0080)) ;;;
  set_flag FlagN (nonzero (Z.land temp 0x0080)) ;;;
  modc (CPUState.set_A (Z.land temp 0x00FF)) ;;;
  ret 1.

Definition op_SEC : St Z := set_flag FlagC true ;;; ret 0.
Definition op_SED : St Z := set_flag FlagD true ;;; ret 0.
Definition op_SEI : St Z := set_flag FlagI true ;;; ret 0.

Definition op_STA : St Z :=
  a <- getc CPUState.addr_abs ;; v <- getc CPUState.A ;; write a v ;;; ret 0.

Definition op_STX : St Z :=
  a <- getc CPUState.addr_abs ;; v <- getc CPUState.X ;; write a v ;;; ret 0.

Definition op_STY : St Z :=
  a <- getc CPUState.addr_abs ;; v <- getc CPUState.Y ;; write a v ;;; ret 0.

Definition op_TAX : St Z :=
  modc (fun c => CPUState.set_X (CPUState.A c) c) ;;;
  x <- getc CPUState.X ;; set_ZN x ;;; ret 0.

Definition op_TAY : St Z :=
  modc (fun c => CPUState.set_Y (CPUState.A c) c) ;;;
  y <- getc CPUState.Y ;; set_ZN y ;;; ret 0.

Definition op_TSX : St Z :=
  modc (fun c => CPUState.set_X (CPUState.SP c) c) ;;;
  x <- getc CPUState.X ;; set_ZN x ;;; ret 0.

Definition op_TXA : St Z :=
  modc (fun c => CPUState.set_A (CPUState.X c) c) ;;;
  a <- getc CPUState.A ;; set_ZN a ;;; ret 0.

Definition op_TXS : St Z :=
  modc (fun c => CPUState.set_SP (CPUState.X c) c) ;;; ret 0.

Definition op_TYA : St Z :=
  modc (fun c => CPUState.set_A (CPUState.Y c) c) ;;;
  a <- getc CPUState.A ;; set_ZN a ;;; ret 0.

(** *** Undocumented operations *)

Definition op_XXX : St Z := ret 0.

Definition op_JAM : St Z :=
  modc (fun c => CPUState.set_PC (u16 (CPUState.PC c - 1)) c) ;;; ret 0.

Definition op_SLO : St Z :=
  fetched <- fetch ;;
  let temp := u16 (Z.shiftl fetched 1) in
  a <- getc CPUState.addr_abs ;;
  write a (Z.land temp 0xFF) ;;;
  set_flag FlagC (0 <? Z.land temp 0xFF00) ;;;
  modc (fun c => CPUState.set_A (Z.lor (CPUState.A c) (Z.land temp 0xFF)) c) ;;;
  v <- getc CPUState.A ;; set_ZN v ;;; ret 0.

Definition op_RLA : St Z :=
  fetched <- fetch ;;
  c <- get_flag FlagC ;;
  let temp := Z.lor (u16 (Z.shiftl fetched 1)) (b2z c) in
  a <- getc CPUState.addr_abs ;;
  write a (Z.land temp 0xFF) ;;;
  set_flag FlagC (nonzero (Z.land temp 0xFF00)) ;;;
  modc (fun c => CPUState.set_A (Z.land (CPUState.A c) (Z.land temp 0xFF)) c) ;;;
  v <- getc CPUState.A ;; set_ZN v ;;; ret 0.

Definition op_SRE : St Z :=
  fetched <- fetch ;;
  set_flag FlagC (nonzero (Z.land fetched 0x01)) ;;;
  let temp := u8 (Z.shiftr fetched 1) in
  a <- getc CPUState.addr_abs ;;
  write a temp ;;;
  modc (fun c => CPUState.set_A (Z.lxor (CPUState.A c) temp) c) ;;;
  v <- getc CPUState.A ;; set_ZN v ;;; ret 0.

Definition op_RRA : St Z :=
  fetched <- fetch ;;
  c <- get_flag FlagC ;;
  let temp := u8 (Z.lor (Z.shiftl (b2z c) 7) (Z.shiftr fetched 1)) in
  set_flag FlagC (nonzero (Z.land fetched 0x01)) ;;;
  addr <- getc CPUState.addr_abs ;;
  write addr temp ;;;
  a <- getc CPUState.A ;;
  c <- get_flag FlagC ;;
  let sum := u16 (a + temp + b2z c) in
  set_flag FlagC (255 <? sum) ;;;
  set_flag FlagZ (Z.land sum 0xFF =? 0) ;;;
  set_flag FlagV
    (nonzero (Z.land (Z.land (Z.lnot (Z.lxor a temp)) (Z.lxor a sum)) 0x0080)) ;;;
  set_flag FlagN (nonzero (Z.land sum 0x80)) ;;;
  modc (CPUState.set_A (Z.land sum 0xFF)) ;;;
  ret 0.

Definition op_SAX : St Z :=
  addr <- getc CPUState.addr_abs ;;
  a <- getc CPUState.A ;;
  x <- getc CPUState.X ;;
  write addr (Z.land a x) ;;;
  ret 0.

Definition op_LAX : St Z :=
  fetched <- fetch ;;
  modc (CPUState.set_A fetched) ;;;
  modc (CPUState.set_X fetched) ;;;
  set_ZN fetched ;;;
  ret 1.

Definition op_DCP : St Z :=
  fetched <- fetch ;;
  let temp := u8 (fetched - 1) in
  addr <- getc CPUState.addr_abs ;;
  write addr temp ;;;
  a <- getc CPUState.A ;;
  let cmp := u16 (a - temp) in
  set_flag FlagC (temp <=? a) ;;;
  set_flag FlagZ (Z.land cmp 0x00FF =? 0) ;;;
  set_flag FlagN (nonzero (Z.land cmp 0x0080)) ;;;
  ret 0.

Definition op_ISC : St Z :=
  fetched <- fetch ;;
  let temp := u8 (fetched + 1) in
  addr <- getc CPUState.addr_abs ;;
  write addr temp ;;;
  let value := Z.lxor temp 0x00FF in
  a <- getc CPUState.A ;;
  c <- get_flag FlagC ;;
  let sum := u16 (a + value + b2z c) in
  set_flag FlagC (nonzero (Z.land sum 0xFF00)) ;;;
  set_flag FlagZ (Z.land sum 0xFF =? 0) ;;;
  set_flag FlagV
    (nonzero (Z.land (Z.land (Z.lxor sum a) (Z.lxor sum value)) 0x0080)) ;;;
  set_flag FlagN (nonzero (Z.land sum 0x0080)) ;;;
  modc (CPUState.set_A (Z.land sum 0xFF)) ;;;
  ret 0.

Definition op_ANC : St Z :=
  fetched <- fetch ;;
  modc (fun c => CPUState.set_A (Z.land (CPUState.A c) fetched) c) ;;;
  a <- getc CPUState.A ;;
  set_ZN a ;;;
  set_flag FlagC (nonzero (Z.land a 0x80)) ;;;
  ret 0.

Definition op_ALR : St Z :=
  fetched <- fetch ;;
  modc (fun c => CPUState.set_A (Z.land (CPUState.A c) fetched) c) ;;;
  a <- getc CPUState.A ;;
  set_flag FlagC (nonzero (Z.land a 0x01)) ;;;
  modc (CPUState.set_A (Z.shiftr a 1)) ;;;
  set_flag FlagZ (Z.shiftr a 1 =? 0x00) ;;;
  set_flag FlagN false ;;;
  ret 0.

Definition op_ARR : St Z :=
  fetched <- fetch ;;
  modc (fun c => CPUState.set_A (Z.land (CPUState.A c) fetched) c) ;;;
  a <- getc CPUState.A ;;
  c <- get_flag FlagC ;;
  let a := u8 (Z.lor (Z.shiftl (b2z c) 7) (Z.shiftr a 1)) in
  modc (CPUState.set_A a) ;;;
  set_ZN a ;;;
  set_flag FlagC (nonzero (Z.land a 0x40)) ;;;
  set_flag FlagV
    (nonzero (Z.lxor (Z.land a 0x40) (Z.shiftl (Z.land a 0x20) 1))) ;;;
  ret 0.

Definition op_XAA : St Z :=
  fetched <- fetch ;;
  modc (fun c => CPUState.set_A (Z.land (CPUState.X c) fetched) c) ;;;
  a <- getc CPUState.A ;; set_ZN a ;;; ret 0.

Definition op_AXS : St Z :=
  fetched <- fetch ;;
  a <- getc CPUState.A ;;
  x <- getc CPUState.X ;;
  let temp := Z.land a x in
  let result := u16 (temp - fetched) in
  modc (CPUState.set_X (Z.land result 0xFF)) ;;;
  set_flag FlagC (fetched <=? temp) ;;;
  set_flag FlagZ (Z.land result 0xFF =? 0) ;;;
  set_flag FlagN (nonzero (Z.land (Z.land result 0xFF) 0x80)) ;;;
  ret 0.

(** [(addr_abs >> 8) + 1], the high-byte term of the unstable stores. *)
Definition high_plus_one (addr : Z) : Z := Z.shiftr addr 8 + 1.

Definition op_AHX : St Z :=
  addr <- getc CPUState.addr_abs ;;
  a <- getc CPUState.A ;;
  x <- getc CPUState.X ;;
  write addr (u8 (Z.land (Z.land a x) (high_plus_one addr))) ;;;
  ret 0.

Definition op_SHY : St Z :=
  addr <- getc CPUState.addr_abs ;;
  y <- getc CPUState.Y ;;
  write addr (u8 (Z.land y (high_plus_one addr))) ;;;
  ret 0.

Definition op_SHX : St Z :=
  addr <- getc CPUState.addr_abs ;;
  x <- getc CPUState.X ;;
  write addr (u8 (Z.land x (high_plus_one addr))) ;;;
  ret 0.

Definition op_TAS : St Z :=
  addr <- getc CPUState.addr_abs ;;
  a <- getc CPUState.A ;;
  x <- getc CPUState.X ;;
  modc (CPUState.set_SP (Z.land a x)) ;;;
  write addr (u8 (Z.land (Z.land a x) (high_plus_one addr))) ;;;
  ret 0.

Definition op_LAS : St Z :=
  fetched <- fetch ;;
  sp <- getc CPUState.SP ;;
  let temp := Z.land fetched sp in
  modc (CPUState.set_A temp) ;;;
  modc (CPUState.set_X temp) ;;;
  modc (CPUState.set_SP temp) ;;;
  set_ZN temp ;;;
  ret 1.

Definition run_operate (o : Operation) : St Z :=
  match o with
  | ADC => op_ADC | AHX => op_AHX | ALR => op_ALR | ANC => op_ANC
  | AND => op_AND | ARR => op_ARR | ASL => op_ASL | AXS => op_AXS
  | BCC => op_BCC | BCS => op_BCS | BEQ => op_BEQ | BIT => op_BIT
  | BMI => op_BMI | BNE => op_BNE | BPL => op_BPL | BRK => op_BRK
  | BVC => op_BVC | BVS => op_BVS | CLC => op_CLC | CLD => op_CLD
  | CLI => op_CLI | CLV => op_CLV | CMP => op_CMP | CPX => op_CPX
  | CPY => op_CPY | DCP => op_DCP | DEC => op_DEC | DEX => op_DEX
  | DEY => op_DEY | EOR => op_EOR | INC => op_INC | INX => op_INX
  | INY => op_INY | ISC => op_ISC | JAM => op_JAM | JMP => op_JMP
  | JSR => op_JSR | LAS => op_LAS | LAX => op_LAX | LDA => op_LDA
  | LDX => op_LDX | LDY => op_LDY | LSR => op_LSR | NOP => op_NOP
  | ORA => op_ORA | PHA => op_PHA | PHP => op_PHP | PLA => op_PLA
  | PLP => op_PLP | RLA => op_RLA | ROL => op_ROL | ROR => op_ROR
  | RRA => op_RRA | RTI => op_RTI | RTS => op_RTS | SAX => op_SAX
  | SBC => op_SBC | SEC => op_SEC | SED => op_SED | SEI => op_SEI
  | SHX => op_SHX | SHY => op_SHY | SLO => op_SLO | SRE => op_SRE
  | STA => op_STA | STX => op_STX | STY => op_STY | TAS => op_TAS
  | TAX => op_TAX | TAY => op_TAY | TSX => op_TSX | TXA => op_TXA
  | TXS => op_TXS | TYA => op_TYA | XAA => op_XAA | XXX => op_XXX
  end.

(** [CPU::clock]: one CPU cycle.  A new instruction is fetched, decoded
    and executed whole when [cycles_remaining] is 0. *)
Definition clock : St unit :=
  cr <- getc CPUState.cycles_remaining ;;
  (if cr =? 0 then
     pc <- getc CPUState.PC ;;
     opc <- read pc ;;
     modc (CPUState.set_opcode opc) ;;;
     set_flag FlagU true ;;;
     inc_PC ;;;
     let i := instr opc in
     modc (CPUState.set_cycles_remaining (cycles i)) ;;;
     addr_mode_extra_cycle <- run_addrmode (addrmode i) ;;
     operation_extra_cycle <- run_operate (operate i) ;;
     modc (fun c =>
       CPUState.set_cycles_remaining
         (u8 (CPUState.cycles_remaining c
              + Z.land addr_mode_extra_cycle operation_extra_cycle)) c) ;;;
     set_flag FlagU true
   else ret tt) ;;;
  modc (fun c => CPUState.set_cycles_remaining (u8 (CPUState.cycles_remaining c - 1)) c) ;;;
  modc (fun c => CPUState.set_total_cycles (u64 (CPUState.total_cycles c + 1)) c).

End WithMapper.
End CPU.

(** ** The APU clock and the DMC sample fetch *)

Module APUClock.
Section WithMapper.
Context {M : Type} {MP : Mapper M}.
Local Abbreviation System := (Sys.t M).
Local Abbreviation St := (State System).
Local Open Scope st_scope.

Definition getd {A : Type} (f : DMC.t -> A) : St A :=
  gets (fun s => f (APU.dmc (Sys.apu s))).

Definition modd (f : DMC.t -> DMC.t) : St unit :=
  modify (fun s => Sys.set_apu (APU.set_dmc (f (APU.dmc (Sys.apu s))) (Sys.apu s)) s).

(** The sample fetch of [APU::DMC::clock_timer], taken when the output
    unit starts a new byte and the sample buffer is full. *)
Definition dmc_load_next : St unit :=
  remaining <- getd DMC.bytes_remaining ;;
  if 0 <? remaining then
    cb <- getd DMC.read_callback ;;
    (if cb then
       a <- getd DMC.current_address ;;
       v <- Bus.dmc_read_callback a ;;
       modd (fun d => DMC.set_sample_buffer_empty false (DMC.set_sample_buffer v d))
     else ret tt) ;;;
    modd (fun d => DMC.set_current_address (u16 (DMC.current_address d + 1)) d) ;;;
    modd (fun d =>
      if DMC.current_address d =? 0x0000 then DMC.set_current_address 0x8000 d else d) ;;;
    modd (fun d => DMC.set_bytes_remaining (u16 (DMC.bytes_remaining d - 1)) d) ;;;
    modd (fun d =>
      if (DMC.bytes_remaining d =? 0) && DMC.loop d then DMC.start_sample d else d)
  else ret tt.

(** [APU::DMC::clock_timer]. *)
Definition dmc_clock_timer : St unit :=
  tc <- getd DMC.timer_counter ;;
  if tc =? 0 then
    modd (fun d => DMC.set_timer_counter (DMC.timer_period d) d) ;;;
    modd (fun d =>
      if negb (DMC.silence d) then
        if nonzero (Z.land (DMC.shift_register d) 0x01) then
          if DMC.output_level d <=? 125
          then DMC.set_output_level (u8 (DMC.output_level d + 2)) d else d
        else
          if 2 <=? DMC.output_level d
          then DMC.set_output_level (u8 (DMC.output_level d - 2)) d else d
      else d) ;;;
    modd (fun d => DMC.set_shift_register (u8 (Z.shiftr (DMC.shift_register d) 1)) d) ;;;
    modd (fun d => DMC.set_bits_remaining (u8 (DMC.bits_remaining d - 1)) d) ;;;
    bits <- getd DMC.bits_remaining ;;
    if bits =? 0 then
      modd (DMC.set_bits_remaining 8) ;;;
      empty <- getd DMC.sample_buffer_empty ;;
      if empty then modd (DMC.set_silence true)
      else
        modd (fun d =>
          DMC.set_sample_buffer_empty true
            (DMC.set_shift_register (DMC.sample_buffer d) (DMC.set_silence false d))) ;;;
        dmc_load_next
    else ret tt
  else modd (fun d => DMC.set_timer_counter (u16 (DMC.timer_counter d - 1)) d).

(** [APU::clock]: one CPU cycle of the APU. *)
Definition clock : St unit :=
  modify (fun s => Sys.set_apu (APU.clock_channels (Sys.apu s)) s) ;;;
  dmc_clock_timer ;;;
  modify (fun s =>
    Sys.set_apu (APU.set_cycles (u64 (APU.cycles (Sys.apu s) + 1)) (Sys.apu s)) s).

End WithMapper.
End APUClock.

(** ** The system tick (bus.cpp, [Bus::clock]) *)

(** What one tick did, in order: which unit had the CPU slot, what the
    DMA engine transferred, and which interrupt entries were called.
    The list is the result of [clock]; it is not part of the machine. *)
Inductive Event : Type :=
  | CpuClock
  | DmaWait
  | DmaAlign
  | DmaRead (addr data : Z)
  | DmaWrite (data : Z)
  | NmiEntry
  | IrqEntry.

Module BusClock.
Section WithMapper.
Context {M : Type} {MP : Mapper M}.
Local Abbreviation System := (Sys.t M).
Local Abbreviation St := (State System).
Local Open Scope st_scope.

Definition getb {A : Type} (f : BusState.t -> A) : St A :=
  gets (fun s => f (Sys.bus s)).

Definition modb (f : BusState.t -> BusState.t) : St unit :=
  modify (fun s => Sys.set_bus (f (Sys.bus s)) s).

(** [ppu->clock()]. *)
Definition ppu_clock : St unit := fun s =>
  let '(_, (p, c)) := PPU.clock (Sys.ppu s, Sys.cartridge s) in
  (tt, Sys.set_cartridge c (Sys.set_ppu p s)).

(** [ppu->cpu_write(0x0004, dma_data)]. *)
Definition oam_port_write (data : Z) : St unit := fun s =>
  let '(p, c) := PPU.cpu_write 0x0004 data (Sys.ppu s) (Sys.cartridge s) in
  (tt, Sys.set_cartridge c (Sys.set_ppu p s)).

(** The [dma_transfer] branch of the CPU slot. *)
Definition dma_slot : St (list Event) :=
  b <- getb (fun b => b) ;;
  let counter := BusState.system_clock_counter b in
  if BusState.dma_dummy b then
    if counter mod 2 =? 1 then
      modb (BusState.set_dma_dummy false) ;;; ret [DmaAlign]
    else ret [DmaWait]
  else if counter mod 2 =? 0 then
    let addr := Z.lor (Z.shiftl (BusState.dma_page b) 8) (BusState.dma_addr b) in
    d <- Bus.cpu_read addr ;;
    modb (BusState.set_dma_data d) ;;;
    ret [DmaRead addr d]
  else
    oam_port_write (BusState.dma_data b) ;;;
    modb (fun b => BusState.set_dma_addr (u8 (BusState.dma_addr b + 1)) b) ;;;
    modb (fun b =>
      if BusState.dma_addr b =? 0x00
      then BusState.set_dma_dummy true (BusState.set_dma_transfer false b)
      else b) ;;;
    ret [DmaWrite (BusState.dma_data b)].

(** The CPU slot, every third tick: DMA or the CPU, then the APU. *)
Definition cpu_slot : St (list Event) :=
  counter <- getb BusState.system_clock_counter ;;
  if counter mod 3 =? 0 then
    dma <- getb BusState.dma_transfer ;;
    ev <- (if dma then dma_slot else CPU.clock ;;; ret [CpuClock]) ;;
    APUClock.clock ;;;
    ret ev
  else ret [].

(** The NMI line from the PPU. *)
Definition route_nmi : St (list Event) :=
  pending <- gets (fun s => PPU.nmi (Sys.ppu s)) ;;
  if pending then
    modify (fun s => Sys.set_ppu (PPU.set_nmi false (Sys.ppu s)) s) ;;;
    CPU.nmi ;;;
    ret [NmiEntry]
  else ret [].

(** The IRQ line from the cartridge. *)
Definition route_irq : St (list Event) :=
  pending <- gets (fun s =>
    match Sys.cartridge s with Some c => Cartridge.irq_state c | None => false end) ;;
  if pending then
    modify (fun s =>
      Sys.set_cartridge
        (match Sys.cartridge s with
         | Some c => Some (Cartridge.irq_clear c) | None => None end) s) ;;;
    CPU.irq ;;;
    ret [IrqEntry]
  else ret [].

(** [Bus::clock]: one system tick. *)
Definition clock : St (list Event) :=
  ppu_clock ;;;
  ev1 <- cpu_slot ;;
  ev2 <- route_nmi ;;
  ev3 <- route_irq ;;
  modb (fun b =>
    BusState.set_system_clock_counter (u64 (BusState.system_clock_counter b + 1)) b) ;;;
  ret (ev1 ++ ev2 ++ ev3).

(** [n] ticks in a row, with everything they did. *)
Fixpoint run (n : nat) : St (list Event) :=
  match n with
  | O => ret []
  | S n' => ev <- clock ;; evs <- run n' ;; ret (ev ++ evs)
  end.

(** [Bus::reset]. *)
Definition reset : St unit :=
  CPU.reset ;;;
  modify (fun s => Sys.set_ppu (PPU.reset (Sys.ppu s)) s) ;;;
  modify (fun s => Sys.set_apu (APU.reset (Sys.apu s)) s) ;;;
  modb (fun b => BusState.set_dma_transfer false (BusState.set_system_clock_counter 0 b)).

(** [Bus::insert_cartridge]. *)
Definition insert_cartridge (c : Cartridge.t M) (s : System) : System :=
  Sys.set_cartridge (Some c) s.

(** The machine after the [Emulator] constructor: a fresh bus, the CPU
    reset against it (no cartridge, so the reset vector reads 0), a fresh
    PPU and APU, the DMC callback installed. *)
Definition power_on : System :=
  let s0 :=
    {| Sys.cpu :=
         {| CPUState.A := 0; CPUState.X := 0; CPUState.Y := 0; CPUState.SP := 0;
            CPUState.PC := 0; CPUState.P := 0; CPUState.total_cycles := 0;
            CPUState.cycles_remaining := 0; CPUState.addr_abs := 0;
            CPUState.addr_rel := 0; CPUState.opcode := 0; CPUState.fetched := 0 |};
       Sys.ppu := PPU.create;
       Sys.apu := APU.set_dmc_read_callback APU.create;
       Sys.bus := Bus.create;
       Sys.cartridge := None |} in
  exec CPU.reset s0.

End WithMapper.
End BusClock.

(** ** The emulator object (emulator.hpp, emulator.cpp)

    The constructor wires the machine [BusClock.power_on]; the
    [residual_time] member takes no part in what the components do. *)

Module Emulator.
Section WithMapper.
Context {M : Type} {MP : Mapper M}.
Local Abbreviation System := (Sys.t M).
Local Abbreviation St := (State System).
Local Open Scope st_scope.

(** [Emulator::reset]. *)
Definition reset : St unit := BusClock.reset.

(** [Emulator::load_rom] on the bytes [data] of the file: the cartridge
    is built; an invalid one is dropped and the machine stays as it was,
    a valid one is inserted and the machine reset.  [make_mapper] is the
    [switch] of [create_mapper], as for [Cartridge.construct]. *)
Definition load_rom (make_mapper : Z -> Z -> Z -> M) (data : list Z) : St bool :=
  fun s =>
    let c := Cartridge.construct make_mapper data in
    if negb (Cartridge.valid c) then (false, s)
    else (true, exec reset (BusClock.insert_cartridge c s)).

(** [Emulator::run_frame]: [while (!ppu->frame_complete()) bus->clock();]
    with at most [fuel] turns of the loop.  The result is [true] when the
    loop has ended, as the function returns, and [false] when the fuel
    ran out first. *)
Fixpoint run_frame (fuel : nat) : St bool := fun s =>
  let '(ready, p) := PPU.frame_complete (Sys.ppu s) in
  let s := Sys.set_ppu p s in
  if ready then (true, s)
  else
    match fuel with
    | O => (false, s)
    | S fuel' => run_frame fuel' (exec BusClock.clock s)
    end.

(** [Emulator::set_controller_state]. *)
Definition set_controller_state (controller state : Z) (s : System) : System :=
  Bus.set_controller_state controller state s.

End WithMapper.
End Emulator.

(** The [case 0] and the [default] of [Cartridge::create_mapper]: an
    NROM mapper for mapper 0 and for every id without a class. *)
Definition create_mapper_nrom (mapper_id prg_banks chr_banks : Z) : Mapper000.t :=
  Mapper000.create prg_banks chr_banks.

(** The mapper ids [create_mapper] has a class for, other than 0. *)
Definition has_mapper_class (mapper_id : Z) : bool :=
  existsb (Z.eqb mapper_id) [1; 2; 3; 4; 7; 9; 10; 11; 66; 71; 206].

(** The header tests of the [Cartridge] constructor and of [load_ines]:
    sixteen bytes at least, the magic, and the whole PRG ROM in the file
    after the header and the trainer. *)
Definition ines_magic (data : list Z) : bool :=
  (byte_at data 0 =? 0x4E) && (byte_at data 1 =? 0x45)
  && (byte_at data 2 =? 0x53) && (byte_at data 3 =? 0x1A).

Definition prg_offset (data : list Z) : Z :=
  if Z.testbit (byte_at data 6) 2 then 16 + 512 else 16.

Definition image_loads (data : list Z) : Prop :=
  16 <= Z.of_nat (length data)
  /\ ines_magic data = true
  /\ prg_offset data + byte_at data 4 * 16384 <= Z.of_nat (length data).
(** * Machines and inputs used below *)

(** The machine right after construction, with the MMC3 as mapper type. *)
Definition machine0 : Sys.t Mapper004.t := BusClock.power_on.

(** A machine with the bytes [code] at the bottom of RAM, about to fetch
    the instruction at [$0000] with accumulator [a]. *)
Definition with_program (code : list Z) (a : Z) (s : Sys.t Mapper004.t)
  : Sys.t Mapper004.t :=
  let b := Sys.bus s in
  let ram := code ++ drop (length code) (BusState.ram b) in
  Sys.set_cpu
    (CPUState.set_A a
      (CPUState.set_cycles_remaining 0 (CPUState.set_PC 0x0000 (Sys.cpu s))))
    (Sys.set_bus (BusState.set_ram ram b) s).

(** [n] CPU cycles in a row. *)
Fixpoint cpu_cycles (n : nat) (s : Sys.t Mapper004.t) : Sys.t Mapper004.t :=
  match n with
  | O => s
  | S n' => cpu_cycles n' (exec CPU.clock s)
  end.

(** The machine in the middle of [ADC $10] ([$65]) with [$50] at [$0010]
    and in the accumulator. *)
Definition machine_adc : Sys.t Mapper004.t :=
  let s := with_program (replicate 16 0 ++ [0x50]) 0x50 machine0 in
  Sys.set_cpu (CPUState.set_addr_abs 0x0010 (CPUState.set_opcode 0x65 (Sys.cpu s))) s.

(** A two-bank (32 KiB) PRG ROM filled with [$EA], and the mapper the
    cartridge builds for it. *)
Definition prg_rom_32k : list Z := filled 32768 0xEA.

Definition mmc3_32k : Mapper004.t := Mapper004.create 2 1.

(** An iNES image for mapper 4 with one 16 KiB PRG bank, one declared
    8 KiB CHR bank, and only four bytes of CHR data before the end of the
    file. *)
Definition truncated_image : list Z :=
  [0x4E; 0x45; 0x53; 0x1A; 1; 1; 0x40; 0; 0; 0; 0; 0; 0; 0; 0; 0]
  ++ filled 16384 0xEA ++ [1; 2; 3; 4].

Section Ports.
Context {M : Type} {MP : Mapper M}.
Local Open Scope st_scope.
(** [n] reads of controller port [$4016 + i] in a row, with the values
    returned. *)
Fixpoint port_reads (n : nat) (i : Z) : State (Sys.t M) (list Z) :=
  match n with
  | O => ret []
  | S n' =>
      d <- Bus.cpu_read (0x4016 + i) ;;
      ds <- port_reads n' i ;;
      ret (d :: ds)
  end.
End Ports.

(** The machine with only the A button of controller 1 held down. *)
Definition pad_a_pressed : Sys.t Mapper004.t := Bus.set_controller_state 0 0x80 machine0.


Section RegisterAccesses.
Context {M : Type} {MP : Mapper M}.

(** A CPU access to a PPU register: the bus passes [addr & 7]. *)
Inductive Access : Type :=
  | RegRead (addr : Z)
  | RegWrite (addr data : Z).

(** The PPU and its cartridge after one access. *)
Definition access (a : Access) (s : PPU.t * option (Cartridge.t M))
  : PPU.t * option (Cartridge.t M) :=
  match a with
  | RegRead addr => snd (PPU.cpu_read addr (fst s) (snd s))
  | RegWrite addr data => PPU.cpu_write addr data (fst s) (snd s)
  end.

(** After a sequence of accesses, in order. *)
Definition accesses (l : list Access) (s : PPU.t * option (Cartridge.t M))
  : PPU.t * option (Cartridge.t M) :=
  fold_left (fun s a => access a s) l s.

(** A read of PPUDATA, [$2007]. *)
Definition is_data_read (a : Access) : bool :=
  match a with
  | RegRead addr => Z.land addr 0x0007 =? 0x0007
  | RegWrite _ _ => false
  end.

End RegisterAccesses.


(** The machine in vertical blank, about to run [LDA #$02; STA $4014]
    from the bottom of RAM, with the bytes [0, 1, 2, ...] in page 2. *)
Definition machine_dma : Sys.t Mapper004.t :=
  let s := with_program [0xA9; 0x02; 0x8D; 0x14; 0x40] 0 machine0 in
  let ram := BusState.ram (Sys.bus s) in
  let ram := take 512 ram ++ map Z.of_nat (seq 0 256) ++ drop 768 ram in
  let r := PPU.set_scanline 242 (PPU.render (Sys.ppu s)) in
  Sys.set_ppu (PPU.set_render r (Sys.ppu s))
    (Sys.set_bus (BusState.set_ram ram (Sys.bus s)) s).

(** The same machine three CPU cycles (nine ticks) later: the store has
    run, and the next tick is the first CPU slot it does not get. *)
Definition machine_dma_armed : Sys.t Mapper004.t := exec (BusClock.run 9) machine_dma.

(** The same with [LDA $05] (three cycles) for the load, so that the
    store runs in CPU cycle 3. *)
Definition machine_dma_odd : Sys.t Mapper004.t :=
  let s := with_program [0xA5; 0x05; 0x8D; 0x14; 0x40; 0x02] 0 machine_dma in
  exec (BusClock.run 12) s.


(** [machine_dma] reset in the middle of its transfer: 21 ticks in (the
    store, the alignment slot, one byte copied and the second byte read)
    comes [Bus::reset]; the program at [$0000] then runs again, and 33
    ticks after the reset its store is done and the next tick is the
    first CPU slot it does not get. *)
Definition machine_dma_reset : Sys.t Mapper004.t :=
  exec (BusClock.run 33) (exec BusClock.reset (exec (BusClock.run 21) machine_dma)).

(** An MMC3 cartridge with 32 KiB of [NOP]s and 8 KiB of blank CHR ROM. *)
Definition cartridge_mmc3 : Cartridge.t Mapper004.t :=
  {| Cartridge.valid := true;
     Cartridge.prg_rom := prg_rom_32k;
     Cartridge.chr_rom := filled 8192 0x00;
     Cartridge.prg_ram := filled 8192 0x00;
     Cartridge.mapper_id := 4;
     Cartridge.prg_banks := 2; Cartridge.chr_banks := 1;
     Cartridge.mirror_mode := HORIZONTAL; Cartridge.battery_backed := false;
     Cartridge.mapper := Some mmc3_32k |}.

(** The machine with that cartridge after a reset, then the set-up a
    program would do, through the bus: background rendering on
    ([$2001]), IRQ latch [$10] ([$C000]), IRQ enabled ([$E001]); and the
    I flag cleared as by [CLI]. *)
Definition machine_mmc3 : Sys.t Mapper004.t :=
  let s := exec BusClock.reset (BusClock.insert_cartridge cartridge_mmc3 machine0) in
  let s := exec (Bus.cpu_write 0x2001 0x08 ;;; Bus.cpu_write 0xC000 0x10 ;;;
                 Bus.cpu_write 0xE001 0x00)%st s in
  Sys.set_cpu
    (CPUState.set_P (CPU.with_flag CPU.FlagI false (CPUState.P (Sys.cpu s))) (Sys.cpu s)) s.

(** The mapper of a machine. *)
Definition mapper_of (s : Sys.t Mapper004.t) : option Mapper004.t :=
  match Sys.cartridge s with Some c => Cartridge.mapper c | None => None end.

(** The mapper of that machine: latch [$10], IRQ enabled, counter 0. *)
Definition mmc3_armed : Mapper004.t :=
  Mapper004.set_irq_enable true (Mapper004.set_irq_latch 0x10 mmc3_32k).

(** That machine with the mapper as the seventeenth [scanline()] call
    leaves it, IRQ asserted, and the CPU about to run [STA $E000] from the
    bottom of RAM: the next tick is a CPU slot. *)
Definition machine_mmc3_ack : Sys.t Mapper004.t :=
  let s := with_program [0x8D; 0x00; 0xE0] 0 machine_mmc3 in
  Sys.set_cartridge
    (option_map (Cartridge.set_mapper (Some (Mapper004.pulses 17 mmc3_armed)))
                (Sys.cartridge s)) s.

(** [machine_mmc3] after 16 scanlines and 260 cycles: the PPU is at cycle
    260 of scanline 16 and the mapper has been pulsed 16 times. *)
Definition machine_mmc3_due : Sys.t Mapper004.t :=
  exec (BusClock.run (16 * 341 + 260)) machine_mmc3.

(** ** ROM images used below *)

(** An iNES image for mapper 0: one 16 KiB PRG bank of [$EA] with the
    reset vector [$8034] in its last bytes, and one 8 KiB CHR bank. *)
Definition nrom_image : list Z :=
  [0x4E; 0x45; 0x53; 0x1A; 1; 1; 0; 0; 0; 0; 0; 0; 0; 0; 0; 0]
  ++ filled 16380 0xEA ++ [0x34; 0x80; 0x00; 0x00] ++ filled 8192 0x00.

(** A NES 2.0 header (bits 2-3 of byte 7 are [10]) that declares mapper
    [$104]: low nibble 4 in byte 6, middle nibble 0 in byte 7, high
    nibble 1 in byte 8. *)
Definition nes2_header : list Z :=
  [0x4E; 0x45; 0x53; 0x1A; 1; 1; 0x40; 0x08; 0x01; 0; 0; 0; 0; 0; 0; 0].

(** The machine right after construction, with the NROM mapper type. *)
Definition machine_nrom : Sys.t Mapper000.t := BusClock.power_on.

(** A machine about to fetch [BNE +5] ([$D0 $05]) at [$0000], and one
    about to fetch a JAM opcode ([$02]) there. *)
Definition machine_branch : Sys.t Mapper004.t := with_program [0xD0; 0x05] 0 machine0.

Definition machine_jam : Sys.t Mapper004.t := with_program [0x02] 0 machine0.

(** The machine with the beam at scanline 241, cycle 1, where vertical
    blank begins. *)
Definition machine_vblank : Sys.t Mapper004.t :=
  let p := Sys.ppu machine0 in
  Sys.set_ppu
    (PPU.set_render (PPU.set_cycle 1 (PPU.set_scanline 241 (PPU.render p))) p) machine0.
(** ** The OAM DMA engine, by itself *)

(** The interrupt entries among the events of a tick. *)
Definition is_entry (e : Event) : bool :=
  match e with NmiEntry | IrqEntry => true | _ => false end.

(** What the CPU slots did: the events of some ticks without the
    interrupt entries. *)
Definition slot_events (evs : list Event) : list Event :=
  List.filter (fun e => negb (is_entry e)) evs.

(** The state of the DMA engine: [dma_transfer], [dma_page], [dma_addr],
    [dma_data], [dma_dummy] and the tick counter. *)
Definition DmaView : Type := (bool * Z * Z * Z * bool * Z)%type.

(** The CPU address the engine reads: [(dma_page << 8) | dma_addr]. *)
Definition dma_source (page addr : Z) : Z := Z.lor (Z.shiftl page 8) addr.

(** One CPU slot of an active transfer, as [Bus::clock] does it, with [r]
    the byte a read cycle gets from the bus. *)
Definition dma_step (v : DmaView) (r : Z) : list Event * DmaView :=
  let '(t, page, a, d, dummy, c) := v in
  if dummy then
    if c mod 2 =? 1 then ([DmaAlign], (t, page, a, d, false, c))
    else ([DmaWait], v)
  else if c mod 2 =? 0 then ([DmaRead (dma_source page a) r], (t, page, a, r, dummy, c))
  else
    ([DmaWrite d],
     if u8 (a + 1) =? 0x00 then (false, page, u8 (a + 1), d, true, c)
     else (t, page, u8 (a + 1), d, dummy, c)).

(** One tick of the engine: the slot every third tick, then the counter. *)
Definition engine_step (v : DmaView) (r : Z) : list Event * DmaView :=
  let '(ev, (t, page, a, d, dummy, c)) :=
    if snd v mod 3 =? 0 then dma_step v r else ([], v) in
  (ev, (t, page, a, d, dummy, u64 (c + 1))).

(** The events of a copy of the bytes [vs] from page [page], starting at
    offset [i]: each byte is read, then written to the OAM port. *)
Fixpoint dma_copy (page : Z) (i : Z) (vs : list Z) : list Event :=
  match vs with
  | [] => []
  | v :: rest => DmaRead (page * 256 + i) v :: DmaWrite v :: dma_copy page (i + 1) rest
  end.

(** The part of the PPU the transfer writes: OAM and the OAM address. *)
Definition OamView : Type := (list Z * Z)%type.

Definition oam_view (p : PPU.t) : OamView := (PPU.oam p, PPU.oam_addr p).

(** A write of [d] to the OAM port, register 4 of [PPU::cpu_write]:
    the byte goes to [oam[oam_addr]] and the address moves up by one. *)
Definition oam_port (o : OamView) (d : Z) : OamView :=
  (byte_set (fst o) (snd o) d, u8 (snd o + 1)).

(** The bytes [vs] written to the port one after the other. *)
Definition oam_fill (o : OamView) (vs : list Z) : OamView := fold_left oam_port vs o.

(** What one tick of the engine does to OAM: a write slot sends the
    buffered byte to the port. *)
Definition oam_step (v : DmaView) (o : OamView) : OamView :=
  let '(t, page, a, d, dummy, c) := v in
  if (c mod 3 =? 0) && negb dummy && negb (c mod 2 =? 0) then oam_port o d else o.

(** ** Reachable machines *)

(** The feedback bit of one step of the noise LFSR: bit 0 XOR bit 6 in
    mode 1, bit 0 XOR bit 1 in mode 0. *)
Definition lfsr_feedback (mode : bool) (x : Z) : bool :=
  xorb (Z.testbit x 0) (Z.testbit x (if mode then 6 else 1)).

Section Reachable.
Context {M : Type} {MP : Mapper M}.

(** The machines the emulator can be in: the constructed one, and what
    its operations make of a reachable one (a cartridge inserted, a
    reset, a tick, a controller update, the frame flag polled, a bus read
    or write from outside). *)
Inductive reachable : Sys.t M -> Prop :=
  | reach_power_on : reachable BusClock.power_on
  | reach_insert (c : Cartridge.t M) (s : Sys.t M) :
      reachable s -> reachable (BusClock.insert_cartridge c s)
  | reach_reset (s : Sys.t M) : reachable s -> reachable (exec BusClock.reset s)
  | reach_clock (s : Sys.t M) : reachable s -> reachable (exec BusClock.clock s)
  | reach_controller (controller state : Z) (s : Sys.t M) :
      reachable s -> reachable (Bus.set_controller_state controller state s)
  | reach_frame (s : Sys.t M) :
      reachable s ->
      reachable (Sys.set_ppu (snd (PPU.frame_complete (Sys.ppu s))) s)
  | reach_read (addr : Z) (s : Sys.t M) :
      reachable s -> reachable (exec (Bus.cpu_read addr) s)
  | reach_write (addr data : Z) (s : Sys.t M) :
      reachable s -> reachable (exec (Bus.cpu_write addr data) s).

End Reachable.

(** ** The IRQ line *)

(** This PPU cycle calls [cartridge->scanline()]: cycle 260 of a visible
    scanline with rendering on. *)
Definition pulse_due (p : PPU.t) : bool :=
  (PPU.cycle (PPU.render p) =? 260) && PPU.rendering_enabled p
  && (0 <=? PPU.scanline (PPU.render p)) && (PPU.scanline (PPU.render p) <? 240).

Section IrqLine.
Context {M : Type} {MP : Mapper M}.

(** [cartridge && cartridge->irq_state()], the condition [Bus::clock]
    tests. *)
Definition irq_line_of (cart : option (Cartridge.t M)) : bool :=
  match cart with Some c => Cartridge.irq_state c | None => false end.

Definition irq_line (s : Sys.t M) : bool := irq_line_of (Sys.cartridge s).

(** The tick runs no instruction: it has no CPU slot, the DMA engine has
    the slot, or the CPU is still paying for the last instruction. *)
Definition no_instruction (s : Sys.t M) : Prop :=
  BusState.system_clock_counter (Sys.bus s) mod 3 <> 0
  \/ BusState.dma_transfer (Sys.bus s) = true
  \/ CPUState.cycles_remaining (Sys.cpu s) <> 0.

End IrqLine.
(** * Predicates and invariants *)

(** A computation keeps a property of the state. *)
Definition preserves {S A : Type} (I : S -> Prop) (m : State S A) : Prop :=
  forall s, I s -> I (exec m s).

(** What every mapper of the repository does with the CPU address space:
    it answers only from [$6000] up, and a CPU read leaves it unchanged. *)
Class MapperLaws (M : Type) {MP : Mapper M} : Prop := {
  cpu_read_pure : forall addr prg m, snd (m_cpu_read addr prg m) = m;
  cpu_read_low : forall addr prg m, addr < 0x6000 -> fst (m_cpu_read addr prg m) = None;
  cpu_write_low :
    forall addr data prg m, addr < 0x6000 -> m_cpu_write addr data prg m = (false, m)
}.

(** The DMA engine and the tick counter, as one value. *)
Definition dma_view (b : BusState.t) : DmaView :=
  (BusState.dma_transfer b, BusState.dma_page b, BusState.dma_addr b,
   BusState.dma_data b, BusState.dma_dummy b, BusState.system_clock_counter b).

(** The register of the noise channel of an APU. *)
Definition lfsr (a : APU.t) : Z := Noise.shift_register (APU.noise a).

(** The register is a non-zero 15-bit value. *)
Definition lfsr_ok (a : APU.t) : Prop := 0 < lfsr a < 32768.

Section MachineProperties.
Context {M : Type} {MP : Mapper M}.
Local Abbreviation System := (Sys.t M).
Import CPU.
Local Open Scope st_scope.

(** The bit position of each status flag. *)
Definition flag_bit (f : Flags) : Z :=
  match f with
  | FlagC => 0 | FlagZ => 1 | FlagI => 2 | FlagD => 3
  | FlagB => 4 | FlagU => 5 | FlagV => 6 | FlagN => 7
  end.

(** The stack pointer is a byte. *)
Definition sp_ok (s : System) : Prop := 0 <= CPUState.SP (Sys.cpu s) < 256.

(** The stack page is usable: [SP] is a byte and the RAM has its 2 KiB. *)
Definition stack_ready (s : System) : Prop :=
  0 <= CPUState.SP (Sys.cpu s) < 256
  /\ length (BusState.ram (Sys.bus s)) = 2048%nat.

(** The machine after [push(d)]: [d] at [$0100 + SP], [SP] one lower. *)
Definition pushed (d : Z) (s : System) : System :=
  Sys.set_cpu
    (CPUState.set_SP (u8 (CPUState.SP (Sys.cpu s) - 1)) (Sys.cpu s))
    (Sys.set_bus
       (BusState.set_ram
          (byte_set (BusState.ram (Sys.bus s)) (0x0100 + CPUState.SP (Sys.cpu s)) d)
          (Sys.bus s)) s).

(** The machine after an interrupt entry through [vector] that charges
    [cycles]. *)
Definition interrupt_entered (vector cycles : Z) (s : System) : System :=
  let pc := CPUState.PC (Sys.cpu s) in
  let s1 := pushed (Z.land pc 0xFF) (pushed (Z.land (Z.shiftr pc 8) 0xFF) s) in
  let p' :=
    with_flag FlagI true
      (with_flag FlagU true (with_flag FlagB false (CPUState.P (Sys.cpu s)))) in
  let s2 := pushed p' (Sys.set_cpu (CPUState.set_P p' (Sys.cpu s1)) s1) in
  let lo := eval (Bus.cpu_read vector) s in
  let hi := eval (Bus.cpu_read (vector + 1)) s in
  Sys.set_cpu
    (CPUState.set_cycles_remaining cycles
       (CPUState.set_PC (Z.lor (u16 (Z.shiftl hi 8)) lo) (Sys.cpu s2))) s2.

(** The byte of the stack page at offset [i]. *)
Definition stack_byte (s : System) (i : Z) : Z :=
  byte_at (BusState.ram (Sys.bus s)) (0x0100 + i).

(** What an interrupt entry leaves behind, seen from outside: the three
    stacked bytes (the status byte with B clear, U and I set and the
    other flags as they were), the registers, and the cycles charged. *)
Definition interrupt_entry (s s' : System) (vector cycles : Z) : Prop :=
  let c := Sys.cpu s in
  let sp := CPUState.SP c in
  let pc := CPUState.PC c in
  let st := stack_byte s' (u8 (sp - 2)) in
  stack_byte s' sp = Z.land (Z.shiftr pc 8) 0xFF
  /\ stack_byte s' (u8 (sp - 1)) = Z.land pc 0xFF
  /\ has_flag FlagB st = false
  /\ has_flag FlagU st = true
  /\ has_flag FlagI st = true
  /\ (forall f, f <> FlagB -> f <> FlagU -> f <> FlagI ->
        has_flag f st = has_flag f (CPUState.P c))
  /\ CPUState.SP (Sys.cpu s') = u8 (sp - 3)
  /\ has_flag FlagI (CPUState.P (Sys.cpu s')) = true
  /\ CPUState.PC (Sys.cpu s') =
       Z.lor (u16 (Z.shiftl (eval (Bus.cpu_read (vector + 1)) s) 8))
             (eval (Bus.cpu_read vector) s)
  /\ CPUState.cycles_remaining (Sys.cpu s') = cycles.

(** PHP then PLP, one after the other. *)
Definition php_plp : State System Z := op_PHP ;;; op_PLP.

(** [n] ticks from any machine whose DMA engine is in state [v] and
    whose OAM is [o] end with slot events, an engine state and an OAM
    that satisfy [Q]. *)
Definition dma_run (n : nat) (v : DmaView) (o : OamView)
    (Q : list Event -> DmaView -> OamView -> Prop) : Prop :=
  forall s : System,
    sp_ok s -> dma_view (Sys.bus s) = v -> oam_view (Sys.ppu s) = o ->
    Q (slot_events (eval (BusClock.run n) s))
      (dma_view (Sys.bus (exec (BusClock.run n) s)))
      (oam_view (Sys.ppu (exec (BusClock.run n) s)))
    /\ sp_ok (exec (BusClock.run n) s).

(** The invariant on machines. *)
Definition sys_ok (s : System) : Prop := lfsr_ok (Sys.apu s).

End MachineProperties.
(** ** Mapper states *)

Section MapperStates.
Context {M : Type} {MP : Mapper M}.

(** The states a mapper object can be in: the one its constructor
    leaves, and what a call of any member function of the interface
    makes of a state it can be in. *)
Inductive mapper_reachable (m0 : M) : M -> Prop :=
  | mr_created : mapper_reachable m0 m0
  | mr_cpu_read (addr : Z) (prg_rom : list Z) (m : M) :
      mapper_reachable m0 m -> mapper_reachable m0 (snd (m_cpu_read addr prg_rom m))
  | mr_cpu_write (addr data : Z) (prg_rom : list Z) (m : M) :
      mapper_reachable m0 m -> mapper_reachable m0 (snd (m_cpu_write addr data prg_rom m))
  | mr_ppu_read (addr : Z) (chr_rom : list Z) (m : M) :
      mapper_reachable m0 m -> mapper_reachable m0 (snd (m_ppu_read addr chr_rom m))
  | mr_ppu_write (addr data : Z) (chr_rom : list Z) (m : M) :
      mapper_reachable m0 m ->
      mapper_reachable m0 (fst (snd (m_ppu_write addr data chr_rom m)))
  | mr_reset (m : M) : mapper_reachable m0 m -> mapper_reachable m0 (m_reset m)
  | mr_irq_clear (m : M) : mapper_reachable m0 m -> mapper_reachable m0 (m_irq_clear m)
  | mr_scanline (m : M) : mapper_reachable m0 m -> mapper_reachable m0 (m_scanline m).

(** CPU writes [(addr, data)] to the mapper, one after the other. *)
Definition cpu_writes (ws : list (Z * Z)) (prg_rom : list Z) (m : M) : M :=
  fold_left (fun m w => snd (m_cpu_write (fst w) (snd w) prg_rom m)) ws m.

End MapperStates.

(** The 5-bit value that five serial writes carry, first bit lowest. *)
Definition serial_value (ds : list Z) : Z :=
  fold_right (fun d v => Z.land d 0x01 + 2 * v) 0 ds.

(** The MMC1 load register [r] after the serial write of [d]: one place
    down, bit 0 of [d] in at bit 4. *)
Definition shift_in (r d : Z) : Z :=
  u8 (Z.lor (u8 (Z.shiftr r 1)) (Z.shiftl (Z.land d 0x01) 4)).

(** What the MMC3 keeps over its lifetime with [pb] PRG banks: the bank
    count, its eight bank registers and 8 KiB of PRG RAM, and the last
    8 KiB bank of the ROM in the fourth PRG slot. *)
Definition mmc3_banked (pb : Z) (m : Mapper004.t) : Prop :=
  Mapper004.prg_banks m = pb
  /\ Z.of_nat (length (Mapper004.registers m)) = 8
  /\ Z.of_nat (length (Mapper004.prg_ram m)) = 8192
  /\ byte_at (Mapper004.prg_bank m) 3 = u8 (pb * 2 - 1).
(** ** Values the CPU properties speak of *)

(** A byte read as a two's-complement number. *)
Definition signed8 (x : Z) : Z := if x <? 128 then x else x - 256.

(** The subtraction the code computes, against the arithmetic one, on
    every pair of bytes and carry. *)
Definition sbc_agrees (a m : Z) (c : bool) : bool :=
  let value := Z.lxor m 0x00FF in
  let temp := u16 (a + value + b2z c) in
  let d := a - m - (1 - b2z c) in
  let sd := signed8 a - signed8 m - (1 - b2z c) in
  (Z.land temp 0xFF =? d mod 256)
  && Bool.eqb (nonzero (Z.land temp 0xFF00)) (0 <=? d)
  && Bool.eqb (nonzero (Z.land (Z.land (Z.lxor temp a) (Z.lxor temp value)) 0x0080))
              (negb ((-128 <=? sd) && (sd <=? 127)))
  && Bool.eqb (nonzero (Z.land temp 0x80)) (Z.testbit (d mod 256) 7).

(** The flags of a comparison as the code computes them, against the
    order of the two bytes. *)
Definition cmp_agrees (r m : Z) : bool :=
  let temp := u16 (r - m) in
  Bool.eqb (Z.land temp 0x00FF =? 0x0000) (r =? m)
  && Bool.eqb (nonzero (Z.land temp 0x0080)) (Z.testbit ((r - m) mod 256) 7).

Section BrkEntry.
Context {M : Type} {MP : Mapper M}.
Import CPU.

(** The machine after [BRK]: [PC + 1] and the status with I and B set on
    the stack, B clear again in [P], [PC] from the vector at
    [$FFFE/$FFFF]. *)
Definition brk_entered (s : Sys.t M) : Sys.t M :=
  let pc := u16 (CPUState.PC (Sys.cpu s) + 1) in
  let p0 := with_flag FlagI true (CPUState.P (Sys.cpu s)) in
  let s0 := Sys.set_cpu (CPUState.set_P p0 (CPUState.set_PC pc (Sys.cpu s))) s in
  let s1 := pushed (Z.land pc 0xFF) (pushed (Z.land (Z.shiftr pc 8) 0xFF) s0) in
  let p1 := with_flag FlagB true p0 in
  let s2 := pushed p1 (Sys.set_cpu (CPUState.set_P p1 (Sys.cpu s1)) s1) in
  let lo := eval (Bus.cpu_read 0xFFFE) s in
  let hi := eval (Bus.cpu_read 0xFFFF) s in
  Sys.set_cpu
    (CPUState.set_PC (Z.lor lo (u16 (Z.shiftl hi 8)))
       (CPUState.set_P (with_flag FlagB false p1) (Sys.cpu s2))) s2.

End BrkEntry.

(** The beam position and the frame counters of the PPU: scanline,
    cycle, frame count and the frame-ready flag. *)
Definition timing (r : PPU.Render) : Z * Z * Z * bool :=
  (PPU.scanline r, PPU.cycle r, PPU.frame_count r, PPU.frame_ready r).

(** The beam is inside the frame: scanlines -1 to 260, cycles 0 to 340. *)
Definition beam_ok (r : PPU.Render) : Prop :=
  -1 <= PPU.scanline r <= 260 /\ 0 <= PPU.cycle r <= 340.

(** The number of the dot the beam is at, counted from the start of the
    pre-render line. *)
Definition dot_index (r : PPU.Render) : Z := (PPU.scanline r + 1) * 341 + PPU.cycle r.
(** * Properties *)

(** ** Integers, bits and byte arrays *)

#[global] Arguments u8 : simpl never.
#[global] Arguments u16 : simpl never.
#[global] Arguments u64 : simpl never.
#[global] Arguments byte_at : simpl never.
#[global] Arguments byte_set : simpl never.
#[global] Arguments filled : simpl never.

Lemma u8_range (x : Z) : 0 <= u8 x < 256.
Proof. unfold u8. apply Z.mod_pos_bound. lia. Qed.

Lemma u16_range (x : Z) : 0 <= u16 x < 65536.
Proof. unfold u16. apply Z.mod_pos_bound. lia. Qed.

Lemma u8_id (x : Z) : 0 <= x < 256 -> u8 x = x.
Proof. intros H. unfold u8. apply Z.mod_small. exact H. Qed.

Lemma u16_id (x : Z) : 0 <= x < 65536 -> u16 x = x.
Proof. intros H. unfold u16. apply Z.mod_small. exact H. Qed.

Lemma u64_id (x : Z) : 0 <= x < 18446744073709551616 -> u64 x = x.
Proof. intros H. unfold u64. apply Z.mod_small. exact H. Qed.

Lemma u8_bits (x i : Z) : Z.testbit (u8 x) i = (i <? 8) && Z.testbit x i.
Proof. unfold u8. change 256 with (2 ^ 8). apply Z.testbit_mod_pow2. lia. Qed.

Lemma u16_bits (x i : Z) : Z.testbit (u16 x) i = (i <? 16) && Z.testbit x i.
Proof. unfold u16. change 65536 with (2 ^ 16). apply Z.testbit_mod_pow2. lia. Qed.

(** [x & 2^k] is [2^k] or [0], by bit [k] of [x]. *)
Lemma land_pow2 (x k : Z) :
  0 <= k -> Z.land x (2 ^ k) = if Z.testbit x k then 2 ^ k else 0.
Proof.
  intros Hk. apply Z.bits_inj'. intros i Hi.
  rewrite Z.land_spec, Z.pow2_bits_eqb by lia.
  destruct (Z.eqb_spec k i) as [->|Hne].
  - destruct (Z.testbit x i); cbn.
    + now rewrite Z.pow2_bits_true.
    + now rewrite Z.bits_0.
  - rewrite andb_false_r.
    destruct (Z.testbit x k); [ now rewrite Z.pow2_bits_false | now rewrite Z.bits_0 ].
Qed.

Lemma nonzero_land_pow2 (x k : Z) :
  0 <= k -> nonzero (Z.land x (2 ^ k)) = Z.testbit x k.
Proof.
  intros Hk. rewrite land_pow2 by exact Hk. unfold nonzero.
  destruct (Z.testbit x k); [ | reflexivity ].
  destruct (Z.eqb_spec (2 ^ k) 0) as [E|]; [ | reflexivity ].
  pose proof (Z.pow_pos_nonneg 2 k). lia.
Qed.

(** A byte is below 256 exactly when its bits from 8 up are clear. *)
Lemma byte_high_bits (x i : Z) : 0 <= x < 256 -> 8 <= i -> Z.testbit x i = false.
Proof.
  intros Hx Hi.
  apply (proj1 (Z.bounded_iff_bits_nonneg 8 x ltac:(lia) ltac:(lia))); lia.
Qed.

Lemma byte_at_lookup (a : list Z) (i v : Z) :
  a !! Z.to_nat i = Some v -> byte_at a i = v.
Proof. unfold byte_at. now intros ->. Qed.

Lemma byte_at_set_eq (a : list Z) (i v : Z) :
  (Z.to_nat i < length a)%nat -> byte_at (byte_set a i v) i = v.
Proof.
  intros H. unfold byte_at, byte_set.
  rewrite list_lookup_insert_eq by exact H. reflexivity.
Qed.

Lemma byte_at_set_ne (a : list Z) (i j v : Z) :
  Z.to_nat i <> Z.to_nat j -> byte_at (byte_set a i v) j = byte_at a j.
Proof.
  intros H. unfold byte_at, byte_set.
  rewrite list_lookup_insert_ne by exact H. reflexivity.
Qed.

Lemma byte_set_length (a : list Z) (i v : Z) : length (byte_set a i v) = length a.
Proof. unfold byte_set. apply length_insert. Qed.

Lemma filled_length (n v : Z) : length (filled n v) = Z.to_nat n.
Proof. unfold filled. apply length_replicate. Qed.

(** ** The state monad *)

Lemma exec_bind {S A B : Type} (m : State S A) (k : A -> State S B) (s : S) :
  exec (bind m k) s = exec (k (eval m s)) (exec m s).
Proof. unfold exec, eval, bind. destruct (m s). reflexivity. Qed.

Lemma eval_bind {S A B : Type} (m : State S A) (k : A -> State S B) (s : S) :
  eval (bind m k) s = eval (k (eval m s)) (exec m s).
Proof. unfold exec, eval, bind. destruct (m s). reflexivity. Qed.

Lemma exec_ret {S A : Type} (a : A) (s : S) : exec (ret a) s = s.
Proof. reflexivity. Qed.

Lemma eval_ret {S A : Type} (a : A) (s : S) : eval (ret a) s = a.
Proof. reflexivity. Qed.

Lemma exec_gets {S A : Type} (f : S -> A) (s : S) : exec (gets f) s = s.
Proof. reflexivity. Qed.

Lemma eval_gets {S A : Type} (f : S -> A) (s : S) : eval (gets f) s = f s.
Proof. reflexivity. Qed.

Lemma exec_modify {S : Type} (f : S -> S) (s : S) : exec (modify f) s = f s.
Proof. reflexivity. Qed.

Lemma preserves_ret {S A : Type} (I : S -> Prop) (a : A) : preserves I (ret a).
Proof. intros s H. exact H. Qed.

Lemma preserves_bind {S A B : Type} (I : S -> Prop)
    (m : State S A) (k : A -> State S B) :
  preserves I m -> (forall a, preserves I (k a)) -> preserves I (bind m k).
Proof.
  intros Hm Hk s H. rewrite exec_bind. apply Hk. apply Hm. exact H.
Qed.

Lemma preserves_gets {S A : Type} (I : S -> Prop) (f : S -> A) :
  preserves I (gets f).
Proof. intros s H. exact H. Qed.

Lemma preserves_modify {S : Type} (I : S -> Prop) (f : S -> S) :
  (forall s, I s -> I (f s)) -> preserves I (modify f).
Proof. intros Hf s H. apply Hf. exact H. Qed.
(** ** Mappers *)

Module Mapper004Facts.
Import Mapper004.

Lemma cpu_read_state (addr : Z) (prg : list Z) (m : t) :
  snd (cpu_read addr prg m) = m.
Proof.
  unfold cpu_read.
  destruct ((0x6000 <=? addr) && (addr <=? 0x7FFF)); [ reflexivity | ].
  destruct ((0x8000 <=? addr) && (addr <=? 0xFFFF)); reflexivity.
Qed.

Lemma cpu_read_below (addr : Z) (prg : list Z) (m : t) :
  addr < 0x6000 -> fst (cpu_read addr prg m) = None.
Proof.
  intros H. unfold cpu_read.
  replace (0x6000 <=? addr) with false by (symmetry; apply Z.leb_gt; lia).
  replace (0x8000 <=? addr) with false by (symmetry; apply Z.leb_gt; lia).
  reflexivity.
Qed.

Lemma cpu_write_below (addr data : Z) (prg : list Z) (m : t) :
  addr < 0x6000 -> cpu_write addr data prg m = (false, m).
Proof.
  intros H. unfold cpu_write.
  replace (0x6000 <=? addr) with false by (symmetry; apply Z.leb_gt; lia).
  replace (0x8000 <=? addr) with false by (symmetry; apply Z.leb_gt; lia).
  replace (0xA000 <=? addr) with false by (symmetry; apply Z.leb_gt; lia).
  replace (0xC000 <=? addr) with false by (symmetry; apply Z.leb_gt; lia).
  replace (0xE000 <=? addr) with false by (symmetry; apply Z.leb_gt; lia).
  reflexivity.
Qed.

(** The offset into PRG ROM stays below the ROM size. *)
Lemma prg_mapped_addr_bound (m : t) (addr : Z) :
  1 <= prg_banks m ->
  0 <= prg_mapped_addr m addr < prg_banks m * 16384.
Proof.
  intros Hb. unfold prg_mapped_addr.
  set (bank := byte_at (prg_bank m) _).
  assert (Hmod : 0 <= bank mod (prg_banks m * 2) < prg_banks m * 2)
    by (apply Z.mod_pos_bound; lia).
  assert (Hu : 0 <= u8 (bank mod (prg_banks m * 2)) <= bank mod (prg_banks m * 2)).
  { unfold u8. split; [ apply Z.mod_pos_bound; lia | apply Z.mod_le; lia ]. }
  assert (Hoff : 0 <= Z.land addr 0x1FFF < 8192).
  { change 0x1FFF with (Z.ones 13). rewrite Z.land_ones by lia.
    apply Z.mod_pos_bound. lia. }
  nia.
Qed.

(** The counter after the first pulse of the 17-pulse scenario, and the
    countdown that follows. *)
Lemma scanline_reload (m : t) :
  irq_reload m = true \/ irq_counter m = 0 ->
  irq_counter (scanline m) = irq_latch m /\ irq_reload (scanline m) = false.
Proof.
  intros H. unfold scanline.
  assert (E : irq_reload m || (irq_counter m =? 0) = true).
  { destruct H as [-> | ->]; [ reflexivity | apply orb_true_r ]. }
  rewrite E.
  destruct ((irq_counter _ =? 0) && irq_enable _); cbn; split; reflexivity.
Qed.

Lemma scanline_decrement (m : t) :
  irq_reload m = false -> irq_counter m <> 0 ->
  irq_counter (scanline m) = u8 (irq_counter m - 1)
  /\ irq_reload (scanline m) = false.
Proof.
  intros Hr Hc. unfold scanline. rewrite Hr.
  destruct (Z.eqb_spec (irq_counter m) 0) as [E|_]; [ contradiction | ].
  cbn [orb].
  destruct ((irq_counter _ =? 0) && irq_enable _); cbn; split; (reflexivity || exact Hr).
Qed.

Lemma scanline_asserts (m : t) :
  irq_enable m = true -> irq_counter (scanline m) = 0 -> irq_active (scanline m) = true.
Proof.
  unfold scanline. intros He.
  destruct (irq_reload m || (irq_counter m =? 0)); cbn; rewrite He.
  - destruct (Z.eqb_spec (irq_latch m) 0); cbn; [ reflexivity | intros; contradiction ].
  - destruct (Z.eqb_spec (u8 (irq_counter m - 1)) 0); cbn;
      [ reflexivity | intros; contradiction ].
Qed.

Lemma scanline_quiet (m : t) :
  irq_active m = false -> irq_counter (scanline m) <> 0 -> irq_active (scanline m) = false.
Proof.
  unfold scanline. intros Ha.
  destruct (irq_reload m || (irq_counter m =? 0)); cbn.
  - destruct (Z.eqb_spec (irq_latch m) 0); destruct (irq_enable m); cbn; intros;
      (contradiction || exact Ha).
  - destruct (Z.eqb_spec (u8 (irq_counter m - 1)) 0); destruct (irq_enable m); cbn; intros;
      (contradiction || exact Ha).
Qed.

Lemma scanline_enable (m : t) : irq_enable (scanline m) = irq_enable m.
Proof.
  unfold scanline.
  destruct (irq_reload m || (irq_counter m =? 0)); cbn;
    match goal with |- context [if ?c then _ else _] => destruct c end; reflexivity.
Qed.

Lemma scanline_latch (m : t) : irq_latch (scanline m) = irq_latch m.
Proof.
  unfold scanline.
  destruct (irq_reload m || (irq_counter m =? 0)); cbn;
    match goal with |- context [if ?c then _ else _] => destruct c end; reflexivity.
Qed.

(** Once asserted, the IRQ line stays up over further pulses. *)
Lemma scanline_keeps_active (m : t) :
  irq_active m = true -> irq_active (scanline m) = true.
Proof.
  unfold scanline. intros Ha.
  destruct (irq_reload m || (irq_counter m =? 0)); cbn;
    match goal with |- context [if ?c then _ else _] => destruct c end; cbn;
    (reflexivity || exact Ha).
Qed.

(** [k] pulses after the reload, the counter has come down from the
    latch by [k] and the line is still low. *)
Lemma countdown (k : nat) (m : t) :
  irq_reload m = false -> irq_active m = false -> irq_enable m = true ->
  0 <= irq_counter m < 256 ->
  (Z.of_nat k < irq_counter m) ->
  let m' := pulses k m in
  irq_counter m' = irq_counter m - Z.of_nat k
  /\ irq_reload m' = false /\ irq_active m' = false /\ irq_enable m' = true.
Proof.
  induction k as [|k IH]; intros Hr Ha He Hc Hk.
  - cbn. repeat split; try assumption. lia.
  - cbn [pulses]. destruct IH as (IHc & IHr & IHa & IHe); try assumption; try lia.
    set (mk := pulses k m) in *.
    destruct (scanline_decrement mk IHr) as [Hd Hr']; [ lia | ].
    assert (Hv : irq_counter (scanline mk) = irq_counter m - Z.of_nat (S k)).
    { rewrite Hd, IHc. rewrite u8_id by lia. lia. }
    repeat split.
    + exact Hv.
    + exact Hr'.
    + apply scanline_quiet; [ exact IHa | lia ].
    + rewrite scanline_enable. exact IHe.
Qed.

End Mapper004Facts.

#[export] Instance Mapper004_Laws : MapperLaws Mapper004.t := {
  cpu_read_pure := Mapper004Facts.cpu_read_state;
  cpu_read_low := Mapper004Facts.cpu_read_below;
  cpu_write_low := Mapper004Facts.cpu_write_below
}.

(** ** Bus memory map *)

Module BusFacts.
Section WithMapper.
Context {M : Type} {MP : Mapper M}.
Local Abbreviation System := (Sys.t M).

Lemma dma_view_fields (b : BusState.t) (t : bool) (page a d : Z) (dummy : bool) (c : Z) :
  dma_view b = (t, page, a, d, dummy, c) ->
  BusState.dma_transfer b = t /\ BusState.dma_page b = page
  /\ BusState.dma_addr b = a /\ BusState.dma_data b = d
  /\ BusState.dma_dummy b = dummy /\ BusState.system_clock_counter b = c.
Proof. unfold dma_view. intros H. injection H. tauto. Qed.

Lemma cartridge_eta (c : Cartridge.t M) : Cartridge.set_mapper (Cartridge.mapper c) c = c.
Proof. destruct c. reflexivity. Qed.

Lemma sys_cartridge_eta (s : System) : Sys.set_cartridge (Sys.cartridge s) s = s.
Proof. destruct s. reflexivity. Qed.

(** A cartridge access touches nothing but the cartridge. *)
Lemma cart_cpu_read_frame (a : Z) (s : System) :
  let s' := snd (Bus.cart_cpu_read a s) in
  Sys.cpu s' = Sys.cpu s /\ Sys.ppu s' = Sys.ppu s /\ Sys.apu s' = Sys.apu s
  /\ Sys.bus s' = Sys.bus s.
Proof.
  unfold Bus.cart_cpu_read. destruct (Sys.cartridge s) as [c|]; [ | cbn; tauto ].
  destruct (Cartridge.cpu_read a c). cbn. tauto.
Qed.

Lemma cart_cpu_write_frame (a d : Z) (s : System) :
  let s' := snd (Bus.cart_cpu_write a d s) in
  Sys.cpu s' = Sys.cpu s /\ Sys.ppu s' = Sys.ppu s /\ Sys.apu s' = Sys.apu s
  /\ Sys.bus s' = Sys.bus s.
Proof.
  unfold Bus.cart_cpu_write. destruct (Sys.cartridge s) as [c|]; [ | cbn; tauto ].
  destruct (Cartridge.cpu_write a d c). cbn. tauto.
Qed.

(** A bus read never touches the CPU, the RAM, the controller state
    bytes, the DMA engine or the tick counter. *)
Lemma cpu_read_frame (a : Z) (s : System) :
  let s' := exec (Bus.cpu_read a) s in
  Sys.cpu s' = Sys.cpu s
  /\ dma_view (Sys.bus s') = dma_view (Sys.bus s)
  /\ BusState.ram (Sys.bus s') = BusState.ram (Sys.bus s)
  /\ BusState.controller_state (Sys.bus s') = BusState.controller_state (Sys.bus s).
Proof.
  unfold exec, Bus.cpu_read.
  pose proof (cart_cpu_read_frame a s) as F.
  destruct (Bus.cart_cpu_read a s) as [r s1]. cbn in F.
  destruct F as (Fc & Fp & Fa & Fb).
  destruct r as [d|]; [ cbn; rewrite Fc, Fb; tauto | ].
  destruct ((0x0000 <=? a) && (a <=? 0x1FFF)); [ cbn; rewrite Fc, Fb; tauto | ].
  destruct ((0x2000 <=? a) && (a <=? 0x3FFF)).
  { destruct (PPU.cpu_read _ _ _) as [d [p c]]. cbn. rewrite Fc, Fb. tauto. }
  destruct ((0x4000 <=? a) && (a <=? 0x4015)).
  { destruct (APU.cpu_read _ _) as [d ap]. cbn. rewrite Fc, Fb. tauto. }
  destruct (a =? 0x4016); [ cbn; rewrite Fc, Fb; tauto | ].
  destruct (a =? 0x4017); cbn; rewrite Fc, Fb; tauto.
Qed.

(** A bus write never touches the CPU; away from [$4014] it leaves the
    DMA engine and the tick counter alone. *)
Lemma cpu_write_frame (a d : Z) (s : System) :
  let s' := exec (Bus.cpu_write a d) s in
  Sys.cpu s' = Sys.cpu s
  /\ (a <> 0x4014 -> dma_view (Sys.bus s') = dma_view (Sys.bus s)).
Proof.
  unfold exec, Bus.cpu_write.
  pose proof (cart_cpu_write_frame a d s) as F.
  destruct (Bus.cart_cpu_write a d s) as [h s1]. cbn in F.
  destruct F as (Fc & Fp & Fa & Fb).
  destruct h; [ cbn; rewrite Fc, Fb; tauto | ].
  destruct ((0x0000 <=? a) && (a <=? 0x1FFF)); [ cbn; rewrite Fc, Fb; tauto | ].
  destruct ((0x2000 <=? a) && (a <=? 0x3FFF)).
  { destruct (PPU.cpu_write _ _ _ _) as [p c]. cbn. rewrite Fc, Fb. tauto. }
  destruct (((0x4000 <=? a) && (a <=? 0x4013)) || (a =? 0x4015) || (a =? 0x4017));
    [ cbn; rewrite Fc, Fb; tauto | ].
  destruct (Z.eqb_spec a 0x4014); [ cbn; rewrite Fc; split; [ reflexivity | tauto ] | ].
  destruct (a =? 0x4016); cbn; rewrite Fc, Fb; tauto.
Qed.

Context {ML : MapperLaws M}.

Lemma cartridge_read_low (a : Z) (c : Cartridge.t M) :
  a < 0x6000 -> Cartridge.cpu_read a c = (None, c).
Proof.
  intros H. unfold Cartridge.cpu_read.
  destruct (Cartridge.mapper c) as [m|] eqn:Em; [ | reflexivity ].
  destruct (negb _); [ | reflexivity ].
  pose proof (cpu_read_low a (Cartridge.prg_rom c) m H) as H1.
  pose proof (cpu_read_pure a (Cartridge.prg_rom c) m) as H2.
  destruct (m_cpu_read a (Cartridge.prg_rom c) m) as [r m']. cbn in H1, H2. subst.
  rewrite <- Em, cartridge_eta. reflexivity.
Qed.

Lemma cartridge_write_low (a d : Z) (c : Cartridge.t M) :
  a < 0x6000 -> Cartridge.cpu_write a d c = (false, c).
Proof.
  intros H. unfold Cartridge.cpu_write.
  destruct (Cartridge.mapper c) as [m|] eqn:Em; [ | reflexivity ].
  destruct (negb _); [ | reflexivity ].
  rewrite (cpu_write_low a d (Cartridge.prg_rom c) m H).
  rewrite <- Em, cartridge_eta. reflexivity.
Qed.

Lemma cartridge_read_state (a : Z) (c : Cartridge.t M) :
  snd (Cartridge.cpu_read a c) = c.
Proof.
  unfold Cartridge.cpu_read.
  destruct (Cartridge.mapper c) as [m|] eqn:Em; [ | reflexivity ].
  destruct (negb _); [ | reflexivity ].
  pose proof (cpu_read_pure a (Cartridge.prg_rom c) m) as H2.
  destruct (m_cpu_read a (Cartridge.prg_rom c) m) as [r m']. cbn in *. subst.
  rewrite <- Em, cartridge_eta. reflexivity.
Qed.

Lemma cart_cpu_read_low (a : Z) (s : System) :
  a < 0x6000 -> Bus.cart_cpu_read a s = (None, s).
Proof.
  intros H. unfold Bus.cart_cpu_read.
  destruct (Sys.cartridge s) as [c|] eqn:Ec; [ | reflexivity ].
  rewrite cartridge_read_low by exact H.
  rewrite <- Ec, sys_cartridge_eta. reflexivity.
Qed.

Lemma cart_cpu_write_low (a d : Z) (s : System) :
  a < 0x6000 -> Bus.cart_cpu_write a d s = (false, s).
Proof.
  intros H. unfold Bus.cart_cpu_write.
  destruct (Sys.cartridge s) as [c|] eqn:Ec; [ | reflexivity ].
  rewrite cartridge_write_low by exact H.
  rewrite <- Ec, sys_cartridge_eta. reflexivity.
Qed.

Lemma cart_cpu_read_state (a : Z) (s : System) : snd (Bus.cart_cpu_read a s) = s.
Proof.
  unfold Bus.cart_cpu_read.
  destruct (Sys.cartridge s) as [c|] eqn:Ec; [ | reflexivity ].
  pose proof (cartridge_read_state a c) as H.
  destruct (Cartridge.cpu_read a c) as [r c']. cbn in *. subst.
  rewrite <- Ec, sys_cartridge_eta. reflexivity.
Qed.

(** Internal RAM: [$0000-$1FFF], mirrored every 2 KiB. *)
Lemma cpu_read_ram (a : Z) (s : System) :
  0 <= a <= 0x1FFF ->
  Bus.cpu_read a s = (byte_at (BusState.ram (Sys.bus s)) (Z.land a 0x07FF), s).
Proof.
  intros H. unfold Bus.cpu_read. rewrite cart_cpu_read_low by lia.
  replace ((0 <=? a) && (a <=? 0x1FFF)) with true; [ reflexivity | ].
  symmetry. apply andb_true_iff. split; apply Z.leb_le; lia.
Qed.

Lemma cpu_write_ram (a d : Z) (s : System) :
  0 <= a <= 0x1FFF ->
  Bus.cpu_write a d s =
  (tt, Sys.set_bus
         (BusState.set_ram
            (byte_set (BusState.ram (Sys.bus s)) (Z.land a 0x07FF) d) (Sys.bus s)) s).
Proof.
  intros H. unfold Bus.cpu_write. rewrite cart_cpu_write_low by lia.
  replace ((0 <=? a) && (a <=? 0x1FFF)) with true; [ reflexivity | ].
  symmetry. apply andb_true_iff. split; apply Z.leb_le; lia.
Qed.

(** Above the I/O registers only the cartridge answers, and a read there
    changes nothing. *)
Lemma cpu_read_cart_space (a : Z) (s : System) :
  0x4018 <= a -> exec (Bus.cpu_read a) s = s.
Proof.
  intros H. unfold exec, Bus.cpu_read.
  pose proof (cart_cpu_read_state a s) as E.
  destruct (Bus.cart_cpu_read a s) as [r s1]. cbn in E. subst s1.
  destruct r; [ reflexivity | ].
  replace (a <=? 0x1FFF) with false by (symmetry; apply Z.leb_gt; lia).
  replace (a <=? 0x3FFF) with false by (symmetry; apply Z.leb_gt; lia).
  replace (a <=? 0x4015) with false by (symmetry; apply Z.leb_gt; lia).
  replace (a =? 0x4016) with false by (symmetry; apply Z.eqb_neq; lia).
  replace (a =? 0x4017) with false by (symmetry; apply Z.eqb_neq; lia).
  rewrite !andb_false_r. reflexivity.
Qed.

(** The value of a read above the I/O registers depends on the cartridge
    alone. *)
Lemma cpu_read_cart_space_value (a : Z) (s s' : System) :
  0x4018 <= a -> Sys.cartridge s' = Sys.cartridge s ->
  eval (Bus.cpu_read a) s' = eval (Bus.cpu_read a) s.
Proof.
  intros H E. unfold eval, Bus.cpu_read, Bus.cart_cpu_read. rewrite E.
  destruct (Sys.cartridge s) as [c|].
  - destruct (Cartridge.cpu_read a c) as [[d|] c']; [ reflexivity | ].
    replace (a <=? 0x1FFF) with false by (symmetry; apply Z.leb_gt; lia).
    replace (a <=? 0x3FFF) with false by (symmetry; apply Z.leb_gt; lia).
    replace (a <=? 0x4015) with false by (symmetry; apply Z.leb_gt; lia).
    replace (a =? 0x4016) with false by (symmetry; apply Z.eqb_neq; lia).
    replace (a =? 0x4017) with false by (symmetry; apply Z.eqb_neq; lia).
    rewrite !andb_false_r. reflexivity.
  - replace (a <=? 0x1FFF) with false by (symmetry; apply Z.leb_gt; lia).
    replace (a <=? 0x3FFF) with false by (symmetry; apply Z.leb_gt; lia).
    replace (a <=? 0x4015) with false by (symmetry; apply Z.leb_gt; lia).
    replace (a =? 0x4016) with false by (symmetry; apply Z.eqb_neq; lia).
    replace (a =? 0x4017) with false by (symmetry; apply Z.eqb_neq; lia).
    rewrite !andb_false_r. reflexivity.
Qed.

End WithMapper.
End BusFacts.

(** ** The CPU: flags, stack and interrupt entry *)

Module CPUFacts.
Import CPU.

Lemma flag_bit_range (f : Flags) : 0 <= flag_bit f < 8.
Proof. destruct f; cbn; lia. Qed.

Lemma flag_mask_pow2 (f : Flags) : flag_mask f = 2 ^ flag_bit f.
Proof. destruct f; reflexivity. Qed.

Lemma flag_bit_inj (f g : Flags) : flag_bit f = flag_bit g -> f = g.
Proof. destruct f, g; cbn; intros H; (reflexivity || discriminate). Qed.

Lemma has_flag_testbit (f : Flags) (p : Z) : has_flag f p = Z.testbit p (flag_bit f).
Proof.
  unfold has_flag. rewrite flag_mask_pow2.
  apply nonzero_land_pow2. apply flag_bit_range.
Qed.

Lemma with_flag_bits (f : Flags) (v : bool) (p i : Z) :
  0 <= i ->
  Z.testbit (with_flag f v p) i =
  if i =? flag_bit f then v else (i <? 8) && Z.testbit p i.
Proof.
  intros Hi. pose proof (flag_bit_range f) as Hf.
  unfold with_flag. rewrite flag_mask_pow2.
  destruct v; rewrite u8_bits.
  - rewrite Z.lor_spec, Z.pow2_bits_eqb by lia.
    destruct (Z.eqb_spec i (flag_bit f)) as [->|Hne].
    + rewrite Z.eqb_refl, orb_true_r.
      destruct (Z.ltb_spec (flag_bit f) 8); [ reflexivity | lia ].
    + destruct (Z.eqb_spec (flag_bit f) i); [ lia | ]. now rewrite orb_false_r.
  - rewrite Z.land_spec, Z.lnot_spec, Z.pow2_bits_eqb by lia.
    destruct (Z.eqb_spec i (flag_bit f)) as [->|Hne].
    + rewrite Z.eqb_refl. cbn. now rewrite andb_false_r, andb_false_r.
    + destruct (Z.eqb_spec (flag_bit f) i); [ lia | ]. cbn. now rewrite andb_true_r.
Qed.

Lemma has_with_flag_eq (f : Flags) (v : bool) (p : Z) :
  has_flag f (with_flag f v p) = v.
Proof.
  rewrite has_flag_testbit, with_flag_bits by apply flag_bit_range.
  now rewrite Z.eqb_refl.
Qed.

Lemma has_with_flag_ne (f g : Flags) (v : bool) (p : Z) :
  f <> g -> has_flag f (with_flag g v p) = has_flag f p.
Proof.
  intros Hne. pose proof (flag_bit_range f) as Hf.
  rewrite !has_flag_testbit, with_flag_bits by lia.
  destruct (Z.eqb_spec (flag_bit f) (flag_bit g)) as [E|_].
  - apply flag_bit_inj in E. contradiction.
  - destruct (Z.ltb_spec (flag_bit f) 8); [ reflexivity | lia ].
Qed.

Lemma with_flag_range (f : Flags) (v : bool) (p : Z) : 0 <= with_flag f v p < 256.
Proof. unfold with_flag. destruct v; apply u8_range. Qed.

Section WithMapper.
Context {M : Type} {MP : Mapper M} {ML : MapperLaws M}.
Local Abbreviation System := (Sys.t M).

Lemma stack_addr (sp : Z) : 0 <= sp < 256 -> Z.land (0x0100 + sp) 0x07FF = 0x0100 + sp.
Proof.
  intros H. change 0x07FF with (Z.ones 11). rewrite Z.land_ones by lia.
  apply Z.mod_small. lia.
Qed.

Lemma push_run (d : Z) (s : System) :
  0 <= CPUState.SP (Sys.cpu s) < 256 -> push d s = (tt, pushed d s).
Proof.
  intros H. unfold push, bind, getc, gets, write, modc, modify. cbn beta iota.
  rewrite BusFacts.cpu_write_ram by lia.
  rewrite stack_addr by exact H. reflexivity.
Qed.

Lemma exec_push (d : Z) (s : System) :
  0 <= CPUState.SP (Sys.cpu s) < 256 -> exec (push d) s = pushed d s.
Proof. intros H. unfold exec. now rewrite push_run. Qed.

Lemma exec_set_flag (f : Flags) (v : bool) (s : System) :
  exec (set_flag f v) s =
  Sys.set_cpu (CPUState.set_P (with_flag f v (CPUState.P (Sys.cpu s))) (Sys.cpu s)) s.
Proof. reflexivity. Qed.

Lemma exec_read_vector (a : Z) (s : System) : 0x4018 <= a -> exec (read a) s = s.
Proof. apply BusFacts.cpu_read_cart_space. Qed.

Lemma nmi_run (s : System) :
  0 <= CPUState.SP (Sys.cpu s) < 256 -> exec nmi s = interrupt_entered 0xFFFA 8 s.
Proof.
  intros H. unfold nmi, push16.
  rewrite !exec_bind.
  change (exec (getc CPUState.PC) s) with s.
  change (eval (getc CPUState.PC) s) with (CPUState.PC (Sys.cpu s)).
  rewrite (exec_push _ s) by exact H.
  rewrite (exec_push _ (pushed _ s)) by apply u8_range.
  rewrite !exec_set_flag.
  match goal with |- context [exec (getc CPUState.P) ?x] =>
    change (exec (getc CPUState.P) x) with x;
    change (eval (getc CPUState.P) x) with (CPUState.P (Sys.cpu x)) end.
  rewrite exec_push by apply u8_range.
  rewrite !exec_read_vector by lia.
  unfold read.
  repeat match goal with
  | |- context [eval (Bus.cpu_read ?a) ?x] =>
      lazymatch x with
      | s => fail
      | _ => rewrite (BusFacts.cpu_read_cart_space_value a s x) by (reflexivity || lia)
      end
  end.
  reflexivity.
Qed.

Lemma irq_masked (s : System) :
  has_flag FlagI (CPUState.P (Sys.cpu s)) = true -> exec irq s = s.
Proof.
  intros H. unfold irq. rewrite exec_bind.
  change (eval (get_flag FlagI) s) with (has_flag FlagI (CPUState.P (Sys.cpu s))).
  rewrite H. reflexivity.
Qed.

Lemma irq_run (s : System) :
  0 <= CPUState.SP (Sys.cpu s) < 256 ->
  has_flag FlagI (CPUState.P (Sys.cpu s)) = false ->
  exec irq s = interrupt_entered 0xFFFE 7 s.
Proof.
  intros H HI. unfold irq. rewrite exec_bind.
  change (eval (get_flag FlagI) s) with (has_flag FlagI (CPUState.P (Sys.cpu s))).
  rewrite HI. cbn [negb]. change (exec (get_flag FlagI) s) with s.
  unfold push16.
  rewrite !exec_bind.
  change (exec (getc CPUState.PC) s) with s.
  change (eval (getc CPUState.PC) s) with (CPUState.PC (Sys.cpu s)).
  rewrite (exec_push _ s) by exact H.
  rewrite (exec_push _ (pushed _ s)) by apply u8_range.
  rewrite !exec_set_flag.
  match goal with |- context [exec (getc CPUState.P) ?x] =>
    change (exec (getc CPUState.P) x) with x;
    change (eval (getc CPUState.P) x) with (CPUState.P (Sys.cpu x)) end.
  rewrite exec_push by apply u8_range.
  rewrite !exec_read_vector by lia.
  unfold read.
  repeat match goal with
  | |- context [eval (Bus.cpu_read ?a) ?x] =>
      lazymatch x with
      | s => fail
      | _ => rewrite (BusFacts.cpu_read_cart_space_value a s x) by (reflexivity || lia)
      end
  end.
  reflexivity.
Qed.

Lemma u8_sub2 (sp : Z) : 0 <= sp < 256 -> u8 (u8 (sp - 1) - 1) = u8 (sp - 2).
Proof. unfold u8. intros. Z.div_mod_to_equations. lia. Qed.

Lemma u8_sub3 (sp : Z) : 0 <= sp < 256 -> u8 (u8 (u8 (sp - 1) - 1) - 1) = u8 (sp - 3).
Proof. unfold u8. intros. Z.div_mod_to_equations. lia. Qed.

Lemma u8_sub_ne (sp : Z) :
  0 <= sp < 256 ->
  u8 (sp - 1) <> sp /\ u8 (sp - 2) <> sp /\ u8 (sp - 2) <> u8 (sp - 1).
Proof. unfold u8. intros. Z.div_mod_to_equations. lia. Qed.

Lemma u8_inc_dec (sp : Z) : 0 <= sp < 256 -> u8 (u8 (sp - 1) + 1) = sp.
Proof. unfold u8. intros. Z.div_mod_to_equations. lia. Qed.

Lemma interrupt_entered_spec (vector cycles : Z) (s : System) :
  stack_ready s -> interrupt_entry s (interrupt_entered vector cycles s) vector cycles.
Proof.
  intros [Hsp Hlen].
  destruct (u8_sub_ne _ Hsp) as (N1 & N2 & N3).
  pose proof (u8_range (CPUState.SP (Sys.cpu s) - 1)) as R1.
  pose proof (u8_range (CPUState.SP (Sys.cpu s) - 2)) as R2.
  unfold interrupt_entry, interrupt_entered, stack_byte, pushed.
  cbn [Sys.cpu Sys.bus Sys.set_cpu Sys.set_bus BusState.ram BusState.set_ram
       CPUState.SP CPUState.set_SP CPUState.P CPUState.set_P CPUState.PC
       CPUState.set_PC CPUState.cycles_remaining CPUState.set_cycles_remaining].
  rewrite ?u8_sub3, ?u8_sub2 by exact Hsp.
  repeat split.
  - rewrite !byte_at_set_ne by lia. apply byte_at_set_eq. lia.
  - rewrite byte_at_set_ne by lia. apply byte_at_set_eq.
    rewrite byte_set_length. lia.
  - rewrite byte_at_set_eq by (rewrite !byte_set_length; lia).
    rewrite has_with_flag_ne, has_with_flag_ne by discriminate.
    apply has_with_flag_eq.
  - rewrite byte_at_set_eq by (rewrite !byte_set_length; lia).
    rewrite has_with_flag_ne by discriminate. apply has_with_flag_eq.
  - rewrite byte_at_set_eq by (rewrite !byte_set_length; lia).
    apply has_with_flag_eq.
  - intros f HB HU HI.
    rewrite byte_at_set_eq by (rewrite !byte_set_length; lia).
    now rewrite !has_with_flag_ne by assumption.
  - apply has_with_flag_eq.
Qed.

(** A bus read leaves the CPU registers alone. *)
Lemma read_cpu (a : Z) (s : System) : Sys.cpu (exec (read a) s) = Sys.cpu s.
Proof. apply BusFacts.cpu_read_frame. Qed.

Local Open Scope st_scope.

Lemma pop_run (s : System) :
  0 <= CPUState.SP (Sys.cpu s) < 256 ->
  pop s =
  (stack_byte s (u8 (CPUState.SP (Sys.cpu s) + 1)),
   Sys.set_cpu (CPUState.set_SP (u8 (CPUState.SP (Sys.cpu s) + 1)) (Sys.cpu s)) s).
Proof.
  intros H. unfold pop, bind, getc, gets, read, modc, modify. cbn beta iota.
  cbn [Sys.cpu Sys.set_cpu CPUState.SP CPUState.set_SP].
  pose proof (u8_range (CPUState.SP (Sys.cpu s) + 1)) as R.
  rewrite BusFacts.cpu_read_ram by lia.
  rewrite stack_addr by exact R. reflexivity.
Qed.

Lemma exec_pop (s : System) :
  0 <= CPUState.SP (Sys.cpu s) < 256 ->
  exec pop s =
  Sys.set_cpu (CPUState.set_SP (u8 (CPUState.SP (Sys.cpu s) + 1)) (Sys.cpu s)) s.
Proof. intros H. unfold exec. now rewrite pop_run. Qed.

Lemma eval_pop (s : System) :
  0 <= CPUState.SP (Sys.cpu s) < 256 ->
  eval pop s = stack_byte s (u8 (CPUState.SP (Sys.cpu s) + 1)).
Proof. intros H. unfold eval. now rewrite pop_run. Qed.

Lemma php_plp_status (s : System) :
  stack_ready s ->
  let s' := exec php_plp s in
  CPUState.P (Sys.cpu s') =
    with_flag FlagU true
      (Z.lor (Z.lor (CPUState.P (Sys.cpu s)) (flag_mask FlagB)) (flag_mask FlagU))
  /\ CPUState.SP (Sys.cpu s') = CPUState.SP (Sys.cpu s).
Proof.
  intros [Hsp Hlen]. unfold php_plp, op_PHP, op_PLP.
  rewrite !exec_bind.
  change (exec (getc CPUState.P) s) with s.
  change (eval (getc CPUState.P) s) with (CPUState.P (Sys.cpu s)).
  rewrite exec_push by exact Hsp.
  rewrite !exec_set_flag. rewrite !exec_ret.
  rewrite !eval_pop, !exec_pop by (cbn; apply u8_range).
  cbn [exec modc modify snd Sys.cpu Sys.set_cpu CPUState.SP CPUState.set_SP CPUState.set_P
       CPUState.P pushed].
  rewrite u8_inc_dec by exact Hsp.
  unfold stack_byte. cbn [Sys.bus Sys.set_cpu Sys.set_bus BusState.ram BusState.set_ram].
  unfold pushed. cbn [Sys.bus Sys.set_cpu Sys.set_bus BusState.ram BusState.set_ram].
  rewrite byte_at_set_eq by lia.
  split; reflexivity.
Qed.

Lemma lor_break_bits (p i : Z) :
  0 <= i ->
  Z.testbit (Z.lor (Z.lor p (flag_mask FlagB)) (flag_mask FlagU)) i =
  Z.testbit p i || (i =? 4) || (i =? 5).
Proof.
  intros Hi. rewrite !Z.lor_spec.
  change (flag_mask FlagB) with (2 ^ 4). change (flag_mask FlagU) with (2 ^ 5).
  rewrite !Z.pow2_bits_eqb by lia.
  now rewrite (Z.eqb_sym 4 i), (Z.eqb_sym 5 i).
Qed.

Lemma php_plp_flag (f : Flags) (s : System) :
  stack_ready s ->
  has_flag f (CPUState.P (Sys.cpu (exec php_plp s))) =
  match f with
  | FlagB | FlagU => true
  | _ => has_flag f (CPUState.P (Sys.cpu s))
  end.
Proof.
  intros Hs. destruct (php_plp_status s Hs) as [-> _].
  rewrite !has_flag_testbit, with_flag_bits by apply flag_bit_range.
  rewrite lor_break_bits by apply flag_bit_range.
  destruct f; cbn; rewrite ?orb_false_r, ?orb_true_r; reflexivity.
Qed.

Lemma fetch_cpu (s : System) :
  CPUState.A (Sys.cpu (exec fetch s)) = CPUState.A (Sys.cpu s)
  /\ CPUState.P (Sys.cpu (exec fetch s)) = CPUState.P (Sys.cpu s).
Proof.
  unfold fetch. rewrite !exec_bind.
  change (exec (getc CPUState.opcode) s) with s.
  change (eval (getc CPUState.opcode) s) with (CPUState.opcode (Sys.cpu s)).
  destruct (negb (is_IMP (CPUState.opcode (Sys.cpu s)))).
  - rewrite !exec_bind.
    change (exec (getc CPUState.addr_abs) s) with s.
    cbn [exec getc gets modc modify snd Sys.cpu Sys.set_cpu CPUState.set_fetched
         CPUState.A CPUState.P].
    fold (exec (read (eval (getc CPUState.addr_abs) s)) s).
    rewrite read_cpu. split; reflexivity.
  - split; reflexivity.
Qed.

Lemma adc_result (s : System) :
  let a := CPUState.A (Sys.cpu s) in
  let m := eval fetch s in
  let p := CPUState.P (Sys.cpu s) in
  let temp := u16 (a + m + b2z (has_flag FlagC p)) in
  let s' := exec op_ADC s in
  let p' := CPUState.P (Sys.cpu s') in
  CPUState.A (Sys.cpu s') = Z.land temp 0xFF
  /\ has_flag FlagC p' = (255 <? temp)
  /\ has_flag FlagZ p' = (Z.land temp 0x00FF =? 0)
  /\ has_flag FlagV p' =
       nonzero (Z.land (Z.land (Z.lnot (Z.lxor a m)) (Z.lxor a temp)) 0x0080)
  /\ has_flag FlagN p' = nonzero (Z.land temp 0x80).
Proof.
  destruct (fetch_cpu s) as [EA EP].
  unfold op_ADC. cbv zeta.
  rewrite !exec_bind, !exec_set_flag.
  cbn [exec eval getc gets get_flag modc modify ret fst snd Sys.cpu Sys.set_cpu
       CPUState.A CPUState.set_A CPUState.P CPUState.set_P].
  fold (exec fetch s). fold (eval fetch s).
  rewrite EA, EP.
  repeat split.
  - rewrite !has_with_flag_ne by discriminate. apply has_with_flag_eq.
  - rewrite !has_with_flag_ne by discriminate. apply has_with_flag_eq.
  - rewrite !has_with_flag_ne by discriminate. apply has_with_flag_eq.
  - apply has_with_flag_eq.
Qed.
End WithMapper.
End CPUFacts.

(** ** Invariants through the interpreters

    Most properties of the machine are kept by a computation because
    every primitive it is built from keeps them.  The lemmas below walk
    the CPU, APU and PPU code once, for any property with that closure. *)

(** Structural steps of a preservation proof: binds, returns, reads of
    the state, and case analysis on the branch taken. *)
Ltac pres_step :=
  lazymatch goal with
  | |- preserves _ (bind _ _) => apply preserves_bind; [ | intro ]
  | |- preserves _ (ret _) => apply preserves_ret
  | |- preserves _ (gets _) => apply preserves_gets
  | |- preserves _ (if ?b then _ else _) => destruct b
  | |- preserves _ (match ?x with _ => _ end) => destruct x
  | |- preserves _ (let _ := _ in _) => cbv zeta
  end.

Create HintDb pres.

Ltac pres_auto := repeat first [ pres_step | solve [ auto with pres ] ].

Module CPUPreserves.
Import CPU.
Section WithInvariant.
Context {M : Type} {MP : Mapper M}.
Local Abbreviation System := (Sys.t M).
Variable I : System -> Prop.
Hypothesis I_cpu : forall s c, I s -> I (Sys.set_cpu c s).
Hypothesis I_read : forall a, preserves I (Bus.cpu_read a).
Hypothesis I_write : forall a d, preserves I (Bus.cpu_write a d).

Lemma pres_getc {A : Type} (f : CPUState.t -> A) : preserves I (getc f).
Proof. apply preserves_gets. Qed.

Lemma pres_modc (f : CPUState.t -> CPUState.t) : preserves I (modc f).
Proof. apply preserves_modify. intros s H. apply I_cpu, H. Qed.

Lemma pres_read (a : Z) : preserves I (read a).
Proof. apply I_read. Qed.

Lemma pres_write (a d : Z) : preserves I (write a d).
Proof. apply I_write. Qed.

Lemma pres_set_flag (f : Flags) (v : bool) : preserves I (set_flag f v).
Proof. apply pres_modc. Qed.

Lemma pres_get_flag (f : Flags) : preserves I (get_flag f).
Proof. apply pres_getc. Qed.

Local Hint Resolve pres_getc pres_modc pres_read pres_write pres_set_flag
  pres_get_flag : pres.

Lemma pres_push (d : Z) : preserves I (push d).
Proof. unfold push. pres_auto. Qed.

Lemma pres_pop : preserves I pop.
Proof. unfold pop. pres_auto. Qed.

Local Hint Resolve pres_push pres_pop : pres.

Lemma pres_push16 (d : Z) : preserves I (push16 d).
Proof. unfold push16. pres_auto. Qed.

Lemma pres_pop16 : preserves I pop16.
Proof. unfold pop16. pres_auto. Qed.

Lemma pres_fetch : preserves I fetch.
Proof. unfold fetch. pres_auto. Qed.

Lemma pres_inc_PC : preserves I inc_PC.
Proof. unfold inc_PC. pres_auto. Qed.

Lemma pres_set_ZN (v : Z) : preserves I (set_ZN v).
Proof. unfold set_ZN. pres_auto. Qed.

Local Hint Resolve pres_push16 pres_pop16 pres_fetch pres_inc_PC pres_set_ZN : pres.

Lemma pres_store_result (v : Z) : preserves I (store_result v).
Proof. unfold store_result. pres_auto. Qed.

Lemma pres_branch_on (f : Flags) (v : bool) : preserves I (branch_on f v).
Proof. unfold branch_on. pres_auto. Qed.

Lemma pres_compare (r m : Z) : preserves I (compare r m).
Proof. unfold compare. pres_auto. Qed.

Lemma pres_operand16 : preserves I operand16.
Proof. unfold operand16. pres_auto. Qed.

Lemma pres_index_by (i hi : Z) : preserves I (index_by i hi).
Proof. unfold index_by. pres_auto. Qed.

Local Hint Resolve pres_store_result pres_branch_on pres_compare pres_operand16
  pres_index_by : pres.

Lemma pres_nmi : preserves I nmi.
Proof. unfold nmi. pres_auto. Qed.

Lemma pres_irq : preserves I irq.
Proof. unfold irq. pres_auto. Qed.

Lemma pres_reset : preserves I reset.
Proof. unfold reset. pres_auto. Qed.

Lemma pres_addrmode (m : AddrMode) : preserves I (run_addrmode m).
Proof.
  destruct m; cbn [run_addrmode];
    cbv beta delta [am_IMP am_IMM am_ZP0 am_ZPX am_ZPY am_REL am_ABS am_ABX am_ABY
                    am_IND am_IZX am_IZY];
    pres_auto.
Qed.

Lemma pres_operate (o : Operation) : preserves I (run_operate o).
Proof.
  destruct o; cbn [run_operate];
    cbv beta delta [op_ADC op_AHX op_ALR op_ANC op_AND op_ARR op_ASL op_AXS op_BCC
               op_BCS op_BEQ op_BIT op_BMI op_BNE op_BPL op_BRK op_BVC op_BVS
               op_CLC op_CLD op_CLI op_CLV op_CMP op_CPX op_CPY op_DCP op_DEC
               op_DEX op_DEY op_EOR op_INC op_INX op_INY op_ISC op_JAM op_JMP
               op_JSR op_LAS op_LAX op_LDA op_LDX op_LDY op_LSR op_NOP op_ORA
               op_PHA op_PHP op_PLA op_PLP op_RLA op_ROL op_ROR op_RRA op_RTI
               op_RTS op_SAX op_SBC op_SEC op_SED op_SEI op_SHX op_SHY op_SLO
               op_SRE op_STA op_STX op_STY op_TAS op_TAX op_TAY op_TSX op_TXA
               op_TXS op_TYA op_XAA op_XXX];
    pres_auto.
Qed.

Local Hint Resolve pres_addrmode pres_operate : pres.

(** Every instruction, with its fetch and decode. *)
Lemma pres_cpu_clock : preserves I clock.
Proof. unfold clock. pres_auto. Qed.

End WithInvariant.
End CPUPreserves.

Module APUPreserves.
Section WithInvariant.
Context {M : Type} {MP : Mapper M}.
Local Abbreviation System := (Sys.t M).
Variable I : System -> Prop.
Hypothesis I_dmc :
  forall s d, I s -> I (Sys.set_apu (APU.set_dmc d (Sys.apu s)) s).
Hypothesis I_channels :
  forall s, I s -> I (Sys.set_apu (APU.clock_channels (Sys.apu s)) s).
Hypothesis I_cycles :
  forall s v, I s -> I (Sys.set_apu (APU.set_cycles v (Sys.apu s)) s).
Hypothesis I_read : forall a, preserves I (Bus.cpu_read a).

Lemma pres_getd {A : Type} (f : DMC.t -> A) : preserves I (APUClock.getd f).
Proof. apply preserves_gets. Qed.

Lemma pres_modd (f : DMC.t -> DMC.t) : preserves I (APUClock.modd f).
Proof. apply preserves_modify. intros s H. apply I_dmc, H. Qed.

Lemma pres_dmc_read (a : Z) : preserves I (Bus.dmc_read_callback a).
Proof. apply I_read. Qed.

Local Hint Resolve pres_getd pres_modd pres_dmc_read : pres.

Lemma pres_dmc_load_next : preserves I APUClock.dmc_load_next.
Proof. unfold APUClock.dmc_load_next. pres_auto. Qed.

Local Hint Resolve pres_dmc_load_next : pres.

Lemma pres_dmc_clock_timer : preserves I APUClock.dmc_clock_timer.
Proof. unfold APUClock.dmc_clock_timer. pres_auto. Qed.

Lemma pres_apu_clock : preserves I APUClock.clock.
Proof.
  unfold APUClock.clock.
  repeat first [ pres_step | apply pres_dmc_clock_timer
               | apply preserves_modify; intros s H;
                 first [ apply I_channels | apply I_cycles ]; exact H ].
Qed.

End WithInvariant.
End APUPreserves.

Module PPUPreserves.
Section WithInvariant.
Context {M : Type} {MP : Mapper M}.
Local Abbreviation PS := (PPU.t * option (Cartridge.t M))%type.
Variable J : PS -> Prop.

(** [keep p q]: what [J] needs of the PPU is the same in [p] and [q].
    The pipeline assigns only to the rendering state, the status
    register, the NMI line and the VRAM address. *)
Variable keep : PPU.t -> PPU.t -> Prop.
Hypothesis keep_refl : forall p, keep p p.
Hypothesis keep_trans : forall p q r, keep p q -> keep q r -> keep p r.
Hypothesis keep_render : forall p r, keep p (PPU.set_render r p).
Hypothesis keep_status : forall p v, keep p (PPU.set_status v p).
Hypothesis keep_nmi : forall p v, keep p (PPU.set_nmi v p).
Hypothesis keep_vram : forall p v, keep p (PPU.set_vram_addr v p).
Hypothesis J_keep : forall (s : PS) (p : PPU.t), keep (fst s) p -> J s -> J (p, snd s).
Hypothesis J_fetch : forall a, preserves J (PPU.fetch_byte a).
Hypothesis J_pulse : preserves J PPU.pulse_scanline.

Ltac keep_step :=
  lazymatch goal with
  | |- keep ?p ?p => apply keep_refl
  | |- keep ?p (PPU.set_render _ ?q) => apply (keep_trans p q); [ | apply keep_render ]
  | |- keep ?p (PPU.set_status _ ?q) => apply (keep_trans p q); [ | apply keep_status ]
  | |- keep ?p (PPU.set_nmi _ ?q) => apply (keep_trans p q); [ | apply keep_nmi ]
  | |- keep ?p (PPU.set_vram_addr _ ?q) => apply (keep_trans p q); [ | apply keep_vram ]
  | |- keep _ (if ?c then _ else _) => destruct c
  | |- keep _ (match ?x with _ => _ end) => destruct x
  | |- keep _ (let _ := _ in _) => cbv zeta
  end.

Ltac keep_auto :=
  intros;
  cbv beta delta [PPU.update_shifters PPU.increment_scroll_x PPU.increment_scroll_y
                  PPU.transfer_address_x PPU.transfer_address_y PPU.sprite_evaluation];
  repeat keep_step.

Lemma pres_getp {A : Type} (f : PPU.t -> A) : preserves J (PPU.getp f).
Proof. apply preserves_gets. Qed.

Lemma pres_modp (f : PPU.t -> PPU.t) :
  (forall p, keep p (f p)) -> preserves J (PPU.modp f).
Proof.
  intros Hf. apply preserves_modify. intros s H. apply J_keep; [ apply Hf | exact H ].
Qed.

Lemma pres_getr {A : Type} (f : PPU.Render -> A) : preserves J (PPU.getr f).
Proof. apply preserves_gets. Qed.

Lemma pres_modr (f : PPU.Render -> PPU.Render) : preserves J (PPU.modr f).
Proof. apply pres_modp. intros p. apply keep_render. Qed.

Local Hint Resolve pres_getp pres_getr pres_modr J_fetch J_pulse : pres.
Local Hint Extern 1 (preserves _ (PPU.modp _)) => apply pres_modp; keep_auto : pres.

Lemma pres_background_fetch : preserves J PPU.background_fetch.
Proof. unfold PPU.background_fetch. pres_auto. Qed.

Lemma pres_sprite_fetch_one (i : Z) : preserves J (PPU.sprite_fetch_one i).
Proof. unfold PPU.sprite_fetch_one. pres_auto. Qed.

Lemma pres_for_each (ixs : list Z) (body : Z -> State PS unit) :
  (forall i, preserves J (body i)) -> preserves J (PPU.for_each ixs body).
Proof.
  intros Hb. induction ixs as [|i rest IH]; cbn [PPU.for_each].
  - apply preserves_ret.
  - apply preserves_bind; [ apply Hb | intros _; exact IH ].
Qed.

Lemma pres_sprite_fetch : preserves J PPU.sprite_fetch.
Proof.
  unfold PPU.sprite_fetch. apply preserves_bind; [ apply pres_getr | intros n ].
  apply pres_for_each. apply pres_sprite_fetch_one.
Qed.

Lemma pres_render_pixel : preserves J PPU.render_pixel.
Proof. unfold PPU.render_pixel. pres_auto. Qed.

Local Hint Resolve pres_background_fetch pres_sprite_fetch pres_render_pixel : pres.

Lemma pres_visible_scanline : preserves J PPU.visible_scanline.
Proof. unfold PPU.visible_scanline. pres_auto. Qed.

Local Hint Resolve pres_visible_scanline : pres.

(** One PPU cycle keeps [J]. *)
Lemma pres_ppu_clock : preserves J PPU.clock.
Proof. unfold PPU.clock. pres_auto. Qed.

End WithInvariant.
End PPUPreserves.
(** ** Controller ports *)

Module ControllerFacts.
Section WithMapper.
Context {M : Type} {MP : Mapper M} {ML : MapperLaws M}.
Local Abbreviation System := (Sys.t M).
Local Open Scope st_scope.

Lemma cpu_read_port (i : Z) (s : System) :
  i = 0 \/ i = 1 -> Bus.cpu_read (0x4016 + i) s = Bus.controller_read i s.
Proof.
  intros [-> | ->]; unfold Bus.cpu_read;
    rewrite BusFacts.cart_cpu_read_low by lia; reflexivity.
Qed.

Lemma cpu_write_strobe (d : Z) (s : System) :
  Bus.cpu_write 0x4016 d s =
  (tt, Sys.set_bus
         (BusState.set_controller_shift
            (byte_set
               (byte_set (BusState.controller_shift (Sys.bus s)) 0
                  (byte_at (BusState.controller_state (Sys.bus s)) 0))
               1 (byte_at (BusState.controller_state (Sys.bus s)) 1))
            (Sys.bus s)) s).
Proof.
  unfold Bus.cpu_write. rewrite BusFacts.cart_cpu_write_low by lia. reflexivity.
Qed.

(** Bit 7 of a byte, as the port returns it. *)
Lemma msb_testbit (sh : Z) : b2z (0 <? Z.land sh 0x80) = b2z (Z.testbit sh 7).
Proof.
  change 0x80 with (2 ^ 7). rewrite land_pow2 by lia.
  destruct (Z.testbit sh 7); reflexivity.
Qed.

Lemma shifted_testbit (sh k : Z) :
  0 <= k -> Z.testbit (u8 (Z.shiftl sh 1)) (7 - k) = Z.testbit sh (7 - (k + 1)).
Proof.
  intros Hk. unfold u8. change 256 with (2 ^ 8).
  destruct (Z.ltb_spec (7 - k) 0) as [Hn|Hn].
  - rewrite !Z.testbit_neg_r by lia. reflexivity.
  - rewrite Z.mod_pow2_bits_low by lia.
    rewrite Z.shiftl_spec by lia. f_equal. lia.
Qed.

(** [n] reads of a port return the bits of its shift register from bit
    7 down, then zeros. *)
Lemma port_reads_bits (n : nat) (i : Z) (s : System) :
  i = 0 \/ i = 1 ->
  length (BusState.controller_shift (Sys.bus s)) = 2%nat ->
  eval (port_reads n i) s =
  map (fun k => b2z (Z.testbit (byte_at (BusState.controller_shift (Sys.bus s)) i)
                       (7 - Z.of_nat k))) (seq 0 n).
Proof.
  intros Hi. revert s. induction n as [|n IH]; intros s Hlen; [ reflexivity | ].
  cbn [port_reads]. rewrite eval_bind, eval_bind. cbn [eval ret fst].
  change (fst (ret ?x ?y)) with x.
  unfold eval at 1, exec at 1. rewrite cpu_read_port by exact Hi.
  unfold Bus.controller_read. cbn [fst snd].
  set (sh := byte_at (BusState.controller_shift (Sys.bus s)) i).
  rewrite IH by (cbn; rewrite byte_set_length; exact Hlen).
  cbn [seq map Z.of_nat]. rewrite Z.sub_0_r, msb_testbit. f_equal.
  rewrite <- seq_shift, map_map.
  apply map_ext. intros k. cbn [Sys.bus Sys.set_bus BusState.controller_shift
    BusState.set_controller_shift].
  rewrite byte_at_set_eq by (rewrite Hlen; destruct Hi as [-> | ->]; cbn; lia).
  rewrite shifted_testbit by lia. do 2 f_equal. lia.
Qed.

End WithMapper.
End ControllerFacts.

(** ** PPU registers *)

Module PPUFacts.
Import PPU.
Section WithMapper.
Context {M : Type} {MP : Mapper M}.

Lemma field_get_bit (k x : Z) : 0 <= k -> field_get k 1 x = b2z (Z.testbit x k).
Proof.
  intros Hk. unfold field_get. rewrite Z.land_ones by lia.
  change (2 ^ 1) with 2. rewrite <- Z.bit0_mod, Z.shiftr_spec by lia.
  rewrite Z.add_0_l. reflexivity.
Qed.

(** The byte a [$2002] read returns. *)
Lemma status_read_value (p : t) (cart : option (Cartridge.t M)) :
  fst (cpu_read 0x0002 p cart) =
  Z.lor (Z.land (status p) 0xE0) (Z.land (data_buffer p) 0x1F).
Proof. reflexivity. Qed.

Lemma status_read_low (st buf : Z) :
  Z.land (Z.lor (Z.land st 0xE0) (Z.land buf 0x1F)) 0x1F = Z.land buf 0x1F.
Proof.
  rewrite Z.land_lor_distr_l, <- !Z.land_assoc.
  change (Z.land 0xE0 0x1F) with 0. change (Z.land 0x1F 0x1F) with 0x1F.
  rewrite Z.land_0_r. reflexivity.
Qed.

Lemma status_read_high (st buf k : Z) :
  5 <= k <= 7 ->
  Z.testbit (Z.lor (Z.land st 0xE0) (Z.land buf 0x1F)) k = Z.testbit st k.
Proof.
  intros Hk. rewrite Z.lor_spec, !Z.land_spec.
  assert (E : k = 5 \/ k = 6 \/ k = 7) by lia.
  destruct E as [-> | [-> | ->]]; cbn; rewrite andb_true_r, andb_false_r, orb_false_r;
    reflexivity.
Qed.

(** Only a [$2007] read loads the read buffer. *)
Lemma access_data_buffer (a : Access) (s : t * option (Cartridge.t M)) :
  is_data_read a = false -> data_buffer (fst (access a s)) = data_buffer (fst s).
Proof.
  destruct s as [p cart]. destruct a as [addr | addr data]; cbn [access fst snd].
  - cbn [is_data_read]. intros H. unfold cpu_read. rewrite H.
    destruct (Z.land addr 7 =? 2); [ reflexivity | ].
    destruct (Z.land addr 7 =? 4); reflexivity.
  - intros _. unfold cpu_write.
    repeat match goal with
    | |- context [if ?c then _ else _] => destruct c; try reflexivity
    end.
    unfold ppu_write.
    repeat match goal with
    | |- context [if ?c then _ else _] => destruct c; try reflexivity
    | |- context [match ?c with Some _ => _ | None => _ end] =>
        destruct c; try reflexivity
    end.
Qed.

Lemma accesses_data_buffer (l : list Access) (s : t * option (Cartridge.t M)) :
  forallb (fun a => negb (is_data_read a)) l = true ->
  data_buffer (fst (accesses l s)) = data_buffer (fst s).
Proof.
  revert s. induction l as [|a l IH]; intros s H; [ reflexivity | ].
  cbn [forallb] in H. apply andb_true_iff in H. destruct H as [Ha Hl].
  apply negb_true_iff in Ha.
  cbn [accesses fold_left]. fold (accesses l (access a s)).
  rewrite IH by exact Hl. apply access_data_buffer. exact Ha.
Qed.

(** A [$2007] read loads it with the byte at the VRAM address. *)
Lemma data_read_buffer (p : t) (cart : option (Cartridge.t M)) :
  data_buffer (fst (snd (cpu_read 0x0007 p cart))) = fst (ppu_read (vram_addr p) p cart).
Proof.
  unfold cpu_read. cbn [Z.land Z.eqb Pos.land Pos.eqb].
  destruct (ppu_read (vram_addr p) p cart) as [b c]. reflexivity.
Qed.

End WithMapper.
End PPUFacts.
(** ** The system tick *)

Module TickFacts.
Section WithMapper.
Context {M : Type} {MP : Mapper M} {ML : MapperLaws M}.
Local Abbreviation System := (Sys.t M).
Local Open Scope st_scope.
Import BusFacts.

(** What the rest of the machine cannot see change during a PPU cycle. *)
Lemma ppu_clock_frame (s : System) :
  let s' := exec BusClock.ppu_clock s in
  Sys.cpu s' = Sys.cpu s /\ Sys.apu s' = Sys.apu s /\ Sys.bus s' = Sys.bus s.
Proof.
  unfold exec, BusClock.ppu_clock.
  destruct (PPU.clock _) as [u [p c]]. cbn. tauto.
Qed.

Lemma oam_port_write_frame (d : Z) (s : System) :
  let s' := exec (BusClock.oam_port_write d) s in
  Sys.cpu s' = Sys.cpu s /\ Sys.apu s' = Sys.apu s /\ Sys.bus s' = Sys.bus s.
Proof.
  unfold exec, BusClock.oam_port_write.
  destruct (PPU.cpu_write _ _ _ _) as [p c]. cbn. tauto.
Qed.

(** The APU cycle, with its DMC fetch, leaves the CPU and the DMA engine
    alone. *)
Lemma apu_clock_frame (s : System) :
  let s' := exec APUClock.clock s in
  Sys.cpu s' = Sys.cpu s /\ dma_view (Sys.bus s') = dma_view (Sys.bus s).
Proof.
  apply (APUPreserves.pres_apu_clock
           (fun x => Sys.cpu x = Sys.cpu s /\ dma_view (Sys.bus x) = dma_view (Sys.bus s))).
  - intros x d H. exact H.
  - intros x H. exact H.
  - intros x v H. exact H.
  - intros a x [Hc Hv]. pose proof (cpu_read_frame a x) as (Fc & Fv & _).
    cbn zeta in Fc, Fv. rewrite Fc, Fv. tauto.
  - tauto.
Qed.

(** An interrupt entry stacks three bytes and reads its vector. *)
Lemma interrupt_entered_frame (vector cycles : Z) (s : System) :
  sp_ok s ->
  let s' := interrupt_entered vector cycles s in
  sp_ok s' /\ dma_view (Sys.bus s') = dma_view (Sys.bus s)
  /\ Sys.cartridge s' = Sys.cartridge s /\ Sys.ppu s' = Sys.ppu s
  /\ Sys.apu s' = Sys.apu s.
Proof.
  intros H. cbn zeta. unfold interrupt_entered, sp_ok. cbn.
  split; [ apply u8_range | tauto ].
Qed.

Lemma route_nmi_spec (s : System) :
  sp_ok s ->
  let s' := exec BusClock.route_nmi s in
  sp_ok s' /\ dma_view (Sys.bus s') = dma_view (Sys.bus s)
  /\ Sys.cartridge s' = Sys.cartridge s
  /\ (eval BusClock.route_nmi s = [] \/ eval BusClock.route_nmi s = [NmiEntry]).
Proof.
  intros H. cbn zeta. unfold BusClock.route_nmi.
  rewrite exec_bind, eval_bind, eval_gets, exec_gets.
  destruct (PPU.nmi (Sys.ppu s)).
  - rewrite !exec_bind, !eval_bind, exec_modify, exec_ret, eval_ret.
    rewrite CPUFacts.nmi_run by exact H.
    match goal with |- context [interrupt_entered _ _ ?x] =>
      pose proof (interrupt_entered_frame 0xFFFA 8 x H) as (F1 & F2 & F3 & _) end.
    cbn zeta in F1, F2, F3. rewrite F2, F3.
    split; [ exact F1 | split; [ reflexivity | split; [ reflexivity | right; reflexivity ] ] ].
  - rewrite exec_ret, eval_ret. tauto.
Qed.

Lemma route_irq_spec (s : System) :
  sp_ok s ->
  let s' := exec BusClock.route_irq s in
  let pending :=
    match Sys.cartridge s with Some c => Cartridge.irq_state c | None => false end in
  sp_ok s' /\ dma_view (Sys.bus s') = dma_view (Sys.bus s)
  /\ eval BusClock.route_irq s = (if pending then [IrqEntry] else [])
  /\ Sys.cartridge s' =
     (if pending then option_map Cartridge.irq_clear (Sys.cartridge s)
      else Sys.cartridge s).
Proof.
  intros H. cbn zeta. unfold BusClock.route_irq.
  rewrite exec_bind, eval_bind, eval_gets, exec_gets.
  destruct (match Sys.cartridge s with Some c => _ | None => false end).
  - rewrite !exec_bind, !eval_bind, exec_modify, exec_ret, eval_ret.
    match goal with |- context [exec CPU.irq ?x] => set (s1 := x) end.
    assert (H1 : sp_ok s1) by exact H.
    assert (Ec : Sys.cartridge s1 = option_map Cartridge.irq_clear (Sys.cartridge s)).
    { unfold s1. cbn. destruct (Sys.cartridge s); reflexivity. }
    destruct (CPU.has_flag CPU.FlagI (CPUState.P (Sys.cpu s1))) eqn:EI.
    + rewrite CPUFacts.irq_masked by exact EI. tauto.
    + rewrite CPUFacts.irq_run by assumption.
      pose proof (interrupt_entered_frame 0xFFFE 7 s1 H1) as (F1 & F2 & F3 & _).
      cbn zeta in F1, F2, F3. rewrite F2, F3. tauto.
  - rewrite exec_ret, eval_ret. tauto.
Qed.

(** One DMA slot. *)
Lemma dma_slot_spec (s : System) :
  exists r,
    eval BusClock.dma_slot s = fst (dma_step (dma_view (Sys.bus s)) r)
    /\ dma_view (Sys.bus (exec BusClock.dma_slot s)) = snd (dma_step (dma_view (Sys.bus s)) r)
    /\ Sys.cpu (exec BusClock.dma_slot s) = Sys.cpu s.
Proof.
  unfold BusClock.dma_slot.
  rewrite eval_bind, exec_bind.
  change (eval (BusClock.getb (fun b => b)) s) with (Sys.bus s).
  change (exec (BusClock.getb (fun b => b)) s) with s.
  cbv zeta. unfold dma_step, dma_view.
  destruct (BusState.dma_dummy (Sys.bus s)) eqn:Edu.
  - exists 0.
    destruct (BusState.system_clock_counter (Sys.bus s) mod 2 =? 1); cbn;
      rewrite ?Edu; tauto.
  - destruct (BusState.system_clock_counter (Sys.bus s) mod 2 =? 0).
    + exists (eval (Bus.cpu_read
                 (Z.lor (Z.shiftl (BusState.dma_page (Sys.bus s)) 8)
                        (BusState.dma_addr (Sys.bus s)))) s).
      rewrite !eval_bind, !exec_bind, eval_ret, exec_ret.
      unfold BusClock.modb. rewrite exec_modify.
      match goal with |- context [exec (Bus.cpu_read ?a) s] =>
        pose proof (cpu_read_frame a s) as (Fc & Fv & _) end.
      cbn zeta in Fc, Fv. unfold dma_view in Fv. injection Fv as F1 F2 F3 F4 F5 F6.
      cbn [fst snd Sys.bus Sys.cpu Sys.set_bus BusState.dma_transfer BusState.dma_page
           BusState.dma_addr BusState.dma_data BusState.dma_dummy
           BusState.system_clock_counter BusState.set_dma_data].
      rewrite F1, F2, F3, F5, F6, Edu.
      split; [ reflexivity | split; [ reflexivity | exact Fc ] ].
    + exists 0.
      rewrite !eval_bind, !exec_bind, eval_ret, exec_ret.
      unfold BusClock.modb. rewrite !exec_modify.
      pose proof (oam_port_write_frame (BusState.dma_data (Sys.bus s)) s)
        as (Fc & _ & Fb).
      cbn zeta in Fc, Fb.
      cbn [fst snd Sys.bus Sys.cpu Sys.set_bus]. rewrite Fb, Fc.
      cbn [BusState.dma_addr BusState.set_dma_addr].
      destruct (u8 (BusState.dma_addr (Sys.bus s) + 1) =? 0); cbn; rewrite ?Edu; tauto.
Qed.

Lemma dma_step_events (v : DmaView) (r : Z) :
  slot_events (fst (dma_step v r)) = fst (dma_step v r).
Proof.
  destruct v as [[[[[t page] a] d] dummy] c]. unfold dma_step.
  destruct dummy; [ destruct (c mod 2 =? 1); reflexivity | ].
  destruct (c mod 2 =? 0); reflexivity.
Qed.

(** A CPU slot that belongs to the DMA engine, or no CPU slot at all. *)
Lemma cpu_slot_spec (s : System) :
  BusState.dma_transfer (Sys.bus s) = true
  \/ BusState.system_clock_counter (Sys.bus s) mod 3 <> 0 ->
  exists r,
    let step :=
      if BusState.system_clock_counter (Sys.bus s) mod 3 =? 0
      then dma_step (dma_view (Sys.bus s)) r else ([], dma_view (Sys.bus s)) in
    eval BusClock.cpu_slot s = fst step
    /\ dma_view (Sys.bus (exec BusClock.cpu_slot s)) = snd step
    /\ Sys.cpu (exec BusClock.cpu_slot s) = Sys.cpu s.
Proof.
  intros H. unfold BusClock.cpu_slot.
  rewrite eval_bind, exec_bind.
  change (eval (BusClock.getb BusState.system_clock_counter) s)
    with (BusState.system_clock_counter (Sys.bus s)).
  change (exec (BusClock.getb BusState.system_clock_counter) s) with s.
  destruct (Z.eqb_spec (BusState.system_clock_counter (Sys.bus s) mod 3) 0) as [E|E].
  - destruct H as [Ht | Hc]; [ | contradiction ].
    rewrite eval_bind, exec_bind.
    change (eval (BusClock.getb BusState.dma_transfer) s)
      with (BusState.dma_transfer (Sys.bus s)).
    change (exec (BusClock.getb BusState.dma_transfer) s) with s.
    rewrite Ht. rewrite !eval_bind, !exec_bind, eval_ret, exec_ret.
    destruct (dma_slot_spec s) as (r & He & Hv & Hc).
    exists r. cbn zeta.
    pose proof (apu_clock_frame (exec BusClock.dma_slot s)) as [Fc Fv].
    cbn zeta in Fc, Fv. rewrite Fc, Fv. tauto.
  - exists 0. cbn. tauto.
Qed.

(** One tick while the DMA engine owns the CPU slots. *)
Lemma tick_engine (s : System) :
  sp_ok s ->
  BusState.dma_transfer (Sys.bus s) = true
  \/ BusState.system_clock_counter (Sys.bus s) mod 3 <> 0 ->
  exists r,
    slot_events (eval BusClock.clock s) = fst (engine_step (dma_view (Sys.bus s)) r)
    /\ dma_view (Sys.bus (exec BusClock.clock s)) = snd (engine_step (dma_view (Sys.bus s)) r)
    /\ sp_ok (exec BusClock.clock s).
Proof.
  intros Hsp H. unfold BusClock.clock.
  rewrite !eval_bind, !exec_bind, eval_ret, exec_ret.
  pose proof (ppu_clock_frame s) as (Pc & _ & Pb). cbn zeta in Pc, Pb.
  generalize dependent (exec BusClock.ppu_clock s). intros s1 Pc Pb.
  destruct (cpu_slot_spec s1) as (r & He & Hv & Hc); [ rewrite Pb; exact H | ].
  cbn zeta in He, Hv. rewrite Pb in He, Hv.
  generalize dependent (exec BusClock.cpu_slot s1). intros s2 Hv Hc.
  assert (Hsp2 : sp_ok s2) by (unfold sp_ok; rewrite Hc, Pc; exact Hsp).
  pose proof (route_nmi_spec s2 Hsp2) as (Hsp3 & Nv & _ & Ne). cbn zeta in Hsp3, Nv.
  generalize dependent (exec BusClock.route_nmi s2). intros s3 Hsp3 Nv.
  pose proof (route_irq_spec s3 Hsp3) as (Hsp4 & Iv & Ie & _). cbn zeta in Hsp4, Iv, Ie.
  generalize dependent (exec BusClock.route_irq s3). intros s4 Hsp4 Iv.
  exists r. unfold BusClock.modb. rewrite exec_modify.
  assert (Ev : slot_events
                 (eval BusClock.cpu_slot s1 ++ eval BusClock.route_nmi s2
                  ++ eval BusClock.route_irq s3) = eval BusClock.cpu_slot s1).
  { unfold slot_events. rewrite !List.filter_app. fold (slot_events (eval BusClock.cpu_slot s1)).
    rewrite Ie. rewrite He.
    assert (E1 : forall x, slot_events
      (fst (if BusState.system_clock_counter (Sys.bus s) mod 3 =? 0
            then dma_step (dma_view (Sys.bus s)) x else ([], dma_view (Sys.bus s))))
      = fst (if BusState.system_clock_counter (Sys.bus s) mod 3 =? 0
            then dma_step (dma_view (Sys.bus s)) x else ([], dma_view (Sys.bus s)))).
    { intros x. destruct (_ =? 0); [ apply dma_step_events | reflexivity ]. }
    rewrite E1.
    destruct Ne as [-> | ->];
      destruct (match Sys.cartridge s3 with Some c => _ | None => false end);
      cbn; rewrite ?app_nil_r; reflexivity. }
  rewrite Ev, He.
  assert (Hv4 : dma_view (Sys.bus s4) =
                snd (if BusState.system_clock_counter (Sys.bus s) mod 3 =? 0
                     then dma_step (dma_view (Sys.bus s)) r
                     else ([], dma_view (Sys.bus s))))
    by (rewrite Iv, Nv; exact Hv).
  unfold engine_step.
  change (snd (dma_view (Sys.bus s))) with (BusState.system_clock_counter (Sys.bus s)).
  revert Hv4.
  destruct (BusState.system_clock_counter (Sys.bus s) mod 3 =? 0);
    [ destruct (dma_step (dma_view (Sys.bus s)) r) as [ev [[[[[t page] a] d] dummy] c]]
    | unfold dma_view at 2 3 ];
    cbn [fst snd]; unfold dma_view; intros Hv4;
    injection Hv4 as F1 F2 F3 F4 F5 F6;
    cbn [Sys.bus Sys.set_bus Sys.cpu BusState.dma_transfer BusState.dma_page
         BusState.dma_addr BusState.dma_data BusState.dma_dummy
         BusState.system_clock_counter BusState.set_system_clock_counter];
    rewrite F1, F2, F3, F4, F5, F6;
    (split; [ reflexivity | split; [ reflexivity | exact Hsp4 ] ]).
Qed.

(** *** OAM through a tick *)

(** The PPU pipeline reads OAM and never writes it. *)
Lemma ppu_clock_oam (s : System) :
  oam_view (Sys.ppu (exec BusClock.ppu_clock s)) = oam_view (Sys.ppu s).
Proof.
  pose proof (PPUPreserves.pres_ppu_clock
                (fun x : PPU.t * option (Cartridge.t M) =>
                   oam_view (fst x) = oam_view (Sys.ppu s))
                (fun p q => oam_view p = oam_view q)) as P.
  specialize (P ltac:(intros; reflexivity) ltac:(intros; congruence)
                ltac:(intros; reflexivity) ltac:(intros; reflexivity)
                ltac:(intros; reflexivity) ltac:(intros; reflexivity)).
  specialize (P ltac:(intros x p Hk Hx; cbn [fst]; congruence)).
  assert (Pf : forall a, preserves
                 (fun x : PPU.t * option (Cartridge.t M) =>
                    oam_view (fst x) = oam_view (Sys.ppu s)) (PPU.fetch_byte a)).
  { intros a [p c] Hx. unfold exec, PPU.fetch_byte. cbn [fst snd] in *.
    destruct (PPU.ppu_read a p c) as [d c']. exact Hx. }
  specialize (P Pf ltac:(intros x Hx; exact Hx) (Sys.ppu s, Sys.cartridge s) eq_refl).
  unfold exec, BusClock.ppu_clock. unfold exec in P.
  destruct (PPU.clock _) as [u [p c]]. exact P.
Qed.

Lemma ppu_cpu_read_oam (a : Z) (p : PPU.t) (cart : option (Cartridge.t M)) :
  oam_view (fst (snd (PPU.cpu_read a p cart))) = oam_view p.
Proof.
  unfold PPU.cpu_read. cbv zeta.
  destruct (_ =? 2); [ reflexivity | ].
  destruct (_ =? 4); [ reflexivity | ].
  destruct (_ =? 7); [ | reflexivity ].
  destruct (PPU.ppu_read _ p cart) as [b c']. reflexivity.
Qed.

(** A bus read leaves OAM alone. *)
Lemma cpu_read_oam (a : Z) (s : System) :
  oam_view (Sys.ppu (exec (Bus.cpu_read a) s)) = oam_view (Sys.ppu s).
Proof.
  unfold exec, Bus.cpu_read.
  pose proof (cart_cpu_read_frame a s) as F.
  destruct (Bus.cart_cpu_read a s) as [r s1]. cbn in F.
  destruct F as (_ & Fp & _ & _).
  destruct r as [d|]; [ cbn; rewrite Fp; reflexivity | ].
  destruct (_ && _); [ cbn; rewrite Fp; reflexivity | ].
  destruct (_ && _).
  { pose proof (ppu_cpu_read_oam (Z.land a 7) (Sys.ppu s1) (Sys.cartridge s1)) as H.
    destruct (PPU.cpu_read _ _ _) as [d [p c]]. cbn [fst snd] in *.
    cbn. rewrite H, Fp. reflexivity. }
  destruct (_ && _); [ destruct (APU.cpu_read _ _); cbn; rewrite Fp; reflexivity | ].
  destruct (_ =? _); [ cbn; rewrite Fp; reflexivity | ].
  destruct (_ =? _); cbn; rewrite Fp; reflexivity.
Qed.

Lemma apu_clock_oam (s : System) :
  oam_view (Sys.ppu (exec APUClock.clock s)) = oam_view (Sys.ppu s).
Proof.
  apply (APUPreserves.pres_apu_clock
           (fun x => oam_view (Sys.ppu x) = oam_view (Sys.ppu s)));
    try (intros; assumption).
  - intros a x H. rewrite cpu_read_oam. exact H.
  - reflexivity.
Qed.

(** The DMA write slot is a write to the OAM port. *)
Lemma oam_port_write_oam (d : Z) (s : System) :
  oam_view (Sys.ppu (exec (BusClock.oam_port_write d) s)) = oam_port (oam_view (Sys.ppu s)) d.
Proof. reflexivity. Qed.

Lemma dma_slot_oam (s : System) :
  oam_view (Sys.ppu (exec BusClock.dma_slot s)) =
  if negb (BusState.dma_dummy (Sys.bus s))
     && negb (BusState.system_clock_counter (Sys.bus s) mod 2 =? 0)
  then oam_port (oam_view (Sys.ppu s)) (BusState.dma_data (Sys.bus s))
  else oam_view (Sys.ppu s).
Proof.
  unfold BusClock.dma_slot.
  rewrite exec_bind.
  change (eval (BusClock.getb (fun b => b)) s) with (Sys.bus s).
  change (exec (BusClock.getb (fun b => b)) s) with s.
  cbv zeta.
  destruct (BusState.dma_dummy (Sys.bus s)).
  - destruct (_ mod 2 =? 1); reflexivity.
  - destruct (BusState.system_clock_counter (Sys.bus s) mod 2 =? 0).
    + rewrite !exec_bind, exec_ret. unfold BusClock.modb. rewrite exec_modify.
      cbn [negb andb Sys.ppu Sys.set_bus]. apply cpu_read_oam.
    + rewrite !exec_bind, exec_ret. unfold BusClock.modb. rewrite !exec_modify.
      cbn [negb andb Sys.ppu Sys.set_bus]. apply oam_port_write_oam.
Qed.

Lemma cpu_slot_oam (s : System) :
  BusState.dma_transfer (Sys.bus s) = true
  \/ BusState.system_clock_counter (Sys.bus s) mod 3 <> 0 ->
  oam_view (Sys.ppu (exec BusClock.cpu_slot s)) =
  oam_step (dma_view (Sys.bus s)) (oam_view (Sys.ppu s)).
Proof.
  intros H. unfold BusClock.cpu_slot, oam_step, dma_view.
  rewrite exec_bind.
  change (eval (BusClock.getb BusState.system_clock_counter) s)
    with (BusState.system_clock_counter (Sys.bus s)).
  change (exec (BusClock.getb BusState.system_clock_counter) s) with s.
  destruct (Z.eqb_spec (BusState.system_clock_counter (Sys.bus s) mod 3) 0) as [E|E];
    [ | reflexivity ].
  destruct H as [Ht | Hc]; [ | contradiction ].
  rewrite exec_bind.
  change (eval (BusClock.getb BusState.dma_transfer) s)
    with (BusState.dma_transfer (Sys.bus s)).
  change (exec (BusClock.getb BusState.dma_transfer) s) with s.
  rewrite Ht. rewrite !exec_bind, exec_ret.
  rewrite apu_clock_oam, dma_slot_oam. reflexivity.
Qed.

Lemma route_nmi_oam (s : System) :
  sp_ok s -> oam_view (Sys.ppu (exec BusClock.route_nmi s)) = oam_view (Sys.ppu s).
Proof.
  intros H. unfold BusClock.route_nmi.
  rewrite exec_bind, eval_gets, exec_gets.
  destruct (PPU.nmi (Sys.ppu s)); [ | reflexivity ].
  rewrite !exec_bind, exec_modify, exec_ret.
  rewrite CPUFacts.nmi_run by exact H.
  match goal with |- context [interrupt_entered _ _ ?x] =>
    pose proof (interrupt_entered_frame 0xFFFA 8 x H) as (_ & _ & _ & F & _) end.
  cbn zeta in F. rewrite F. reflexivity.
Qed.

Lemma route_irq_oam (s : System) :
  sp_ok s -> oam_view (Sys.ppu (exec BusClock.route_irq s)) = oam_view (Sys.ppu s).
Proof.
  intros H. unfold BusClock.route_irq.
  rewrite exec_bind, eval_gets, exec_gets.
  destruct (match Sys.cartridge s with Some c => _ | None => false end); [ | reflexivity ].
  rewrite !exec_bind, exec_modify, exec_ret.
  match goal with |- context [exec CPU.irq ?x] => set (s1 := x) end.
  assert (H1 : sp_ok s1) by exact H.
  assert (Ep : Sys.ppu s1 = Sys.ppu s) by reflexivity.
  clearbody s1.
  destruct (CPU.has_flag CPU.FlagI (CPUState.P (Sys.cpu s1))) eqn:EI.
  - rewrite CPUFacts.irq_masked by exact EI. rewrite Ep. reflexivity.
  - rewrite CPUFacts.irq_run by assumption.
    pose proof (interrupt_entered_frame 0xFFFE 7 s1 H1) as (_ & _ & _ & F & _).
    cbn zeta in F. rewrite F, Ep. reflexivity.
Qed.

(** OAM over one tick while the DMA engine owns the CPU slots. *)
Lemma tick_oam (s : System) :
  sp_ok s ->
  BusState.dma_transfer (Sys.bus s) = true
  \/ BusState.system_clock_counter (Sys.bus s) mod 3 <> 0 ->
  oam_view (Sys.ppu (exec BusClock.clock s)) =
  oam_step (dma_view (Sys.bus s)) (oam_view (Sys.ppu s)).
Proof.
  intros Hsp H. unfold BusClock.clock.
  rewrite !exec_bind, exec_ret.
  pose proof (ppu_clock_frame s) as (Pc & _ & Pb). cbn zeta in Pc, Pb.
  pose proof (ppu_clock_oam s) as Po.
  generalize dependent (exec BusClock.ppu_clock s). intros s1 Pc Pb Po.
  assert (H1 : BusState.dma_transfer (Sys.bus s1) = true
               \/ BusState.system_clock_counter (Sys.bus s1) mod 3 <> 0)
    by (rewrite Pb; exact H).
  pose proof (cpu_slot_oam s1 H1) as So. rewrite Pb, Po in So.
  destruct (cpu_slot_spec s1 H1) as (r & _ & _ & Hc).
  generalize dependent (exec BusClock.cpu_slot s1). intros s2 So Hc.
  assert (Hsp2 : sp_ok s2) by (unfold sp_ok; rewrite Hc, Pc; exact Hsp).
  pose proof (route_nmi_spec s2 Hsp2) as (Hsp3 & _). cbn zeta in Hsp3.
  pose proof (route_nmi_oam s2 Hsp2) as No.
  generalize dependent (exec BusClock.route_nmi s2). intros s3 Hsp3 No.
  pose proof (route_irq_oam s3 Hsp3) as Io.
  generalize dependent (exec BusClock.route_irq s3). intros s4 Io.
  unfold BusClock.modb. rewrite exec_modify. cbn [Sys.ppu Sys.set_bus].
  rewrite Io, No, So. reflexivity.
Qed.

End WithMapper.
End TickFacts.
(** ** The DMA engine over many ticks *)

Module DmaFacts.
Import BusFacts TickFacts.

Lemma u64_small (c : Z) : 0 <= c < 18446744073709551616 -> u64 c = c.
Proof. intros H. unfold u64. apply Z.mod_small. exact H. Qed.

Lemma engine_idle (t : bool) (page a d : Z) (dummy : bool) (c r : Z) :
  c mod 3 <> 0 -> 0 <= c -> c + 1 < 18446744073709551616 ->
  engine_step (t, page, a, d, dummy, c) r = ([], (t, page, a, d, dummy, c + 1)).
Proof.
  intros Hm H0 H1. unfold engine_step. cbn [snd].
  destruct (Z.eqb_spec (c mod 3) 0) as [E|_]; [ contradiction | ].
  rewrite u64_small by lia. reflexivity.
Qed.

Lemma engine_slot (t : bool) (page a d : Z) (dummy : bool) (c r : Z) :
  c mod 3 = 0 -> 0 <= c -> c + 1 < 18446744073709551616 ->
  engine_step (t, page, a, d, dummy, c) r =
  (fst (dma_step (t, page, a, d, dummy, c) r),
   let '(t', page', a', d', dummy', _) := snd (dma_step (t, page, a, d, dummy, c) r) in
   (t', page', a', d', dummy', c + 1)).
Proof.
  intros Hm H0 H1. unfold engine_step. cbn [snd].
  destruct (Z.eqb_spec (c mod 3) 0) as [_|E]; [ | contradiction ].
  unfold dma_step.
  destruct dummy; [ destruct (c mod 2 =? 1) | destruct (c mod 2 =? 0) ];
    cbn [fst snd]; try (destruct (u8 (a + 1) =? 0)); rewrite u64_small by lia;
    reflexivity.
Qed.

(** The source address is the page base plus the offset. *)
Lemma dma_source_add (page a : Z) : 0 <= a < 256 -> dma_source page a = page * 256 + a.
Proof.
  intros Ha. unfold dma_source.
  assert (E : Z.land (Z.shiftl page 8) a = 0).
  { apply Z.bits_inj'. intros i Hi. rewrite Z.land_spec, Z.bits_0.
    destruct (Z.ltb_spec i 8).
    - rewrite Z.shiftl_spec_low by lia. reflexivity.
    - rewrite (byte_high_bits a i) by lia. apply andb_false_r. }
  rewrite <- Z.lxor_lor by exact E.
  rewrite <- Z.add_nocarry_lxor by exact E.
  rewrite Z.shiftl_mul_pow2 by lia. reflexivity.
Qed.

Lemma oam_fill_snoc (o : OamView) (vs : list Z) (x : Z) :
  oam_fill o (vs ++ [x]) = oam_port (oam_fill o vs) x.
Proof. unfold oam_fill. rewrite fold_left_app. reflexivity. Qed.

(** Up to 256 bytes sent to the port land at consecutive addresses
    (modulo 256) from the starting OAM address. *)
Lemma oam_fill_spec (vs : list Z) (o : OamView) :
  length (fst o) = 256%nat -> 0 <= snd o < 256 -> (length vs <= 256)%nat ->
  length (fst (oam_fill o vs)) = 256%nat
  /\ snd (oam_fill o vs) = u8 (snd o + Z.of_nat (length vs))
  /\ forall i, (i < length vs)%nat ->
       byte_at (fst (oam_fill o vs)) (u8 (snd o + Z.of_nat i)) = nth i vs 0.
Proof.
  intros Hl Ha. induction vs as [|x vs IH] using rev_ind; intros Hn.
  - cbn. split; [ exact Hl | ]. split; [ | intros i Hi; lia ].
    unfold u8. rewrite Z.add_0_r, Z.mod_small; lia.
  - rewrite length_app in Hn |- *. cbn [length] in Hn |- *.
    destruct IH as (IH1 & IH2 & IH3); [ lia | ].
    rewrite oam_fill_snoc. unfold oam_port. cbn [fst snd].
    rewrite IH2. unfold byte_set, byte_at. rewrite length_insert.
    split; [ exact IH1 | ]. split.
    { unfold u8. rewrite Zplus_mod_idemp_l. f_equal. lia. }
    intros i Hi.
    assert (Hu : forall k, 0 <= u8 k < 256) by (intros k; apply Z.mod_pos_bound; lia).
    destruct (Nat.eq_dec i (length vs)) as [->|Hne].
    + rewrite list_lookup_insert_eq.
      * rewrite app_nth2, Nat.sub_diag by lia. reflexivity.
      * rewrite IH1. specialize (Hu (snd o + Z.of_nat (length vs))). lia.
    + rewrite list_lookup_insert_ne.
      * rewrite app_nth1 by lia. apply IH3. lia.
      * intros E. apply Z2Nat.inj in E; try apply Hu.
        unfold u8 in E. Z.div_mod_to_equations. lia.
Qed.

Section WithMapper.
Context {M : Type} {MP : Mapper M} {ML : MapperLaws M}.
Local Abbreviation System := (Sys.t M).

Lemma run_add (n m : nat) (s : System) :
  eval (BusClock.run (n + m)) s =
    eval (BusClock.run n) s ++ eval (BusClock.run m) (exec (BusClock.run n) s)
  /\ exec (BusClock.run (n + m)) s = exec (BusClock.run m) (exec (BusClock.run n) s).
Proof.
  revert s. induction n as [|n IH]; intros s; [ split; reflexivity | ].
  cbn [Nat.add BusClock.run].
  rewrite !eval_bind, !exec_bind, !eval_ret, !exec_ret.
  destruct (IH (exec BusClock.clock s)) as [IHe IHx].
  rewrite IHe, IHx, app_assoc. split; reflexivity.
Qed.

Lemma dma_run_tick (v : DmaView) (o : OamView)
    (Q : list Event -> DmaView -> OamView -> Prop) :
  fst (fst (fst (fst (fst v)))) = true \/ snd v mod 3 <> 0 ->
  (forall r, Q (fst (engine_step v r)) (snd (engine_step v r)) (oam_step v o)) ->
  dma_run 1 v o Q.
Proof.
  intros Hv HQ s Hsp Es Eo. cbn [BusClock.run].
  rewrite !eval_bind, !exec_bind, !eval_ret, !exec_ret, app_nil_r.
  assert (Hs : BusState.dma_transfer (Sys.bus s) = true
               \/ BusState.system_clock_counter (Sys.bus s) mod 3 <> 0)
    by (rewrite <- Es in Hv; exact Hv).
  destruct (tick_engine s Hsp Hs) as (r & He & Hx & Hsp').
  rewrite He, Hx, (tick_oam s Hsp Hs), Es, Eo. split; [ apply HQ | exact Hsp' ].
Qed.

Lemma dma_run_seq (n m : nat) (v : DmaView) (o : OamView)
    (Q1 Q : list Event -> DmaView -> OamView -> Prop) :
  dma_run n v o Q1 ->
  (forall e1 v1 o1, Q1 e1 v1 o1 -> dma_run m v1 o1 (fun e2 v2 o2 => Q (e1 ++ e2) v2 o2)) ->
  dma_run (n + m) v o Q.
Proof.
  intros H1 H2 s Hsp Es Eo.
  destruct (run_add n m s) as [Ee Ex]. rewrite Ee, Ex.
  destruct (H1 s Hsp Es Eo) as [HQ1 Hsp1].
  unfold slot_events. rewrite List.filter_app.
  apply (H2 _ _ _ HQ1 (exec (BusClock.run n) s) Hsp1 eq_refl eq_refl).
Qed.

Lemma dma_run_weaken (n : nat) (v : DmaView) (o : OamView)
    (Q Q' : list Event -> DmaView -> OamView -> Prop) :
  dma_run n v o Q -> (forall e v' o', Q e v' o' -> Q' e v' o') -> dma_run n v o Q'.
Proof. intros H HQ s Hsp Es Eo. destruct (H s Hsp Es Eo) as [H1 H2]. split; auto. Qed.

Lemma dma_run_zero (v : DmaView) (o : OamView)
    (Q : list Event -> DmaView -> OamView -> Prop) :
  Q [] v o -> dma_run 0 v o Q.
Proof. intros HQ s Hsp Es Eo. cbn. rewrite Es, Eo. split; assumption. Qed.

Lemma oam_step_idle (t : bool) (page a d : Z) (dummy : bool) (c : Z) (o : OamView) :
  c mod 3 <> 0 -> oam_step (t, page, a, d, dummy, c) o = o.
Proof.
  intros H. unfold oam_step.
  destruct (Z.eqb_spec (c mod 3) 0) as [E|_]; [ contradiction | reflexivity ].
Qed.

(** Two ticks between CPU slots. *)
Lemma idle_ticks (t : bool) (page a d : Z) (dummy : bool) (c : Z) (o : OamView) :
  c mod 3 = 1 -> 0 <= c -> c + 2 < 18446744073709551616 ->
  dma_run 2 (t, page, a, d, dummy, c) o
    (fun e v' o' => e = [] /\ v' = (t, page, a, d, dummy, c + 2) /\ o' = o).
Proof.
  intros Hm H0 H1. change 2%nat with (1 + 1)%nat.
  apply dma_run_seq with
    (Q1 := fun e v' o' => e = [] /\ v' = (t, page, a, d, dummy, c + 1) /\ o' = o).
  - apply dma_run_tick; [ right; cbn [snd]; lia | ].
    intros r. rewrite engine_idle, oam_step_idle by lia. repeat split.
  - intros e1 v1 o1 (-> & -> & ->). apply dma_run_tick.
    + right. cbn [snd]. Z.div_mod_to_equations. lia.
    + intros r.
      rewrite engine_idle, oam_step_idle;
        [ | Z.div_mod_to_equations; lia | Z.div_mod_to_equations; lia | lia | lia ].
      split; [ reflexivity | ]. cbn [snd]. split; [ f_equal; lia | reflexivity ].
Qed.

(** A CPU slot taken by the engine, with the two ticks after it. *)
Lemma dma_slot_ticks (page a d : Z) (dummy : bool) (c : Z) (o : OamView) :
  c mod 3 = 0 -> 0 <= c -> c + 3 < 18446744073709551616 ->
  dma_run 3 (true, page, a, d, dummy, c) o
    (fun e v' o' => exists r,
       e = fst (dma_step (true, page, a, d, dummy, c) r)
       /\ v' = (let '(t', page', a', d', dummy', _) :=
                  snd (dma_step (true, page, a, d, dummy, c) r) in
                (t', page', a', d', dummy', c + 3))
       /\ o' = oam_step (true, page, a, d, dummy, c) o).
Proof.
  intros Hm H0 H1. change 3%nat with (1 + 2)%nat.
  apply dma_run_seq with
    (Q1 := fun e v' o' => exists r,
       e = fst (dma_step (true, page, a, d, dummy, c) r)
       /\ v' = (let '(t', page', a', d', dummy', _) :=
                  snd (dma_step (true, page, a, d, dummy, c) r) in
                (t', page', a', d', dummy', c + 1))
       /\ o' = oam_step (true, page, a, d, dummy, c) o).
  - apply dma_run_tick; [ left; reflexivity | ].
    intros r. exists r. rewrite engine_slot by lia. repeat split.
  - intros e1 v1 o1 (r & -> & -> & ->).
    destruct (snd (dma_step (true, page, a, d, dummy, c) r))
      as [[[[[t' page'] a'] d'] dummy'] c'] eqn:E.
    eapply dma_run_weaken.
    + apply idle_ticks; [ Z.div_mod_to_equations; lia | lia | lia ].
    + cbv beta. intros e v' o' (-> & -> & ->). exists r. rewrite app_nil_r, E.
      split; [ reflexivity | ]. split; [ f_equal; lia | reflexivity ].
Qed.

(** One byte: a read slot on an even CPU cycle, a write slot on the odd
    one after it. *)
Lemma copy_byte (page a d c : Z) (o : OamView) :
  c mod 3 = 0 -> c mod 2 = 0 -> 0 <= c -> c + 6 < 18446744073709551616 ->
  0 <= a < 256 ->
  dma_run 6 (true, page, a, d, false, c) o
    (fun e v' o' => exists r,
       e = [DmaRead (page * 256 + a) r; DmaWrite r]
       /\ v' = (if a =? 255 then (false, page, 0, r, true, c + 6)
                else (true, page, a + 1, r, false, c + 6))
       /\ o' = oam_port o r).
Proof.
  intros H3 H2 H0 H1 Ha. change 6%nat with (3 + 3)%nat.
  eapply dma_run_seq; [ apply dma_slot_ticks; lia | ].
  cbv beta. intros e1 v1 o1 (r & -> & -> & ->).
  unfold dma_step at 1 2. unfold oam_step at 1. rewrite H2, H3. cbn [Z.eqb fst snd negb andb].
  eapply dma_run_weaken; [ apply dma_slot_ticks; [ | lia | lia ] | ].
  { Z.div_mod_to_equations. lia. }
  cbv beta. intros e v' o' (r' & -> & -> & ->). exists r.
  unfold dma_step, oam_step.
  replace ((c + 3) mod 2 =? 0) with false
    by (symmetry; apply Z.eqb_neq; Z.div_mod_to_equations; lia).
  replace ((c + 3) mod 3 =? 0) with true
    by (symmetry; apply Z.eqb_eq; Z.div_mod_to_equations; lia).
  rewrite dma_source_add by exact Ha. cbn [fst snd app negb andb].
  split; [ reflexivity | ]. split; [ | reflexivity ].
  destruct (Z.eqb_spec a 255) as [->|Hne].
  - change (u8 (255 + 1)) with 0. cbn [Z.eqb]. f_equal. lia.
  - rewrite u8_id by lia.
    destruct (Z.eqb_spec (a + 1) 0) as [E|_]; [ lia | ]. f_equal. lia.
Qed.

(** The bytes from offset [a] to the end of the page. *)
Lemma copy_rest (k : nat) (page a d c : Z) (o : OamView) :
  Z.of_nat k = 256 - a -> 0 <= a < 256 ->
  c mod 3 = 0 -> c mod 2 = 0 -> 0 <= c ->
  c + 6 * Z.of_nat k < 18446744073709551616 ->
  dma_run (6 * k) (true, page, a, d, false, c) o
    (fun e v' o' => exists vs d',
       length vs = k /\ e = dma_copy page a vs
       /\ v' = (false, page, 0, d', true, c + 6 * Z.of_nat k)
       /\ o' = oam_fill o vs).
Proof.
  revert a d c o. induction k as [|k IH]; intros a d c o Hk Ha H3 H2 H0 H1; [ lia | ].
  replace (6 * S k)%nat with (6 + 6 * k)%nat by lia.
  eapply dma_run_seq; [ apply copy_byte; (assumption || lia) | ].
  cbv beta. intros e1 v1 o1 (r & -> & -> & ->).
  destruct (Z.eqb_spec a 255) as [->|Hne].
  - assert (k = 0%nat) by lia. subst k. apply dma_run_zero.
    exists [r], r. split; [ reflexivity | split; [ reflexivity | ] ].
    split; [ f_equal | reflexivity ].
  - eapply dma_run_weaken.
    + apply (IH (a + 1) r (c + 6)); try lia; Z.div_mod_to_equations; lia.
    + cbv beta. intros e v' o' (vs & d' & Hl & -> & -> & ->).
      exists (r :: vs), d'. split; [ cbn; lia | split; [ reflexivity | ] ].
      split; [ f_equal; lia | reflexivity ].
Qed.

(** The alignment before the copy: one slot when the first suspended
    slot falls on an odd CPU cycle, two when it falls on an even one. *)
Lemma align_odd (page a d c : Z) (o : OamView) :
  c mod 3 = 0 -> c mod 2 = 1 -> 0 <= c -> c + 3 < 18446744073709551616 ->
  dma_run 3 (true, page, a, d, true, c) o
    (fun e v' o' => e = [DmaAlign] /\ v' = (true, page, a, d, false, c + 3) /\ o' = o).
Proof.
  intros H3 H2 H0 H1.
  eapply dma_run_weaken; [ apply dma_slot_ticks; lia | ].
  cbv beta. intros e v' o' (r & -> & -> & ->). unfold dma_step, oam_step.
  rewrite H2, H3. cbn. tauto.
Qed.

Lemma align_even (page a d c : Z) (o : OamView) :
  c mod 3 = 0 -> c mod 2 = 0 -> 0 <= c -> c + 6 < 18446744073709551616 ->
  dma_run 6 (true, page, a, d, true, c) o
    (fun e v' o' =>
       e = [DmaWait; DmaAlign] /\ v' = (true, page, a, d, false, c + 6) /\ o' = o).
Proof.
  intros H3 H2 H0 H1. change 6%nat with (3 + 3)%nat.
  eapply dma_run_seq; [ apply dma_slot_ticks; lia | ].
  cbv beta. intros e1 v1 o1 (r & -> & -> & ->).
  unfold dma_step at 1 2. unfold oam_step. rewrite H2, H3. cbn [Z.eqb fst snd negb andb].
  eapply dma_run_weaken; [ apply align_odd; try lia; Z.div_mod_to_equations; lia | ].
  cbv beta. intros e v' o' (-> & -> & ->).
  split; [ reflexivity | ]. split; [ f_equal; lia | reflexivity ].
Qed.

(** The whole transfer. *)
Lemma transfer_odd (page d c : Z) (o : OamView) :
  c mod 3 = 0 -> c mod 2 = 1 -> 0 <= c -> c + 3 * 513 < 18446744073709551616 ->
  dma_run (3 * 513) (true, page, 0, d, true, c) o
    (fun e v' o' => exists vs d',
       length vs = 256%nat /\ e = [DmaAlign] ++ dma_copy page 0 vs
       /\ v' = (false, page, 0, d', true, c + 3 * 513)
       /\ o' = oam_fill o vs).
Proof.
  intros H3 H2 H0 H1. change (3 * 513)%nat with (3 + 6 * 256)%nat.
  eapply dma_run_seq; [ apply align_odd; lia | ].
  cbv beta. intros e1 v1 o1 (-> & -> & ->).
  eapply dma_run_weaken.
  - apply (copy_rest 256 page 0 d (c + 3)); try lia; Z.div_mod_to_equations; lia.
  - cbv beta. intros e v' o' (vs & d' & Hl & -> & -> & ->). exists vs, d'.
    split; [ exact Hl | split; [ reflexivity | split; [ f_equal; lia | reflexivity ] ] ].
Qed.

Lemma transfer_even (page d c : Z) (o : OamView) :
  c mod 3 = 0 -> c mod 2 = 0 -> 0 <= c -> c + 3 * 514 < 18446744073709551616 ->
  dma_run (3 * 514) (true, page, 0, d, true, c) o
    (fun e v' o' => exists vs d',
       length vs = 256%nat /\ e = [DmaWait; DmaAlign] ++ dma_copy page 0 vs
       /\ v' = (false, page, 0, d', true, c + 3 * 514)
       /\ o' = oam_fill o vs).
Proof.
  intros H3 H2 H0 H1. change (3 * 514)%nat with (6 + 6 * 256)%nat.
  eapply dma_run_seq; [ apply align_even; lia | ].
  cbv beta. intros e1 v1 o1 (-> & -> & ->).
  eapply dma_run_weaken.
  - apply (copy_rest 256 page 0 d (c + 6)); try lia; Z.div_mod_to_equations; lia.
  - cbv beta. intros e v' o' (vs & d' & Hl & -> & -> & ->). exists vs, d'.
    split; [ exact Hl | split; [ reflexivity | split; [ f_equal; lia | reflexivity ] ] ].
Qed.

(** The transfer of an engine whose [dma_dummy] is already false: no
    alignment.  On an even slot it copies the page in 512 slots; on an odd
    one it first writes the byte left in [dma_data], then copies the
    offsets from 1 on, 511 slots in all. *)
Lemma transfer_unaligned_even (page d c : Z) (o : OamView) :
  c mod 3 = 0 -> c mod 2 = 0 -> 0 <= c -> c + 3 * 512 < 18446744073709551616 ->
  dma_run (3 * 512) (true, page, 0, d, false, c) o
    (fun e v' o' => exists vs d',
       length vs = 256%nat /\ e = dma_copy page 0 vs
       /\ v' = (false, page, 0, d', true, c + 3 * 512)
       /\ o' = oam_fill o vs).
Proof.
  intros H3 H2 H0 H1. change (3 * 512)%nat with (6 * 256)%nat.
  eapply dma_run_weaken.
  - apply (copy_rest 256 page 0 d c); lia.
  - cbv beta. intros e v' o' (vs & d' & Hl & -> & -> & ->). exists vs, d'.
    split; [ exact Hl | split; [ reflexivity | split; [ f_equal; lia | reflexivity ] ] ].
Qed.

Lemma transfer_unaligned_odd (page d c : Z) (o : OamView) :
  c mod 3 = 0 -> c mod 2 = 1 -> 0 <= c -> c + 3 * 511 < 18446744073709551616 ->
  dma_run (3 * 511) (true, page, 0, d, false, c) o
    (fun e v' o' => exists vs d',
       length vs = 255%nat /\ e = DmaWrite d :: dma_copy page 1 vs
       /\ v' = (false, page, 0, d', true, c + 3 * 511)
       /\ o' = oam_fill o (d :: vs)).
Proof.
  intros H3 H2 H0 H1. change (3 * 511)%nat with (3 + 6 * 255)%nat.
  eapply dma_run_seq; [ apply dma_slot_ticks; lia | ].
  cbv beta. intros e1 v1 o1 (r & -> & -> & ->).
  unfold dma_step at 1 2. unfold oam_step at 1. rewrite H2, H3.
  cbn [Z.eqb fst snd negb andb]. change (u8 (0 + 1)) with 1. cbn [Z.eqb].
  eapply dma_run_weaken.
  - apply (copy_rest 255 page 1 d (c + 3)); try lia; Z.div_mod_to_equations; lia.
  - cbv beta. intros e v' o' (vs & d' & Hl & -> & -> & ->). exists vs, d'.
    split; [ exact Hl | split; [ reflexivity | split; [ f_equal; lia | reflexivity ] ] ].
Qed.

(** [Bus::reset] stops a transfer and restarts the tick counter, and
    leaves [dma_dummy] as it finds it. *)
Lemma reset_engine (s : System) :
  let b := Sys.bus (exec BusClock.reset s) in
  BusState.dma_transfer b = false
  /\ BusState.system_clock_counter b = 0
  /\ BusState.dma_dummy b = BusState.dma_dummy (Sys.bus s).
Proof.
  cbv zeta. unfold BusClock.reset. rewrite !exec_bind.
  unfold BusClock.modb. rewrite !exec_modify.
  cbn [Sys.bus Sys.set_bus Sys.set_ppu Sys.set_apu BusState.dma_transfer
       BusState.set_dma_transfer BusState.system_clock_counter
       BusState.set_system_clock_counter BusState.dma_dummy].
  split; [ reflexivity | split; [ reflexivity | ] ].
  apply (CPUPreserves.pres_reset
           (fun x : System => BusState.dma_dummy (Sys.bus x) = BusState.dma_dummy (Sys.bus s))).
  - intros x c H. exact H.
  - intros a x H. cbv beta in *.
    destruct (cpu_read_frame a x) as (_ & Hv & _). cbn zeta in Hv.
    unfold dma_view in Hv. injection Hv as _ _ _ _ Hd _. congruence.
  - reflexivity.
Qed.

Lemma dma_copy_slots (page i : Z) (vs : list Z) : ~ In CpuClock (dma_copy page i vs).
Proof.
  revert i. induction vs as [|v vs IH]; intros i; cbn; [ tauto | ].
  intros [H | [H | H]]; try discriminate. exact (IH _ H).
Qed.

Lemma slot_events_keep (evs : list Event) :
  In CpuClock evs -> In CpuClock (slot_events evs).
Proof. intros H. apply List.filter_In. split; [ exact H | reflexivity ]. Qed.

(** The store to [$4014] arms the engine. *)
Lemma cpu_write_oamdma (page : Z) (s : System) :
  let s' := exec (Bus.cpu_write 0x4014 page) s in
  dma_view (Sys.bus s') =
    (true, page, 0, BusState.dma_data (Sys.bus s), BusState.dma_dummy (Sys.bus s),
     BusState.system_clock_counter (Sys.bus s))
  /\ Sys.cpu s' = Sys.cpu s.
Proof.
  unfold exec, Bus.cpu_write. rewrite cart_cpu_write_low by lia.
  split; reflexivity.
Qed.

(** With the engine at rest, the CPU has the slot. *)
Lemma cpu_resumes (s : System) :
  BusState.dma_transfer (Sys.bus s) = false ->
  BusState.system_clock_counter (Sys.bus s) mod 3 = 0 ->
  In CpuClock (eval BusClock.clock s).
Proof.
  intros Ht Hc. unfold BusClock.clock.
  rewrite !eval_bind, eval_ret. apply in_or_app. left.
  pose proof (ppu_clock_frame s) as (_ & _ & Pb). cbn zeta in Pb.
  generalize dependent (exec BusClock.ppu_clock s). intros s1 Pb.
  unfold BusClock.cpu_slot, BusClock.getb.
  rewrite eval_bind, eval_gets, exec_gets, Pb, Hc. cbn [Z.eqb].
  rewrite eval_bind, eval_gets, exec_gets, Pb, Ht.
  rewrite !eval_bind, eval_ret. left. reflexivity.
Qed.

Lemma store_cycle_parity (c : Z) : c mod 3 = 0 -> Z.odd (c / 3 - 1) = Z.even c.
Proof.
  intros H. rewrite <- Z.negb_even.
  destruct (Z.even c) eqn:Ec, (Z.even (c / 3 - 1)) eqn:Eq; try reflexivity; exfalso.
  - apply Z.even_spec in Ec, Eq. destruct Ec as [x Hx], Eq as [y Hy].
    Z.div_mod_to_equations. lia.
  - apply (f_equal negb) in Ec, Eq. rewrite Z.negb_even in Ec, Eq. cbn in Ec, Eq.
    apply Z.odd_spec in Ec, Eq. destruct Ec as [x Hx], Eq as [y Hy].
    Z.div_mod_to_equations. lia.
Qed.

End WithMapper.
End DmaFacts.
(** ** The noise channel *)

Module NoiseFacts.

Lemma land_1 (x : Z) : Z.land x 1 = b2z (Z.testbit x 0).
Proof. change 1 with (2 ^ 0) at 1. rewrite land_pow2 by lia. destruct (Z.testbit x 0); reflexivity. Qed.

Lemma shiftr_land_1 (x k : Z) : 0 <= k -> Z.land (Z.shiftr x k) 1 = b2z (Z.testbit x k).
Proof. intros H. rewrite land_1, Z.shiftr_spec by lia. rewrite Z.add_0_l. reflexivity. Qed.

(** One step, in arithmetic: the register halved, plus the feedback at
    bit 14. *)
Lemma lfsr_step_value (mode : bool) (x : Z) :
  0 <= x < 65536 ->
  Noise.lfsr_step mode x = Z.lor (x / 2) (b2z (lfsr_feedback mode x) * 16384)
  /\ Z.lor (x / 2) (b2z (lfsr_feedback mode x) * 16384) <= x / 2 + 16384.
Proof.
  intros Hx. unfold Noise.lfsr_step, lfsr_feedback.
  rewrite land_1.
  assert (Ef : forall k, 0 <= k ->
    u16 (Z.lxor (u16 (b2z (Z.testbit x 0))) (Z.land (Z.shiftr x k) 1))
    = b2z (xorb (Z.testbit x 0) (Z.testbit x k))).
  { intros k Hk. rewrite shiftr_land_1 by exact Hk.
    destruct (Z.testbit x 0), (Z.testbit x k); reflexivity. }
  assert (Eh : u16 (Z.shiftr x 1) = x / 2).
  { rewrite Z.shiftr_div_pow2 by lia. change (2 ^ 1) with 2.
    apply u16_id. Z.div_mod_to_equations. lia. }
  assert (Hb : forall f : bool,
    Z.lor (x / 2) (b2z f * 16384) <= x / 2 + 16384
    /\ u16 (Z.lor (x / 2) (Z.shiftl (b2z f) 14)) = Z.lor (x / 2) (b2z f * 16384)).
  { intros f. rewrite Z.shiftl_mul_pow2 by lia. change (2 ^ 14) with 16384.
    pose proof (Z.add_lor_land (x / 2) (b2z f * 16384)) as E.
    assert (0 <= Z.land (x / 2) (b2z f * 16384)).
    { apply Z.land_nonneg. left. Z.div_mod_to_equations. lia. }
    assert (0 <= Z.lor (x / 2) (b2z f * 16384)).
    { apply Z.lor_nonneg. split; [ Z.div_mod_to_equations; lia | destruct f; cbn; lia ]. }
    assert (b2z f * 16384 <= 16384) by (destruct f; cbn; lia).
    split; [ lia | ].
    apply u16_id. Z.div_mod_to_equations. lia. }
  rewrite Eh. destruct mode; rewrite Ef by lia;
    match goal with |- context [b2z ?f * 16384] => destruct (Hb f) as [H1 H2] end;
    rewrite H2; split; (reflexivity || exact H1).
Qed.

(** A non-zero 16-bit register stays non-zero. *)
Lemma lfsr_step_nonzero (mode : bool) (x : Z) :
  0 < x < 65536 -> Noise.lfsr_step mode x <> 0.
Proof.
  intros Hx. destruct (lfsr_step_value mode x ltac:(lia)) as [-> _].
  intros E. apply Z.lor_eq_0_iff in E. destruct E as [E1 E2].
  assert (Hx1 : x = 1) by (Z.div_mod_to_equations; lia).
  subst x. destruct mode; discriminate E2.
Qed.

(** A non-zero 15-bit register stays a non-zero 15-bit register. *)
Lemma lfsr_step_range (mode : bool) (x : Z) :
  0 < x < 32768 -> 0 < Noise.lfsr_step mode x < 32768.
Proof.
  intros Hx. pose proof (lfsr_step_nonzero mode x ltac:(lia)) as Hn.
  destruct (lfsr_step_value mode x ltac:(lia)) as [E Hle]. rewrite E in *.
  assert (0 <= Z.lor (x / 2) (b2z (lfsr_feedback mode x) * 16384)).
  { apply Z.lor_nonneg. split; [ Z.div_mod_to_equations; lia | ].
    destruct (lfsr_feedback mode x); cbn; lia. }
  split; [ lia | ]. Z.div_mod_to_equations. lia.
Qed.

(** Bit by bit: every bit moves one place down and the feedback enters
    at bit 14. *)
Lemma lfsr_step_bits (mode : bool) (x i : Z) :
  0 <= x < 32768 -> 0 <= i ->
  Z.testbit (Noise.lfsr_step mode x) i =
  if i =? 14 then lfsr_feedback mode x else Z.testbit x (i + 1).
Proof.
  intros Hx Hi. destruct (lfsr_step_value mode x ltac:(lia)) as [-> _].
  rewrite Z.lor_spec.
  change 2 with (2 ^ 1) at 1. rewrite <- Z.shiftr_div_pow2, Z.shiftr_spec by lia.
  change 16384 with (2 ^ 14). rewrite <- Z.shiftl_mul_pow2, Z.shiftl_spec by lia.
  destruct (Z.eqb_spec i 14) as [->|Hne].
  - change (14 + 1) with 15. change (14 - 14) with 0.
    replace (Z.testbit x 15) with false.
    + cbn [orb]. destruct (lfsr_feedback mode x); reflexivity.
    + symmetry. apply (proj1 (Z.bounded_iff_bits_nonneg 15 x ltac:(lia) ltac:(lia)));
        [ change (2 ^ 15) with 32768; lia | lia ].
  - replace (Z.testbit (b2z (lfsr_feedback mode x)) (i - 14)) with false;
      [ apply orb_false_r | ].
    symmetry. destruct (Z.ltb_spec i 14).
    + apply Z.testbit_neg_r. lia.
    + destruct (lfsr_feedback mode x); cbn [b2z]; [ | apply Z.bits_0 ].
      apply (proj1 (Z.bounded_iff_bits_nonneg 1 1 ltac:(lia) ltac:(lia)));
        [ cbn; lia | lia ].
Qed.

(** The other noise operations leave the register alone. *)
Lemma clock_timer_register (p : Noise.t) :
  Noise.shift_register (Noise.clock_timer p) =
  if Noise.timer_counter p =? 0
  then Noise.lfsr_step (Noise.mode p) (Noise.shift_register p)
  else Noise.shift_register p.
Proof.
  unfold Noise.clock_timer.
  destruct (Noise.timer_counter p =? 0); cbn;
    match goal with |- context [if ?c then _ else _] => destruct c end; reflexivity.
Qed.

Lemma clock_envelope_register (p : Noise.t) :
  Noise.shift_register (Noise.clock_envelope p) = Noise.shift_register p.
Proof.
  unfold Noise.clock_envelope.
  repeat match goal with
  | |- context [if ?c then _ else _] => destruct c; cbn
  end; reflexivity.
Qed.

Lemma clock_length_register (p : Noise.t) :
  Noise.shift_register (Noise.clock_length p) = Noise.shift_register p.
Proof. unfold Noise.clock_length. destruct (_ && _); reflexivity. Qed.

End NoiseFacts.
(** ** Invariants of the whole machine *)

Module MachinePreserves.
Section WithInvariant.
Context {M : Type} {MP : Mapper M}.
Local Abbreviation System := (Sys.t M).
Variable I : System -> Prop.
Hypothesis I_cpu : forall s c, I s -> I (Sys.set_cpu c s).
Hypothesis I_ppu : forall s p, I s -> I (Sys.set_ppu p s).
Hypothesis I_bus : forall s b, I s -> I (Sys.set_bus b s).
Hypothesis I_dmc :
  forall s d, I s -> I (Sys.set_apu (APU.set_dmc d (Sys.apu s)) s).
Hypothesis I_channels :
  forall s, I s -> I (Sys.set_apu (APU.clock_channels (Sys.apu s)) s).
Hypothesis I_cycles :
  forall s v, I s -> I (Sys.set_apu (APU.set_cycles v (Sys.apu s)) s).
Hypothesis I_read : forall a, preserves I (Bus.cpu_read a).
Hypothesis I_write : forall a d, preserves I (Bus.cpu_write a d).
Hypothesis I_ppu_clock : preserves I BusClock.ppu_clock.
Hypothesis I_oam : forall d, preserves I (BusClock.oam_port_write d).
Hypothesis I_irq_clear :
  forall s, I s ->
    I (Sys.set_cartridge (option_map Cartridge.irq_clear (Sys.cartridge s)) s).

Lemma pres_getb {A : Type} (f : BusState.t -> A) : preserves I (BusClock.getb f).
Proof. apply preserves_gets. Qed.

Lemma pres_modb (f : BusState.t -> BusState.t) : preserves I (BusClock.modb f).
Proof. apply preserves_modify. intros s H. apply I_bus, H. Qed.

Local Hint Resolve I_ppu_clock I_oam pres_getb pres_modb : pres.

Lemma pres_dma_slot : preserves I BusClock.dma_slot.
Proof. unfold BusClock.dma_slot. pres_auto. Qed.

Lemma pres_cpu_slot : preserves I BusClock.cpu_slot.
Proof.
  unfold BusClock.cpu_slot.
  pose proof pres_dma_slot.
  pose proof (CPUPreserves.pres_cpu_clock I I_cpu I_read I_write).
  pose proof (APUPreserves.pres_apu_clock I I_dmc I_channels I_cycles I_read).
  pres_auto; assumption.
Qed.

Lemma pres_route_nmi : preserves I BusClock.route_nmi.
Proof.
  unfold BusClock.route_nmi.
  pose proof (CPUPreserves.pres_nmi I I_cpu I_read I_write).
  repeat first [ pres_step | assumption
               | apply preserves_modify; intros s Hs; apply I_ppu, Hs ].
Qed.

Lemma pres_route_irq : preserves I BusClock.route_irq.
Proof.
  unfold BusClock.route_irq.
  pose proof (CPUPreserves.pres_irq I I_cpu I_read I_write).
  repeat first [ pres_step | assumption
               | apply preserves_modify; intros s Hs;
                 apply (I_irq_clear s) in Hs; destruct (Sys.cartridge s); exact Hs ].
Qed.

Local Hint Resolve pres_cpu_slot pres_route_nmi pres_route_irq : pres.

(** One tick of the machine keeps [I]. *)
Lemma pres_tick : preserves I BusClock.clock.
Proof. unfold BusClock.clock. pres_auto. Qed.

End WithInvariant.
End MachinePreserves.
(** ** The noise register in the machine *)

Module NoiseInvariant.
Import NoiseFacts.

Lemma reset_lfsr (a : APU.t) : lfsr (APU.reset a) = 1.
Proof. reflexivity. Qed.

Lemma quarter_frame_lfsr (a : APU.t) : lfsr (APU.clock_quarter_frame a) = lfsr a.
Proof. unfold lfsr, APU.clock_quarter_frame. cbn. apply clock_envelope_register. Qed.

Lemma half_frame_lfsr (a : APU.t) : lfsr (APU.clock_half_frame a) = lfsr a.
Proof. unfold lfsr, APU.clock_half_frame. cbn. apply clock_length_register. Qed.

(** One [let] of a chain of APU updates, each keeping the register. *)
Ltac lfsr_let a0 :=
  lazymatch goal with
  | |- lfsr (let x := ?e in @?b x) = lfsr a0 =>
      let y := fresh "a" in
      let E := fresh "E" in
      assert (E : lfsr e = lfsr a0);
      [ | set (y := e) in *; clearbody y; change (lfsr (b y) = lfsr a0); cbv beta ]
  end.

Lemma lfsr_if (c : bool) (a1 a2 a0 : APU.t) :
  lfsr a1 = lfsr a0 -> lfsr a2 = lfsr a0 -> lfsr (if c then a1 else a2) = lfsr a0.
Proof. destruct c; auto. Qed.

Lemma cpu_write_lfsr (addr data : Z) (a : APU.t) : lfsr (APU.cpu_write addr data a) = lfsr a.
Proof.
  cbv beta delta [APU.cpu_write].
  do 12 (match goal with |- lfsr (if ?c then _ else _) = _ => destruct c end;
         [ reflexivity | ]).
  match goal with |- lfsr (if ?c then _ else _) = _ => destruct c end;
    [ | match goal with |- lfsr (if ?c then _ else _) = _ => destruct c end;
        [ | reflexivity ] ].
  - (* $4015 *)
    lfsr_let a; [ reflexivity | ].
    lfsr_let a; [ rewrite <- E; reflexivity | ].
    lfsr_let a; [ rewrite <- E0; reflexivity | ].
    lfsr_let a; [ rewrite <- E1; reflexivity | ].
    lfsr_let a; [ rewrite <- E2; reflexivity | ].
    lfsr_let a; [ apply lfsr_if; [ rewrite <- E3; reflexivity | exact E3 ] | ].
    lfsr_let a; [ apply lfsr_if; [ rewrite <- E4; reflexivity | exact E4 ] | ].
    lfsr_let a; [ apply lfsr_if; [ rewrite <- E5; reflexivity | exact E5 ] | ].
    lfsr_let a; [ apply lfsr_if; [ rewrite <- E6; reflexivity | exact E6 ] | ].
    apply lfsr_if; [ rewrite <- E7; reflexivity | ].
    apply lfsr_if; [ rewrite <- E7; reflexivity | exact E7 ].
  - (* $4017 *)
    cbv zeta. apply lfsr_if; [ | reflexivity ].
    rewrite half_frame_lfsr, quarter_frame_lfsr. reflexivity.
Qed.

(** One APU cycle steps the register at most once. *)
Lemma clock_channels_lfsr (a : APU.t) :
  lfsr (APU.clock_channels a) = lfsr a
  \/ exists mode, lfsr (APU.clock_channels a) = Noise.lfsr_step mode (lfsr a).
Proof.
  unfold APU.clock_channels. cbv zeta.
  match goal with |- lfsr (APU.set_noise (Noise.clock_timer (APU.noise ?x)) _) = _ \/ _ =>
    assert (E : lfsr x = lfsr a); [ | set (a' := x) in *; clearbody a' ] end.
  { repeat first [ apply lfsr_if
                 | rewrite quarter_frame_lfsr | rewrite half_frame_lfsr
                 | reflexivity ]. }
  unfold lfsr at 1 3. cbn [APU.noise APU.set_noise].
  rewrite clock_timer_register. fold (lfsr a'). rewrite E.
  destruct (Noise.timer_counter (APU.noise a') =? 0); [ right; eauto | left; reflexivity ].
Qed.

Lemma clock_channels_ok (a : APU.t) : lfsr_ok a -> lfsr_ok (APU.clock_channels a).
Proof.
  unfold lfsr_ok. intros H.
  destruct (clock_channels_lfsr a) as [-> | [mode ->]];
    [ exact H | apply lfsr_step_range, H ].
Qed.

Section WithMapper.
Context {M : Type} {MP : Mapper M}.
Local Abbreviation System := (Sys.t M).

Lemma cpu_read_apu (a : Z) (s : System) : Sys.apu (exec (Bus.cpu_read a) s) = Sys.apu s.
Proof.
  unfold exec, Bus.cpu_read.
  pose proof (BusFacts.cart_cpu_read_frame a s) as F.
  destruct (Bus.cart_cpu_read a s) as [r s1]. cbn in F.
  destruct F as (_ & _ & Fa & _).
  destruct r as [d|]; [ exact Fa | ].
  destruct ((0x0000 <=? a) && (a <=? 0x1FFF)); [ exact Fa | ].
  destruct ((0x2000 <=? a) && (a <=? 0x3FFF)).
  { destruct (PPU.cpu_read _ _ _) as [d [p c]]. exact Fa. }
  destruct ((0x4000 <=? a) && (a <=? 0x4015)).
  { unfold APU.cpu_read. destruct (a =? 0x4015); exact Fa. }
  destruct (a =? 0x4016); [ exact Fa | ].
  destruct (a =? 0x4017); exact Fa.
Qed.

Lemma cpu_write_lfsr_sys (a d : Z) (s : System) :
  lfsr (Sys.apu (exec (Bus.cpu_write a d) s)) = lfsr (Sys.apu s).
Proof.
  unfold exec, Bus.cpu_write.
  pose proof (BusFacts.cart_cpu_write_frame a d s) as F.
  destruct (Bus.cart_cpu_write a d s) as [h s1]. cbn in F.
  destruct F as (_ & _ & Fa & _).
  destruct h; [ cbn; rewrite Fa; reflexivity | ].
  destruct ((0x0000 <=? a) && (a <=? 0x1FFF)); [ cbn; rewrite Fa; reflexivity | ].
  destruct ((0x2000 <=? a) && (a <=? 0x3FFF)).
  { destruct (PPU.cpu_write _ _ _ _) as [p c]. cbn. rewrite Fa. reflexivity. }
  destruct (((0x4000 <=? a) && (a <=? 0x4013)) || (a =? 0x4015) || (a =? 0x4017)).
  { cbn. rewrite cpu_write_lfsr, Fa. reflexivity. }
  destruct (a =? 0x4014); [ cbn; rewrite Fa; reflexivity | ].
  destruct (a =? 0x4016); cbn; rewrite Fa; reflexivity.
Qed.

Lemma sys_ok_read (a : Z) : preserves sys_ok (Bus.cpu_read a).
Proof. intros s H. unfold sys_ok. rewrite cpu_read_apu. exact H. Qed.

Lemma sys_ok_write (a d : Z) : preserves sys_ok (Bus.cpu_write a d).
Proof. intros s H. unfold sys_ok, lfsr_ok. rewrite cpu_write_lfsr_sys. exact H. Qed.

Lemma sys_ok_tick : preserves sys_ok BusClock.clock.
Proof.
  refine (MachinePreserves.pres_tick sys_ok _ _ _ _ _ _ sys_ok_read sys_ok_write _ _ _);
    try (intros; assumption).
  - intros s H. apply clock_channels_ok, H.
  - intros s H. unfold sys_ok.
    destruct (TickFacts.ppu_clock_frame s) as (_ & -> & _). exact H.
  - intros d s H. unfold sys_ok.
    destruct (TickFacts.oam_port_write_frame d s) as (_ & -> & _). exact H.
Qed.

Lemma sys_ok_reset (s : System) : sys_ok (exec BusClock.reset s).
Proof.
  unfold BusClock.reset, BusClock.modb.
  rewrite !exec_bind, !exec_modify. cbn [Sys.apu Sys.set_bus Sys.set_apu].
  unfold sys_ok, lfsr_ok. cbn [Sys.apu Sys.set_bus Sys.set_apu].
  rewrite reset_lfsr. lia.
Qed.

Lemma sys_ok_power_on : sys_ok BusClock.power_on.
Proof.
  unfold BusClock.power_on. cbv zeta.
  refine (CPUPreserves.pres_reset sys_ok _ sys_ok_read _ _).
  - intros s c H. exact H.
  - unfold sys_ok, lfsr_ok. cbn. lia.
Qed.

End WithMapper.
End NoiseInvariant.
(** ** The MMC3 IRQ line through a tick *)

Module IrqFacts.
Import Mapper004Facts TickFacts.
Local Abbreviation System := (Sys.t Mapper004.t).
Local Abbreviation Cart := (option (Cartridge.t Mapper004.t)).

Lemma pulses_succ (k : nat) (m : Mapper004.t) :
  Mapper004.pulses (S k) m = Mapper004.scanline (Mapper004.pulses k m).
Proof. reflexivity. Qed.

Lemma pulses_shift (k : nat) (m : Mapper004.t) :
  Mapper004.pulses (S k) m = Mapper004.pulses k (Mapper004.scanline m).
Proof.
  induction k as [|k IH]; [ reflexivity | ].
  rewrite (pulses_succ (S k)), IH. reflexivity.
Qed.

(** The line after a pulse: up if it was up, or if the counter has
    arrived at 0 with the IRQ enabled. *)
Lemma scanline_active (m : Mapper004.t) :
  Mapper004.irq_active (Mapper004.scanline m) =
  Mapper004.irq_active m
  || ((Mapper004.irq_counter (Mapper004.scanline m) =? 0) && Mapper004.irq_enable m).
Proof.
  unfold Mapper004.scanline. cbv zeta.
  set (m1 := if Mapper004.irq_reload m || (Mapper004.irq_counter m =? 0)
             then _ else _).
  assert (Ee : Mapper004.irq_enable m1 = Mapper004.irq_enable m)
    by (unfold m1; destruct (_ || _); reflexivity).
  assert (Ea : Mapper004.irq_active m1 = Mapper004.irq_active m)
    by (unfold m1; destruct (_ || _); reflexivity).
  clearbody m1. rewrite Ee.
  destruct (Mapper004.irq_counter m1 =? 0) eqn:Ec, (Mapper004.irq_enable m);
    cbn; rewrite Ec, ?Ea, ?orb_true_r, ?orb_false_r; reflexivity.
Qed.

(** A PPU pattern fetch leaves the mapper as it is. *)
Lemma cartridge_ppu_read_irq (a : Z) (c : Cartridge.t Mapper004.t) :
  Cartridge.irq_state (snd (Cartridge.ppu_read a c)) = Cartridge.irq_state c.
Proof.
  unfold Cartridge.ppu_read, Cartridge.irq_state.
  destruct (Cartridge.mapper c) as [m|] eqn:Em; [ | cbn; rewrite Em; reflexivity ].
  destruct (negb _); [ | cbn; rewrite Em; reflexivity ].
  cbn [m_ppu_read Mapper004_Mapper]. unfold Mapper004.ppu_read.
  destruct (_ && _); reflexivity.
Qed.

Lemma ppu_read_irq (a : Z) (p : PPU.t) (cart : Cart) :
  irq_line_of (snd (PPU.ppu_read a p cart)) = irq_line_of cart.
Proof.
  unfold PPU.ppu_read. cbv zeta.
  destruct (_ && _).
  { destruct cart as [c|]; [ | reflexivity ].
    pose proof (cartridge_ppu_read_irq (Z.land a 0x3FFF) c) as H.
    destruct (Cartridge.ppu_read _ c) as [r c']. exact H. }
  destruct (_ && _); [ reflexivity | ].
  destruct (_ && _); reflexivity.
Qed.

Lemma ppu_cpu_read_irq (a : Z) (p : PPU.t) (cart : Cart) :
  irq_line_of (snd (snd (PPU.cpu_read a p cart))) = irq_line_of cart.
Proof.
  unfold PPU.cpu_read. cbv zeta.
  destruct (_ =? 2); [ reflexivity | ].
  destruct (_ =? 4); [ reflexivity | ].
  destruct (_ =? 7); [ | reflexivity ].
  pose proof (ppu_read_irq (PPU.vram_addr p) p cart) as H.
  destruct (PPU.ppu_read _ p cart) as [b c']. exact H.
Qed.

Lemma cpu_read_irq (a : Z) (s : System) :
  irq_line (exec (Bus.cpu_read a) s) = irq_line s.
Proof.
  unfold exec, Bus.cpu_read.
  pose proof (BusFacts.cart_cpu_read_state a s) as E.
  destruct (Bus.cart_cpu_read a s) as [r s1]. cbn in E. subst s1.
  destruct r as [d|]; [ reflexivity | ].
  destruct (_ && _); [ reflexivity | ].
  destruct (_ && _).
  { pose proof (ppu_cpu_read_irq (Z.land a 7) (Sys.ppu s) (Sys.cartridge s)) as H.
    destruct (PPU.cpu_read _ _ _) as [d [p c]]. exact H. }
  destruct (_ && _); [ destruct (APU.cpu_read _ _); reflexivity | ].
  destruct (_ =? _); [ reflexivity | ].
  destruct (_ =? _); reflexivity.
Qed.

(** A PPU cycle, with its fetches and its scanline pulse, keeps a raised
    line up. *)
Lemma ppu_clock_irq (s : System) :
  irq_line s = true -> irq_line (exec BusClock.ppu_clock s) = true.
Proof.
  intros H. unfold exec, BusClock.ppu_clock.
  assert (Pf : forall a, preserves (fun x : PPU.t * Cart => irq_line_of (snd x) = true)
                           (PPU.fetch_byte a)).
  { intros a [p c] Hx. unfold exec, PPU.fetch_byte. cbn [fst snd] in *.
    pose proof (ppu_read_irq a p c) as E.
    destruct (PPU.ppu_read a p c) as [d c']. cbn [fst snd] in *. congruence. }
  assert (Pp : preserves (fun x : PPU.t * Cart => irq_line_of (snd x) = true)
                 PPU.pulse_scanline).
  { intros [p c] Hx. unfold PPU.pulse_scanline. rewrite exec_modify. cbn [fst snd] in *.
    destruct c as [c|]; [ | discriminate ].
    unfold irq_line_of, Cartridge.irq_state, Cartridge.scanline in *.
    destruct (Cartridge.mapper c) as [m|] eqn:Em; [ | discriminate ].
    cbn. apply scanline_keeps_active. exact Hx. }
  pose proof (PPUPreserves.pres_ppu_clock
                (fun x : PPU.t * Cart => irq_line_of (snd x) = true)
                (fun _ _ => True)) as P.
  specialize (P ltac:(intros; exact Logic.I) ltac:(intros; exact Logic.I)
                ltac:(intros; exact Logic.I) ltac:(intros; exact Logic.I)
                ltac:(intros; exact Logic.I) ltac:(intros; exact Logic.I)
                ltac:(intros x p _ Hx; exact Hx) Pf Pp
                (Sys.ppu s, Sys.cartridge s) H).
  unfold exec in P.
  destruct (PPU.clock _) as [u [p c]]. exact P.
Qed.

Lemma apu_clock_irq (s : System) :
  irq_line s = true -> irq_line (exec APUClock.clock s) = true.
Proof.
  apply (APUPreserves.pres_apu_clock (fun x => irq_line x = true));
    try (intros; assumption).
  intros a x H. rewrite cpu_read_irq. exact H.
Qed.

Lemma oam_port_write_cart (d : Z) (s : System) :
  Sys.cartridge (exec (BusClock.oam_port_write d) s) = Sys.cartridge s.
Proof. reflexivity. Qed.

Lemma dma_slot_irq (s : System) :
  irq_line s = true -> irq_line (exec BusClock.dma_slot s) = true.
Proof.
  apply (MachinePreserves.pres_dma_slot (fun x => irq_line x = true)).
  - intros x b H. exact H.
  - intros a x H. rewrite cpu_read_irq. exact H.
  - intros d x H. rewrite <- H. apply (f_equal irq_line_of), oam_port_write_cart.
Qed.

(** A CPU cycle spent on an instruction already executed. *)
Lemma cpu_clock_busy (s : System) :
  CPUState.cycles_remaining (Sys.cpu s) <> 0 ->
  exec CPU.clock s =
  Sys.set_cpu
    (CPUState.set_total_cycles (u64 (CPUState.total_cycles (Sys.cpu s) + 1))
       (CPUState.set_cycles_remaining
          (u8 (CPUState.cycles_remaining (Sys.cpu s) - 1)) (Sys.cpu s))) s.
Proof.
  intros H. unfold CPU.clock.
  rewrite exec_bind.
  change (eval (CPU.getc CPUState.cycles_remaining) s)
    with (CPUState.cycles_remaining (Sys.cpu s)).
  change (exec (CPU.getc CPUState.cycles_remaining) s) with s.
  destruct (Z.eqb_spec (CPUState.cycles_remaining (Sys.cpu s)) 0) as [E|_];
    [ contradiction | ].
  reflexivity.
Qed.

(** The CPU slot of a tick that runs no instruction. *)
Lemma cpu_slot_irq (s : System) :
  no_instruction s -> irq_line s = true -> sp_ok s ->
  irq_line (exec BusClock.cpu_slot s) = true /\ sp_ok (exec BusClock.cpu_slot s).
Proof.
  intros Hn Hi Hsp. unfold BusClock.cpu_slot.
  rewrite exec_bind.
  change (eval (BusClock.getb BusState.system_clock_counter) s)
    with (BusState.system_clock_counter (Sys.bus s)).
  change (exec (BusClock.getb BusState.system_clock_counter) s) with s.
  destruct (Z.eqb_spec (BusState.system_clock_counter (Sys.bus s) mod 3) 0) as [E|E];
    [ | split; assumption ].
  rewrite exec_bind.
  change (eval (BusClock.getb BusState.dma_transfer) s)
    with (BusState.dma_transfer (Sys.bus s)).
  change (exec (BusClock.getb BusState.dma_transfer) s) with s.
  rewrite !exec_bind, exec_ret.
  destruct (BusState.dma_transfer (Sys.bus s)) eqn:Et.
  - destruct (dma_slot_spec s) as (r & _ & _ & Hc).
    pose proof (apu_clock_frame (exec BusClock.dma_slot s)) as [Fc _]. cbn zeta in Fc.
    split; [ apply apu_clock_irq, dma_slot_irq, Hi | ].
    unfold sp_ok. rewrite Fc, Hc. exact Hsp.
  - destruct Hn as [Hn | [Hn | Hn]]; [ contradiction | congruence | ].
    rewrite exec_bind, exec_ret, (cpu_clock_busy s Hn).
    match goal with |- context [exec APUClock.clock ?x] =>
      pose proof (apu_clock_frame x) as [Fc _]; cbn zeta in Fc;
      split; [ apply apu_clock_irq; exact Hi | unfold sp_ok; rewrite Fc; exact Hsp ]
    end.
Qed.

Lemma irq_clear_line (cart : Cart) :
  irq_line_of (option_map Cartridge.irq_clear cart) = false.
Proof.
  destruct cart as [c|]; [ | reflexivity ].
  unfold irq_line_of, Cartridge.irq_state, Cartridge.irq_clear. cbn.
  destruct (Cartridge.mapper c) as [m|] eqn:Em; cbn; [ reflexivity | ].
  rewrite Em. reflexivity.
Qed.

(** When the line is up after the PPU cycle of a tick and no instruction
    is in the way, the tick calls [cpu.irq()] and takes the line down. *)
Lemma tick_irq_after_dot (s : System) :
  sp_ok s -> no_instruction s -> irq_line (exec BusClock.ppu_clock s) = true ->
  In IrqEntry (eval BusClock.clock s) /\ irq_line (exec BusClock.clock s) = false.
Proof.
  intros Hsp Hn Hi1. unfold BusClock.clock.
  rewrite !eval_bind, !exec_bind, eval_ret, exec_ret.
  pose proof (ppu_clock_frame s) as (Pc & _ & Pb). cbn zeta in Pc, Pb.
  generalize dependent (exec BusClock.ppu_clock s). intros s1 Hi1 Pc Pb.
  assert (Hsp1 : sp_ok s1) by (unfold sp_ok; rewrite Pc; exact Hsp).
  assert (Hn1 : no_instruction s1) by (unfold no_instruction; rewrite Pc, Pb; exact Hn).
  destruct (cpu_slot_irq s1 Hn1 Hi1 Hsp1) as [Hi2 Hsp2].
  generalize dependent (exec BusClock.cpu_slot s1). intros s2 Hi2 Hsp2.
  pose proof (route_nmi_spec s2 Hsp2) as (Hsp3 & _ & Nc & _). cbn zeta in Hsp3, Nc.
  assert (Hi3 : irq_line (exec BusClock.route_nmi s2) = true)
    by (unfold irq_line; rewrite Nc; exact Hi2).
  generalize dependent (exec BusClock.route_nmi s2). intros s3 Hsp3 _ Hi3.
  pose proof (route_irq_spec s3 Hsp3) as (_ & _ & Ie & Ic). cbn zeta in Ie, Ic.
  fold (irq_line_of (Sys.cartridge s3)) in Ie, Ic. fold (irq_line s3) in Ie, Ic.
  rewrite Hi3 in Ie, Ic. rewrite Ie.
  split.
  - apply in_or_app. right. apply in_or_app. right. left. reflexivity.
  - unfold BusClock.modb. rewrite exec_modify. unfold irq_line.
    cbn [Sys.cartridge Sys.set_bus]. rewrite Ic. apply irq_clear_line.
Qed.

(** With the line up and no instruction in the way, the tick calls
    [cpu.irq()] and takes the line down. *)
Lemma tick_irq_entry (s : System) :
  sp_ok s -> irq_line s = true -> no_instruction s ->
  In IrqEntry (eval BusClock.clock s) /\ irq_line (exec BusClock.clock s) = false.
Proof.
  intros Hsp Hi Hn. apply tick_irq_after_dot; [ exact Hsp | exact Hn | ].
  apply ppu_clock_irq. exact Hi.
Qed.

(** Mapper register writes below [$E000] do not touch the line. *)
Lemma update_banks_active (m : Mapper004.t) :
  Mapper004.irq_active (Mapper004.update_banks m) = Mapper004.irq_active m.
Proof.
  unfold Mapper004.update_banks. cbv zeta.
  destruct (negb (Mapper004.chr_inversion m)); cbn;
    match goal with |- context [if ?c then _ else _] => destruct c end; reflexivity.
Qed.

Lemma mapper_write_active (a d : Z) (prg : list Z) (m : Mapper004.t) :
  a < 0xE000 ->
  Mapper004.irq_active (snd (Mapper004.cpu_write a d prg m)) = Mapper004.irq_active m.
Proof.
  intros Ha. unfold Mapper004.cpu_write.
  destruct (_ && _); [ reflexivity | ].
  destruct (_ && _).
  { destruct (nonzero _); cbn [snd]; rewrite update_banks_active; reflexivity. }
  destruct (_ && _); [ destruct (nonzero _); reflexivity | ].
  destruct (_ && _); [ destruct (nonzero _); reflexivity | ].
  replace (0xE000 <=? a) with false by (symmetry; apply Z.leb_gt; lia).
  reflexivity.
Qed.

Lemma cartridge_write_irq (a d : Z) (c : Cartridge.t Mapper004.t) :
  a < 0xE000 ->
  Cartridge.irq_state (snd (Cartridge.cpu_write a d c)) = Cartridge.irq_state c.
Proof.
  intros Ha. unfold Cartridge.cpu_write, Cartridge.irq_state.
  destruct (Cartridge.mapper c) as [m|] eqn:Em; [ | cbn; rewrite Em; reflexivity ].
  destruct (negb _); [ | cbn; rewrite Em; reflexivity ].
  pose proof (mapper_write_active a d (Cartridge.prg_rom c) m Ha) as H.
  cbn [m_cpu_write Mapper004_Mapper].
  destruct (Mapper004.cpu_write a d (Cartridge.prg_rom c) m) as [r m']. exact H.
Qed.

Lemma cartridge_ppu_write_irq (a d : Z) (c : Cartridge.t Mapper004.t) :
  Cartridge.irq_state (snd (Cartridge.ppu_write a d c)) = Cartridge.irq_state c.
Proof.
  unfold Cartridge.ppu_write, Cartridge.irq_state.
  destruct (Cartridge.mapper c) as [m|] eqn:Em; [ | cbn; rewrite Em; reflexivity ].
  destruct (negb _); [ | cbn; rewrite Em; reflexivity ].
  cbn [m_ppu_write Mapper004_Mapper]. unfold Mapper004.ppu_write.
  destruct (_ && _); reflexivity.
Qed.

Lemma ppu_cpu_write_irq (a d : Z) (p : PPU.t) (cart : Cart) :
  irq_line_of (snd (PPU.cpu_write a d p cart)) = irq_line_of cart.
Proof.
  unfold PPU.cpu_write. cbv zeta.
  repeat match goal with
  | |- irq_line_of (snd (if ?c then _ else _)) = _ => destruct c; try reflexivity
  end.
  unfold PPU.ppu_write. cbv zeta.
  destruct (_ && _).
  { destruct cart as [c|]; [ | reflexivity ]. apply cartridge_ppu_write_irq. }
  destruct (_ && _); [ reflexivity | ].
  destruct (_ && _); reflexivity.
Qed.

Lemma cpu_write_irq (a d : Z) (s : System) :
  a < 0xE000 -> irq_line (exec (Bus.cpu_write a d) s) = irq_line s.
Proof.
  intros Ha. unfold exec, Bus.cpu_write.
  assert (E : irq_line (snd (Bus.cart_cpu_write a d s)) = irq_line s
              /\ Sys.ppu (snd (Bus.cart_cpu_write a d s)) = Sys.ppu s).
  { unfold Bus.cart_cpu_write. destruct (Sys.cartridge s) as [c|] eqn:Ec; [ | tauto ].
    pose proof (cartridge_write_irq a d c Ha) as H.
    destruct (Cartridge.cpu_write a d c) as [r c']. cbn [snd] in *.
    unfold irq_line. rewrite Ec. cbn. tauto. }
  destruct (Bus.cart_cpu_write a d s) as [h s1]. cbn [snd] in E. destruct E as [E _].
  destruct h; [ exact E | ].
  destruct (_ && _); [ exact E | ].
  destruct (_ && _).
  { pose proof (ppu_cpu_write_irq (Z.land a 7) d (Sys.ppu s1) (Sys.cartridge s1)) as H.
    destruct (PPU.cpu_write _ _ _ _) as [p c]. cbn [snd] in *.
    unfold irq_line in *. cbn. congruence. }
  destruct (_ || _); [ exact E | ].
  destruct (_ =? _); [ exact E | ].
  destruct (_ =? _); exact E.
Qed.

End IrqFacts.
(** * The specification's claims *)

Section CPUClaims.
Context {M : Type} {MP : Mapper M} {ML : MapperLaws M}.
Local Abbreviation System := (Sys.t M).


(** C2, as the code has it.  PHP then PLP on a usable stack page keeps
    C, Z, I, D, V and N and leaves U=1, but B is observed 1 afterwards,
    not 0: PLP loads the stacked byte, whose B bit PHP set, and only
    forces U (RTI clears B after its pull; PLP does not). *)
Theorem php_plp_flags (s : System) (f : CPU.Flags) :
  stack_ready s ->
  CPU.has_flag f (CPUState.P (Sys.cpu (exec php_plp s))) =
  match f with
  | CPU.FlagB | CPU.FlagU => true
  | _ => CPU.has_flag f (CPUState.P (Sys.cpu s))
  end.
Proof. intros Hs. apply CPUFacts.php_plp_flag. exact Hs. Qed.

(** C7.  ADC forms the 9-bit sum [A + M + C]; the accumulator gets its
    low byte, C its ninth bit, Z and N describe the low byte, and V is
    [((~(A^M)) & (A^sum)) & 0x80].  With A=$50, M=$50 and C=0 the result is
    A=$A0 with N=1, V=1, Z=0, C=0. *)
Theorem adc_overflow (s : System) :
  let a := CPUState.A (Sys.cpu s) in
  let m := eval CPU.fetch s in
  let p := CPUState.P (Sys.cpu s) in
  let sum := u16 (a + m + b2z (CPU.has_flag CPU.FlagC p)) in
  let s' := exec CPU.op_ADC s in
  let p' := CPUState.P (Sys.cpu s') in
  (CPUState.A (Sys.cpu s') = Z.land sum 0xFF
   /\ CPU.has_flag CPU.FlagC p' = (255 <? sum)
   /\ CPU.has_flag CPU.FlagZ p' = (Z.land sum 0x00FF =? 0)
   /\ CPU.has_flag CPU.FlagV p' =
        nonzero (Z.land (Z.land (Z.lnot (Z.lxor a m)) (Z.lxor a sum)) 0x0080)
   /\ CPU.has_flag CPU.FlagN p' = nonzero (Z.land sum 0x80))
  /\ (a = 0x50 -> m = 0x50 -> CPU.has_flag CPU.FlagC p = false ->
      CPUState.A (Sys.cpu s') = 0xA0
      /\ CPU.has_flag CPU.FlagN p' = true
      /\ CPU.has_flag CPU.FlagV p' = true
      /\ CPU.has_flag CPU.FlagZ p' = false
      /\ CPU.has_flag CPU.FlagC p' = false).
Proof.
  intros a m p sum s' p'.
  pose proof (CPUFacts.adc_result s) as H. cbv zeta in H.
  fold a m p sum s' p' in H.
  split; [ exact H | ].
  intros Ha Hm Hc. destruct H as (HA & HC & HZ & HV & HN).
  rewrite HA, HC, HZ, HV, HN. unfold sum. rewrite Ha, Hm, Hc.
  vm_compute. repeat split.
Qed.

End CPUClaims.




(** PHP ([$08], 3 cycles) then PLP ([$28]) through the interpreter: the
    status byte goes from [$24] to [$34], B set. *)
Example php_plp_through_clock :
  CPUState.P (Sys.cpu (cpu_cycles 4 (with_program [0x08; 0x28] 0 machine0))) = 0x34.
Proof. vm_compute. reflexivity. Qed.

Lemma php_plp_flags_witness :
  stack_ready machine0
  /\ CPU.has_flag CPU.FlagB
       (CPUState.P (Sys.cpu (exec php_plp machine0))) = true.
Proof.
  assert (H : stack_ready machine0).
  { split; [ vm_compute; split; [ discriminate | reflexivity ] | vm_compute; reflexivity ]. }
  split; [ exact H | ].
  exact (php_plp_flags machine0 CPU.FlagB H).
Defined.

(** [ADC #$50] ([$69 $50]) through the interpreter with A=$50, C=0: the
    accumulator becomes [$A0] and the status byte [$E4] (N, V set; Z, C
    clear). *)
Example adc_through_clock :
  let s := exec CPU.clock (with_program [0x69; 0x50] 0x50 machine0) in
  CPUState.A (Sys.cpu s) = 0xA0 /\ CPUState.P (Sys.cpu s) = 0xE4.
Proof. vm_compute. split; reflexivity. Qed.

Lemma adc_overflow_witness :
  CPUState.A (Sys.cpu machine_adc) = 0x50
  /\ eval CPU.fetch machine_adc = 0x50
  /\ CPU.has_flag CPU.FlagC (CPUState.P (Sys.cpu machine_adc)) = false
  /\ CPUState.A (Sys.cpu (exec CPU.op_ADC machine_adc)) = 0xA0.
Proof.
  assert (Ha : CPUState.A (Sys.cpu machine_adc) = 0x50) by (vm_compute; reflexivity).
  assert (Hm : eval CPU.fetch machine_adc = 0x50) by (vm_compute; reflexivity).
  assert (Hc : CPU.has_flag CPU.FlagC (CPUState.P (Sys.cpu machine_adc)) = false)
    by (vm_compute; reflexivity).
  split; [ exact Ha | split; [ exact Hm | split; [ exact Hc | ] ] ].
  exact (proj1 (proj2 (adc_overflow machine_adc) Ha Hm Hc)).
Defined.
(** ** Mapper 4 claims *)

(** C10.  For any mapper-4 state with at least one PRG bank, a PRG ROM of
    the declared size and an address in [$8000-$FFFF], the offset
    [cpu_read] forms is the selected bank reduced modulo [2 * prg_banks]
    (and kept in a byte) times [$2000] plus the low 13 address bits; it is
    below [prg_banks * 16384], so the access is inside the ROM and the
    read returns the byte stored there, leaving the mapper as it was. *)
Theorem prg_read_in_bounds (m : Mapper004.t) (addr : Z) (prg_rom : list Z) :
  1 <= Mapper004.prg_banks m ->
  0x8000 <= addr <= 0xFFFF ->
  Z.of_nat (length prg_rom) = Mapper004.prg_banks m * 16384 ->
  let bank := byte_at (Mapper004.prg_bank m) ((addr - 0x8000) / 0x2000) in
  let offset := Mapper004.prg_mapped_addr m addr in
  offset = u8 (bank mod (2 * Mapper004.prg_banks m)) * 0x2000 + Z.land addr 0x1FFF
  /\ (0 <= bank < 256 ->
      offset = (bank mod (2 * Mapper004.prg_banks m)) * 0x2000 + addr mod 0x2000)
  /\ 0 <= offset < Mapper004.prg_banks m * 16384
  /\ exists v, prg_rom !! Z.to_nat offset = Some v
               /\ Mapper004.cpu_read addr prg_rom m = (Some v, m).
Proof.
  intros Hb Ha Hlen bank offset.
  assert (Hidx : u8 ((addr - 0x8000) / 0x2000) = (addr - 0x8000) / 0x2000).
  { apply u8_id. split; [ apply Z.div_pos; lia | ].
    apply Z.div_lt_upper_bound; lia. }
  assert (Hoff : offset =
    u8 (bank mod (2 * Mapper004.prg_banks m)) * 0x2000 + Z.land addr 0x1FFF).
  { unfold offset, Mapper004.prg_mapped_addr. rewrite Hidx.
    fold bank. rewrite (Z.mul_comm (Mapper004.prg_banks m) 2). reflexivity. }
  pose proof (Mapper004Facts.prg_mapped_addr_bound m addr Hb) as Hbound.
  fold offset in Hbound.
  split; [ exact Hoff | split; [ | split; [ exact Hbound | ] ] ].
  - intros Hbyte. rewrite Hoff.
    change 0x1FFF with (Z.ones 13). rewrite Z.land_ones by lia.
    change (2 ^ 13) with 0x2000.
    rewrite u8_id; [ reflexivity | ].
    pose proof (Z.mod_pos_bound bank (2 * Mapper004.prg_banks m)) as Hm.
    pose proof (Z.mod_le bank (2 * Mapper004.prg_banks m)) as Hle.
    lia.
  - destruct (lookup_lt_is_Some_2 prg_rom (Z.to_nat offset)) as [v Hv]; [ lia | ].
    exists v. split; [ exact Hv | ].
    unfold Mapper004.cpu_read.
    replace ((0x6000 <=? addr) && (addr <=? 0x7FFF)) with false
      by (symmetry; apply andb_false_iff; right; apply Z.leb_gt; lia).
    replace ((0x8000 <=? addr) && (addr <=? 0xFFFF)) with true
      by (symmetry; apply andb_true_iff; split; apply Z.leb_le; lia).
    fold offset. unfold byte_at. rewrite Hv. reflexivity.
Qed.

Lemma prg_read_in_bounds_witness :
  1 <= Mapper004.prg_banks mmc3_32k
  /\ 0x8000 <= 0xFFFC <= 0xFFFF
  /\ Z.of_nat (length prg_rom_32k) = Mapper004.prg_banks mmc3_32k * 16384
  /\ 0 <= Mapper004.prg_mapped_addr mmc3_32k 0xFFFC
       < Mapper004.prg_banks mmc3_32k * 16384.
Proof.
  assert (H1 : 1 <= Mapper004.prg_banks mmc3_32k) by (vm_compute; discriminate).
  assert (H2 : 0x8000 <= 0xFFFC <= 0xFFFF) by lia.
  assert (H3 : Z.of_nat (length prg_rom_32k) = Mapper004.prg_banks mmc3_32k * 16384)
    by (vm_compute; reflexivity).
  split; [ exact H1 | split; [ exact H2 | split; [ exact H3 | ] ] ].
  exact (proj1 (proj2 (proj2 (prg_read_in_bounds mmc3_32k 0xFFFC prg_rom_32k H1 H2 H3)))).
Defined.

(** The reset vector of that cartridge is read from the last bank:
    offset [$7FFC] of the ROM. *)
Example prg_read_reset_vector :
  Mapper004.prg_mapped_addr mmc3_32k 0xFFFC = 0x7FFC
  /\ Mapper004.cpu_read 0xFFFC prg_rom_32k mmc3_32k = (Some 0xEA, mmc3_32k).
Proof. vm_compute. split; reflexivity. Qed.
(** ** Cartridge claims *)

Section CartridgeClaims.
Context {M : Type} {MP : Mapper M}.

(** C6, as the code has it.  When the file ends before the declared CHR
    ROM does, [load_ines] still succeeds, but the CHR store is cut to the
    bytes the file has after the PRG ROM: it is shorter than declared and
    nothing is zero-filled. *)
Theorem truncated_chr_is_cut (data : list Z) (dirty_header : bool)
    (c : Cartridge.t M) :
  let prg_size := byte_at data 4 * 16384 in
  let declared := byte_at data 5 * 8192 in
  let start :=
    (if nonzero (Z.land (byte_at data 6) 0x04) then 16 + 512 else 16) + prg_size in
  0 <= byte_at data 4 ->
  byte_at data 5 <> 0 ->
  start <= Z.of_nat (length data) < start + declared ->
  let '(ok, c') := Cartridge.load_ines data dirty_header c in
  ok = true
  /\ Cartridge.chr_rom c' = drop (Z.to_nat start) data
  /\ Z.of_nat (length (Cartridge.chr_rom c')) = Z.of_nat (length data) - start
  /\ Z.of_nat (length (Cartridge.chr_rom c')) < declared.
Proof.
  intros prg_size declared start Hprg Hchr Hlen.
  assert (Hs : 0 <= start) by (unfold start, prg_size; destruct (nonzero _); lia).
  assert (Ed : slice data start (Z.of_nat (length data) - start)
               = drop (Z.to_nat start) data).
  { unfold slice. apply take_ge. rewrite length_drop. lia. }
  unfold Cartridge.load_ines.
  fold start in Hs. revert Hlen Hs Ed. unfold start. clear start.
  destruct (nonzero (Z.land (byte_at data 6) 0x08));
    destruct (nonzero (Z.land (byte_at data 6) 0x01));
    destruct (nonzero (Z.land (byte_at data 6) 0x04));
    cbn [Cartridge.prg_banks Cartridge.chr_banks Cartridge.chr_rom
         Cartridge.set_prg_banks Cartridge.set_chr_banks Cartridge.set_mapper_id
         Cartridge.set_mirror_mode Cartridge.set_battery_backed
         Cartridge.set_prg_rom Cartridge.set_chr_rom Cartridge.set_prg_ram];
    fold prg_size; fold declared; intros Hlen Hs Ed;
    match goal with |- context [?x <? ?y] => destruct (Z.ltb_spec x y) end;
    try lia;
    destruct (Z.eqb_spec (byte_at data 5) 0) as [E|_]; try contradiction;
    cbn [Cartridge.prg_banks Cartridge.chr_banks Cartridge.chr_rom
         Cartridge.set_prg_banks Cartridge.set_chr_banks Cartridge.set_mapper_id
         Cartridge.set_mirror_mode Cartridge.set_battery_backed
         Cartridge.set_prg_rom Cartridge.set_chr_rom Cartridge.set_prg_ram];
    fold declared;
    match goal with |- context [?x <? ?y] => destruct (Z.ltb_spec x y) end;
    try lia;
    rewrite Ed, length_drop;
    (split; [ reflexivity | split; [ reflexivity | split; lia ] ]).
Qed.

End CartridgeClaims.

(** C6 as stated fails: the image above loads (the constructor builds
    the cartridge with its mapper), and its CHR store has the four bytes
    of the file, not the declared 8192. *)
Lemma truncated_chr_counterexample :
  let c := Cartridge.construct (fun _ => Mapper004.create) truncated_image in
  Cartridge.valid c = true
  /\ Cartridge.mapper_id c = 4
  /\ Cartridge.chr_rom c = [1; 2; 3; 4]
  /\ Z.of_nat (length (Cartridge.chr_rom c)) <> Cartridge.chr_banks c * 8192.
Proof.
  vm_compute.
  split; [ reflexivity | split; [ reflexivity | split; [ reflexivity | discriminate ] ] ].
Qed.

Lemma truncated_chr_is_cut_witness :
  0 <= byte_at truncated_image 4
  /\ byte_at truncated_image 5 <> 0
  /\ 16 + 16384 <= Z.of_nat (length truncated_image) < 16 + 16384 + 8192
  /\ let '(ok, c') := Cartridge.load_ines (M := Mapper004.t) truncated_image false
                        Cartridge.blank in
     ok = true
     /\ Cartridge.chr_rom c' = drop (Z.to_nat (16 + 16384)) truncated_image
     /\ Z.of_nat (length (Cartridge.chr_rom c'))
        = Z.of_nat (length truncated_image) - (16 + 16384)
     /\ Z.of_nat (length (Cartridge.chr_rom c')) < 8192.
Proof.
  assert (H1 : 0 <= byte_at truncated_image 4) by (vm_compute; discriminate).
  assert (H2 : byte_at truncated_image 5 <> 0) by (vm_compute; discriminate).
  assert (H3 : 16 + 16384 <= Z.of_nat (length truncated_image) < 16 + 16384 + 8192)
    by (vm_compute; split; [ discriminate | reflexivity ]).
  split; [ exact H1 | split; [ exact H2 | split; [ exact H3 | ] ] ].
  exact (truncated_chr_is_cut (M := Mapper004.t) truncated_image false
           Cartridge.blank H1 H2 H3).
Defined.
(** ** Controller claims *)

Section ControllerClaims.
Context {M : Type} {MP : Mapper M} {ML : MapperLaws M}.
Local Open Scope st_scope.

(** C8, as the code has it.  A write to [$4016], whatever its strobe
    bit, copies both state bytes into the shift registers; every read of
    [$4016] or [$4017] returns bit 7 of that port's shift register and
    moves it left by one, also while the last value written has the
    strobe bit set.  So the reads that follow a write return the latched
    state byte from bit 7 (A) down to bit 0, and 0 after that. *)
Theorem controller_serial_read (s : Sys.t M) (d i : Z) (n : nat) :
  i = 0 \/ i = 1 ->
  length (BusState.controller_state (Sys.bus s)) = 2%nat ->
  length (BusState.controller_shift (Sys.bus s)) = 2%nat ->
  eval (Bus.cpu_write 0x4016 d ;;; port_reads n i) s =
  map (fun k => b2z (Z.testbit (byte_at (BusState.controller_state (Sys.bus s)) i)
                       (7 - Z.of_nat k))) (seq 0 n).
Proof.
  intros Hi Hst Hsh. rewrite eval_bind.
  unfold exec at 1. rewrite ControllerFacts.cpu_write_strobe. cbn [snd].
  rewrite ControllerFacts.port_reads_bits;
    [ | exact Hi | cbn; rewrite !byte_set_length; exact Hsh ].
  apply map_ext. intros k. do 2 f_equal.
  cbn [Sys.bus Sys.set_bus BusState.controller_shift BusState.set_controller_shift].
  destruct Hi as [-> | ->].
  - rewrite byte_at_set_ne by (cbn; lia).
    apply byte_at_set_eq. rewrite Hsh. cbn. lia.
  - apply byte_at_set_eq. rewrite byte_set_length, Hsh. cbn. lia.
Qed.

End ControllerClaims.

(** C8 as stated fails: with A held and the strobe bit written high, the
    second read of [$4016] returns the B button (0), not the A button. *)
Lemma strobe_high_counterexample :
  let reads := eval (Bus.cpu_write 0x4016 0x01 ;;; port_reads 2 0)%st pad_a_pressed in
  reads = [1; 0] /\ reads <> [1; 1].
Proof. vm_compute. split; [ reflexivity | discriminate ]. Qed.

Lemma controller_serial_read_witness :
  (0 = 0 \/ 0 = 1)
  /\ length (BusState.controller_state (Sys.bus pad_a_pressed)) = 2%nat
  /\ length (BusState.controller_shift (Sys.bus pad_a_pressed)) = 2%nat
  /\ eval (Bus.cpu_write 0x4016 0x01 ;;; port_reads 8 0)%st pad_a_pressed =
     map (fun k =>
            b2z (Z.testbit (byte_at (BusState.controller_state (Sys.bus pad_a_pressed)) 0)
                   (7 - Z.of_nat k))) (seq 0 8).
Proof.
  assert (H1 : 0 = 0 \/ 0 = 1) by (left; reflexivity).
  assert (H2 : length (BusState.controller_state (Sys.bus pad_a_pressed)) = 2%nat)
    by (vm_compute; reflexivity).
  assert (H3 : length (BusState.controller_shift (Sys.bus pad_a_pressed)) = 2%nat)
    by (vm_compute; reflexivity).
  split; [ exact H1 | split; [ exact H2 | split; [ exact H3 | ] ] ].
  exact (controller_serial_read pad_a_pressed 0x01 0 8 H1 H2 H3).
Defined.
(** ** PPU register claims *)

Section PPUClaims.
Context {M : Type} {MP : Mapper M}.

(** C5, as the code has it.  After any sequence of register accesses, a
    read of PPUSTATUS returns in bits 5-7 sprite overflow, sprite-zero hit
    and vblank, and in bits 0-4 the low five bits of the PPUDATA read
    buffer.  Only a [$2007] read loads that buffer: register writes and
    reads of the other registers leave it as it was, and [reset] clears
    it.  So the byte last written to a register does not show in bits 0-4,
    although the comment at the [$2002] case calls them the stale bus
    contents of the last read or write: after a reset and any accesses
    other than [$2007] reads they are 0, whatever was written. *)
Theorem ppustatus_read (l : list Access) (p : PPU.t) (cart : option (Cartridge.t M)) :
  let s' := accesses l (p, cart) in
  let data := fst (PPU.cpu_read 0x0002 (fst s') (snd s')) in
  Z.land data 0x1F = Z.land (PPU.data_buffer (fst s')) 0x1F
  /\ PPU.field_get 5 1 data = PPU.status_sprite_overflow (fst s')
  /\ PPU.field_get 6 1 data = PPU.status_sprite_zero_hit (fst s')
  /\ PPU.field_get 7 1 data = PPU.status_vblank (fst s')
  /\ (forallb (fun a => negb (is_data_read a)) l = true ->
      PPU.data_buffer (fst s') = PPU.data_buffer p)
  /\ PPU.data_buffer (PPU.reset p) = 0
  /\ (forallb (fun a => negb (is_data_read a)) l = true ->
      let s0 := accesses l (PPU.reset p, cart) in
      Z.land (fst (PPU.cpu_read 0x0002 (fst s0) (snd s0))) 0x1F = 0).
Proof.
  intros s' data. unfold data. rewrite PPUFacts.status_read_value.
  unfold PPU.status_sprite_overflow, PPU.status_sprite_zero_hit, PPU.status_vblank.
  rewrite !PPUFacts.field_get_bit by lia.
  rewrite !PPUFacts.status_read_high by lia.
  split; [ apply PPUFacts.status_read_low | ].
  split; [ reflexivity | split; [ reflexivity | split; [ reflexivity | ] ] ].
  split; [ intros H; apply (PPUFacts.accesses_data_buffer l (p, cart) H) | ].
  split; [ reflexivity | ].
  intros H. cbv zeta. rewrite PPUFacts.status_read_value, PPUFacts.status_read_low.
  rewrite (PPUFacts.accesses_data_buffer l (PPU.reset p, cart) H). reflexivity.
Qed.

End PPUClaims.

(** [$1F] written to PPUCTRL on a fresh PPU: PPUSTATUS then reads 0 in
    its low five bits, not the [$1F] last written. *)
Example ppustatus_after_ctrl_write :
  let s := accesses (M := Mapper004.t) [RegWrite 0x2000 0x1F] (PPU.create, None) in
  Z.land (fst (PPU.cpu_read 0x0002 (fst s) (snd s))) 0x1F = 0
  /\ Z.land (fst (PPU.cpu_read 0x0002 (fst s) (snd s))) 0x1F <> Z.land 0x1F 0x1F.
Proof. vm_compute. split; [ reflexivity | discriminate ]. Qed.

Lemma ppustatus_read_witness :
  forallb (fun a => negb (is_data_read a)) [RegWrite 0x2000 0x1F; RegWrite 0x2005 0x1F] = true
  /\ (let s0 := accesses (M := Mapper004.t) [RegWrite 0x2000 0x1F; RegWrite 0x2005 0x1F]
                  (PPU.reset PPU.create, None) in
      Z.land (fst (PPU.cpu_read 0x0002 (fst s0) (snd s0))) 0x1F = 0).
Proof.
  assert (H : forallb (fun a => negb (is_data_read a))
                [RegWrite 0x2000 0x1F; RegWrite 0x2005 0x1F] = true) by reflexivity.
  split; [ exact H | ].
  exact (proj2 (proj2 (proj2 (proj2 (proj2 (proj2
    (ppustatus_read (M := Mapper004.t) [RegWrite 0x2000 0x1F; RegWrite 0x2005 0x1F]
       PPU.create None)))))) H).
Defined.
(** ** OAM DMA *)

Section DMAClaims.
Context {M : Type} {MP : Mapper M} {ML : MapperLaws M}.
Local Abbreviation System := (Sys.t M).

(** OAM after 256 port writes, index by index. *)
Lemma oam_after (s s' : System) (vs : list Z) :
  length vs = 256%nat ->
  oam_view (Sys.ppu s') = oam_fill (oam_view (Sys.ppu s)) vs ->
  length (PPU.oam (Sys.ppu s)) = 256%nat ->
  0 <= PPU.oam_addr (Sys.ppu s) < 256 ->
  PPU.oam_addr (Sys.ppu s') = PPU.oam_addr (Sys.ppu s)
  /\ forall i, (i < 256)%nat ->
       byte_at (PPU.oam (Sys.ppu s')) (u8 (PPU.oam_addr (Sys.ppu s) + Z.of_nat i))
       = nth i vs 0.
Proof.
  intros Hl Ho Hn Ha.
  destruct (DmaFacts.oam_fill_spec vs (oam_view (Sys.ppu s)) Hn Ha ltac:(lia))
    as (_ & E2 & E3).
  rewrite <- Ho in E2, E3. cbn [oam_view fst snd] in E2, E3. split.
  - rewrite E2, Hl. unfold u8. change (Z.of_nat 256) with (1 * 256).
    rewrite Z.mod_add by lia. apply Z.mod_small. exact Ha.
  - intros i Hi. apply E3. lia.
Qed.

(** C3, as the code has it.  A store of [page] to [$4014] arms the DMA
    engine and leaves [dma_dummy] as it is.  With [dma_dummy] set, as
    after construction or a finished transfer, the engine has the CPU
    slots from the first one after the store (tick counter [c], a
    multiple of 3) for 513 CPU cycles, or 514 when the store ran in an odd
    CPU cycle: an idle slot in that case, an alignment slot, then for each
    of the 256 offsets a read of [page * 256 + offset] followed by a write
    of the byte read to the OAM port.  OAM afterwards is what these 256
    port writes make of it: with the 256-byte OAM array and the OAM
    address [a] in a byte, the byte read at offset [i] sits at OAM index
    [(a + i) mod 256] and the OAM address is [a] again.  No slot in the
    window goes to the CPU; the slot right after it does.  Interrupt
    entries may be called in between, so the stack pointer has to be a
    byte.

    [Bus::reset] stops a transfer without setting [dma_dummy] again.
    After a reset that found the engine past its alignment slot the next
    transfer has no alignment: 512 slots when the store ran in an odd CPU
    cycle, and otherwise 511, of which the first writes the byte left in
    [dma_data] to the port and the rest copy the offsets 1 to 255; the
    byte at offset 0 is not copied. *)
Theorem oam_dma_transfer (s : System) (page : Z) :
  (let s1 := exec (Bus.cpu_write 0x4014 page) s in
   BusState.dma_transfer (Sys.bus s1) = true
   /\ BusState.dma_page (Sys.bus s1) = page
   /\ BusState.dma_addr (Sys.bus s1) = 0
   /\ BusState.dma_dummy (Sys.bus s1) = BusState.dma_dummy (Sys.bus s))
  /\ (let c := BusState.system_clock_counter (Sys.bus s) in
      sp_ok s ->
      BusState.dma_transfer (Sys.bus s) = true ->
      BusState.dma_page (Sys.bus s) = page ->
      BusState.dma_addr (Sys.bus s) = 0 ->
      BusState.dma_dummy (Sys.bus s) = true ->
      c mod 3 = 0 -> 0 <= c -> c + 3 * 514 < 18446744073709551616 ->
      let store_on_odd_cycle := Z.odd (c / 3 - 1) in
      let slots := if store_on_odd_cycle then 514%nat else 513%nat in
      let evs := eval (BusClock.run (3 * slots)) s in
      let s' := exec (BusClock.run (3 * slots)) s in
      (exists vs,
         length vs = 256%nat
         /\ slot_events evs =
            (if store_on_odd_cycle then [DmaWait] else [])
            ++ DmaAlign :: dma_copy page 0 vs
         /\ oam_view (Sys.ppu s') = oam_fill (oam_view (Sys.ppu s)) vs
         /\ (length (PPU.oam (Sys.ppu s)) = 256%nat ->
             0 <= PPU.oam_addr (Sys.ppu s) < 256 ->
             PPU.oam_addr (Sys.ppu s') = PPU.oam_addr (Sys.ppu s)
             /\ forall i, (i < 256)%nat ->
                  byte_at (PPU.oam (Sys.ppu s'))
                          (u8 (PPU.oam_addr (Sys.ppu s) + Z.of_nat i))
                  = nth i vs 0))
      /\ ~ In CpuClock evs
      /\ BusState.dma_transfer (Sys.bus s') = false
      /\ BusState.dma_dummy (Sys.bus s') = true
      /\ BusState.system_clock_counter (Sys.bus s') = c + 3 * Z.of_nat slots
      /\ In CpuClock (eval BusClock.clock s'))
  /\ (let b := Sys.bus (exec BusClock.reset s) in
      BusState.dma_transfer b = false
      /\ BusState.system_clock_counter b = 0
      /\ BusState.dma_dummy b = BusState.dma_dummy (Sys.bus s))
  /\ (let c := BusState.system_clock_counter (Sys.bus s) in
      sp_ok s ->
      BusState.dma_transfer (Sys.bus s) = true ->
      BusState.dma_page (Sys.bus s) = page ->
      BusState.dma_addr (Sys.bus s) = 0 ->
      BusState.dma_dummy (Sys.bus s) = false ->
      c mod 3 = 0 -> 0 <= c -> c + 3 * 512 < 18446744073709551616 ->
      let stale := BusState.dma_data (Sys.bus s) in
      let store_on_odd_cycle := Z.odd (c / 3 - 1) in
      let slots := if store_on_odd_cycle then 512%nat else 511%nat in
      let evs := eval (BusClock.run (3 * slots)) s in
      let s' := exec (BusClock.run (3 * slots)) s in
      (exists vs,
         length vs = (if store_on_odd_cycle then 256%nat else 255%nat)
         /\ slot_events evs =
            (if store_on_odd_cycle then dma_copy page 0 vs
             else DmaWrite stale :: dma_copy page 1 vs)
         /\ oam_view (Sys.ppu s') =
            oam_fill (oam_view (Sys.ppu s))
                     (if store_on_odd_cycle then vs else stale :: vs))
      /\ BusState.dma_transfer (Sys.bus s') = false
      /\ BusState.dma_dummy (Sys.bus s') = true
      /\ BusState.system_clock_counter (Sys.bus s') = c + 3 * Z.of_nat slots).
Proof.
  split.
  { pose proof (DmaFacts.cpu_write_oamdma page s) as [Hv _]. cbn zeta in Hv |- *.
    apply BusFacts.dma_view_fields in Hv. tauto. }
  split; [ | split; [ exact (DmaFacts.reset_engine s) | ] ]; cycle 1.
  { intros c Hsp Ht Hp Ha Hd H3 H0 H1 stale odd_store.
    assert (Ev : dma_view (Sys.bus s) = (true, page, 0, stale, false, c)).
    { unfold dma_view, stale. rewrite Ht, Hp, Ha, Hd. reflexivity. }
    unfold odd_store. rewrite DmaFacts.store_cycle_parity by exact H3.
    destruct (Z.even c) eqn:Ec.
    - assert (H2 : c mod 2 = 0).
      { apply Z.even_spec in Ec. destruct Ec as [x ->].
        rewrite Z.mul_comm. apply Z.mod_mul. lia. }
      destruct (DmaFacts.transfer_unaligned_even page stale c
                  (oam_view (Sys.ppu s)) H3 H2 H0 H1 s Hsp Ev eq_refl)
        as [(vs & d' & Hl & He & Hv & Ho) _].
      apply BusFacts.dma_view_fields in Hv. destruct Hv as (F1 & _ & _ & _ & F5 & F6).
      split; [ exists vs; split; [ exact Hl | split; [ exact He | exact Ho ] ] | ].
      split; [ exact F1 | split; [ exact F5 | rewrite F6; lia ] ].
    - assert (H2 : c mod 2 = 1).
      { apply (f_equal negb) in Ec. rewrite Z.negb_even in Ec. cbn in Ec.
        apply Z.odd_spec in Ec. destruct Ec as [x ->].
        rewrite Z.add_comm, Z.mul_comm. apply Z.mod_add. lia. }
      destruct (DmaFacts.transfer_unaligned_odd page stale c
                  (oam_view (Sys.ppu s)) H3 H2 H0 ltac:(lia) s Hsp Ev eq_refl)
        as [(vs & d' & Hl & He & Hv & Ho) _].
      apply BusFacts.dma_view_fields in Hv. destruct Hv as (F1 & _ & _ & _ & F5 & F6).
      split; [ exists vs; split; [ exact Hl | split; [ exact He | exact Ho ] ] | ].
      split; [ exact F1 | split; [ exact F5 | rewrite F6; lia ] ]. }
  intros c Hsp Ht Hp Ha Hd H3 H0 H1 odd_store.
  assert (Ev : dma_view (Sys.bus s) =
               (true, page, 0, BusState.dma_data (Sys.bus s), true, c)).
  { unfold dma_view. rewrite Ht, Hp, Ha, Hd. reflexivity. }
  unfold odd_store. rewrite DmaFacts.store_cycle_parity by exact H3.
  destruct (Z.even c) eqn:Ec.
  - assert (H2 : c mod 2 = 0).
    { apply Z.even_spec in Ec. destruct Ec as [x ->].
      rewrite Z.mul_comm. apply Z.mod_mul. lia. }
    destruct (DmaFacts.transfer_even page (BusState.dma_data (Sys.bus s)) c
                (oam_view (Sys.ppu s)) H3 H2 H0 H1 s Hsp Ev eq_refl)
      as [(vs & d' & Hl & He & Hv & Ho) _].
    apply BusFacts.dma_view_fields in Hv. destruct Hv as (F1 & _ & _ & _ & F5 & F6).
    split.
    { exists vs. split; [ exact Hl | split; [ exact He | split; [ exact Ho | ] ] ].
      exact (oam_after s _ vs Hl Ho). }
    split.
    { intros Hin. apply DmaFacts.slot_events_keep in Hin. rewrite He in Hin.
      destruct Hin as [Hin | [Hin | Hin]]; try discriminate.
      exact (DmaFacts.dma_copy_slots _ _ _ Hin). }
    split; [ exact F1 | split; [ exact F5 | split; [ rewrite F6; lia | ] ] ].
    apply DmaFacts.cpu_resumes; [ exact F1 | ].
    rewrite F6. Z.div_mod_to_equations. lia.
  - assert (H2 : c mod 2 = 1).
    { apply (f_equal negb) in Ec. rewrite Z.negb_even in Ec. cbn in Ec.
      apply Z.odd_spec in Ec. destruct Ec as [x ->].
      rewrite Z.add_comm, Z.mul_comm. apply Z.mod_add. lia. }
    destruct (DmaFacts.transfer_odd page (BusState.dma_data (Sys.bus s)) c
                (oam_view (Sys.ppu s)) H3 H2 H0 ltac:(lia) s Hsp Ev eq_refl)
      as [(vs & d' & Hl & He & Hv & Ho) _].
    apply BusFacts.dma_view_fields in Hv. destruct Hv as (F1 & _ & _ & _ & F5 & F6).
    split.
    { exists vs. split; [ exact Hl | split; [ exact He | split; [ exact Ho | ] ] ].
      exact (oam_after s _ vs Hl Ho). }
    split.
    { intros Hin. apply DmaFacts.slot_events_keep in Hin. rewrite He in Hin.
      destruct Hin as [Hin | Hin]; try discriminate.
      exact (DmaFacts.dma_copy_slots _ _ _ Hin). }
    split; [ exact F1 | split; [ exact F5 | split; [ rewrite F6; lia | ] ] ].
    apply DmaFacts.cpu_resumes; [ exact F1 | ].
    rewrite F6. Z.div_mod_to_equations. lia.
Qed.

End DMAClaims.

(** The store through the interpreter, then the transfer: 513 CPU cycles
    (the store ran in CPU cycle 2), the 256 bytes of page 2 read in order
    and written to the port, and OAM holding them afterwards. *)
Example dma_through_clock :
  slot_events (eval (BusClock.run 9) machine_dma) = [CpuClock; CpuClock; CpuClock]
  /\ BusState.system_clock_counter (Sys.bus machine_dma_armed) = 9
  /\ slot_events (eval (BusClock.run (3 * 513)) machine_dma_armed)
     = DmaAlign :: dma_copy 2 0 (map Z.of_nat (seq 0 256))
  /\ PPU.oam (Sys.ppu (exec (BusClock.run (3 * 513)) machine_dma_armed))
     = map Z.of_nat (seq 0 256).
Proof. vm_compute. repeat split. Qed.

(** With the store in an odd CPU cycle the engine first idles for one
    slot: 514 CPU cycles. *)
Example dma_on_odd_cycle :
  BusState.system_clock_counter (Sys.bus machine_dma_odd) = 12
  /\ BusState.dma_transfer (Sys.bus machine_dma_odd) = true
  /\ (let r := BusClock.run (3 * 514) machine_dma_odd in
      slot_events (fst r)
      = DmaWait :: DmaAlign :: dma_copy 2 0 (map Z.of_nat (seq 0 256))
      /\ slot_events (fst (BusClock.run 3 (snd r))) = [CpuClock]).
Proof. vm_compute. repeat split. Qed.

(** A reset in the middle of a transfer, then the same store again: the
    engine still has [dma_dummy] false, so the second transfer runs for
    511 CPU cycles, writes the byte left in [dma_data] (1) to OAM first
    and never reads offset 0 of the page, which holds 0. *)
Example dma_after_reset :
  BusState.dma_dummy
    (Sys.bus (exec BusClock.reset (exec (BusClock.run 21) machine_dma))) = false
  /\ dma_view (Sys.bus machine_dma_reset) = (true, 2, 0, 1, false, 33)
  /\ byte_at (BusState.ram (Sys.bus machine_dma_reset)) 0x0200 = 0
  /\ (let r := BusClock.run (3 * 511) machine_dma_reset in
      slot_events (fst r) = DmaWrite 1 :: dma_copy 2 1 (map Z.of_nat (seq 1 255))
      /\ PPU.oam (Sys.ppu (snd r)) = 1 :: map Z.of_nat (seq 1 255)
      /\ slot_events (fst (BusClock.run 3 (snd r))) = [CpuClock]).
Proof. vm_compute. repeat split. Qed.

Lemma oam_dma_transfer_witness :
  (sp_ok machine_dma_armed
   /\ BusState.dma_transfer (Sys.bus machine_dma_armed) = true
   /\ BusState.dma_page (Sys.bus machine_dma_armed) = 2
   /\ BusState.dma_addr (Sys.bus machine_dma_armed) = 0
   /\ BusState.dma_dummy (Sys.bus machine_dma_armed) = true
   /\ BusState.system_clock_counter (Sys.bus machine_dma_armed) mod 3 = 0
   /\ 0 <= BusState.system_clock_counter (Sys.bus machine_dma_armed)
   /\ BusState.system_clock_counter (Sys.bus machine_dma_armed) + 3 * 514
      < 18446744073709551616
   /\ ~ In CpuClock
          (eval (BusClock.run
                   (3 * (if Z.odd (BusState.system_clock_counter
                                     (Sys.bus machine_dma_armed) / 3 - 1)
                         then 514 else 513)))
                machine_dma_armed)
   /\ exists vs,
        length vs = 256%nat
        /\ oam_view (Sys.ppu
             (exec (BusClock.run
                      (3 * (if Z.odd (BusState.system_clock_counter
                                        (Sys.bus machine_dma_armed) / 3 - 1)
                            then 514 else 513)))
                   machine_dma_armed))
           = oam_fill (oam_view (Sys.ppu machine_dma_armed)) vs)
  /\ (sp_ok machine_dma_reset
      /\ BusState.dma_transfer (Sys.bus machine_dma_reset) = true
      /\ BusState.dma_page (Sys.bus machine_dma_reset) = 2
      /\ BusState.dma_addr (Sys.bus machine_dma_reset) = 0
      /\ BusState.dma_dummy (Sys.bus machine_dma_reset) = false
      /\ BusState.system_clock_counter (Sys.bus machine_dma_reset) mod 3 = 0
      /\ 0 <= BusState.system_clock_counter (Sys.bus machine_dma_reset)
      /\ BusState.system_clock_counter (Sys.bus machine_dma_reset) + 3 * 512
         < 18446744073709551616
      /\ BusState.system_clock_counter
           (Sys.bus (exec (BusClock.run
                             (3 * (if Z.odd (BusState.system_clock_counter
                                               (Sys.bus machine_dma_reset) / 3 - 1)
                                   then 512 else 511)))
                          machine_dma_reset))
         = BusState.system_clock_counter (Sys.bus machine_dma_reset)
           + 3 * Z.of_nat (if Z.odd (BusState.system_clock_counter
                                       (Sys.bus machine_dma_reset) / 3 - 1)
                           then 512 else 511)).
Proof.
  split.
  - assert (H1 : sp_ok machine_dma_armed)
      by (vm_compute; split; [ discriminate | reflexivity ]).
    assert (H2 : BusState.dma_transfer (Sys.bus machine_dma_armed) = true)
      by (vm_compute; reflexivity).
    assert (H3 : BusState.dma_page (Sys.bus machine_dma_armed) = 2)
      by (vm_compute; reflexivity).
    assert (H4 : BusState.dma_addr (Sys.bus machine_dma_armed) = 0)
      by (vm_compute; reflexivity).
    assert (H5 : BusState.dma_dummy (Sys.bus machine_dma_armed) = true)
      by (vm_compute; reflexivity).
    assert (H6 : BusState.system_clock_counter (Sys.bus machine_dma_armed) mod 3 = 0)
      by (vm_compute; reflexivity).
    assert (H7 : 0 <= BusState.system_clock_counter (Sys.bus machine_dma_armed))
      by (vm_compute; discriminate).
    assert (H8 : BusState.system_clock_counter (Sys.bus machine_dma_armed) + 3 * 514
                 < 18446744073709551616) by (vm_compute; reflexivity).
    split; [ exact H1 | split; [ exact H2 | split; [ exact H3 | split; [ exact H4 | ] ] ] ].
    split; [ exact H5 | split; [ exact H6 | split; [ exact H7 | split; [ exact H8 | ] ] ] ].
    pose proof (proj1 (proj2 (oam_dma_transfer machine_dma_armed 2))
                  H1 H2 H3 H4 H5 H6 H7 H8)
      as [(vs & Hl & _ & Ho & _) [Hn _]].
    split; [ exact Hn | ]. exists vs. split; [ exact Hl | exact Ho ].
  - assert (H1 : sp_ok machine_dma_reset)
      by (vm_compute; split; [ discriminate | reflexivity ]).
    assert (H2 : BusState.dma_transfer (Sys.bus machine_dma_reset) = true)
      by (vm_compute; reflexivity).
    assert (H3 : BusState.dma_page (Sys.bus machine_dma_reset) = 2)
      by (vm_compute; reflexivity).
    assert (H4 : BusState.dma_addr (Sys.bus machine_dma_reset) = 0)
      by (vm_compute; reflexivity).
    assert (H5 : BusState.dma_dummy (Sys.bus machine_dma_reset) = false)
      by (vm_compute; reflexivity).
    assert (H6 : BusState.system_clock_counter (Sys.bus machine_dma_reset) mod 3 = 0)
      by (vm_compute; reflexivity).
    assert (H7 : 0 <= BusState.system_clock_counter (Sys.bus machine_dma_reset))
      by (vm_compute; discriminate).
    assert (H8 : BusState.system_clock_counter (Sys.bus machine_dma_reset) + 3 * 512
                 < 18446744073709551616) by (vm_compute; reflexivity).
    split; [ exact H1 | split; [ exact H2 | split; [ exact H3 | split; [ exact H4 | ] ] ] ].
    split; [ exact H5 | split; [ exact H6 | split; [ exact H7 | split; [ exact H8 | ] ] ] ].
    exact (proj2 (proj2 (proj2
             (proj2 (proj2 (proj2 (oam_dma_transfer machine_dma_reset 2)))
                H1 H2 H3 H4 H5 H6 H7 H8)))).
Defined.
(** ** APU claims *)

Section APUClaims.
Context {M : Type} {MP : Mapper M}.

(** C9.  [APU::reset] seeds the noise register with 1.  One step of the
    LFSR moves every bit one place down and puts the feedback (bit 0 XOR
    bit 6 in mode 1, bit 0 XOR bit 1 in mode 0) at bit 14; it maps a
    non-zero register to a non-zero register, and so does
    [Noise::clock_timer].  In every reachable machine the register is a
    non-zero 15-bit value. *)
Theorem noise_lfsr_never_zero :
  (forall a, Noise.shift_register (APU.noise (APU.reset a)) = 1)
  /\ (forall mode x i, 0 <= x < 32768 -> 0 <= i ->
       Z.testbit (Noise.lfsr_step mode x) i =
       if i =? 14 then lfsr_feedback mode x else Z.testbit x (i + 1))
  /\ (forall mode x, 0 < x < 65536 -> Noise.lfsr_step mode x <> 0)
  /\ (forall p, 0 < Noise.shift_register p < 65536 ->
       Noise.shift_register (Noise.clock_timer p) <> 0)
  /\ (forall s : Sys.t M, reachable s ->
       0 < Noise.shift_register (APU.noise (Sys.apu s)) < 32768).
Proof.
  split; [ reflexivity | ].
  split; [ apply NoiseFacts.lfsr_step_bits | ].
  split; [ apply NoiseFacts.lfsr_step_nonzero | ].
  split.
  - intros p Hp. rewrite NoiseFacts.clock_timer_register.
    destruct (Noise.timer_counter p =? 0);
      [ apply NoiseFacts.lfsr_step_nonzero, Hp | lia ].
  - intros s Hs. change (sys_ok s).
    induction Hs as [ | c s _ IH | s _ _ | s _ IH | k st s _ IH | s _ IH
                    | addr s _ IH | addr data s _ IH ].
    + apply NoiseInvariant.sys_ok_power_on.
    + exact IH.
    + apply NoiseInvariant.sys_ok_reset.
    + apply NoiseInvariant.sys_ok_tick, IH.
    + unfold Bus.set_controller_state. destruct (k <? 2); exact IH.
    + exact IH.
    + apply NoiseInvariant.sys_ok_read, IH.
    + apply NoiseInvariant.sys_ok_write, IH.
Qed.

End APUClaims.

(** The register after the first tick of the fresh machine: the seed 1
    has moved out and the feedback has come in at bit 14. *)
Example noise_after_tick :
  Noise.shift_register (APU.noise (Sys.apu (exec BusClock.clock machine0))) = 16384.
Proof. vm_compute. reflexivity. Qed.

Lemma noise_lfsr_never_zero_witness :
  reachable (exec BusClock.clock machine0)
  /\ 0 < Noise.shift_register (APU.noise (Sys.apu (exec BusClock.clock machine0)))
      < 32768.
Proof.
  assert (H : reachable (exec BusClock.clock machine0))
    by (apply reach_clock, reach_power_on).
  split; [ exact H | ].
  exact (proj2 (proj2 (proj2 (proj2 noise_lfsr_never_zero))) _ H).
Defined.
(** ** The simple mappers *)

Module MapperFacts.

Lemma u32_id (x : Z) : 0 <= x < 4294967296 -> u32 x = x.
Proof. intros H. unfold u32. apply Z.mod_small. exact H. Qed.

Lemma land_3FFF (x : Z) : Z.land x 0x3FFF = x mod 16384.
Proof. change 0x3FFF with (Z.ones 14). apply Z.land_ones. lia. Qed.

Lemma land_7FFF (x : Z) : Z.land x 0x7FFF = x mod 32768.
Proof. change 0x7FFF with (Z.ones 15). apply Z.land_ones. lia. Qed.

Lemma land_0F (x : Z) : Z.land x 0x0F = x mod 16.
Proof. change 0x0F with (Z.ones 4). apply Z.land_ones. lia. Qed.

Lemma land_03 (x : Z) : Z.land x 0x03 = x mod 4.
Proof. change 0x03 with (Z.ones 2). apply Z.land_ones. lia. Qed.

Lemma land_01 (x : Z) : Z.land x 0x01 = x mod 2.
Proof. change 0x01 with (Z.ones 1). apply Z.land_ones. lia. Qed.

Lemma in_window (lo hi x : Z) : lo <= x <= hi -> (lo <=? x) && (x <=? hi) = true.
Proof. intros H. apply andb_true_iff. split; apply Z.leb_le; lia. Qed.

Lemma off_window (lo hi x : Z) : x < lo \/ hi < x -> (lo <=? x) && (x <=? hi) = false.
Proof.
  intros H. apply andb_false_iff.
  destruct H; [ left; apply Z.leb_gt | right; apply Z.leb_gt ]; lia.
Qed.

(** A fresh vector reads as its fill byte. *)
Lemma vec_resize_nil (n v : Z) : vec_resize n v [] = replicate (Z.to_nat n) v.
Proof. unfold vec_resize. rewrite take_nil. cbn [app length]. now rewrite Nat.sub_0_r. Qed.

Lemma byte_at_fresh (n v i : Z) : 0 <= i < n -> byte_at (vec_resize n v []) i = v.
Proof.
  intros H. rewrite vec_resize_nil. unfold byte_at.
  rewrite lookup_replicate_2 by lia. reflexivity.
Qed.

(** The state invariants of the mappers with a bank register. *)

Lemma uxrom_state (pb cb : Z) (m : Mapper002.t) :
  mapper_reachable (Mapper002.create pb cb) m ->
  Mapper002.prg_banks m = pb /\ Z.of_nat (length (Mapper002.chr_ram m)) = 8192.
Proof.
  induction 1 as [ | a prg m _ IH | a d prg m _ IH | a chr m _ IH | a d chr m _ IH
                 | m _ IH | m _ IH | m _ IH ]; cbn [m_cpu_read m_cpu_write m_ppu_read
                 m_ppu_write m_reset m_irq_clear m_scanline Mapper002_Mapper].
  - split; reflexivity.
  - unfold Mapper002.cpu_read_total, Mapper002.cpu_read.
    repeat (destruct (_ && _)); try destruct (Mapper002.prg_at _ _); exact IH.
  - unfold Mapper002.cpu_write. destruct (_ && _); exact IH.
  - unfold Mapper002.ppu_read. destruct (_ && _); exact IH.
  - unfold Mapper002.ppu_write. destruct (_ && _); [ | exact IH ].
    cbn. rewrite byte_set_length. exact IH.
  - exact IH.
  - exact IH.
  - exact IH.
Qed.

Lemma cnrom_state (pb cb : Z) (m : Mapper003.t) :
  0 < cb < 256 ->
  mapper_reachable (Mapper003.create pb cb) m ->
  Mapper003.chr_banks m = cb /\ 0 <= Mapper003.chr_bank_select m < cb.
Proof.
  intros Hcb.
  induction 1 as [ | a prg m _ IH | a d prg m _ IH | a chr m _ IH | a d chr m _ IH
                 | m _ IH | m _ IH | m _ IH ]; cbn [m_cpu_read m_cpu_write m_ppu_read
                 m_ppu_write m_reset m_irq_clear m_scanline Mapper003_Mapper].
  - cbn. lia.
  - unfold Mapper003.cpu_read. destruct (_ && _); exact IH.
  - unfold Mapper003.cpu_write. destruct (_ && _); [ | exact IH ].
    cbn [snd Mapper003.set_chr_bank_select Mapper003.chr_banks Mapper003.chr_bank_select].
    destruct IH as [E _]. rewrite E.
    destruct (Z.ltb_spec 0 cb); [ | lia ].
    cbn [Mapper003.set_chr_bank_select Mapper003.chr_banks Mapper003.chr_bank_select].
    rewrite E. split; [ reflexivity | ].
    pose proof (Z.mod_pos_bound d cb ltac:(lia)). rewrite u8_id; lia.
  - unfold Mapper003.ppu_read. destruct (_ && _); exact IH.
  - exact IH.
  - cbn. lia.
  - exact IH.
  - exact IH.
Qed.

Lemma gxrom_state (pb cb : Z) (m : Mapper066.t) :
  2 <= pb < 256 -> 0 < cb < 256 ->
  mapper_reachable (Mapper066.create pb cb) m ->
  Mapper066.prg_banks m = pb /\ Mapper066.chr_banks m = cb
  /\ 0 <= Mapper066.prg_bank_select m < pb / 2
  /\ 0 <= Mapper066.chr_bank_select m < cb.
Proof.
  intros Hpb Hcb.
  assert (Hh : 0 < pb / 2 < 256) by (Z.div_mod_to_equations; lia).
  induction 1 as [ | a prg m _ IH | a d prg m _ IH | a chr m _ IH | a d chr m _ IH
                 | m _ IH | m _ IH | m _ IH ]; cbn [m_cpu_read m_cpu_write m_ppu_read
                 m_ppu_write m_reset m_irq_clear m_scanline Mapper066_Mapper].
  - cbn. lia.
  - unfold Mapper066.cpu_read. destruct (_ && _); exact IH.
  - unfold Mapper066.cpu_write. destruct (_ && _); [ | exact IH ].
    cbv zeta.
    cbn [snd Mapper066.set_chr_bank_select Mapper066.set_prg_bank_select
         Mapper066.chr_banks Mapper066.prg_banks Mapper066.chr_bank_select
         Mapper066.prg_bank_select].
    destruct IH as (E1 & E2 & _). rewrite E1.
    rewrite (u8_id (pb / 2)) by lia.
    destruct (Z.ltb_spec 0 (pb / 2)); [ | lia ].
    cbn [Mapper066.set_chr_bank_select Mapper066.set_prg_bank_select
         Mapper066.chr_banks Mapper066.prg_banks Mapper066.chr_bank_select
         Mapper066.prg_bank_select].
    rewrite E2.
    destruct (Z.ltb_spec 0 cb); [ | lia ].
    cbn [Mapper066.set_chr_bank_select Mapper066.set_prg_bank_select
         Mapper066.chr_banks Mapper066.prg_banks Mapper066.chr_bank_select
         Mapper066.prg_bank_select].
    pose proof (Z.mod_pos_bound (Z.land (Z.shiftr d 4) 3) (pb / 2) ltac:(lia)).
    pose proof (Z.mod_pos_bound (Z.land d 3) cb ltac:(lia)).
    rewrite E1, E2, !u8_id by lia. lia.
  - unfold Mapper066.ppu_read. destruct (_ && _); exact IH.
  - exact IH.
  - cbn. lia.
  - exact IH.
  - exact IH.
Qed.

Lemma camerica_state (pb cb : Z) (m : Mapper071.t) :
  0 < pb < 256 ->
  mapper_reachable (Mapper071.create pb cb) m ->
  Mapper071.prg_banks m = pb /\ 0 <= Mapper071.prg_bank_select m < pb
  /\ Z.of_nat (length (Mapper071.chr_ram m)) = 8192.
Proof.
  intros Hpb.
  induction 1 as [ | a prg m _ IH | a d prg m _ IH | a chr m _ IH | a d chr m _ IH
                 | m _ IH | m _ IH | m _ IH ]; cbn [m_cpu_read m_cpu_write m_ppu_read
                 m_ppu_write m_reset m_irq_clear m_scanline Mapper071_Mapper].
  - split; [ reflexivity | split; [ cbn; lia | vm_compute; reflexivity ] ].
  - unfold Mapper071.cpu_read. repeat (destruct (_ && _)); exact IH.
  - unfold Mapper071.cpu_write. destruct (_ && _); [ exact IH | ].
    destruct (_ && _); [ | exact IH ].
    cbv zeta.
    cbn [snd Mapper071.set_prg_bank_select Mapper071.prg_banks Mapper071.prg_bank_select
         Mapper071.chr_ram].
    destruct IH as (E & _ & IH). rewrite E.
    destruct (Z.ltb_spec 0 pb); [ | lia ].
    cbn [Mapper071.set_prg_bank_select Mapper071.prg_banks Mapper071.prg_bank_select
         Mapper071.chr_ram].
    pose proof (Z.mod_pos_bound (Z.land d 15) pb ltac:(lia)).
    rewrite E, u8_id by lia. split; [ reflexivity | split; [ lia | exact IH ] ].
  - unfold Mapper071.ppu_read. destruct (_ && _); exact IH.
  - unfold Mapper071.ppu_write. destruct (_ && _); [ | exact IH ].
    cbn. rewrite byte_set_length. exact IH.
  - cbn. destruct IH as (E & _ & IH). rewrite E, IH. lia.
  - exact IH.
  - exact IH.
Qed.

(** NROM: the ROM is seen through [$8000-$FFFF], a 16 KiB one twice. *)
Lemma nrom_cpu_read (pb cb addr : Z) (prg : list Z) :
  pb = 1 \/ pb = 2 ->
  0x8000 <= addr <= 0xFFFF ->
  Mapper000.cpu_read addr prg (Mapper000.create pb cb)
  = (Some (byte_at prg ((addr - 0x8000) mod (pb * 16384))), Mapper000.create pb cb).
Proof.
  intros Hpb Ha. unfold Mapper000.cpu_read.
  rewrite in_window by lia. cbn [Mapper000.prg_banks Mapper000.create].
  destruct Hpb as [-> | ->]; cbn [Z.eqb Pos.eqb];
    rewrite ?land_3FFF, ?land_7FFF; do 3 f_equal;
    Z.div_mod_to_equations; lia.
Qed.

End MapperFacts.
Module Mmc1Facts.
Import MapperFacts.

(** A check over the first [n] naturals covers the interval. *)
Lemma forall_below (n : nat) (f : Z -> bool) :
  forallb f (map Z.of_nat (seq 0 n)) = true ->
  forall x, 0 <= x < Z.of_nat n -> f x = true.
Proof.
  intros H x Hx. rewrite forallb_forall in H. apply H.
  apply in_map_iff. exists (Z.to_nat x). split; [ lia | ].
  apply in_seq. lia.
Qed.

Lemma bit0_cases (d : Z) : Z.land d 0x01 = 0 \/ Z.land d 0x01 = 1.
Proof. rewrite land_01. pose proof (Z.mod_pos_bound d 2). lia. Qed.

(** One bit shifted into the 5-bit load register. *)
Lemma shift_in_range (x d : Z) :
  0 <= x < 32 ->
  0 <= u8 (Z.lor (u8 (Z.shiftr x 1)) (Z.shiftl (Z.land d 0x01) 4)) < 32.
Proof.
  intros Hx.
  pose (f := fun b x => (0 <=? u8 (Z.lor (u8 (Z.shiftr x 1)) (Z.shiftl b 4)))
                        && (u8 (Z.lor (u8 (Z.shiftr x 1)) (Z.shiftl b 4)) <? 32)).
  assert (H : forall b, b = 0 \/ b = 1 -> f b x = true).
  { intros b [-> | ->]; apply (forall_below 32 (f _));
      (vm_compute; reflexivity) || exact Hx. }
  specialize (H _ (bit0_cases d)). unfold f in H.
  apply andb_true_iff in H. destruct H as [H1 H2].
  apply Z.leb_le in H1. apply Z.ltb_lt in H2. lia.
Qed.

Lemma mmc1_state (pb cb : Z) (m : Mapper001.t) :
  mapper_reachable (Mapper001.create pb cb) m ->
  Mapper001.prg_banks m = pb
  /\ 0 <= Mapper001.load_register m < 32
  /\ 0 <= Mapper001.load_count m < 5
  /\ (Mapper001.load_count m = 0 -> Mapper001.load_register m = 0).
Proof.
  induction 1 as [ | a prg m _ IH | a d prg m _ IH | a chr m _ IH | a d chr m _ IH
                 | m _ IH | m _ IH | m _ IH ]; cbn [m_cpu_read m_cpu_write m_ppu_read
                 m_ppu_write m_reset m_irq_clear m_scanline Mapper001_Mapper].
  - cbn. lia.
  - unfold Mapper001.cpu_read. repeat (destruct (_ && _)); exact IH.
  - destruct IH as (E & Hr & Hc & H0).
    unfold Mapper001.cpu_write. destruct (_ && _); [ cbn; tauto | ].
    destruct (_ && _); [ | cbn; tauto ].
    destruct (nonzero _); [ cbn; lia | ].
    cbv zeta.
    cbn [Mapper001.load_count Mapper001.load_register Mapper001.set_load_count
         Mapper001.set_load_register].
    pose proof (shift_in_range (Mapper001.load_register m) d Hr) as Hs.
    rewrite (u8_id (Mapper001.load_count m + 1)) by lia.
    destruct (Z.eqb_spec (Mapper001.load_count m + 1) 5) as [E5|E5].
    + unfold Mapper001.load. cbv zeta.
      repeat (destruct (_ =? _)); cbn; lia.
    + cbn [snd Mapper001.load_count Mapper001.load_register Mapper001.set_load_count
           Mapper001.set_load_register Mapper001.prg_banks].
      split; [ exact E | split; [ exact Hs | split; [ lia | lia ] ] ].
  - unfold Mapper001.ppu_read. repeat (destruct (_ && _) || destruct (_ =? _)); exact IH.
  - unfold Mapper001.ppu_write. destruct (_ && _); [ | exact IH ].
    destruct (_ =? _); exact IH.
  - destruct IH as (E & _). cbn. lia.
  - exact IH.
  - exact IH.
Qed.

(** One of the first four serial writes. *)
Lemma serial_step (prg : list Z) (a d : Z) (x : Mapper001.t) (k : Z) :
  0x8000 <= a <= 0xFFFF /\ Z.land d 0x80 = 0 ->
  Mapper001.load_count x = k -> 0 <= k < 4 ->
  let x' := snd (Mapper001.cpu_write a d prg x) in
  Mapper001.load_count x' = k + 1
  /\ Mapper001.load_register x' = shift_in (Mapper001.load_register x) d.
Proof.
  intros [Ha Hd] Hk Hr. cbv zeta. unfold Mapper001.cpu_write.
  rewrite off_window by lia. rewrite in_window by lia. rewrite Hd.
  cbn [nonzero Z.eqb negb]. cbv zeta.
  cbn [Mapper001.load_count Mapper001.load_register Mapper001.set_load_count
       Mapper001.set_load_register].
  rewrite Hk, (u8_id (k + 1)) by lia.
  destruct (Z.eqb_spec (k + 1) 5); [ lia | ].
  cbn [snd Mapper001.load_count Mapper001.load_register Mapper001.set_load_count
       Mapper001.set_load_register]. split; reflexivity.
Qed.

(** The fifth serial write. *)
Lemma serial_last (prg : list Z) (a d : Z) (x : Mapper001.t) :
  0x8000 <= a <= 0xFFFF /\ Z.land d 0x80 = 0 ->
  Mapper001.load_count x = 4 ->
  let x' := snd (Mapper001.cpu_write a d prg x) in
  let reg := shift_in (Mapper001.load_register x) d in
  Mapper001.load_count x' = 0 /\ Mapper001.load_register x' = 0
  /\ (0x8000 <= a <= 0x9FFF ->
      Mapper001.control_register x' = Z.land reg 0x1F
      /\ Mapper001.mirror x' = Mapper001.mirror_of_control (Z.land reg 0x1F))
  /\ (0xA000 <= a <= 0xBFFF -> Mapper001.chr_bank_0 x' = Z.land reg 0x1F)
  /\ (0xC000 <= a <= 0xDFFF -> Mapper001.chr_bank_1 x' = Z.land reg 0x1F)
  /\ (0xE000 <= a <= 0xFFFF -> Mapper001.prg_bank x' = Z.land reg 0x0F).
Proof.
  intros [Ha Hd] Hk. cbv zeta. unfold Mapper001.cpu_write.
  rewrite off_window by lia. rewrite in_window by lia. rewrite Hd.
  cbn [nonzero Z.eqb negb]. cbv zeta.
  cbn [Mapper001.load_count Mapper001.load_register Mapper001.set_load_count
       Mapper001.set_load_register].
  rewrite Hk. change (u8 (4 + 1) =? 5) with true. cbv iota. cbn [snd].
  fold (shift_in (Mapper001.load_register x) d).
  generalize (shift_in (Mapper001.load_register x) d). intros reg.
  assert (Et : Z.land (Z.shiftr a 13) 0x03 = a / 8192 - 4).
  { rewrite land_03, Z.shiftr_div_pow2 by lia. change (2 ^ 13) with 8192.
    Z.div_mod_to_equations. lia. }
  unfold Mapper001.load. rewrite Et.
  assert (Hq : 4 <= a / 8192 <= 7) by (Z.div_mod_to_equations; lia).
  rewrite (u8_id (a / 8192 - 4)) by lia.
  cbn [Mapper001.load_register Mapper001.set_load_count Mapper001.set_load_register].
  split; [ repeat (destruct (_ =? _)); reflexivity | ].
  split; [ repeat (destruct (_ =? _)); reflexivity | ].
  split; [ intros Ht | split; [ intros Ht | split; intros Ht ] ].
  - replace (a / 8192 - 4) with 0 by (Z.div_mod_to_equations; lia).
    cbn. split; reflexivity.
  - replace (a / 8192 - 4) with 1 by (Z.div_mod_to_equations; lia). reflexivity.
  - replace (a / 8192 - 4) with 2 by (Z.div_mod_to_equations; lia). reflexivity.
  - replace (a / 8192 - 4) with 3 by (Z.div_mod_to_equations; lia). reflexivity.
Qed.

(** Bits 2 and 3 set: PRG mode 3. *)
Lemma prg_mode_after_reset (c : Z) :
  Z.land (Z.shiftr (u8 (Z.lor c 0x0C)) 2) 0x03 = 3.
Proof.
  apply Z.bits_inj'. intros i Hi.
  rewrite Z.land_spec, Z.shiftr_spec, u8_bits, Z.lor_spec by lia.
  destruct (Z.eq_dec i 0) as [->|H0]; [ cbn; now rewrite orb_true_r | ].
  destruct (Z.eq_dec i 1) as [->|H1]; [ cbn; now rewrite orb_true_r | ].
  replace (Z.testbit 3 i) with false; [ apply andb_false_r | ].
  symmetry. change 3 with (Z.ones 2). apply Z.ones_spec_high. lia.
Qed.

End Mmc1Facts.

(** Every mapper answers the CPU from [$6000] up only, and a CPU read
    leaves it as it was. *)
Module MapperWindows.
Import MapperFacts.

Ltac window_cases :=
  repeat match goal with
  | |- context [(?lo <=? ?a) && (?a <=? ?hi)] =>
      first [ rewrite (off_window lo hi a) by lia | destruct ((lo <=? a) && (a <=? hi)) ]
  end.

Lemma nrom_read_state (addr : Z) (prg : list Z) (m : Mapper000.t) :
  snd (Mapper000.cpu_read addr prg m) = m.
Proof. unfold Mapper000.cpu_read. destruct (_ && _); reflexivity. Qed.

Lemma nrom_read_below (addr : Z) (prg : list Z) (m : Mapper000.t) :
  addr < 0x6000 -> fst (Mapper000.cpu_read addr prg m) = None.
Proof. intros H. unfold Mapper000.cpu_read. now rewrite off_window by lia. Qed.

Lemma nrom_write_below (addr data : Z) (prg : list Z) (m : Mapper000.t) :
  addr < 0x6000 -> Mapper000.cpu_write addr data prg m = (false, m).
Proof. reflexivity. Qed.

Lemma mmc1_read_state (addr : Z) (prg : list Z) (m : Mapper001.t) :
  snd (Mapper001.cpu_read addr prg m) = m.
Proof. unfold Mapper001.cpu_read. repeat destruct (_ && _); reflexivity. Qed.

Lemma mmc1_read_below (addr : Z) (prg : list Z) (m : Mapper001.t) :
  addr < 0x6000 -> fst (Mapper001.cpu_read addr prg m) = None.
Proof. intros H. unfold Mapper001.cpu_read. now rewrite !off_window by lia. Qed.

Lemma mmc1_write_below (addr data : Z) (prg : list Z) (m : Mapper001.t) :
  addr < 0x6000 -> Mapper001.cpu_write addr data prg m = (false, m).
Proof. intros H. unfold Mapper001.cpu_write. now rewrite !off_window by lia. Qed.

Lemma uxrom_read_state (addr : Z) (prg : list Z) (m : Mapper002.t) :
  snd (Mapper002.cpu_read_total addr prg m) = m.
Proof.
  unfold Mapper002.cpu_read_total, Mapper002.cpu_read.
  repeat destruct (_ && _); try destruct (Mapper002.prg_at _ _); reflexivity.
Qed.

Lemma uxrom_read_below (addr : Z) (prg : list Z) (m : Mapper002.t) :
  addr < 0x6000 -> fst (Mapper002.cpu_read_total addr prg m) = None.
Proof.
  intros H. unfold Mapper002.cpu_read_total, Mapper002.cpu_read.
  now rewrite !off_window by lia.
Qed.

Lemma uxrom_write_below (addr data : Z) (prg : list Z) (m : Mapper002.t) :
  addr < 0x6000 -> Mapper002.cpu_write addr data prg m = (false, m).
Proof. intros H. unfold Mapper002.cpu_write. now rewrite !off_window by lia. Qed.

Lemma cnrom_read_state (addr : Z) (prg : list Z) (m : Mapper003.t) :
  snd (Mapper003.cpu_read addr prg m) = m.
Proof. unfold Mapper003.cpu_read. destruct (_ && _); reflexivity. Qed.

Lemma cnrom_read_below (addr : Z) (prg : list Z) (m : Mapper003.t) :
  addr < 0x6000 -> fst (Mapper003.cpu_read addr prg m) = None.
Proof. intros H. unfold Mapper003.cpu_read. now rewrite off_window by lia. Qed.

Lemma cnrom_write_below (addr data : Z) (prg : list Z) (m : Mapper003.t) :
  addr < 0x6000 -> Mapper003.cpu_write addr data prg m = (false, m).
Proof. intros H. unfold Mapper003.cpu_write. now rewrite off_window by lia. Qed.

Lemma gxrom_read_state (addr : Z) (prg : list Z) (m : Mapper066.t) :
  snd (Mapper066.cpu_read addr prg m) = m.
Proof. unfold Mapper066.cpu_read. destruct (_ && _); reflexivity. Qed.

Lemma gxrom_read_below (addr : Z) (prg : list Z) (m : Mapper066.t) :
  addr < 0x6000 -> fst (Mapper066.cpu_read addr prg m) = None.
Proof. intros H. unfold Mapper066.cpu_read. now rewrite off_window by lia. Qed.

Lemma gxrom_write_below (addr data : Z) (prg : list Z) (m : Mapper066.t) :
  addr < 0x6000 -> Mapper066.cpu_write addr data prg m = (false, m).
Proof. intros H. unfold Mapper066.cpu_write. now rewrite off_window by lia. Qed.

Lemma camerica_read_state (addr : Z) (prg : list Z) (m : Mapper071.t) :
  snd (Mapper071.cpu_read addr prg m) = m.
Proof. unfold Mapper071.cpu_read. repeat destruct (_ && _); reflexivity. Qed.

Lemma camerica_read_below (addr : Z) (prg : list Z) (m : Mapper071.t) :
  addr < 0x6000 -> fst (Mapper071.cpu_read addr prg m) = None.
Proof. intros H. unfold Mapper071.cpu_read. now rewrite !off_window by lia. Qed.

Lemma camerica_write_below (addr data : Z) (prg : list Z) (m : Mapper071.t) :
  addr < 0x6000 -> Mapper071.cpu_write addr data prg m = (false, m).
Proof. intros H. unfold Mapper071.cpu_write. now rewrite !off_window by lia. Qed.

End MapperWindows.

#[export] Instance Mapper000_Laws : MapperLaws Mapper000.t := {
  cpu_read_pure := MapperWindows.nrom_read_state;
  cpu_read_low := MapperWindows.nrom_read_below;
  cpu_write_low := MapperWindows.nrom_write_below
}.

#[export] Instance Mapper001_Laws : MapperLaws Mapper001.t := {
  cpu_read_pure := MapperWindows.mmc1_read_state;
  cpu_read_low := MapperWindows.mmc1_read_below;
  cpu_write_low := MapperWindows.mmc1_write_below
}.

#[export] Instance Mapper002_Laws : MapperLaws Mapper002.t := {
  cpu_read_pure := MapperWindows.uxrom_read_state;
  cpu_read_low := MapperWindows.uxrom_read_below;
  cpu_write_low := MapperWindows.uxrom_write_below
}.

#[export] Instance Mapper003_Laws : MapperLaws Mapper003.t := {
  cpu_read_pure := MapperWindows.cnrom_read_state;
  cpu_read_low := MapperWindows.cnrom_read_below;
  cpu_write_low := MapperWindows.cnrom_write_below
}.

#[export] Instance Mapper066_Laws : MapperLaws Mapper066.t := {
  cpu_read_pure := MapperWindows.gxrom_read_state;
  cpu_read_low := MapperWindows.gxrom_read_below;
  cpu_write_low := MapperWindows.gxrom_write_below
}.

#[export] Instance Mapper071_Laws : MapperLaws Mapper071.t := {
  cpu_read_pure := MapperWindows.camerica_read_state;
  cpu_read_low := MapperWindows.camerica_read_below;
  cpu_write_low := MapperWindows.camerica_write_below
}.
(** * Further properties of the code *)

(** ** The simple mappers *)

Section MapperProperties.
Import MapperFacts.

(** X1.  NROM maps [$8000-$FFFF] onto the PRG ROM without any state: a
    16 KiB ROM (one bank) is seen twice, a 32 KiB ROM (two banks) once.
    The index read is inside the ROM, and no CPU write is accepted. *)
Theorem nrom_prg_window (pb cb addr : Z) (prg : list Z) :
  pb = 1 \/ pb = 2 ->
  0x8000 <= addr <= 0xFFFF ->
  let m := Mapper000.create pb cb in
  let i := (addr - 0x8000) mod (pb * 16384) in
  Mapper000.cpu_read addr prg m = (Some (byte_at prg i), m)
  /\ 0 <= i < pb * 16384
  /\ (forall a d, Mapper000.cpu_write a d prg m = (false, m)).
Proof.
  intros Hpb Ha m i.
  split; [ apply nrom_cpu_read; assumption | ].
  split; [ apply Z.mod_pos_bound; lia | reflexivity ].
Qed.

(** X2.  UxROM on a PRG ROM of the declared size.  [$C000-$FFFF] reads
    the last bank of the ROM in every state of the mapper.  A CPU write
    of [d] anywhere in [$8000-$FFFF] selects the 16 KiB bank [d & 15] for
    [$8000-$BFFF]: when the ROM has that bank the read returns its byte,
    inside the ROM.  The mapper does not reduce the bank number: when the
    ROM has no such bank the index lies past the ROM and the read has no
    result. *)
Theorem uxrom_banks (pb cb : Z) (m : Mapper002.t) (prg : list Z) (addr : Z) :
  1 <= pb < 256 ->
  Z.of_nat (length prg) = pb * 16384 ->
  mapper_reachable (Mapper002.create pb cb) m ->
  (0xC000 <= addr <= 0xFFFF ->
     let i := (pb - 1) * 16384 + (addr - 0xC000) in
     Mapper002.cpu_read addr prg m = Some (Some (byte_at prg i), m)
     /\ 0 <= i < pb * 16384)
  /\ (0x8000 <= addr <= 0xBFFF ->
      forall a d, 0x8000 <= a <= 0xFFFF ->
        let m' := snd (Mapper002.cpu_write a d prg m) in
        let i := (d mod 16) * 16384 + (addr - 0x8000) in
        (d mod 16 < pb ->
           Mapper002.cpu_read addr prg m' = Some (Some (byte_at prg i), m')
           /\ 0 <= i < pb * 16384)
        /\ (pb <= d mod 16 ->
            Z.of_nat (length prg) <= i
            /\ Mapper002.cpu_read addr prg m' = None)).
Proof.
  intros Hpb Hlen Hm. destruct (uxrom_state pb cb m Hm) as [E _]. split.
  - intros Ha i. unfold Mapper002.cpu_read, Mapper002.prg_mapped_addr.
    rewrite (off_window 0x8000 0xBFFF) by lia. rewrite in_window by lia.
    rewrite E, land_3FFF.
    assert (Ei : addr mod 16384 = addr - 0xC000) by (Z.div_mod_to_equations; lia).
    rewrite Ei, u32_id by lia. fold i.
    assert (Hi : 0 <= i < pb * 16384) by (unfold i; lia).
    unfold Mapper002.prg_at. rewrite Hlen.
    destruct (Z.leb_spec 0 i); [ | lia ]. destruct (Z.ltb_spec i (pb * 16384)); [ | lia ].
    split; [ reflexivity | exact Hi ].
  - intros Ha a d Hw m' i.
    assert (Er : Mapper002.cpu_read addr prg m' = 
                 match Mapper002.prg_at prg i with
                 | Some data => Some (Some data, m')
                 | None => None
                 end).
    { unfold m', Mapper002.cpu_write. rewrite in_window by lia.
      cbn [snd]. unfold Mapper002.cpu_read, Mapper002.prg_mapped_addr.
      rewrite in_window by lia.
      cbn [Mapper002.prg_bank_select Mapper002.set_prg_bank_select].
      rewrite land_3FFF, land_0F.
      assert (Ei : addr mod 16384 = addr - 0x8000) by (Z.div_mod_to_equations; lia).
      pose proof (Z.mod_pos_bound d 16 ltac:(lia)).
      rewrite Ei, u32_id by lia. reflexivity. }
    rewrite Er. clear Er. unfold Mapper002.prg_at. rewrite Hlen.
    pose proof (Z.mod_pos_bound d 16 ltac:(lia)) as Hd.
    split; intros Hb.
    + assert (Hi : 0 <= i < pb * 16384) by (unfold i; lia).
      destruct (Z.leb_spec 0 i); [ | lia ]. destruct (Z.ltb_spec i (pb * 16384)); [ | lia ].
      split; [ reflexivity | exact Hi ].
    + assert (Hi : pb * 16384 <= i) by (unfold i; lia).
      destruct (Z.ltb_spec i (pb * 16384)); [ lia | ].
      rewrite andb_false_r. split; [ exact Hi | reflexivity ].
Qed.

(** X3.  UxROM pattern memory is the mapper's own 8 KiB RAM, whatever
    CHR data the cartridge holds: it reads 0 after construction, a PPU
    write is accepted and read back at its address, the other addresses
    keep their bytes, and the cartridge's CHR store is not touched. *)
Theorem uxrom_chr_ram (pb cb : Z) (m : Mapper002.t) (chr : list Z) (addr addr' data : Z) :
  mapper_reachable (Mapper002.create pb cb) m ->
  0 <= addr <= 0x1FFF -> 0 <= addr' <= 0x1FFF ->
  let w := Mapper002.ppu_write addr data chr m in
  fst w = true
  /\ snd (snd w) = chr
  /\ fst (Mapper002.ppu_read addr' chr (fst (snd w)))
     = (if addr' =? addr then Some data else fst (Mapper002.ppu_read addr' chr m))
  /\ fst (Mapper002.ppu_read addr' chr (Mapper002.create pb cb)) = Some 0.
Proof.
  intros Hm Ha Ha' w. destruct (uxrom_state pb cb m Hm) as [_ Hl].
  unfold w, Mapper002.ppu_write, Mapper002.ppu_read. rewrite !in_window by lia.
  cbn [fst snd Mapper002.chr_ram Mapper002.set_chr_ram Mapper002.create].
  split; [ reflexivity | split; [ reflexivity | split ] ].
  - destruct (Z.eqb_spec addr' addr) as [->|Hne].
    + rewrite byte_at_set_eq by lia. reflexivity.
    + rewrite byte_at_set_ne by lia. reflexivity.
  - rewrite byte_at_fresh by lia. reflexivity.
Qed.

(** X4.  CNROM on a CHR ROM of the declared size (the loader cuts the
    store of a truncated image; a read can leave the store then).  The
    CHR bank register holds the written byte reduced modulo the number of
    CHR banks, so in every state of the mapper a pattern read returns a
    byte stored in the CHR ROM; no PPU write is accepted. *)
Theorem cnrom_chr_bank (pb cb : Z) (m : Mapper003.t) (chr : list Z) (addr : Z) :
  0 < cb < 256 ->
  Z.of_nat (length chr) = cb * 8192 ->
  mapper_reachable (Mapper003.create pb cb) m ->
  0 <= addr <= 0x1FFF ->
  (let i := Mapper003.chr_mapped_addr m addr in
   0 <= i < Z.of_nat (length chr)
   /\ exists v, chr !! Z.to_nat i = Some v
                /\ Mapper003.ppu_read addr chr m = (Some v, m))
  /\ (forall a d prg, 0x8000 <= a <= 0xFFFF ->
        Mapper003.chr_mapped_addr (snd (Mapper003.cpu_write a d prg m)) addr
        = (d mod cb) * 8192 + addr)
  /\ (forall a d chr', Mapper003.ppu_write a d chr' m = (false, (m, chr'))).
Proof.
  intros Hcb Hlen Hm Ha. destruct (cnrom_state pb cb m Hcb Hm) as [E Hs].
  split; [ | split; [ | reflexivity ] ].
  - intros i.
    assert (Hi : 0 <= i < Z.of_nat (length chr)).
    { unfold i, Mapper003.chr_mapped_addr. rewrite u32_id by lia. lia. }
    split; [ exact Hi | ].
    destruct (lookup_lt_is_Some_2 chr (Z.to_nat i)) as [v Hv]; [ lia | ].
    exists v. split; [ exact Hv | ].
    unfold Mapper003.ppu_read. rewrite in_window by lia. fold i.
    rewrite (byte_at_lookup chr i v Hv). reflexivity.
  - intros a d prg Hw.
    assert (Hm' : mapper_reachable (Mapper003.create pb cb)
                    (snd (Mapper003.cpu_write a d prg m)))
      by (apply (mr_cpu_write _ a d prg m Hm)).
    destruct (cnrom_state pb cb _ Hcb Hm') as [_ Hs'].
    unfold Mapper003.chr_mapped_addr. rewrite u32_id by lia.
    unfold Mapper003.cpu_write. rewrite in_window by lia. cbv zeta.
    cbn [snd Mapper003.chr_banks Mapper003.set_chr_bank_select Mapper003.chr_bank_select].
    rewrite E. destruct (Z.ltb_spec 0 cb); [ | lia ].
    cbn [Mapper003.chr_bank_select Mapper003.set_chr_bank_select].
    pose proof (Z.mod_pos_bound d cb ltac:(lia)). rewrite u8_id by lia. reflexivity.
Qed.

(** X5.  GxROM wraps both bank registers to the banks the cartridge
    has: in every state of the mapper a CPU read of [$8000-$FFFF] stays
    inside the PRG ROM, and on a CHR ROM of the declared size (the loader
    cuts the store of a truncated image) a pattern read returns a byte
    stored in the CHR ROM. *)
Theorem gxrom_banks (pb cb : Z) (m : Mapper066.t) (chr : list Z) (addr : Z) :
  2 <= pb < 256 -> 0 < cb < 256 ->
  Z.of_nat (length chr) = cb * 8192 ->
  mapper_reachable (Mapper066.create pb cb) m ->
  (0x8000 <= addr <= 0xFFFF -> 0 <= Mapper066.prg_mapped_addr m addr < pb * 16384)
  /\ (0 <= addr <= 0x1FFF ->
      let i := Mapper066.chr_mapped_addr m addr in
      0 <= i < Z.of_nat (length chr)
      /\ exists v, chr !! Z.to_nat i = Some v
                   /\ Mapper066.ppu_read addr chr m = (Some v, m)).
Proof.
  intros Hpb Hcb Hlen Hm.
  destruct (gxrom_state pb cb m Hpb Hcb Hm) as (_ & _ & Hp & Hc).
  assert (Hh : pb / 2 * 2 <= pb) by (Z.div_mod_to_equations; lia).
  split; intros Ha.
  - unfold Mapper066.prg_mapped_addr. cbv zeta. rewrite land_7FFF.
    pose proof (Z.mod_pos_bound addr 32768 ltac:(lia)).
    rewrite (u32_id (_ * 2)) by lia. rewrite u32_id by nia. nia.
  - intros i.
    assert (Hi : 0 <= i < Z.of_nat (length chr)).
    { unfold i, Mapper066.chr_mapped_addr. rewrite u32_id by nia. nia. }
    split; [ exact Hi | ].
    destruct (lookup_lt_is_Some_2 chr (Z.to_nat i)) as [v Hv]; [ lia | ].
    exists v. split; [ exact Hv | ].
    unfold Mapper066.ppu_read. rewrite in_window by lia. fold i.
    rewrite (byte_at_lookup chr i v Hv). reflexivity.
Qed.

(** X6.  Camerica: the bank register is wrapped to the PRG banks the
    cartridge has, so in every state of the mapper a CPU read of
    [$8000-$FFFF] stays inside the PRG ROM, and [$C000-$FFFF] reads the
    last bank. *)
Theorem camerica_banks (pb cb : Z) (m : Mapper071.t) (addr : Z) :
  0 < pb < 256 ->
  mapper_reachable (Mapper071.create pb cb) m ->
  0x8000 <= addr <= 0xFFFF ->
  0 <= Mapper071.prg_mapped_addr m addr < pb * 16384
  /\ (0xC000 <= addr ->
      Mapper071.prg_mapped_addr m addr = (pb - 1) * 16384 + (addr - 0xC000)).
Proof.
  intros Hpb Hm Ha. destruct (camerica_state pb cb m Hpb Hm) as (E & Hs & _).
  unfold Mapper071.prg_mapped_addr. rewrite land_3FFF, E.
  pose proof (Z.mod_pos_bound addr 16384 ltac:(lia)).
  destruct (Z.le_gt_cases 0xC000 addr) as [Hc|Hc].
  - rewrite off_window by lia. rewrite u32_id by nia.
    split; [ nia | intros _; Z.div_mod_to_equations; lia ].
  - rewrite in_window by lia. rewrite u32_id by nia. split; [ nia | lia ].
Qed.

End MapperProperties.

Lemma nrom_prg_window_witness :
  Mapper000.cpu_read 0xFFFC (filled 16384 0xEA) (Mapper000.create 1 1)
  = (Some (byte_at (filled 16384 0xEA) ((0xFFFC - 0x8000) mod (1 * 16384))),
     Mapper000.create 1 1).
Proof.
  exact (proj1 (nrom_prg_window 1 1 0xFFFC (filled 16384 0xEA)
                  (or_introl eq_refl) ltac:(lia))).
Defined.

Lemma uxrom_banks_witness :
  Mapper002.cpu_read 0x8004 (filled 32768 0xEA)
    (snd (Mapper002.cpu_write 0x8000 0x11 (filled 32768 0xEA) (Mapper002.create 2 0)))
  = Some (Some (byte_at (filled 32768 0xEA) (0x11 mod 16 * 16384 + (0x8004 - 0x8000))),
          snd (Mapper002.cpu_write 0x8000 0x11 (filled 32768 0xEA) (Mapper002.create 2 0))).
Proof.
  refine (proj1 (proj1 (proj2 (uxrom_banks 2 0 _ (filled 32768 0xEA) 0x8004 _ _
                                 (mr_created _)) _ 0x8000 0x11 _) _));
    first [ lia | vm_compute; reflexivity ].
Defined.

Lemma uxrom_chr_ram_witness :
  fst (Mapper002.ppu_read 0x0010 [] (fst (snd (Mapper002.ppu_write 0x0010 0x5A []
                                                   (Mapper002.create 2 0)))))
  = (if 0x0010 =? 0x0010 then Some 0x5A
     else fst (Mapper002.ppu_read 0x0010 [] (Mapper002.create 2 0))).
Proof.
  exact (proj1 (proj2 (proj2 (uxrom_chr_ram 2 0 _ [] 0x0010 0x0010 0x5A
                                (mr_created _) ltac:(lia) ltac:(lia))))).
Defined.

Lemma cnrom_chr_bank_witness :
  0 <= Mapper003.chr_mapped_addr
         (snd (Mapper003.cpu_write 0x8000 0xFF [] (Mapper003.create 1 4))) 0x1FFF
    < Z.of_nat (length (filled 32768 0x55)).
Proof.
  refine (proj1 (proj1 (cnrom_chr_bank 1 4 _ (filled 32768 0x55) 0x1FFF _ _
                          (mr_cpu_write _ 0x8000 0xFF [] _ (mr_created _)) _)));
    first [ lia | vm_compute; reflexivity ].
Defined.

Lemma gxrom_banks_witness :
  0 <= Mapper066.chr_mapped_addr
         (snd (Mapper066.cpu_write 0x8000 0x33 [] (Mapper066.create 4 2))) 0x1FFF
    < Z.of_nat (length (filled 16384 0x55)).
Proof.
  refine (proj1 (proj2 (gxrom_banks 4 2 _ (filled 16384 0x55) 0x1FFF _ _ _
                          (mr_cpu_write _ 0x8000 0x33 [] _ (mr_created _))) _));
    first [ lia | vm_compute; reflexivity ].
Defined.

Lemma camerica_banks_witness :
  0 <= Mapper071.prg_mapped_addr
         (snd (Mapper071.cpu_write 0xC000 0x0F [] (Mapper071.create 4 0))) 0x8000
    < 4 * 16384.
Proof.
  exact (proj1 (camerica_banks 4 0 _ 0x8000 ltac:(lia)
                  (mr_cpu_write _ 0xC000 0x0F [] _ (mr_created _)) ltac:(lia))).
Defined.
Section Mmc1Properties.
Import MapperFacts Mmc1Facts.

(** X7.  The MMC1 serial port: from a state with an empty load register,
    five CPU writes with bit 7 clear to [$8000-$FFFF] carry a 5-bit
    value, bit 0 of the first write lowest.  The address of the fifth
    write alone selects the register that takes it: control (with the
    mirroring of its low two bits), CHR bank 0, CHR bank 1, or the PRG
    bank (low four bits).  The load register is empty again. *)
Theorem mmc1_serial_load (pb cb : Z) (m : Mapper001.t) (prg : list Z)
    (w0 w1 w2 w3 w4 : Z * Z) :
  mapper_reachable (Mapper001.create pb cb) m ->
  Mapper001.load_count m = 0 ->
  Forall (fun w => 0x8000 <= fst w <= 0xFFFF /\ Z.land (snd w) 0x80 = 0)
         [w0; w1; w2; w3; w4] ->
  let v := serial_value (map snd [w0; w1; w2; w3; w4]) in
  let m' := cpu_writes [w0; w1; w2; w3; w4] prg m in
  let target := fst w4 in
  Mapper001.load_count m' = 0 /\ Mapper001.load_register m' = 0
  /\ (0x8000 <= target <= 0x9FFF ->
      Mapper001.control_register m' = v
      /\ Mapper001.mirror m' = Mapper001.mirror_of_control v)
  /\ (0xA000 <= target <= 0xBFFF -> Mapper001.chr_bank_0 m' = v)
  /\ (0xC000 <= target <= 0xDFFF -> Mapper001.chr_bank_1 m' = v)
  /\ (0xE000 <= target <= 0xFFFF -> Mapper001.prg_bank m' = v mod 16).
Proof.
  intros Hm Hc Hw v m' target.
  destruct (mmc1_state pb cb m Hm) as (_ & _ & _ & H0). specialize (H0 Hc).
  repeat match goal with H : Forall _ (_ :: _) |- _ => inversion_clear H end.
  destruct w0 as [a0 d0], w1 as [a1 d1], w2 as [a2 d2], w3 as [a3 d3], w4 as [a4 d4].
  cbn [fst snd] in *.
  unfold m', cpu_writes. cbn [fold_left fst snd m_cpu_write Mapper001_Mapper].
  unfold v, target, serial_value. cbn [map fold_right fst snd].
  destruct (serial_step prg a0 d0 m 0 ltac:(assumption) Hc ltac:(lia)) as (K1 & R1).
  set (x1 := snd (Mapper001.cpu_write a0 d0 prg m)) in *. clearbody x1.
  destruct (serial_step prg a1 d1 x1 1 ltac:(assumption) K1 ltac:(lia)) as (K2 & R2).
  set (x2 := snd (Mapper001.cpu_write a1 d1 prg x1)) in *. clearbody x2.
  destruct (serial_step prg a2 d2 x2 2 ltac:(assumption) K2 ltac:(lia)) as (K3 & R3).
  set (x3 := snd (Mapper001.cpu_write a2 d2 prg x2)) in *. clearbody x3.
  destruct (serial_step prg a3 d3 x3 3 ltac:(assumption) K3 ltac:(lia)) as (K4 & R4).
  set (x4 := snd (Mapper001.cpu_write a3 d3 prg x3)) in *. clearbody x4.
  pose proof (serial_last prg a4 d4 x4 ltac:(assumption) K4) as L.
  set (m5 := snd (Mapper001.cpu_write a4 d4 prg x4)) in *. clearbody m5.
  cbv zeta in L. rewrite R4, R3, R2, R1, H0 in L.
  match type of L with context [shift_in ?r d4] => set (reg := shift_in r d4) in * end.
  assert (Er : reg = Z.land d0 1 + 2 * (Z.land d1 1 + 2 * (Z.land d2 1
                 + 2 * (Z.land d3 1 + 2 * (Z.land d4 1 + 2 * 0))))
               /\ Z.land reg 0x1F = reg /\ Z.land reg 0x0F = reg mod 16).
  { unfold reg, shift_in.
    destruct (bit0_cases d0) as [-> | ->], (bit0_cases d1) as [-> | ->],
             (bit0_cases d2) as [-> | ->], (bit0_cases d3) as [-> | ->],
             (bit0_cases d4) as [-> | ->]; vm_compute; repeat split; reflexivity. }
  destruct Er as (Er & Er1 & Er2). clearbody reg. rewrite <- Er.
  destruct L as (L1 & L2 & L3 & L4 & L5 & L6).
  split; [ exact L1 | split; [ exact L2 | ] ].
  split; [ intros Ht | split; [ intros Ht | split; intros Ht ] ].
  - destruct (L3 Ht) as [-> ->]. rewrite Er1. split; reflexivity.
  - rewrite (L4 Ht). exact Er1.
  - rewrite (L5 Ht). exact Er1.
  - rewrite (L6 Ht). exact Er2.
Qed.

(** X8.  A CPU write with bit 7 set to [$8000-$FFFF] empties the MMC1
    load register and selects PRG mode 3: [$C000-$FFFF], where the
    interrupt vectors are, reads the last 16 KiB bank of the ROM. *)
Theorem mmc1_reset_write (pb cb : Z) (m : Mapper001.t) (prg : list Z) (a d addr : Z) :
  1 <= pb < 256 ->
  mapper_reachable (Mapper001.create pb cb) m ->
  0x8000 <= a <= 0xFFFF -> Z.land d 0x80 <> 0 ->
  0xC000 <= addr <= 0xFFFF ->
  let m' := snd (Mapper001.cpu_write a d prg m) in
  let i := (pb - 1) * 16384 + (addr - 0xC000) in
  Mapper001.load_count m' = 0 /\ Mapper001.load_register m' = 0
  /\ Mapper001.cpu_read addr prg m' = (Some (byte_at prg i), m')
  /\ 0 <= i < pb * 16384.
Proof.
  intros Hpb Hm Ha Hd Haddr m' i.
  destruct (mmc1_state pb cb m Hm) as (E & _).
  assert (Em : m' = Mapper001.set_control_register
                      (u8 (Z.lor (Mapper001.control_register m) 0x0C))
                      (Mapper001.set_load_count 0 (Mapper001.set_load_register 0 m))).
  { unfold m', Mapper001.cpu_write. rewrite off_window by lia. rewrite in_window by lia.
    unfold nonzero. destruct (Z.eqb_spec (Z.land d 128) 0); [ contradiction | ].
    reflexivity. }
  clearbody m'. subst m'.
  split; [ reflexivity | split; [ reflexivity | split; [ | unfold i; lia ] ] ].
  unfold Mapper001.cpu_read. rewrite off_window by lia. rewrite in_window by lia.
  unfold Mapper001.prg_mapped_addr. cbv zeta.
  cbn [Mapper001.control_register Mapper001.set_control_register Mapper001.prg_banks
       Mapper001.set_load_count Mapper001.set_load_register].
  rewrite prg_mode_after_reset. change (u8 3) with 3. cbn [Z.eqb orb Pos.eqb].
  rewrite off_window by lia. rewrite E, land_3FFF.
  assert (Ei : addr mod 16384 = addr - 0xC000) by (Z.div_mod_to_equations; lia).
  rewrite Ei, u32_id by lia. reflexivity.
Qed.

End Mmc1Properties.

Lemma mmc1_serial_load_witness :
  Mapper001.prg_bank
    (cpu_writes [(0xE000, 1); (0xE000, 0); (0xE000, 1); (0xE000, 0); (0xE000, 0)] []
       (Mapper001.create 8 0))
  = serial_value [1; 0; 1; 0; 0] mod 16.
Proof.
  refine (proj2 (proj2 (proj2 (proj2 (proj2
            (mmc1_serial_load 8 0 _ []
               (0xE000, 1) (0xE000, 0) (0xE000, 1) (0xE000, 0) (0xE000, 0)
               (mr_created _) eq_refl _))))) _).
  - repeat constructor; cbn; lia.
  - cbn. lia.
Defined.

Lemma mmc1_reset_write_witness :
  Mapper001.load_count
    (snd (Mapper001.cpu_write 0x8000 0x80 [] (Mapper001.create 8 0))) = 0.
Proof.
  refine (proj1 (mmc1_reset_write 8 0 _ [] 0x8000 0x80 0xFFFC _ (mr_created _) _ _ _));
    first [ lia | vm_compute; discriminate ].
Defined.
(** ** Loading a ROM image *)

Module LoadFacts.
Section WithMapper.
Context {M : Type} {MP : Mapper M}.

Lemma trainer_flag (x : Z) : nonzero (Z.land x 0x04) = Z.testbit x 2.
Proof. apply (nonzero_land_pow2 x 2). lia. Qed.

(** [load_ines] succeeds exactly when the PRG ROM is all in the file. *)
Lemma load_ines_ok (data : list Z) (dirty : bool) (c : Cartridge.t M) :
  fst (Cartridge.load_ines data dirty c)
  = negb (Z.of_nat (length data) <? prg_offset data + byte_at data 4 * 16384).
Proof.
  unfold Cartridge.load_ines, prg_offset. cbv zeta. rewrite trainer_flag.
  cbn [Cartridge.prg_banks Cartridge.set_prg_banks Cartridge.set_chr_banks
       Cartridge.set_mapper_id Cartridge.set_mirror_mode Cartridge.set_battery_backed].
  destruct (nonzero (Z.land (byte_at data 6) 8)); cbn [Cartridge.prg_banks
    Cartridge.set_prg_banks Cartridge.set_chr_banks Cartridge.set_mapper_id
    Cartridge.set_mirror_mode Cartridge.set_battery_backed];
    destruct (_ <? _); reflexivity.
Qed.

(** The NES 2.0 fields are assigned again by the iNES loader. *)
Lemma load_nes2_ines (data : list Z) (c : Cartridge.t M) :
  Cartridge.load_nes2 data c = Cartridge.load_ines data false c.
Proof. destruct c. reflexivity. Qed.

Lemma construct_valid (make_mapper : Z -> Z -> Z -> M) (data : list Z) :
  Cartridge.valid (Cartridge.construct make_mapper data)
  = (16 <=? Z.of_nat (length data)) && ines_magic data
    && (prg_offset data + byte_at data 4 * 16384 <=? Z.of_nat (length data)).
Proof.
  unfold Cartridge.construct. fold (ines_magic data).
  destruct (Z.ltb_spec (Z.of_nat (length data)) 16) as [H|H].
  { replace (16 <=? _) with false by (symmetry; apply Z.leb_gt; lia). reflexivity. }
  replace (16 <=? _) with true by (symmetry; apply Z.leb_le; lia).
  destruct (ines_magic data); [ | reflexivity ]. cbn [negb andb].
  assert (E : forall r : bool * Cartridge.t M,
            Cartridge.valid
              (let '(ok, c) := r in
               let c := Cartridge.set_valid ok c in
               if ok then Cartridge.set_mapper
                            (Some (make_mapper (Cartridge.mapper_id c) (Cartridge.prg_banks c)
                                     (Cartridge.chr_banks c))) c
               else c) = fst r).
  { intros [[] c]; reflexivity. }
  rewrite E. rewrite Z.leb_antisym.
  destruct (_ =? 8); [ rewrite load_nes2_ines | ]; apply load_ines_ok.
Qed.

Lemma construct_loads (make_mapper : Z -> Z -> Z -> M) (data : list Z) :
  Cartridge.valid (Cartridge.construct make_mapper data) = true <-> image_loads data.
Proof.
  rewrite construct_valid, !andb_true_iff, !Z.leb_le. unfold image_loads. tauto.
Qed.

Lemma load_rom_helper (make_mapper : Z -> Z -> Z -> M) (data : list Z) (s : Sys.t M) :
  (image_loads data ->
     Emulator.load_rom make_mapper data s
     = (true, exec BusClock.reset
                (BusClock.insert_cartridge (Cartridge.construct make_mapper data) s)))
  /\ (~ image_loads data -> Emulator.load_rom make_mapper data s = (false, s)).
Proof.
  unfold Emulator.load_rom. cbv zeta.
  pose proof (construct_loads make_mapper data) as H.
  destruct (Cartridge.valid _); split; intros Hi; try reflexivity.
  - contradiction Hi. apply H. reflexivity.
  - apply H in Hi. discriminate.
Qed.

End WithMapper.
End LoadFacts.

Section LoadProperties.
Context {M : Type} {MP : Mapper M}.

(** X9.  [Emulator::load_rom] accepts an image exactly when it has its
    sixteen header bytes, the magic [NES\x1A], and the whole PRG ROM
    (16 KiB times header byte 4) after the header and the 512-byte
    trainer that bit 2 of byte 6 announces.  An accepted image is
    inserted and the machine reset; a rejected one leaves the machine as
    it was. *)
Theorem load_rom_accepts (make_mapper : Z -> Z -> Z -> M) (data : list Z) (s : Sys.t M) :
  (image_loads data ->
     Emulator.load_rom make_mapper data s
     = (true, exec BusClock.reset
                (BusClock.insert_cartridge (Cartridge.construct make_mapper data) s)))
  /\ (~ image_loads data -> Emulator.load_rom make_mapper data s = (false, s)).
Proof. apply LoadFacts.load_rom_helper. Qed.

(** X10.  A NES 2.0 header with plain size fields is loaded as an iNES
    header: the 12-bit sizes and the 12-bit mapper number that
    [load_nes2] parses are assigned again, from bytes 4 to 7 alone, by
    the iNES loader it ends with. *)
Theorem nes2_loads_as_ines (data : list Z) (c : Cartridge.t M) :
  Z.land (byte_at data 9) 0x0F <> 0x0F ->
  Z.land (Z.shiftr (byte_at data 9) 4) 0x0F <> 0x0F ->
  Cartridge.load_nes2 data c = Cartridge.load_ines data false c
  /\ Cartridge.mapper_id (snd (Cartridge.load_nes2 data c))
     = u8 (Z.lor (u8 (Z.shiftr (byte_at data 6) 4))
                 (Z.shiftl (u8 (Z.shiftr (byte_at data 7) 4)) 4)).
Proof.
  intros _ _. rewrite LoadFacts.load_nes2_ines. split; [ reflexivity | ].
  unfold Cartridge.load_ines. cbv zeta.
  repeat match goal with |- context [if ?c then _ else _] => destruct c end; reflexivity.
Qed.

End LoadProperties.
Module ImageFacts.
Import MapperFacts.

Lemma byte_at_slice (data : list Z) (off n i : Z) :
  0 <= off -> 0 <= i < n -> byte_at (slice data off n) i = byte_at data (off + i).
Proof.
  intros Ho Hi. unfold byte_at, slice.
  rewrite lookup_take_lt by lia. rewrite lookup_drop.
  replace (Z.to_nat off + Z.to_nat i)%nat with (Z.to_nat (off + i)) by lia.
  reflexivity.
Qed.

Lemma slice_length (data : list Z) (off n : Z) :
  0 <= off -> 0 <= n -> off + n <= Z.of_nat (length data) ->
  Z.of_nat (length (slice data off n)) = n.
Proof.
  intros Ho Hn Hl. unfold slice. rewrite length_take, length_drop. lia.
Qed.

Section WithMapper.
Context {M : Type} {MP : Mapper M}.

(** What [load_ines] leaves in the cartridge when it succeeds. *)
Lemma load_ines_fields (data : list Z) (dirty : bool) (c : Cartridge.t M) :
  prg_offset data + byte_at data 4 * 16384 <= Z.of_nat (length data) ->
  let c' := snd (Cartridge.load_ines data dirty c) in
  Cartridge.prg_banks c' = byte_at data 4
  /\ Cartridge.chr_banks c' = byte_at data 5
  /\ Cartridge.prg_rom c' = slice data (prg_offset data) (byte_at data 4 * 16384)
  /\ Cartridge.mapper c' = Cartridge.mapper c.
Proof.
  intros H. cbv zeta. unfold Cartridge.load_ines. cbv zeta.
  rewrite LoadFacts.trainer_flag.
  change (if Z.testbit (byte_at data 6) 2 then 16 + 512 else 16) with (prg_offset data).
  assert (E : forall x : Cartridge.t M,
            Cartridge.prg_banks
              (Cartridge.set_battery_backed (nonzero (Z.land (byte_at data 6) 2))
                 (if nonzero (Z.land (byte_at data 6) 8)
                  then Cartridge.set_mirror_mode FOUR_SCREEN x
                  else Cartridge.set_mirror_mode
                         (if nonzero (Z.land (byte_at data 6) 1)
                          then VERTICAL else HORIZONTAL) x))
            = Cartridge.prg_banks x)
    by (intros x; destruct (nonzero (Z.land (byte_at data 6) 8)); reflexivity).
  rewrite !E. cbn [Cartridge.prg_banks Cartridge.set_prg_banks Cartridge.set_chr_banks
                   Cartridge.set_mapper_id].
  destruct (Z.ltb_spec (Z.of_nat (length data)) (prg_offset data + byte_at data 4 * 16384));
    [ lia | ].
  cbn [snd].
  repeat match goal with |- context [if ?c then _ else _] => destruct c end;
    cbn; repeat split; reflexivity.
Qed.

Lemma construct_fields (make_mapper : Z -> Z -> Z -> M) (data : list Z) :
  image_loads data ->
  let c := Cartridge.construct make_mapper data in
  Cartridge.prg_banks c = byte_at data 4
  /\ Cartridge.chr_banks c = byte_at data 5
  /\ Cartridge.prg_rom c = slice data (prg_offset data) (byte_at data 4 * 16384)
  /\ Cartridge.mapper c
     = Some (make_mapper (Cartridge.mapper_id c) (byte_at data 4) (byte_at data 5)).
Proof.
  intros (Hl & Hm & Hp). cbv zeta. unfold Cartridge.construct. fold (ines_magic data).
  destruct (Z.ltb_spec (Z.of_nat (length data)) 16); [ lia | ].
  rewrite Hm. cbn [negb].
  assert (E : forall r : bool * Cartridge.t M,
            fst r = true ->
            Cartridge.prg_banks (snd r) = byte_at data 4 ->
            Cartridge.chr_banks (snd r) = byte_at data 5 ->
            Cartridge.prg_rom (snd r)
              = slice data (prg_offset data) (byte_at data 4 * 16384) ->
            let c := (let '(ok, c) := r in
               let c := Cartridge.set_valid ok c in
               if ok then Cartridge.set_mapper
                            (Some (make_mapper (Cartridge.mapper_id c) (Cartridge.prg_banks c)
                                     (Cartridge.chr_banks c))) c
               else c) in
            Cartridge.prg_banks c = byte_at data 4
            /\ Cartridge.chr_banks c = byte_at data 5
            /\ Cartridge.prg_rom c = slice data (prg_offset data) (byte_at data 4 * 16384)
            /\ Cartridge.mapper c
               = Some (make_mapper (Cartridge.mapper_id c) (byte_at data 4) (byte_at data 5))).
  { intros [ok c] Hok H1 H2 H3. cbn [fst snd] in *. subst ok. cbn.
    rewrite H1, H2. tauto. }
  destruct (_ =? 8); [ rewrite LoadFacts.load_nes2_ines | ];
    (apply E;
     [ rewrite LoadFacts.load_ines_ok; apply negb_true_iff, Z.ltb_ge; lia
     | apply (load_ines_fields data _ _ Hp) .. ]).
Qed.

End WithMapper.

Section Reset.
Context {M : Type} {MP : Mapper M} {ML : MapperLaws M}.

(** [Bus::reset] leaves the cartridge in its slot and starts the CPU at
    the vector it reads at [$FFFC]. *)
Lemma reset_run (s : Sys.t M) :
  let s' := exec BusClock.reset s in
  Sys.cartridge s' = Sys.cartridge s
  /\ CPUState.PC (Sys.cpu s')
     = Z.lor (u16 (Z.shiftl (eval (Bus.cpu_read 0xFFFD) s) 8))
             (eval (Bus.cpu_read 0xFFFC) s)
  /\ CPUState.SP (Sys.cpu s') = 0xFD
  /\ CPUState.P (Sys.cpu s') = 0x24
  /\ CPUState.cycles_remaining (Sys.cpu s') = 8
  /\ BusState.ram (Sys.bus s') = BusState.ram (Sys.bus s)
  /\ BusState.system_clock_counter (Sys.bus s') = 0
  /\ BusState.dma_transfer (Sys.bus s') = false.
Proof.
  cbv zeta. unfold BusClock.reset, BusClock.modb.
  rewrite !exec_bind, !exec_modify.
  assert (E : exec CPU.reset s =
              Sys.set_cpu
                {| CPUState.A := 0x00; CPUState.X := 0x00; CPUState.Y := 0x00;
                   CPUState.SP := 0xFD;
                   CPUState.PC := Z.lor (u16 (Z.shiftl (eval (Bus.cpu_read 0xFFFD) s) 8))
                                        (eval (Bus.cpu_read 0xFFFC) s);
                   CPUState.P := 0x24;
                   CPUState.total_cycles := CPUState.total_cycles (Sys.cpu s);
                   CPUState.cycles_remaining := 8;
                   CPUState.addr_abs := 0x0000; CPUState.addr_rel := 0x0000;
                   CPUState.opcode := CPUState.opcode (Sys.cpu s);
                   CPUState.fetched := 0x00 |} s).
  { unfold CPU.reset, CPU.read, CPU.modc.
    rewrite !exec_bind, !exec_modify.
    rewrite !(BusFacts.cpu_read_cart_space 0xFFFC) by lia.
    rewrite !(BusFacts.cpu_read_cart_space 0xFFFD) by lia.
    reflexivity. }
  rewrite E. cbn. tauto.
Qed.

End Reset.
End ImageFacts.
Section NromImage.
Import MapperFacts ImageFacts.

Lemma nrom_bus_read (data : list Z) (x : Sys.t Mapper000.t) (addr : Z) :
  image_loads data ->
  byte_at data 4 = 1 \/ byte_at data 4 = 2 ->
  Sys.cartridge x = Some (Cartridge.construct create_mapper_nrom data) ->
  0x8000 <= addr <= 0xFFFF ->
  Bus.cpu_read addr x
  = (byte_at data (prg_offset data + (addr - 0x8000) mod (byte_at data 4 * 16384)), x).
Proof.
  intros Hi Hpb Hc Ha.
  destruct (construct_fields create_mapper_nrom data Hi) as (E1 & E2 & E3 & E4).
  cbv zeta in E1, E2, E3, E4.
  assert (Ho : 0 <= prg_offset data)
    by (unfold prg_offset; destruct (Z.testbit _ _); lia).
  destruct Hi as (_ & _ & Hl).
  assert (Hn : Z.of_nat (length (Cartridge.prg_rom (Cartridge.construct create_mapper_nrom data)))
               = byte_at data 4 * 16384)
    by (rewrite E3; apply slice_length; lia).
  assert (Hne : Cartridge.is_empty
                  (Cartridge.prg_rom (Cartridge.construct create_mapper_nrom data)) = false).
  { destruct (Cartridge.prg_rom _); [ cbn in Hn; lia | reflexivity ]. }
  assert (Em : forall id pb cb, create_mapper_nrom id pb cb = Mapper000.create pb cb)
    by reflexivity.
  unfold Bus.cpu_read, Bus.cart_cpu_read. rewrite Hc.
  unfold Cartridge.cpu_read. rewrite E4, Hne. cbn [negb].
  cbn [m_cpu_read Mapper000_Mapper]. rewrite Em.
  rewrite nrom_cpu_read by assumption.
  rewrite <- (Em (Cartridge.mapper_id (Cartridge.construct create_mapper_nrom data))
                 (byte_at data 4) (byte_at data 5)).
  rewrite <- E4, BusFacts.cartridge_eta, <- Hc, BusFacts.sys_cartridge_eta.
  rewrite E3, byte_at_slice; [ reflexivity | exact Ho | ].
  apply Z.mod_pos_bound. lia.
Qed.

(** X11.  An accepted image for which [create_mapper] builds the NROM
    mapper (mapper 0, or a number without a class), with one or two PRG
    banks: after [load_rom] the CPU sees the PRG bytes of the file at
    [$8000-$FFFF], a single bank twice, reading them changes nothing,
    and the program counter holds the vector stored at [$FFFC]. *)
Theorem nrom_image_visible (data : list Z) (s : Sys.t Mapper000.t) :
  image_loads data ->
  byte_at data 4 = 1 \/ byte_at data 4 = 2 ->
  has_mapper_class
    (Cartridge.mapper_id (Cartridge.construct create_mapper_nrom data)) = false ->
  let s' := exec (Emulator.load_rom create_mapper_nrom data) s in
  let rom addr :=
    byte_at data (prg_offset data + (addr - 0x8000) mod (byte_at data 4 * 16384)) in
  (forall addr, 0x8000 <= addr <= 0xFFFF -> Bus.cpu_read addr s' = (rom addr, s'))
  /\ CPUState.PC (Sys.cpu s') = Z.lor (u16 (Z.shiftl (rom 0xFFFD) 8)) (rom 0xFFFC).
Proof.
  intros Hi Hpb _ s' rom.
  assert (Es : s' = exec BusClock.reset
                      (BusClock.insert_cartridge
                         (Cartridge.construct create_mapper_nrom data) s)).
  { unfold s', exec.
    rewrite (proj1 (LoadFacts.load_rom_helper create_mapper_nrom data s) Hi). reflexivity. }
  clearbody s'. subst s'.
  match goal with |- context [exec BusClock.reset ?x] => set (s1 := x) end.
  destruct (reset_run s1) as (Ec & Epc & _). cbv zeta in Ec, Epc.
  split.
  - intros addr Ha. apply nrom_bus_read; assumption.
  - rewrite Epc. unfold eval.
    rewrite !(nrom_bus_read data s1) by (assumption || reflexivity || lia).
    reflexivity.
Qed.

End NromImage.

Lemma nes2_loads_as_ines_witness :
  Cartridge.mapper_id (snd (Cartridge.load_nes2 nes2_header (@Cartridge.blank Mapper004.t)))
  = u8 (Z.lor (u8 (Z.shiftr (byte_at nes2_header 6) 4))
              (Z.shiftl (u8 (Z.shiftr (byte_at nes2_header 7) 4)) 4)).
Proof.
  refine (proj2 (nes2_loads_as_ines nes2_header Cartridge.blank _ _));
    vm_compute; discriminate.
Defined.

Lemma nrom_image_visible_witness :
  image_loads nrom_image
  /\ CPUState.PC (Sys.cpu (exec (Emulator.load_rom create_mapper_nrom nrom_image)
                             machine_nrom)) = 0x8034.
Proof.
  assert (H1 : image_loads nrom_image)
    by (repeat split; vm_compute; first [ discriminate | reflexivity ]).
  assert (H2 : byte_at nrom_image 4 = 1 \/ byte_at nrom_image 4 = 2)
    by (left; vm_compute; reflexivity).
  assert (H3 : has_mapper_class
                 (Cartridge.mapper_id (Cartridge.construct create_mapper_nrom nrom_image))
               = false) by (vm_compute; reflexivity).
  split; [ exact H1 | ].
  rewrite (proj2 (nrom_image_visible nrom_image machine_nrom H1 H2 H3)).
  vm_compute. reflexivity.
Defined.
(** ** The CPU memory map *)

Section MemoryMap.
Context {M : Type} {MP : Mapper M} {ML : MapperLaws M}.
Import MapperFacts.

(** X12.  The 2 KiB of internal RAM answer at [$0000-$1FFF], four times
    over: after a write of [d] at [a], a read at [a'] returns [d] when
    [a'] is [a] modulo [$0800] and what it returned before otherwise;
    the read changes nothing. *)
Theorem ram_mirrors (s : Sys.t M) (a a' d : Z) :
  Z.of_nat (length (BusState.ram (Sys.bus s))) = 2048 ->
  0 <= a <= 0x1FFF -> 0 <= a' <= 0x1FFF ->
  let s1 := exec (Bus.cpu_write a d) s in
  Bus.cpu_read a' s1
  = (if a' mod 2048 =? a mod 2048 then d else eval (Bus.cpu_read a') s, s1).
Proof.
  intros Hl Ha Ha' s1. unfold s1, exec, eval.
  rewrite BusFacts.cpu_write_ram by exact Ha.
  rewrite !BusFacts.cpu_read_ram by exact Ha'.
  cbn [fst snd Sys.bus Sys.set_bus BusState.ram BusState.set_ram].
  change 0x07FF with (Z.ones 11). rewrite !Z.land_ones by lia.
  change (2 ^ 11) with 2048.
  pose proof (Z.mod_pos_bound a 2048 ltac:(lia)).
  pose proof (Z.mod_pos_bound a' 2048 ltac:(lia)).
  destruct (Z.eqb_spec (a' mod 2048) (a mod 2048)) as [->|Hne].
  - rewrite byte_at_set_eq by lia. reflexivity.
  - rewrite byte_at_set_ne by lia. reflexivity.
Qed.

(** X13.  Nothing answers at [$4018-$5FFF], and the APU has no readable
    register below [$4015]: a read there returns 0 and changes nothing,
    and a write to [$4018-$5FFF] is dropped. *)
Theorem unmapped_reads_zero (s : Sys.t M) (a : Z) :
  0x4000 <= a <= 0x4014 \/ 0x4018 <= a < 0x6000 ->
  Bus.cpu_read a s = (0, s)
  /\ (0x4018 <= a -> forall d, Bus.cpu_write a d s = (tt, s)).
Proof.
  intros Ha. split.
  - unfold Bus.cpu_read. rewrite BusFacts.cart_cpu_read_low by lia.
    rewrite (off_window 0 0x1FFF) by lia. rewrite (off_window 0x2000 0x3FFF) by lia.
    destruct Ha as [Ha | Ha].
    + rewrite in_window by lia. unfold APU.cpu_read.
      destruct (Z.eqb_spec a 0x4015); [ lia | ].
      destruct s. reflexivity.
    + rewrite off_window by lia.
      destruct (Z.eqb_spec a 0x4016); [ lia | ].
      destruct (Z.eqb_spec a 0x4017); [ lia | ]. reflexivity.
  - intros Hh d. unfold Bus.cpu_write. rewrite BusFacts.cart_cpu_write_low by lia.
    rewrite (off_window 0 0x1FFF) by lia. rewrite (off_window 0x2000 0x3FFF) by lia.
    rewrite (off_window 0x4000 0x4013) by lia.
    destruct (Z.eqb_spec a 0x4015); [ lia | ].
    destruct (Z.eqb_spec a 0x4017); [ lia | ].
    destruct (Z.eqb_spec a 0x4014); [ lia | ].
    destruct (Z.eqb_spec a 0x4016); [ lia | ]. reflexivity.
Qed.

End MemoryMap.

Lemma ram_mirrors_witness :
  Bus.cpu_read 0x1801 (exec (Bus.cpu_write 0x0001 0x42) machine0)
  = (if 0x1801 mod 2048 =? 0x0001 mod 2048 then 0x42
     else eval (Bus.cpu_read 0x1801) machine0,
     exec (Bus.cpu_write 0x0001 0x42) machine0).
Proof.
  refine (ram_mirrors machine0 0x0001 0x1801 0x42 _ _ _);
    first [ lia | vm_compute; reflexivity ].
Defined.

Lemma unmapped_reads_zero_witness :
  Bus.cpu_read 0x5000 machine0 = (0, machine0).
Proof.
  refine (proj1 (unmapped_reads_zero machine0 0x5000 _)). right. lia.
Defined.
(** ** MMC3 banking *)

Module Mmc3Facts.
Import MapperFacts Mapper004.

Lemma land_1FFF (x : Z) : Z.land x 0x1FFF = x mod 8192.
Proof. change 0x1FFF with (Z.ones 13). apply Z.land_ones. lia. Qed.

(** What [update_banks] leaves alone, and the banks it sets. *)
Lemma update_banks_fields (m : t) :
  prg_banks (update_banks m) = prg_banks m
  /\ chr_banks (update_banks m) = chr_banks m
  /\ registers (update_banks m) = registers m
  /\ prg_ram (update_banks m) = prg_ram m
  /\ target_register (update_banks m) = target_register m
  /\ prg_bank_mode (update_banks m) = prg_bank_mode m
  /\ byte_at (prg_bank (update_banks m)) 3 = u8 (prg_banks m * 2 - 1)
  /\ byte_at (prg_bank (update_banks m)) (if prg_bank_mode m then 2 else 0)
     = byte_at (registers m) 6.
Proof.
  unfold update_banks. cbv zeta.
  destruct (chr_inversion m); cbn [negb prg_bank_mode set_chr_bank prg_banks];
    destruct (prg_bank_mode m) eqn:Em; cbn; rewrite ?Em; repeat split; reflexivity.
Qed.

Lemma update_banks_banked (pb : Z) (m : t) :
  prg_banks m = pb -> Z.of_nat (length (registers m)) = 8 ->
  Z.of_nat (length (prg_ram m)) = 8192 ->
  mmc3_banked pb (update_banks m).
Proof.
  intros E Hr Hp. destruct (update_banks_fields m) as (F1 & _ & F3 & F4 & _ & _ & F5 & _).
  unfold mmc3_banked. rewrite F1, F3, F4, F5, E. tauto.
Qed.

Lemma created_banked (pb cb : Z) : mmc3_banked pb (create pb cb).
Proof.
  unfold create, reset. apply update_banks_banked; cbn; try reflexivity.
Qed.

Lemma reachable_banked (pb cb : Z) (m : t) :
  mapper_reachable (create pb cb) m -> mmc3_banked pb m.
Proof.
  induction 1 as [ | a prg m _ IH | a d prg m _ IH | a chr m _ IH | a d chr m _ IH
                 | m _ IH | m _ IH | m _ IH ]; cbn [m_cpu_read m_cpu_write m_ppu_read
                 m_ppu_write m_reset m_irq_clear m_scanline Mapper004_Mapper].
  - apply created_banked.
  - rewrite Mapper004Facts.cpu_read_state. exact IH.
  - destruct IH as (E & Hr & Hp & H3).
    unfold cpu_write.
    destruct (_ && _); [ cbn; unfold mmc3_banked; cbn; rewrite byte_set_length; tauto | ].
    destruct (_ && _).
    { destruct (nonzero _); cbn [snd]; apply update_banks_banked; cbn;
        rewrite ?byte_set_length; assumption. }
    repeat (destruct (_ && _); [ destruct (nonzero _); cbn; unfold mmc3_banked; tauto | ]).
    cbn. unfold mmc3_banked. tauto.
  - unfold ppu_read. destruct (_ && _); exact IH.
  - unfold ppu_write. destruct (_ && _); exact IH.
  - destruct IH as (E & Hr & Hp & H3).
    unfold reset. apply update_banks_banked; cbn; try assumption. reflexivity.
  - exact IH.
  - unfold scanline. cbv zeta.
    repeat match goal with |- context [if ?c then _ else _] => destruct c end; exact IH.
Qed.

(** The last 8 KiB of the ROM at [$E000-$FFFF]. *)
Lemma last_bank (pb : Z) (m : t) (addr : Z) :
  1 <= pb <= 128 -> mmc3_banked pb m -> 0xE000 <= addr <= 0xFFFF ->
  prg_mapped_addr m addr = pb * 16384 - 8192 + (addr - 0xE000).
Proof.
  intros Hpb (E & _ & _ & H3) Ha. unfold prg_mapped_addr. cbv zeta.
  assert (Ei : (addr - 0x8000) / 0x2000 = 3) by (Z.div_mod_to_equations; lia).
  rewrite Ei. change (u8 3) with 3. rewrite H3, E, land_1FFF.
  rewrite (u8_id (pb * 2 - 1)) by lia.
  rewrite (Z.mod_small (pb * 2 - 1)) by lia.
  rewrite (u8_id (pb * 2 - 1)) by lia.
  Z.div_mod_to_equations. lia.
Qed.

(** Register 6 through the select and data ports. *)
Lemma select_r6 (pb : Z) (m : t) (prg : list Z) (a_sel a_dat sel b : Z) :
  mmc3_banked pb m ->
  0x8000 <= a_sel <= 0x9FFF -> Z.land a_sel 0x0001 = 0 ->
  0x8000 <= a_dat <= 0x9FFF -> Z.land a_dat 0x0001 = 1 ->
  Z.land sel 0x07 = 6 ->
  let m2 := snd (cpu_write a_dat b prg (snd (cpu_write a_sel sel prg m))) in
  prg_banks m2 = pb
  /\ byte_at (prg_bank m2) (if Z.testbit sel 6 then 2 else 0) = b.
Proof.
  intros (E & Hr & _ & _) Hs Hs0 Hd Hd1 H6. cbv zeta.
  assert (W1 : snd (cpu_write a_sel sel prg m)
               = update_banks
                   (set_chr_inversion (nonzero (Z.land sel 0x80))
                      (set_prg_bank_mode (nonzero (Z.land sel 0x40))
                         (set_target_register (Z.land sel 0x07) m)))).
  { unfold cpu_write. rewrite off_window by lia. rewrite in_window by lia.
    rewrite Hs0. reflexivity. }
  rewrite W1. clear W1.
  match goal with |- context [update_banks ?x] => set (m0 := x) end.
  destruct (update_banks_fields m0) as (F1 & _ & F3 & _ & F5 & F6 & _).
  assert (G1 : prg_banks (update_banks m0) = pb) by (rewrite F1; exact E).
  assert (G3 : Z.of_nat (length (registers (update_banks m0))) = 8)
    by (rewrite F3; exact Hr).
  assert (G5 : target_register (update_banks m0) = 6) by (rewrite F5; exact H6).
  assert (G6 : prg_bank_mode (update_banks m0) = Z.testbit sel 6).
  { rewrite F6. unfold m0. cbn. apply (nonzero_land_pow2 sel 6). lia. }
  clear F1 F3 F5 F6. clearbody m0. revert G1 G3 G5 G6.
  generalize (update_banks m0). clear m0. intros m1 G1 G3 G5 G6.
  assert (W2 : snd (cpu_write a_dat b prg m1)
               = update_banks
                   (set_registers (byte_set (registers m1) (target_register m1) b) m1)).
  { unfold cpu_write. rewrite off_window by lia. rewrite in_window by lia.
    rewrite Hd1. reflexivity. }
  rewrite W2. clear W2.
  match goal with |- context [update_banks ?x] => set (m0 := x) end.
  destruct (update_banks_fields m0) as (F1 & _ & _ & _ & _ & _ & _ & F8).
  rewrite F1. unfold m0 in *. cbn [prg_banks set_registers prg_bank_mode registers] in *.
  rewrite G6 in F8. rewrite F8, G5, byte_at_set_eq by lia. tauto.
Qed.

End Mmc3Facts.

Section Mmc3Properties.
Import MapperFacts Mmc3Facts.

(** X14.  MMC3 PRG banking, for a ROM of up to 128 banks of 16 KiB.  In
    every state of the mapper [$E000-$FFFF], where the interrupt vectors
    are, reads the last 8 KiB of the ROM.  Selecting register 6 through
    the even port and writing the byte [b] to the odd port maps the
    8 KiB bank [b] modulo the number of 8 KiB banks at [$8000-$9FFF], or
    at [$C000-$DFFF] when bit 6 of the select byte is set. *)
Theorem mmc3_prg_banking (pb cb : Z) (m : Mapper004.t) (prg : list Z) :
  1 <= pb <= 128 ->
  mapper_reachable (Mapper004.create pb cb) m ->
  (forall addr, 0xE000 <= addr <= 0xFFFF ->
     Mapper004.cpu_read addr prg m
     = (Some (byte_at prg (pb * 16384 - 8192 + (addr - 0xE000))), m))
  /\ (forall a_sel a_dat sel b addr,
        0x8000 <= a_sel <= 0x9FFF -> Z.land a_sel 0x0001 = 0 ->
        0x8000 <= a_dat <= 0x9FFF -> Z.land a_dat 0x0001 = 1 ->
        Z.land sel 0x07 = 6 -> 0 <= b < 256 ->
        (if Z.testbit sel 6 then 0xC000 <= addr <= 0xDFFF else 0x8000 <= addr <= 0x9FFF) ->
        let m2 := snd (Mapper004.cpu_write a_dat b prg
                         (snd (Mapper004.cpu_write a_sel sel prg m))) in
        Mapper004.cpu_read addr prg m2
        = (Some (byte_at prg ((b mod (2 * pb)) * 8192 + addr mod 8192)), m2)).
Proof.
  intros Hpb Hm. pose proof (reachable_banked pb cb m Hm) as Hb. split.
  - intros addr Ha. unfold Mapper004.cpu_read.
    rewrite off_window by lia. rewrite in_window by lia.
    rewrite (last_bank pb) by assumption. reflexivity.
  - intros a_sel a_dat sel b addr Hs Hs0 Hd Hd1 H6 Hbyte Hw m2.
    destruct (select_r6 pb m prg a_sel a_dat sel b Hb Hs Hs0 Hd Hd1 H6) as [E Hbank].
    fold m2 in E, Hbank. clearbody m2.
    assert (Ha : 0x8000 <= addr <= 0xFFFF) by (destruct (Z.testbit sel 6); lia).
    unfold Mapper004.cpu_read.
    rewrite off_window by lia. rewrite in_window by lia.
    unfold Mapper004.prg_mapped_addr. cbv zeta.
    assert (Ei : (addr - 0x8000) / 0x2000 = if Z.testbit sel 6 then 2 else 0)
      by (destruct (Z.testbit sel 6); Z.div_mod_to_equations; lia).
    rewrite Ei.
    rewrite (u8_id (if Z.testbit sel 6 then 2 else 0)) by (destruct (Z.testbit sel 6); lia).
    rewrite Hbank, E, land_1FFF. replace (pb * 2) with (2 * pb) by lia.
    pose proof (Z.mod_pos_bound b (2 * pb) ltac:(lia)).
    pose proof (Z.mod_le b (2 * pb) ltac:(lia) ltac:(lia)).
    rewrite u8_id by lia. reflexivity.
Qed.

(** X15.  MMC3 pattern reads on a CHR ROM of the declared size (the
    loader cuts the store of a truncated image; a read can leave the
    store then): whatever the bank registers hold, the selected 1 KiB
    bank is reduced modulo the number of 1 KiB banks and the read returns
    a byte stored in the CHR ROM; a PPU write to the pattern tables is
    refused and changes nothing. *)
Theorem mmc3_chr_read_in_bounds (m : Mapper004.t) (chr : list Z) (addr : Z) :
  0 < Mapper004.chr_banks m ->
  Z.of_nat (length chr) = Mapper004.chr_banks m * 8192 ->
  0 <= addr <= 0x1FFF ->
  (exists i v,
     0 <= i < Z.of_nat (length chr)
     /\ chr !! Z.to_nat i = Some v
     /\ Mapper004.ppu_read addr chr m = (Some v, m))
  /\ (forall d, Mapper004.ppu_write addr d chr m = (false, (m, chr))).
Proof.
  intros Hcb Hlen Ha. split.
  - unfold Mapper004.ppu_read. rewrite in_window by lia. cbv zeta.
    destruct (Z.ltb_spec 0 (Mapper004.chr_banks m)); [ | lia ].
    match goal with |- context [byte_at chr ?x] => set (i := x) end.
    assert (Hi : 0 <= i < Z.of_nat (length chr)).
    { unfold i.
      match goal with |- context [?b mod (Mapper004.chr_banks m * 8)] =>
        pose proof (Z.mod_pos_bound b (Mapper004.chr_banks m * 8) ltac:(lia)) as Hm;
        set (k := b mod (Mapper004.chr_banks m * 8)) in * end.
      assert (Hu : 0 <= u8 k <= k).
      { unfold u8. pose proof (Z.mod_pos_bound k 256 ltac:(lia)).
        pose proof (Z.mod_le k 256 ltac:(lia) ltac:(lia)). lia. }
      pose proof (Z.mod_pos_bound addr 0x0400 ltac:(lia)). nia. }
    destruct (lookup_lt_is_Some_2 chr (Z.to_nat i)) as [v Hv]; [ lia | ].
    exists i, v. split; [ exact Hi | split; [ exact Hv | ] ].
    rewrite (byte_at_lookup chr i v Hv). reflexivity.
  - intros d. unfold Mapper004.ppu_write. rewrite in_window by lia.
    destruct (Z.eqb_spec (Mapper004.chr_banks m) 0); [ lia | ]. reflexivity.
Qed.

End Mmc3Properties.

Lemma mmc3_prg_banking_witness :
  Mapper004.cpu_read 0xFFFC prg_rom_32k mmc3_32k
  = (Some (byte_at prg_rom_32k (2 * 16384 - 8192 + (0xFFFC - 0xE000))), mmc3_32k).
Proof.
  refine (proj1 (mmc3_prg_banking 2 1 mmc3_32k prg_rom_32k _ (mr_created _)) 0xFFFC _);
    lia.
Defined.

Lemma mmc3_chr_read_in_bounds_witness :
  (exists i v,
     0 <= i < Z.of_nat (length (filled 8192 0))
     /\ filled 8192 0 !! Z.to_nat i = Some v
     /\ Mapper004.ppu_read 0x1234 (filled 8192 0) mmc3_32k = (Some v, mmc3_32k))
  /\ Mapper004.ppu_write 0x1234 0xAB (filled 8192 0) mmc3_32k
     = (false, (mmc3_32k, filled 8192 0)).
Proof.
  assert (H1 : 0 < Mapper004.chr_banks mmc3_32k) by (vm_compute; reflexivity).
  assert (H2 : Z.of_nat (length (filled 8192 0)) = Mapper004.chr_banks mmc3_32k * 8192)
    by (vm_compute; reflexivity).
  assert (H3 : 0 <= 0x1234 <= 0x1FFF) by lia.
  destruct (mmc3_chr_read_in_bounds mmc3_32k (filled 8192 0) 0x1234 H1 H2 H3) as [R W].
  split; [ exact R | exact (W 0xAB) ].
Defined.

Section Mmc3PrgRam.
Import MapperFacts Mmc3Facts.

(** X16.  The 8 KiB of MMC3 work RAM at [$6000-$7FFF], through the bus:
    on a machine whose cartridge has PRG ROM and an MMC3 in any state it
    can reach, a byte written there is read back at the same address,
    every other address of the window reads as before, and the write
    touches nothing but the cartridge. *)
Theorem mmc3_prg_ram_round_trip (s : Sys.t Mapper004.t) (c : Cartridge.t Mapper004.t)
    (m : Mapper004.t) (pb cb a d : Z) :
  Sys.cartridge s = Some c ->
  Cartridge.mapper c = Some m ->
  Cartridge.is_empty (Cartridge.prg_rom c) = false ->
  mapper_reachable (Mapper004.create pb cb) m ->
  0x6000 <= a <= 0x7FFF ->
  let s1 := exec (Bus.cpu_write a d) s in
  Bus.cpu_read a s1 = (d, s1)
  /\ (forall a', 0x6000 <= a' <= 0x7FFF -> a' <> a ->
        eval (Bus.cpu_read a') s1 = eval (Bus.cpu_read a') s)
  /\ Sys.bus s1 = Sys.bus s /\ Sys.cpu s1 = Sys.cpu s
  /\ Sys.ppu s1 = Sys.ppu s /\ Sys.apu s1 = Sys.apu s.
Proof.
  intros Hc Hm He Hr Ha s1.
  destruct (reachable_banked pb cb m Hr) as (_ & _ & Hl & _).
  assert (W : s1 = Sys.set_cartridge
                     (Some (Cartridge.set_mapper
                              (Some (Mapper004.set_prg_ram
                                       (byte_set (Mapper004.prg_ram m) (a mod 8192) d) m)) c)) s).
  { unfold s1, exec, Bus.cpu_write, Bus.cart_cpu_write. rewrite Hc.
    unfold Cartridge.cpu_write. rewrite Hm, He.
    cbn [negb m_cpu_write Mapper004_Mapper]. unfold Mapper004.cpu_write.
    rewrite in_window by lia. rewrite land_1FFF. reflexivity. }
  clearbody s1. subst s1.
  set (m1 := Mapper004.set_prg_ram (byte_set (Mapper004.prg_ram m) (a mod 8192) d) m).
  assert (R : forall a' (x : Mapper004.t) (t : Sys.t Mapper004.t),
             0x6000 <= a' <= 0x7FFF ->
             Sys.cartridge t = Some (Cartridge.set_mapper (Some x) c) ->
             Bus.cpu_read a' t
             = (byte_at (Mapper004.prg_ram x) (a' mod 8192),
                Sys.set_cartridge (Some (Cartridge.set_mapper (Some x) c)) t)).
  { intros a' x t Ha' Ht. unfold Bus.cpu_read, Bus.cart_cpu_read. rewrite Ht.
    unfold Cartridge.cpu_read. cbn [Cartridge.mapper Cartridge.set_mapper Cartridge.prg_rom].
    rewrite He. cbn [negb m_cpu_read Mapper004_Mapper]. unfold Mapper004.cpu_read.
    rewrite in_window by lia. rewrite land_1FFF.
    cbn [Cartridge.set_mapper Cartridge.prg_rom Cartridge.chr_rom]. reflexivity. }
  pose proof (Z.mod_pos_bound a 8192 ltac:(lia)) as Hb.
  split; [ | split ].
  - rewrite (R a m1) by first [ exact Ha | reflexivity ]. unfold m1.
    cbn [Mapper004.prg_ram Mapper004.set_prg_ram].
    rewrite byte_at_set_eq by lia. destruct s; reflexivity.
  - intros a' Ha' Hne. unfold eval. rewrite (R a' m1) by first [ exact Ha' | reflexivity ].
    assert (Ec : Cartridge.set_mapper (Some m) c = c).
    { destruct c; cbn in Hm |- *. rewrite Hm. reflexivity. }
    rewrite (R a' m s Ha') by (rewrite Ec; exact Hc).
    unfold m1. cbn [fst Mapper004.prg_ram Mapper004.set_prg_ram].
    apply byte_at_set_ne. Z.div_mod_to_equations. lia.
  - destruct s; cbn; tauto.
Qed.

End Mmc3PrgRam.

Lemma mmc3_prg_ram_round_trip_witness :
  let s := BusClock.insert_cartridge cartridge_mmc3 machine0 in
  Bus.cpu_read 0x6010 (exec (Bus.cpu_write 0x6010 0x5A) s)
  = (0x5A, exec (Bus.cpu_write 0x6010 0x5A) s).
Proof.
  refine (proj1 (mmc3_prg_ram_round_trip
                   (BusClock.insert_cartridge cartridge_mmc3 machine0)
                   cartridge_mmc3 mmc3_32k 2 1
                   0x6010 0x5A _ _ _ (mr_created _) _));
    first [ lia | reflexivity ].
Defined.
(** ** More of the CPU *)

Module CpuOpFacts.
Import CPU Mmc1Facts.
Section WithMapper.
Context {M : Type} {MP : Mapper M} {ML : MapperLaws M}.
Local Abbreviation System := (Sys.t M).
Local Open Scope st_scope.

Lemma sbc_result (s : System) :
  let a := CPUState.A (Sys.cpu s) in
  let m := eval fetch s in
  let value := Z.lxor m 0x00FF in
  let p := CPUState.P (Sys.cpu s) in
  let temp := u16 (a + value + b2z (has_flag FlagC p)) in
  let s' := exec op_SBC s in
  let p' := CPUState.P (Sys.cpu s') in
  CPUState.A (Sys.cpu s') = Z.land temp 0xFF
  /\ has_flag FlagC p' = nonzero (Z.land temp 0xFF00)
  /\ has_flag FlagZ p' = (Z.land temp 0x00FF =? 0)
  /\ has_flag FlagV p' =
       nonzero (Z.land (Z.land (Z.lxor temp a) (Z.lxor temp value)) 0x0080)
  /\ has_flag FlagN p' = nonzero (Z.land temp 0x80).
Proof.
  destruct (CPUFacts.fetch_cpu s) as [EA EP].
  unfold op_SBC. cbv zeta.
  rewrite !exec_bind, !CPUFacts.exec_set_flag.
  cbn [exec eval getc gets get_flag modc modify ret fst snd Sys.cpu Sys.set_cpu
       CPUState.A CPUState.set_A CPUState.P CPUState.set_P].
  fold (exec fetch s). fold (eval fetch s).
  rewrite EA, EP.
  repeat split.
  - rewrite !CPUFacts.has_with_flag_ne by discriminate. apply CPUFacts.has_with_flag_eq.
  - rewrite !CPUFacts.has_with_flag_ne by discriminate. apply CPUFacts.has_with_flag_eq.
  - rewrite !CPUFacts.has_with_flag_ne by discriminate. apply CPUFacts.has_with_flag_eq.
  - apply CPUFacts.has_with_flag_eq.
Qed.

(** [fetch] touches no register but [fetched]. *)
Lemma fetch_regs (s : System) :
  exists v, Sys.cpu (exec fetch s) = CPUState.set_fetched v (Sys.cpu s).
Proof.
  unfold fetch. rewrite !exec_bind.
  change (exec (getc CPUState.opcode) s) with s.
  change (eval (getc CPUState.opcode) s) with (CPUState.opcode (Sys.cpu s)).
  destruct (negb (is_IMP (CPUState.opcode (Sys.cpu s)))).
  - rewrite !exec_bind.
    change (exec (getc CPUState.addr_abs) s) with s.
    cbn [exec getc gets modc modify snd Sys.cpu Sys.set_cpu].
    fold (exec (read (eval (getc CPUState.addr_abs) s)) s).
    rewrite CPUFacts.read_cpu. eexists. reflexivity.
  - exists (CPUState.fetched (Sys.cpu s)). cbn. destruct (Sys.cpu s). reflexivity.
Qed.

Lemma compare_run (r m : Z) (s : System) :
  let p' := CPUState.P (Sys.cpu (exec (compare r m) s)) in
  Sys.cpu (exec (compare r m) s) = CPUState.set_P p' (Sys.cpu s)
  /\ has_flag FlagC p' = (m <=? r)
  /\ has_flag FlagZ p' = (Z.land (u16 (r - m)) 0x00FF =? 0x0000)
  /\ has_flag FlagN p' = nonzero (Z.land (u16 (r - m)) 0x0080).
Proof.
  unfold compare. cbv zeta. rewrite !exec_bind, !CPUFacts.exec_set_flag.
  cbn [Sys.cpu Sys.set_cpu CPUState.P CPUState.set_P].
  repeat split.
  - rewrite !CPUFacts.has_with_flag_ne by discriminate. apply CPUFacts.has_with_flag_eq.
  - rewrite !CPUFacts.has_with_flag_ne by discriminate. apply CPUFacts.has_with_flag_eq.
  - apply CPUFacts.has_with_flag_eq.
Qed.

Lemma exec_modc (f : CPUState.t -> CPUState.t) (s : System) :
  exec (modc f) s = Sys.set_cpu (f (Sys.cpu s)) s.
Proof. reflexivity. Qed.

Lemma exec_getc {A : Type} (f : CPUState.t -> A) (s : System) : exec (getc f) s = s.
Proof. reflexivity. Qed.

Lemma eval_getc {A : Type} (f : CPUState.t -> A) (s : System) :
  eval (getc f) s = f (Sys.cpu s).
Proof. reflexivity. Qed.

Lemma brk_run (s : System) :
  0 <= CPUState.SP (Sys.cpu s) < 256 -> exec op_BRK s = brk_entered s.
Proof.
  intros H. unfold op_BRK, push16.
  rewrite (exec_bind inc_PC), (exec_bind (set_flag FlagI true)).
  set (s0 := exec (set_flag FlagI true) (exec inc_PC s)).
  assert (H0 : 0 <= CPUState.SP (Sys.cpu s0) < 256) by exact H.
  rewrite !exec_bind, exec_ret.
  rewrite !exec_getc, !eval_getc.
  rewrite (CPUFacts.exec_push _ s0) by exact H0.
  rewrite (CPUFacts.exec_push _ (pushed _ s0)) by apply u8_range.
  rewrite ?CPUFacts.exec_set_flag, ?exec_getc, ?eval_getc.
  rewrite CPUFacts.exec_push by apply u8_range.
  rewrite ?CPUFacts.exec_set_flag.
  rewrite !CPUFacts.exec_read_vector by lia.
  rewrite exec_modc.
  unfold read.
  repeat match goal with
  | |- context [eval (Bus.cpu_read ?a) ?x] =>
      lazymatch x with
      | s => fail
      | _ => rewrite (BusFacts.cpu_read_cart_space_value a s x) by (reflexivity || lia)
      end
  end.
  reflexivity.
Qed.

(** Two bytes pushed, two bytes pulled. *)
Lemma push16_run (d : Z) (s : System) :
  0 <= CPUState.SP (Sys.cpu s) < 256 ->
  exec (push16 d) s
  = pushed (Z.land d 0xFF) (pushed (Z.land (Z.shiftr d 8) 0xFF) s).
Proof.
  intros H. unfold push16. rewrite exec_bind.
  rewrite (CPUFacts.exec_push _ s) by exact H.
  rewrite CPUFacts.exec_push by (cbn; apply u8_range). reflexivity.
Qed.

Lemma pop16_run (s : System) :
  0 <= CPUState.SP (Sys.cpu s) < 256 ->
  let sp := CPUState.SP (Sys.cpu s) in
  pop16 s
  = (Z.lor (u16 (Z.shiftl (stack_byte s (u8 (u8 (sp + 1) + 1))) 8))
           (stack_byte s (u8 (sp + 1))),
     Sys.set_cpu (CPUState.set_SP (u8 (u8 (sp + 1) + 1)) (Sys.cpu s)) s).
Proof.
  intros H sp. unfold pop16, bind. rewrite CPUFacts.pop_run by exact H.
  rewrite CPUFacts.pop_run by (cbn; apply u8_range).
  cbn [ret Sys.cpu Sys.set_cpu CPUState.SP CPUState.set_SP].
  unfold stack_byte. destruct s as [c b pp a ca]. destruct c. reflexivity.
Qed.

Lemma u8_inc2_dec2 (sp : Z) : 0 <= sp < 256 -> u8 (u8 (u8 (u8 (sp - 1) - 1) + 1) + 1) = sp.
Proof. intros H. unfold u8. Z.div_mod_to_equations. lia. Qed.

Lemma u8_inc_dec2 (sp : Z) : 0 <= sp < 256 -> u8 (u8 (u8 (sp - 1) - 1) + 1) = u8 (sp - 1).
Proof. intros H. unfold u8. Z.div_mod_to_equations. lia. Qed.

Lemma rti_run (s : System) :
  0 <= CPUState.SP (Sys.cpu s) < 256 ->
  let sp := CPUState.SP (Sys.cpu s) in
  let c' := Sys.cpu (exec op_RTI s) in
  CPUState.P c' = with_flag FlagU false (with_flag FlagB false (stack_byte s (u8 (sp + 1))))
  /\ CPUState.PC c'
     = Z.lor (u16 (Z.shiftl (stack_byte s (u8 (u8 (u8 (sp + 1) + 1) + 1))) 8))
             (stack_byte s (u8 (u8 (sp + 1) + 1)))
  /\ CPUState.SP c' = u8 (u8 (u8 (sp + 1) + 1) + 1).
Proof.
  intros H sp c'. unfold c', op_RTI.
  rewrite (exec_bind pop). rewrite CPUFacts.eval_pop, CPUFacts.exec_pop by exact H.
  fold sp. set (s1 := Sys.set_cpu (CPUState.set_SP (u8 (sp + 1)) (Sys.cpu s)) s).
  rewrite !exec_bind, exec_ret, !exec_modc, !CPUFacts.exec_set_flag.
  match goal with |- context [eval pop16 ?x] => set (s2 := x) end.
  assert (H2 : 0 <= CPUState.SP (Sys.cpu s2) < 256) by (cbn; apply u8_range).
  unfold eval, exec. rewrite (pop16_run s2 H2). cbv zeta.
  cbn [fst snd Sys.cpu Sys.set_cpu CPUState.PC CPUState.set_PC CPUState.P CPUState.set_P
       CPUState.SP CPUState.set_SP].
  repeat split.
Qed.

(** A 16-bit word is the join of its two stacked bytes. *)
Lemma word_join (x : Z) :
  0 <= x < 65536 ->
  Z.lor (u16 (Z.shiftl (Z.land (Z.shiftr x 8) 0xFF) 8)) (Z.land x 0xFF) = x.
Proof.
  intros H. apply Z.bits_inj'. intros i Hi.
  rewrite Z.lor_spec, u16_bits, Z.shiftl_spec, !Z.land_spec by lia.
  change 0xFF with (Z.ones 8).
  destruct (Z.ltb_spec i 8).
  - rewrite !(Z.testbit_neg_r _ (i - 8)) by lia.
    rewrite (Z.ones_spec_low 8 i) by lia.
    destruct (i <? 16); cbn; rewrite ?andb_true_r; reflexivity.
  - rewrite (Z.ones_spec_high 8 i) by lia. rewrite andb_false_r, orb_false_r.
    rewrite Z.shiftr_spec by lia. replace (i - 8 + 8) with i by lia.
    destruct (Z.ltb_spec i 16).
    + rewrite (Z.ones_spec_low 8 (i - 8)) by lia. cbn. rewrite andb_true_r. reflexivity.
    + cbn. symmetry. apply (Z.bits_above_log2 x i); [ lia | ].
      destruct (Z.eq_dec x 0) as [-> | Hx]; [ cbn; lia | ].
      apply Z.log2_lt_pow2; [ lia | ].
      apply Z.lt_le_trans with (2 ^ 16); [ lia | apply Z.pow_le_mono_r; lia ].
Qed.

End WithMapper.

Lemma cmp_agrees_all (r m : Z) :
  0 <= r < 256 -> 0 <= m < 256 -> cmp_agrees r m = true.
Proof.
  intros Hr Hm.
  pose (f := fun r => forallb (cmp_agrees r) (map Z.of_nat (seq 0 256))).
  assert (Hf : f r = true).
  { apply (forall_below 256 f); [ vm_compute; reflexivity | exact Hr ]. }
  exact (forall_below 256 _ Hf m Hm).
Qed.

Lemma sbc_agrees_all (a m : Z) (c : bool) :
  0 <= a < 256 -> 0 <= m < 256 -> sbc_agrees a m c = true.
Proof.
  intros Ha Hm.
  pose (f := fun a => forallb (fun m => sbc_agrees a m true && sbc_agrees a m false)
                        (map Z.of_nat (seq 0 256))).
  assert (Hf : f a = true).
  { apply (forall_below 256 f); [ vm_compute; reflexivity | exact Ha ]. }
  unfold f in Hf.
  pose proof (forall_below 256 _ Hf m Hm) as H. cbv beta in H.
  apply andb_prop in H. destruct c; tauto.
Qed.

End CpuOpFacts.

Module ClockFacts.
Import CPU CpuOpFacts.
Section WithMapper.
Context {M : Type} {MP : Mapper M} {ML : MapperLaws M}.
Local Abbreviation System := (Sys.t M).
Local Open Scope st_scope.

(** A bus read does not look at the CPU. *)
Lemma cpu_read_set_cpu (a : Z) (c : CPUState.t) (s : System) :
  Bus.cpu_read a (Sys.set_cpu c s)
  = (eval (Bus.cpu_read a) s, Sys.set_cpu c (exec (Bus.cpu_read a) s)).
Proof.
  unfold eval, exec, Bus.cpu_read, Bus.cart_cpu_read, Bus.controller_read.
  destruct s as [c0 b p ap ca].
  cbn [Sys.cartridge Sys.set_cpu Sys.bus Sys.ppu Sys.apu Sys.set_cartridge].
  destruct ca as [k|].
  - destruct (Cartridge.cpu_read a k) as [[d|] k']; [ reflexivity | ].
    cbn [Sys.cartridge Sys.set_cpu Sys.bus Sys.ppu Sys.apu Sys.set_cartridge].
    destruct ((0 <=? a) && (a <=? 8191)); [ reflexivity | ].
    destruct ((8192 <=? a) && (a <=? 16383)).
    { destruct (PPU.cpu_read _ _ _) as [d [pp cc]]. reflexivity. }
    destruct ((16384 <=? a) && (a <=? 16405)).
    { destruct (APU.cpu_read _ _) as [d aa]. reflexivity. }
    destruct (a =? 16406); [ reflexivity | ].
    destruct (a =? 16407); reflexivity.
  - destruct ((0 <=? a) && (a <=? 8191)); [ reflexivity | ].
    destruct ((8192 <=? a) && (a <=? 16383)).
    { destruct (PPU.cpu_read _ _ _) as [d [pp cc]]. reflexivity. }
    destruct ((16384 <=? a) && (a <=? 16405)).
    { destruct (APU.cpu_read _ _) as [d aa]. reflexivity. }
    destruct (a =? 16406); [ reflexivity | ].
    destruct (a =? 16407); reflexivity.
Qed.

Lemma exec_read_set_cpu (a : Z) (c : CPUState.t) (s : System) :
  exec (read a) (Sys.set_cpu c s) = Sys.set_cpu c (exec (read a) s).
Proof. unfold exec, read. rewrite cpu_read_set_cpu. reflexivity. Qed.

Lemma eval_read_set_cpu (a : Z) (c : CPUState.t) (s : System) :
  eval (read a) (Sys.set_cpu c s) = eval (read a) s.
Proof. unfold eval, read. rewrite cpu_read_set_cpu. reflexivity. Qed.

Lemma set_cpu_set_cpu (c c' : CPUState.t) (s : System) :
  Sys.set_cpu c (Sys.set_cpu c' s) = Sys.set_cpu c s.
Proof. reflexivity. Qed.

Lemma cpu_set_cpu (c : CPUState.t) (s : System) : Sys.cpu (Sys.set_cpu c s) = c.
Proof. reflexivity. Qed.

End WithMapper.

(** Rewriting a CPU computation into a register update over the state
    the bus reads left. *)
Ltac cpu_step :=
  first [ rewrite exec_bind | rewrite eval_bind | rewrite exec_ret | rewrite eval_ret
        | rewrite exec_modc | rewrite exec_getc | rewrite eval_getc
        | rewrite CPUFacts.exec_set_flag
        | rewrite exec_read_set_cpu | rewrite eval_read_set_cpu
        | rewrite CPUFacts.read_cpu
        | rewrite cpu_set_cpu | rewrite set_cpu_set_cpu ].

Section Instructions.
Context {M : Type} {MP : Mapper M} {ML : MapperLaws M}.
Local Abbreviation System := (Sys.t M).
Local Open Scope st_scope.

(** One [clock] that starts an instruction: the opcode fetch, the
    addressing mode, the operation, and the cycle count left. *)
Lemma clock_fetch (s : System) :
  CPUState.cycles_remaining (Sys.cpu s) = 0 ->
  let c := Sys.cpu s in
  let opc := eval (read (CPUState.PC c)) s in
  let i := instr opc in
  let s1 :=
    Sys.set_cpu
      (CPUState.set_cycles_remaining (cycles i)
         (CPUState.set_PC (u16 (CPUState.PC c + 1))
            (CPUState.set_P (with_flag FlagU true (CPUState.P c))
               (CPUState.set_opcode opc c))))
      (exec (read (CPUState.PC c)) s) in
  let e1 := eval (run_addrmode (addrmode i)) s1 in
  let s2 := exec (run_addrmode (addrmode i)) s1 in
  let e2 := eval (run_operate (operate i)) s2 in
  let s3 := exec (run_operate (operate i)) s2 in
  let c3 := Sys.cpu s3 in
  exec clock s
  = Sys.set_cpu
      (CPUState.set_total_cycles (u64 (CPUState.total_cycles c3 + 1))
         (CPUState.set_cycles_remaining
            (u8 (u8 (CPUState.cycles_remaining c3 + Z.land e1 e2) - 1))
            (CPUState.set_P (with_flag FlagU true (CPUState.P c3)) c3))) s3.
Proof.
  intros Hcr c opc i s1 e1 s2 e2 s3 c3. unfold clock.
  rewrite exec_bind, eval_getc, exec_getc, Hcr. cbn [Z.eqb].
  rewrite exec_bind. rewrite exec_bind. rewrite !exec_modc, !cpu_set_cpu.
  match goal with |- context [exec ?m s] => set (body := m) end.
  assert (Eb : exec body s
               = Sys.set_cpu (CPUState.set_P (with_flag FlagU true (CPUState.P c3)) 
                   (CPUState.set_cycles_remaining
                      (u8 (CPUState.cycles_remaining c3 + Z.land e1 e2)) c3)) s3).
  { unfold body. rewrite exec_bind, eval_getc, exec_getc. fold c.
    rewrite exec_bind. fold opc.
    rewrite exec_bind, exec_modc, CPUFacts.read_cpu. fold c.
    rewrite exec_bind, CPUFacts.exec_set_flag, cpu_set_cpu, set_cpu_set_cpu.
    unfold inc_PC at 1. rewrite exec_bind, exec_modc, cpu_set_cpu, set_cpu_set_cpu.
    cbv zeta. fold i. rewrite exec_bind, exec_modc, cpu_set_cpu, set_cpu_set_cpu.
    change (Sys.set_cpu _ (exec (read (CPUState.PC c)) s)) with s1.
    rewrite exec_bind. fold e1 s2. rewrite exec_bind. fold e2 s3.
    rewrite exec_bind, exec_modc, CPUFacts.exec_set_flag, cpu_set_cpu, set_cpu_set_cpu.
    fold c3. reflexivity. }
  rewrite Eb, !cpu_set_cpu, !set_cpu_set_cpu. reflexivity.
Qed.

(** A [clock] in the middle of an instruction only counts. *)
Lemma clock_idle (s : System) :
  CPUState.cycles_remaining (Sys.cpu s) <> 0 ->
  let c := Sys.cpu s in
  exec clock s
  = Sys.set_cpu
      (CPUState.set_total_cycles (u64 (CPUState.total_cycles c + 1))
         (CPUState.set_cycles_remaining (u8 (CPUState.cycles_remaining c - 1)) c)) s.
Proof.
  intros Hcr c. unfold clock.
  rewrite exec_bind, eval_getc, exec_getc.
  destruct (Z.eqb_spec (CPUState.cycles_remaining (Sys.cpu s)) 0) as [E | _]; [ contradiction | ].
  rewrite exec_bind, exec_ret. rewrite exec_bind, !exec_modc, !cpu_set_cpu, set_cpu_set_cpu.
  reflexivity.
Qed.

(** [REL]: the offset byte at [PC], sign-extended to 16 bits. *)
Lemma am_REL_run (x : System) :
  let c := Sys.cpu x in
  let off := eval (read (CPUState.PC c)) x in
  let c1 := CPUState.set_PC (u16 (CPUState.PC c + 1)) (CPUState.set_addr_rel off c) in
  eval am_REL x = 0
  /\ Sys.cpu (exec am_REL x)
     = (if nonzero (Z.land off 0x80)
        then CPUState.set_addr_rel (Z.lor off 0xFF00) c1 else c1).
Proof.
  intros c off c1. unfold am_REL, inc_PC. split.
  - repeat cpu_step. reflexivity.
  - rewrite exec_bind, eval_getc, exec_getc. fold c.
    rewrite exec_bind. fold off.
    rewrite exec_bind, exec_modc, CPUFacts.read_cpu. fold c.
    rewrite exec_bind, exec_modc, cpu_set_cpu.
    rewrite exec_bind, exec_modc, cpu_set_cpu, exec_ret, cpu_set_cpu.
    reflexivity.
Qed.

(** A branch on flag [f] having value [v]. *)
Lemma branch_on_run (f : Flags) (v : bool) (x : System) :
  let c := Sys.cpu x in
  let target := u16 (CPUState.PC c + CPUState.addr_rel c) in
  eval (branch_on f v) x = 0
  /\ Sys.cpu (exec (branch_on f v) x)
     = (if Bool.eqb (has_flag f (CPUState.P c)) v
        then CPUState.set_PC target
               (CPUState.set_cycles_remaining
                  (if Z.land target 0xFF00 =? Z.land (CPUState.PC c) 0xFF00
                   then u8 (CPUState.cycles_remaining c + 1)
                   else u8 (u8 (CPUState.cycles_remaining c + 1) + 1))
                  (CPUState.set_addr_abs target c))
        else c).
Proof.
  intros c target. unfold branch_on. split.
  - rewrite eval_bind, eval_bind, eval_ret. reflexivity.
  - rewrite exec_bind. unfold get_flag at 1 2. rewrite eval_getc, exec_getc. fold c.
    rewrite exec_bind, exec_ret.
    destruct (Bool.eqb (has_flag f (CPUState.P c)) v); [ | reflexivity ].
    rewrite !exec_bind, !exec_modc, !cpu_set_cpu. fold c.
    cbn [CPUState.addr_abs CPUState.set_addr_abs CPUState.PC CPUState.set_cycles_remaining
         CPUState.addr_rel]. fold target.
    cbn [CPUState.addr_abs CPUState.set_addr_abs CPUState.PC CPUState.set_cycles_remaining
         CPUState.addr_rel].
    destruct (Z.land target 0xFF00 =? Z.land (CPUState.PC c) 0xFF00);
      destruct c; reflexivity.
Qed.

End Instructions.

Lemma sign_extend (off : Z) :
  0 <= off < 256 ->
  nonzero (Z.land off 0x80) = (128 <=? off)
  /\ Z.lor off 0xFF00 = off + 0xFF00.
Proof.
  intros H.
  pose (f := fun off => Bool.eqb (nonzero (Z.land off 0x80)) (128 <=? off)
                        && (Z.lor off 0xFF00 =? off + 0xFF00)).
  assert (Hf : f off = true).
  { apply (Mmc1Facts.forall_below 256 f); [ vm_compute; reflexivity | exact H ]. }
  unfold f in Hf. apply andb_prop in Hf. destruct Hf as [H1 H2].
  apply eqb_prop in H1. apply Z.eqb_eq in H2. tauto.
Qed.

End ClockFacts.

Section CpuProperties.
Context {M : Type} {MP : Mapper M} {ML : MapperLaws M}.
Local Abbreviation System := (Sys.t M).
Import CpuOpFacts.

(** X17.  SBC subtracts with borrow: for a byte [a] in the accumulator,
    a byte operand [m] and carry [c], with [d = a - m - (1 - c)], the
    accumulator gets [d] modulo 256, the carry is set exactly when no
    borrow was needed ([d >= 0]), Z and N describe the result, and V is
    set exactly when the signed difference leaves [-128, 127]. *)
Theorem sbc_borrow (s : System) :
  let a := CPUState.A (Sys.cpu s) in
  let m := eval CPU.fetch s in
  let c := b2z (CPU.has_flag CPU.FlagC (CPUState.P (Sys.cpu s))) in
  let d := a - m - (1 - c) in
  let sd := signed8 a - signed8 m - (1 - c) in
  let s' := exec CPU.op_SBC s in
  let p' := CPUState.P (Sys.cpu s') in
  0 <= a < 256 -> 0 <= m < 256 ->
  CPUState.A (Sys.cpu s') = d mod 256
  /\ CPU.has_flag CPU.FlagC p' = (0 <=? d)
  /\ CPU.has_flag CPU.FlagZ p' = (d mod 256 =? 0)
  /\ CPU.has_flag CPU.FlagN p' = Z.testbit (d mod 256) 7
  /\ CPU.has_flag CPU.FlagV p' = negb ((-128 <=? sd) && (sd <=? 127)).
Proof.
  intros a m c d sd s' p' Ha Hm.
  pose proof (sbc_result s) as R. cbv zeta in R.
  destruct R as (HA & HC & HZ & HV & HN).
  pose proof (sbc_agrees_all a m (CPU.has_flag CPU.FlagC (CPUState.P (Sys.cpu s))) Ha Hm) as G.
  unfold sbc_agrees in G. cbv zeta in G.
  apply andb_prop in G. destruct G as [G G4].
  apply andb_prop in G. destruct G as [G G3].
  apply andb_prop in G. destruct G as [G1 G2].
  apply Z.eqb_eq in G1. apply eqb_prop in G2, G3, G4.
  subst a m c d sd s' p'.
  rewrite HA, HC, HZ, HV, HN.
  change 0x00FF with 0xFF in *. change 0x0080 with 0x80 in *.
  rewrite G1, G2, G3. rewrite <- G4. repeat split; reflexivity.
Qed.

(** X18.  CMP, CPX and CPY compare a register byte [r] with an operand
    byte [m] without changing either: C is set exactly when [r >= m], Z
    exactly when they are equal, N is bit 7 of [r - m] modulo 256, and
    no register other than the status changes. *)
Theorem compare_flags (s : System) (op : State System Z) (reg : CPUState.t -> Z) :
  In (op, reg) [(CPU.op_CMP, CPUState.A); (CPU.op_CPX, CPUState.X);
                (CPU.op_CPY, CPUState.Y)] ->
  let r := reg (Sys.cpu s) in
  let m := eval CPU.fetch s in
  let c' := Sys.cpu (exec op s) in
  0 <= r < 256 -> 0 <= m < 256 ->
  CPU.has_flag CPU.FlagC (CPUState.P c') = (m <=? r)
  /\ CPU.has_flag CPU.FlagZ (CPUState.P c') = (r =? m)
  /\ CPU.has_flag CPU.FlagN (CPUState.P c') = Z.testbit ((r - m) mod 256) 7
  /\ CPUState.A c' = CPUState.A (Sys.cpu s)
  /\ CPUState.X c' = CPUState.X (Sys.cpu s)
  /\ CPUState.Y c' = CPUState.Y (Sys.cpu s)
  /\ CPUState.SP c' = CPUState.SP (Sys.cpu s)
  /\ CPUState.PC c' = CPUState.PC (Sys.cpu s).
Proof.
  intros Hin r m c' Hr Hm.
  destruct (fetch_regs s) as [v Ev].
  pose proof (cmp_agrees_all r m Hr Hm) as G. unfold cmp_agrees in G. cbv zeta in G.
  apply andb_prop in G. destruct G as [G1 G2]. apply eqb_prop in G1, G2.
  assert (E : exists rv, rv = r /\
                c' = Sys.cpu (exec (CPU.compare rv m) (exec CPU.fetch s))).
  { cbn [In] in Hin.
    destruct Hin as [H | [H | [H | []]]]; inversion H; subst op reg; clear H;
      subst c' r m; eexists; (split; [ | unfold CPU.op_CMP, CPU.op_CPX, CPU.op_CPY;
        rewrite !exec_bind, exec_ret; reflexivity ]);
      cbn [eval exec CPU.getc gets fst snd]; rewrite Ev; reflexivity. }
  destruct E as (rv & -> & ->).
  destruct (compare_run r m (exec CPU.fetch s)) as (Ec & HC & HZ & HN).
  cbv zeta in Ec. rewrite HC, HZ, HN, G1, G2, Ec, Ev.
  destruct (Sys.cpu s). cbn. repeat split; reflexivity.
Qed.

End CpuProperties.

Lemma sbc_borrow_witness :
  CPUState.A (Sys.cpu (exec CPU.op_SBC machine_adc))
  = (CPUState.A (Sys.cpu machine_adc) - eval CPU.fetch machine_adc
     - (1 - b2z (CPU.has_flag CPU.FlagC (CPUState.P (Sys.cpu machine_adc))))) mod 256.
Proof.
  refine (proj1 (sbc_borrow machine_adc _ _)); vm_compute; split; congruence.
Defined.

Lemma compare_flags_witness :
  CPU.has_flag CPU.FlagC (CPUState.P (Sys.cpu (exec CPU.op_CMP machine_adc)))
  = (eval CPU.fetch machine_adc <=? CPUState.A (Sys.cpu machine_adc)).
Proof.
  refine (proj1 (compare_flags machine_adc CPU.op_CMP CPUState.A _ _ _));
    [ left; reflexivity | vm_compute; split; congruence .. ].
Defined.

Section StackProperties.
Context {M : Type} {MP : Mapper M} {ML : MapperLaws M}.
Local Abbreviation System := (Sys.t M).
Import CpuOpFacts.

(** X19.  PHA and PLA are a round trip through the stack page: PHA
    stores A at [$0100+SP] and lowers SP by one, wrapping inside the
    page; once SP is back at that value and the RAM is as PHA left it,
    PLA restores that A whatever A holds by then, puts SP back where it
    was before the PHA, and sets Z and N from the restored value. *)
Theorem pha_pla_round_trip (s : System) :
  stack_ready s ->
  let a := CPUState.A (Sys.cpu s) in
  let sp := CPUState.SP (Sys.cpu s) in
  let s1 := exec CPU.op_PHA s in
  CPUState.SP (Sys.cpu s1) = u8 (sp - 1)
  /\ stack_byte s1 sp = a
  /\ (forall s2 : System,
        CPUState.SP (Sys.cpu s2) = CPUState.SP (Sys.cpu s1) ->
        BusState.ram (Sys.bus s2) = BusState.ram (Sys.bus s1) ->
        let c3 := Sys.cpu (exec CPU.op_PLA s2) in
        CPUState.A c3 = a
        /\ CPUState.SP c3 = sp
        /\ CPU.has_flag CPU.FlagZ (CPUState.P c3) = (a =? 0)
        /\ CPU.has_flag CPU.FlagN (CPUState.P c3) = nonzero (Z.land a 0x80)).
Proof.
  intros [Hsp Hlen] a sp s1.
  assert (E1 : s1 = pushed a s).
  { unfold s1, CPU.op_PHA. rewrite !exec_bind, exec_ret.
    change (exec (CPU.getc CPUState.A) s) with s.
    apply CPUFacts.exec_push. exact Hsp. }
  clearbody s1. subst s1.
  assert (Eb : stack_byte (pushed a s) sp = a).
  { unfold stack_byte, pushed. cbn. apply byte_at_set_eq. fold sp. lia. }
  split; [ reflexivity | ]. split; [ exact Eb | ].
  intros s2 Hs2 Hram c3.
  assert (R2 : 0 <= CPUState.SP (Sys.cpu s2) < 256) by (rewrite Hs2; cbn; apply u8_range).
  assert (Ev : eval CPU.pop s2 = a).
  { rewrite CPUFacts.eval_pop by exact R2. rewrite Hs2. cbn [pushed Sys.cpu Sys.set_cpu
      CPUState.SP CPUState.set_SP]. rewrite CPUFacts.u8_inc_dec by exact Hsp.
    unfold stack_byte in *. rewrite Hram. exact Eb. }
  unfold c3, CPU.op_PLA, CPU.set_ZN.
  rewrite !exec_bind, exec_ret, Ev, !CPUFacts.exec_set_flag.
  cbn [exec CPU.modc modify snd Sys.cpu Sys.set_cpu CPUState.A CPUState.set_A
       CPUState.SP CPUState.set_SP CPUState.P CPUState.set_P].
  fold (exec CPU.pop s2). rewrite CPUFacts.exec_pop by exact R2.
  cbn [Sys.cpu Sys.set_cpu CPUState.A CPUState.set_A
       CPUState.SP CPUState.set_SP CPUState.P CPUState.set_P].
  rewrite Hs2. cbn [pushed Sys.cpu Sys.set_cpu CPUState.SP CPUState.set_SP].
  rewrite CPUFacts.u8_inc_dec by exact Hsp.
  repeat split.
  - rewrite CPUFacts.has_with_flag_ne by discriminate. apply CPUFacts.has_with_flag_eq.
  - apply CPUFacts.has_with_flag_eq.
Qed.

(** X20.  JSR and RTS are a round trip: JSR stacks the address of its
    own last byte, high byte first, lowers SP by two and jumps to the
    operand address; once SP is back at that value and the RAM is as JSR
    left it, RTS resumes at the instruction after the JSR and puts SP
    back where it was. *)
Theorem jsr_rts_round_trip (s : System) :
  stack_ready s ->
  let pc := CPUState.PC (Sys.cpu s) in
  let sp := CPUState.SP (Sys.cpu s) in
  let s1 := exec CPU.op_JSR s in
  0 <= pc < 65536 ->
  CPUState.PC (Sys.cpu s1) = CPUState.addr_abs (Sys.cpu s)
  /\ CPUState.SP (Sys.cpu s1) = u8 (sp - 2)
  /\ stack_byte s1 sp = Z.shiftr (u16 (pc - 1)) 8
  /\ stack_byte s1 (u8 (sp - 1)) = (pc - 1) mod 256
  /\ (forall s2 : System,
        CPUState.SP (Sys.cpu s2) = CPUState.SP (Sys.cpu s1) ->
        BusState.ram (Sys.bus s2) = BusState.ram (Sys.bus s1) ->
        let c3 := Sys.cpu (exec CPU.op_RTS s2) in
        CPUState.PC c3 = pc /\ CPUState.SP c3 = sp).
Proof.
  intros [Hsp Hlen] pc sp s1 Hpc.
  set (ret_addr := u16 (pc - 1)).
  assert (Hr : 0 <= ret_addr < 65536) by apply u16_range.
  set (s0 := Sys.set_cpu (CPUState.set_PC ret_addr (Sys.cpu s)) s).
  assert (E1 : s1 = Sys.set_cpu
                      (CPUState.set_PC (CPUState.addr_abs (Sys.cpu s))
                         (Sys.cpu (pushed (Z.land ret_addr 0xFF)
                                     (pushed (Z.land (Z.shiftr ret_addr 8) 0xFF) s0))))
                      (pushed (Z.land ret_addr 0xFF)
                         (pushed (Z.land (Z.shiftr ret_addr 8) 0xFF) s0))).
  { unfold s1, CPU.op_JSR. rewrite !exec_bind, exec_ret.
    cbn [exec eval CPU.modc CPU.getc modify gets fst snd].
    fold s0. change (CPUState.PC (Sys.cpu s0)) with ret_addr.
    fold (exec (CPU.push16 ret_addr) s0).
    rewrite push16_run by exact Hsp. reflexivity. }
  clearbody s1. subst s1.
  assert (Hhi : stack_byte (pushed (Z.land ret_addr 0xFF)
                   (pushed (Z.land (Z.shiftr ret_addr 8) 0xFF) s0)) sp
                = Z.land (Z.shiftr ret_addr 8) 0xFF).
  { unfold stack_byte, pushed. cbn. fold sp.
    pose proof (u8_range (sp - 1)).
    rewrite byte_at_set_ne.
    - apply byte_at_set_eq. lia.
    - pose proof (CPUFacts.u8_sub_ne sp Hsp). lia. }
  assert (Hlo : stack_byte (pushed (Z.land ret_addr 0xFF)
                   (pushed (Z.land (Z.shiftr ret_addr 8) 0xFF) s0)) (u8 (sp - 1))
                = Z.land ret_addr 0xFF).
  { unfold stack_byte, pushed. cbn. fold sp.
    pose proof (u8_range (sp - 1)).
    apply byte_at_set_eq. rewrite byte_set_length. lia. }
  split; [ reflexivity | ]. split; [ cbn; fold sp; apply CPUFacts.u8_sub2; exact Hsp | ].
  split.
  { transitivity (Z.land (Z.shiftr ret_addr 8) 0xFF); [ exact Hhi | ].
    change 0xFF with (Z.ones 8). rewrite Z.land_ones by lia.
    apply Z.mod_small. rewrite Z.shiftr_div_pow2 by lia.
    change (2 ^ 8) with 256. Z.div_mod_to_equations. lia. }
  split.
  { transitivity (Z.land ret_addr 0xFF); [ exact Hlo | ].
    change 0xFF with (Z.ones 8). rewrite Z.land_ones by lia.
    unfold ret_addr, u16. change (2 ^ 8) with 256. Z.div_mod_to_equations. lia. }
  intros s2 Hs2 Hram c3.
  cbn [Sys.cpu Sys.set_cpu CPUState.SP CPUState.set_PC pushed CPUState.set_SP] in Hs2.
  fold sp in Hs2.
  assert (R2 : 0 <= CPUState.SP (Sys.cpu s2) < 256) by (rewrite Hs2; apply u8_range).
  unfold c3, CPU.op_RTS, CPU.inc_PC. rewrite !exec_bind, exec_ret.
  unfold eval, exec. rewrite pop16_run by exact R2. cbv zeta.
  cbn [fst snd CPU.modc modify Sys.cpu Sys.set_cpu CPUState.PC CPUState.set_PC
       CPUState.SP CPUState.set_SP].
  rewrite Hs2, u8_inc2_dec2, u8_inc_dec2 by exact Hsp.
  assert (Es : forall i, stack_byte s2 i
               = stack_byte (pushed (Z.land ret_addr 0xFF)
                   (pushed (Z.land (Z.shiftr ret_addr 8) 0xFF) s0)) i).
  { intros i. unfold stack_byte. rewrite Hram. reflexivity. }
  change (CPUState.SP (Sys.cpu s0)) with sp.
  rewrite !Es, Hhi, Hlo, word_join by exact Hr.
  split; [ | reflexivity ].
  unfold ret_addr, u16. Z.div_mod_to_equations. lia.
Qed.

(** X21.  BRK and RTI: BRK sets I, stacks [PC + 1] (PC as the operation
    finds it) and then the status with B set, clears B again and jumps
    through [$FFFE/$FFFF]; once SP is back at that value and the RAM is
    as BRK left it, RTI resumes at that [PC + 1] with SP where it was, B
    and U clear, and I set (BRK stacked the status after setting I); the
    other flags are as they were before the BRK. *)
Theorem brk_rti_round_trip (s : System) :
  stack_ready s ->
  let pc := CPUState.PC (Sys.cpu s) in
  let sp := CPUState.SP (Sys.cpu s) in
  let s1 := exec CPU.op_BRK s in
  CPUState.PC (Sys.cpu s1)
  = Z.lor (eval (Bus.cpu_read 0xFFFE) s) (u16 (Z.shiftl (eval (Bus.cpu_read 0xFFFF) s) 8))
  /\ CPUState.SP (Sys.cpu s1) = u8 (sp - 3)
  /\ CPU.has_flag CPU.FlagB (stack_byte s1 (u8 (sp - 2))) = true
  /\ CPU.has_flag CPU.FlagI (CPUState.P (Sys.cpu s1)) = true
  /\ CPU.has_flag CPU.FlagB (CPUState.P (Sys.cpu s1)) = false
  /\ (forall s2 : System,
        CPUState.SP (Sys.cpu s2) = CPUState.SP (Sys.cpu s1) ->
        BusState.ram (Sys.bus s2) = BusState.ram (Sys.bus s1) ->
        let c3 := Sys.cpu (exec CPU.op_RTI s2) in
        CPUState.PC c3 = u16 (pc + 1)
        /\ CPUState.SP c3 = sp
        /\ (forall f, CPU.has_flag f (CPUState.P c3)
                      = match f with
                        | CPU.FlagI => true
                        | CPU.FlagB | CPU.FlagU => false
                        | _ => CPU.has_flag f (CPUState.P (Sys.cpu s))
                        end)).
Proof.
  intros [Hsp Hlen] pc sp s1.
  assert (E1 : s1 = brk_entered s) by (apply brk_run; exact Hsp).
  clearbody s1. subst s1.
  destruct (CPUFacts.u8_sub_ne _ Hsp) as (N1 & N2 & N3).
  change (CPUState.SP (Sys.cpu s)) with sp in Hsp, N1, N2, N3.
  pose proof (u8_range (sp - 1)) as R1.
  pose proof (u8_range (sp - 2)) as R2.
  set (ret_addr := u16 (pc + 1)).
  assert (Hr : 0 <= ret_addr < 65536) by apply u16_range.
  set (p1 := CPU.with_flag CPU.FlagB true
               (CPU.with_flag CPU.FlagI true (CPUState.P (Sys.cpu s)))).
  assert (Esp : CPUState.SP (Sys.cpu (brk_entered s)) = u8 (sp - 3)).
  { cbn. apply CPUFacts.u8_sub3. exact Hsp. }
  assert (Ehi : stack_byte (brk_entered s) sp = Z.land (Z.shiftr ret_addr 8) 0xFF).
  { unfold stack_byte, brk_entered, pushed.
    cbn [Sys.cpu Sys.bus Sys.set_cpu Sys.set_bus BusState.ram BusState.set_ram
         CPUState.SP CPUState.set_SP CPUState.P CPUState.set_P CPUState.PC
         CPUState.set_PC].
    fold sp. rewrite ?CPUFacts.u8_sub2 by exact Hsp.
    rewrite !byte_at_set_ne by lia. apply byte_at_set_eq. lia. }
  assert (Elo : stack_byte (brk_entered s) (u8 (sp - 1)) = Z.land ret_addr 0xFF).
  { unfold stack_byte, brk_entered, pushed.
    cbn [Sys.cpu Sys.bus Sys.set_cpu Sys.set_bus BusState.ram BusState.set_ram
         CPUState.SP CPUState.set_SP CPUState.P CPUState.set_P CPUState.PC
         CPUState.set_PC].
    fold sp. rewrite ?CPUFacts.u8_sub2 by exact Hsp.
    rewrite byte_at_set_ne by lia. apply byte_at_set_eq.
    rewrite byte_set_length. lia. }
  assert (Ep : stack_byte (brk_entered s) (u8 (sp - 2)) = p1).
  { unfold stack_byte, brk_entered, pushed.
    cbn [Sys.cpu Sys.bus Sys.set_cpu Sys.set_bus BusState.ram BusState.set_ram
         CPUState.SP CPUState.set_SP CPUState.P CPUState.set_P CPUState.PC
         CPUState.set_PC].
    fold sp. rewrite ?CPUFacts.u8_sub2 by exact Hsp.
    apply byte_at_set_eq. rewrite !byte_set_length. lia. }
  split; [ reflexivity | ]. split; [ exact Esp | ].
  split; [ rewrite Ep; apply CPUFacts.has_with_flag_eq | ].
  split.
  { unfold brk_entered.
    cbn [Sys.cpu Sys.set_cpu CPUState.P CPUState.set_P CPUState.set_PC].
    rewrite CPUFacts.has_with_flag_ne, CPUFacts.has_with_flag_ne by discriminate.
    apply CPUFacts.has_with_flag_eq. }
  split.
  { unfold brk_entered.
    cbn [Sys.cpu Sys.set_cpu CPUState.P CPUState.set_P CPUState.set_PC].
    apply CPUFacts.has_with_flag_eq. }
  intros s2 Hs2 Hram c3. rewrite Esp in Hs2.
  assert (R3 : 0 <= CPUState.SP (Sys.cpu s2) < 256) by (rewrite Hs2; apply u8_range).
  destruct (rti_run s2 R3) as (HP & HPC & HSP). fold c3 in HP, HPC, HSP.
  assert (Es : forall i, stack_byte s2 i = stack_byte (brk_entered s) i).
  { intros i. unfold stack_byte. rewrite Hram. reflexivity. }
  rewrite Hs2 in HP, HPC, HSP.
  assert (A1 : u8 (u8 (sp - 3) + 1) = u8 (sp - 2))
    by (unfold u8; Z.div_mod_to_equations; lia).
  assert (A2 : u8 (u8 (sp - 2) + 1) = u8 (sp - 1))
    by (unfold u8; Z.div_mod_to_equations; lia).
  assert (A3 : u8 (u8 (sp - 1) + 1) = sp)
    by (unfold u8; Z.div_mod_to_equations; lia).
  rewrite A1 in HP. rewrite A1, A2, A3 in HPC. rewrite A1, A2, A3 in HSP.
  rewrite Es, Ep in HP. rewrite !Es, Ehi, Elo in HPC.
  rewrite word_join in HPC by exact Hr.
  split; [ exact HPC | ]. split; [ exact HSP | ].
  intros f. rewrite HP. unfold p1.
  rewrite !CPUFacts.has_flag_testbit, !CPUFacts.with_flag_bits by apply CPUFacts.flag_bit_range.
  destruct f; cbn; reflexivity.
Qed.

End StackProperties.

Lemma pha_pla_round_trip_witness :
  CPUState.SP (Sys.cpu (exec CPU.op_PHA machine_adc))
  = u8 (CPUState.SP (Sys.cpu machine_adc) - 1).
Proof.
  refine (proj1 (pha_pla_round_trip machine_adc _)).
  split; vm_compute; first [ reflexivity | split; congruence ].
Defined.

Lemma jsr_rts_round_trip_witness :
  CPUState.PC (Sys.cpu (exec CPU.op_JSR machine_adc))
  = CPUState.addr_abs (Sys.cpu machine_adc).
Proof.
  refine (proj1 (jsr_rts_round_trip machine_adc _ _)).
  - split; vm_compute; first [ reflexivity | split; congruence ].
  - vm_compute; split; congruence.
Defined.

Lemma brk_rti_round_trip_witness :
  CPUState.SP (Sys.cpu (exec CPU.op_BRK machine_adc))
  = u8 (CPUState.SP (Sys.cpu machine_adc) - 3).
Proof.
  refine (proj1 (proj2 (brk_rti_round_trip machine_adc _))).
  split; vm_compute; first [ reflexivity | split; congruence ].
Defined.

Section InstructionProperties.
Context {M : Type} {MP : Mapper M} {ML : MapperLaws M}.
Local Abbreviation System := (Sys.t M).
Import CpuOpFacts ClockFacts.

(** X22.  A branch instruction, whole: when the CPU fetches one of the
    eight branch opcodes, the offset byte after it is taken as a signed
    number; if the tested flag has the tested value PC becomes the
    address of the next instruction plus the offset (modulo 65536) and
    the instruction takes 3 cycles, or 4 when that target is on another
    page than the next instruction; otherwise PC is the next instruction
    and it takes 2.  A, X, Y and SP are untouched. *)
Theorem branch_timing (s : System) (f : CPU.Flags) (v : bool) :
  let c := Sys.cpu s in
  let pc := CPUState.PC c in
  let opc := eval (CPU.read pc) s in
  let off := eval (CPU.read (u16 (pc + 1))) (exec (CPU.read pc) s) in
  let next := u16 (pc + 2) in
  let target := u16 (next + signed8 off) in
  let c' := Sys.cpu (exec CPU.clock s) in
  CPUState.cycles_remaining c = 0 ->
  0 <= off < 256 ->
  In (opc, (f, v))
     [(0x10, (CPU.FlagN, false)); (0x30, (CPU.FlagN, true));
      (0x50, (CPU.FlagV, false)); (0x70, (CPU.FlagV, true));
      (0x90, (CPU.FlagC, false)); (0xB0, (CPU.FlagC, true));
      (0xD0, (CPU.FlagZ, false)); (0xF0, (CPU.FlagZ, true))] ->
  (if Bool.eqb (CPU.has_flag f (CPUState.P c)) v
   then CPUState.PC c' = target
        /\ CPUState.cycles_remaining c'
           = (if Z.land target 0xFF00 =? Z.land next 0xFF00 then 2 else 3)
   else CPUState.PC c' = next /\ CPUState.cycles_remaining c' = 1)
  /\ CPUState.A c' = CPUState.A c /\ CPUState.X c' = CPUState.X c
  /\ CPUState.Y c' = CPUState.Y c /\ CPUState.SP c' = CPUState.SP c.
Proof.
  intros c pc opc off next target c' Hcr Hoff Hin.
  pose proof (f_equal Sys.cpu (clock_fetch s Hcr)) as F. cbv zeta in F.
  rewrite cpu_set_cpu in F. fold c pc opc c' in F.
  assert (Hi : CPU.instr opc = CPU.mkInstruction (CPU.operate (CPU.instr opc)) CPU.REL 2
               /\ CPU.run_operate (CPU.operate (CPU.instr opc)) = CPU.branch_on f v
               /\ f <> CPU.FlagU).
  { clear F. clearbody opc. cbn [In] in Hin.
    repeat (destruct Hin as [Hin | Hin];
            [ inversion Hin; subst opc f v;
              repeat split; first [ reflexivity | discriminate ] | ]).
    destruct Hin. }
  destruct Hi as (Hi1 & Hi2 & HfU).
  rewrite Hi2 in F. rewrite Hi1 in F.
  cbn [CPU.addrmode CPU.cycles CPU.run_addrmode] in F.
  match type of F with context [exec CPU.am_REL ?x] => set (s1 := x) in F end.
  destruct (am_REL_run s1) as [Ee Ec]. cbv zeta in Ec.
  assert (Eo : eval (CPU.read (CPUState.PC (Sys.cpu s1))) s1 = off).
  { unfold s1. rewrite cpu_set_cpu. cbn [CPUState.PC CPUState.set_cycles_remaining
      CPUState.set_PC]. rewrite eval_read_set_cpu. reflexivity. }
  rewrite Eo in Ec.
  destruct (sign_extend off Hoff) as [Hs1 Hs2]. rewrite Hs1, Hs2 in Ec.
  rewrite Ee in F.
  destruct (branch_on_run f v (exec CPU.am_REL s1)) as [Be Bc]. cbv zeta in Bc.
  rewrite Be in F. change (Z.land 0 0) with 0 in F.
  set (c2 := Sys.cpu (exec CPU.am_REL s1)) in *.
  assert (E2 : CPUState.PC c2 = next /\ CPUState.addr_rel c2 = (if 128 <=? off then off + 0xFF00 else off)
               /\ CPUState.cycles_remaining c2 = 2
               /\ CPUState.P c2 = CPU.with_flag CPU.FlagU true (CPUState.P c)
               /\ CPUState.A c2 = CPUState.A c /\ CPUState.X c2 = CPUState.X c
               /\ CPUState.Y c2 = CPUState.Y c /\ CPUState.SP c2 = CPUState.SP c).
  { rewrite Ec. unfold s1. rewrite cpu_set_cpu.
    destruct (128 <=? off); cbn; repeat split; unfold next, u16;
      rewrite Zplus_mod_idemp_l; f_equal; lia. }
  destruct E2 as (P1 & P2 & P3 & P4 & P5 & P6 & P7 & P8).
  assert (Et : u16 (CPUState.PC c2 + CPUState.addr_rel c2) = target).
  { rewrite P1, P2. unfold target, signed8, u16.
    destruct (Z.leb_spec 128 off); destruct (Z.ltb_spec off 128); try lia.
    replace (next + (off + 0xFF00)) with (next + (off - 256) + 1 * 65536) by lia.
    apply Z_mod_plus_full. }
  rewrite Et, P1, P3, P4 in Bc.
  rewrite CPUFacts.has_with_flag_ne in Bc by exact HfU.
  rewrite F, Bc.
  destruct (Bool.eqb (CPU.has_flag f (CPUState.P c)) v).
  - destruct (Z.land target 0xFF00 =? Z.land next 0xFF00); cbn; rewrite P5, P6, P7, P8;
      repeat split; reflexivity.
  - cbn. rewrite P1, P3, P5, P6, P7, P8. repeat split; reflexivity.
Qed.

(** X23.  JAM halts the CPU.  When the CPU is about to fetch one of the
    twelve JAM opcodes from RAM or from cartridge space, then after any
    number of CPU clocks PC still points at that opcode, A, X, Y and SP
    are what they were, and nothing outside the CPU has changed. *)
Theorem jam_halts (s : System) (n : nat) :
  let c := Sys.cpu s in
  let pc := CPUState.PC c in
  let s' := Nat.iter n (exec CPU.clock) s in
  CPUState.cycles_remaining c = 0 ->
  0 <= pc <= 0x1FFF \/ 0x4018 <= pc <= 0xFFFF ->
  In (eval (CPU.read pc) s)
     [0x02; 0x12; 0x22; 0x32; 0x42; 0x52; 0x62; 0x72; 0x92; 0xB2; 0xD2; 0xF2] ->
  CPUState.PC (Sys.cpu s') = pc
  /\ CPUState.A (Sys.cpu s') = CPUState.A c /\ CPUState.X (Sys.cpu s') = CPUState.X c
  /\ CPUState.Y (Sys.cpu s') = CPUState.Y c /\ CPUState.SP (Sys.cpu s') = CPUState.SP c
  /\ Sys.bus s' = Sys.bus s /\ Sys.ppu s' = Sys.ppu s /\ Sys.apu s' = Sys.apu s
  /\ Sys.cartridge s' = Sys.cartridge s.
Proof.
  intros c pc s' Hcr Hpc Hin.
  assert (Hread : exec (CPU.read pc) s = s).
  { destruct Hpc as [Hpc | Hpc].
    - unfold exec, CPU.read. rewrite BusFacts.cpu_read_ram by lia. reflexivity.
    - apply BusFacts.cpu_read_cart_space. lia. }
  assert (Hi : CPU.instr (eval (CPU.read pc) s) = CPU.mkInstruction CPU.JAM CPU.IMP 2).
  { clear Hread. revert Hin. generalize (eval (CPU.read pc) s). intros opc Hin.
    cbn [In] in Hin.
    repeat (destruct Hin as [Hin | Hin]; [ subst opc; reflexivity | ]).
    destruct Hin. }
  assert (J : exists c', s' = Sys.set_cpu c' s
                /\ CPUState.PC c' = pc
                /\ CPUState.A c' = CPUState.A c /\ CPUState.X c' = CPUState.X c
                /\ CPUState.Y c' = CPUState.Y c /\ CPUState.SP c' = CPUState.SP c
                /\ (CPUState.cycles_remaining c' = 0 \/ CPUState.cycles_remaining c' = 1)).
  { unfold s'. clear s'. induction n as [ | n IH ].
    - exists c. change (Nat.iter 0 (exec CPU.clock) s) with s. repeat split; try reflexivity; [ | left; exact Hcr ].
      unfold c. destruct s; reflexivity.
    - destruct IH as (c1 & E & P1 & P2 & P3 & P4 & P5 & P6).
      rewrite Nat.iter_succ, E.
      destruct P6 as [P6 | P6].
      + rewrite clock_fetch by (rewrite cpu_set_cpu; exact P6). cbv zeta.
        rewrite !cpu_set_cpu, P1.
        rewrite eval_read_set_cpu, exec_read_set_cpu, Hread, Hi.
        cbn [CPU.cycles CPU.addrmode CPU.operate CPU.run_addrmode CPU.run_operate].
        unfold CPU.am_IMP, CPU.op_JAM.
        repeat ClockFacts.cpu_step.
        eexists. split; [ reflexivity | ].
        cbn [CPUState.PC CPUState.A CPUState.X CPUState.Y CPUState.SP
             CPUState.cycles_remaining CPUState.set_total_cycles
             CPUState.set_cycles_remaining CPUState.set_P CPUState.set_PC
             CPUState.set_fetched CPUState.set_opcode].
        repeat split; try assumption; [ | right; reflexivity ].
        unfold u16. rewrite Zminus_mod_idemp_l.
        replace (pc + 1 - 1) with pc by lia. apply Z.mod_small. lia.
      + rewrite clock_idle by (rewrite cpu_set_cpu, P6; discriminate).
        cbv zeta. rewrite !cpu_set_cpu, set_cpu_set_cpu, P6.
        eexists. split; [ reflexivity | ].
        cbn. repeat split; try assumption. left; reflexivity. }
  destruct J as (c1 & E & P1 & P2 & P3 & P4 & P5 & _).
  rewrite E. cbn [Sys.cpu Sys.set_cpu Sys.bus Sys.ppu Sys.apu Sys.cartridge].
  repeat split; assumption.
Qed.

End InstructionProperties.

Lemma branch_timing_witness :
  let c' := Sys.cpu (exec CPU.clock machine_branch) in
  CPUState.A c' = CPUState.A (Sys.cpu machine_branch)
  /\ CPUState.X c' = CPUState.X (Sys.cpu machine_branch)
  /\ CPUState.Y c' = CPUState.Y (Sys.cpu machine_branch)
  /\ CPUState.SP c' = CPUState.SP (Sys.cpu machine_branch).
Proof.
  refine (proj2 (branch_timing machine_branch CPU.FlagZ false _ _ _)).
  - reflexivity.
  - vm_compute. split; congruence.
  - vm_compute. do 6 right. left. reflexivity.
Defined.

Lemma jam_halts_witness :
  CPUState.PC (Sys.cpu (Nat.iter 5 (exec CPU.clock) machine_jam))
  = CPUState.PC (Sys.cpu machine_jam).
Proof.
  refine (proj1 (jam_halts machine_jam 5 _ _ _)).
  - reflexivity.
  - left. vm_compute. split; congruence.
  - vm_compute. left. reflexivity.
Defined.
(** ** The beam through a frame *)

Module TimingFacts.
Import PPU.

Ltac timing_auto :=
  intros;
  cbv beta delta [update_shifters increment_scroll_x increment_scroll_y
                  transfer_address_x transfer_address_y load_background_shifters];
  cbv zeta;
  repeat match goal with
  | |- context [if ?c then _ else _] => destruct c
  end;
  reflexivity.

Section Pipeline.
Context {M : Type} {MP : Mapper M}.
Local Abbreviation PS := (PPU.t * option (Cartridge.t M))%type.
Variable t0 : Z * Z * Z * bool.
Local Abbreviation P := (fun s : PS => timing (render (fst s)) = t0).

Lemma pres_modp_t (f : PPU.t -> PPU.t) :
  (forall p, timing (render (f p)) = timing (render p)) -> preserves P (modp f).
Proof.
  intros Hf. apply preserves_modify. intros s H. cbn [fst]. rewrite Hf. exact H.
Qed.

Lemma pres_modr_t (f : Render -> Render) :
  (forall r, timing (f r) = timing r) -> preserves P (modr f).
Proof. intros Hf. apply pres_modp_t. intros p. cbn. apply Hf. Qed.

Lemma pres_fetch_t (a : Z) : preserves P (fetch_byte a).
Proof.
  intros s H. unfold exec, fetch_byte.
  destruct (ppu_read a (fst s) (snd s)). exact H.
Qed.

Lemma pres_pulse_t : preserves P pulse_scanline.
Proof. intros s H. exact H. Qed.

Lemma pres_getp_t {A : Type} (f : PPU.t -> A) : preserves P (getp f).
Proof. apply preserves_gets. Qed.

Lemma pres_getr_t {A : Type} (f : Render -> A) : preserves P (getr f).
Proof. apply preserves_gets. Qed.

Lemma timing_advance_sprites (ixs : list Z) (r : Render) :
  timing (advance_sprites ixs r) = timing r.
Proof.
  revert r. induction ixs as [ | i rest IH ]; intros r; [ reflexivity | ].
  cbn [advance_sprites]. cbv zeta. rewrite IH.
  destruct (0 <? _); reflexivity.
Qed.

Lemma timing_sprite_evaluation (p : PPU.t) :
  timing (render (sprite_evaluation p)) = timing (render p).
Proof.
  unfold sprite_evaluation. cbv zeta.
  destruct (evaluate_sprites _ _ _ _ _ _ _) as [n [sl hit]]. reflexivity.
Qed.

Local Hint Resolve pres_getp_t pres_getr_t pres_fetch_t pres_pulse_t : pres.
Local Hint Extern 1 (preserves _ (modp _)) =>
  apply pres_modp_t; first [ apply timing_sprite_evaluation | timing_auto ] : pres.
Local Hint Extern 1 (preserves _ (modr _)) =>
  apply pres_modr_t; first [ intros; apply timing_advance_sprites | timing_auto ] : pres.

Lemma pres_background_fetch_t : preserves P background_fetch.
Proof. unfold background_fetch. pres_auto. Qed.

Lemma pres_sprite_fetch_one_t (i : Z) : preserves P (sprite_fetch_one i).
Proof. unfold sprite_fetch_one. pres_auto. Qed.

Lemma pres_sprite_fetch_t : preserves P sprite_fetch.
Proof.
  unfold sprite_fetch. apply preserves_bind; [ apply pres_getr_t | intros n ].
  induction (upto n) as [ | i rest IH ]; cbn [for_each].
  - apply preserves_ret.
  - apply preserves_bind; [ apply pres_sprite_fetch_one_t | intros _; exact IH ].
Qed.

Lemma pres_render_pixel_t : preserves P render_pixel.
Proof. unfold render_pixel. pres_auto. Qed.

Local Hint Resolve pres_background_fetch_t pres_sprite_fetch_t pres_render_pixel_t : pres.

(** [visible_scanline] after its odd-frame skip. *)
Lemma pres_visible_rest_t :
  preserves P
    (cy <- getr cycle ;;
     (if ((2 <=? cy) && (cy <? 258)) || ((321 <=? cy) && (cy <? 338))
      then background_fetch else ret tt) ;;;
     (if cy =? 256 then modp increment_scroll_y else ret tt) ;;;
     (if cy =? 257 then
        modr load_background_shifters ;;; modp transfer_address_x
      else ret tt) ;;;
     line <- getr scanline ;;
     (if (cy =? 257) && (0 <=? line) then modp sprite_evaluation else ret tt) ;;;
     (if cy =? 340 then sprite_fetch else ret tt) ;;;
     (if (line =? -1) && (280 <=? cy) && (cy <? 305)
      then modp transfer_address_y else ret tt))%st.
Proof. pres_auto. Qed.

(** [clock] between the visible-scanline work and the final advance. *)
Lemma pres_clock_rest_t :
  preserves P
    (line <- getr scanline ;;
     cy <- getr cycle ;;
     (if (241 <=? line) && (line <? 261) && (line =? 241) && (cy =? 1) then
        modp (fun p => set_status (field_set 7 1 1 (status p)) p) ;;;
        modp (fun p => if nonzero (control_nmi_enable p) then set_nmi true p else p)
      else ret tt) ;;;
     (if (line =? -1) && (cy =? 1) then
        modp (fun p => set_status (field_set 7 1 0 (status p)) p) ;;;
        modp (fun p => set_status (field_set 6 1 0 (status p)) p) ;;;
        modp (fun p => set_status (field_set 5 1 0 (status p)) p) ;;;
        modr (set_sprite_zero_being_rendered false)
      else ret tt) ;;;
     (if (0 <=? line) && (line <? 240) && (1 <=? cy) && (cy <? 257)
      then render_pixel else ret tt) ;;;
     p <- getp (fun p => p) ;;
     (if (cycle (render p) =? 260) && rendering_enabled p
         && (0 <=? scanline (render p)) && (scanline (render p) <? 240)
      then pulse_scanline else ret tt))%st.
Proof. pres_auto. Qed.

End Pipeline.

Section Clock.
Context {M : Type} {MP : Mapper M}.
Local Abbreviation PS := (PPU.t * option (Cartridge.t M))%type.

(** The beam after the visible-scanline work: where it was, or at cycle
    1 when the idle cycle of the pre-render line is skipped. *)
Lemma visible_scanline_timing (s : PS) :
  let r := render (fst s) in
  timing (render (fst (exec visible_scanline s))) = timing r
  \/ (scanline r = -1 /\ cycle r = 0
      /\ timing (render (fst (exec visible_scanline s)))
         = (-1, 1, frame_count r, frame_ready r)).
Proof.
  intros r. unfold visible_scanline.
  rewrite exec_bind. change (exec (getp (fun p => p)) s) with s.
  change (eval (getp (fun p => p)) s) with (fst s).
  rewrite exec_bind. fold r.
  match goal with |- context [exec ?m (exec ?k s)] =>
    pose proof (pres_visible_rest_t (timing (render (fst (exec k s)))) (exec k s) eq_refl) as R
  end.
  cbv beta in R. rewrite R. clear R.
  destruct (Z.eqb_spec (scanline r) (-1)) as [El | ]; [ | left; reflexivity ].
  destruct (Z.eqb_spec (cycle r) 0) as [Ec | ]; [ | left; reflexivity ].
  cbn [andb].
  destruct (nonzero (Z.land (frame_count r) 1) && rendering_enabled (fst s));
    [ right | left; reflexivity ].
  split; [ exact El | ]. split; [ exact Ec | ].
  unfold timing. cbn. fold r. rewrite El. reflexivity.
Qed.

(** What keeps the beam keeps it from any start. *)
Lemma kept {A : Type} (m : State PS A) (s : PS) :
  (forall t0, preserves (fun x : PS => timing (render (fst x)) = t0) m) ->
  timing (render (fst (exec m s))) = timing (render (fst s)).
Proof. intros H. apply (H (timing (render (fst s))) s). reflexivity. Qed.

Lemma clock_split (s : PS) :
  let line := scanline (render (fst s)) in
  let s1 := exec (if (-1 <=? line) && (line <? 240) then visible_scanline else ret tt) s in
  timing (render (fst (exec clock s))) = timing (advance (render (fst s1))).
Proof.
  intros line s1. unfold clock.
  rewrite exec_bind. change (exec (getr scanline) s) with s.
  change (eval (getr scanline) s) with line.
  rewrite exec_bind. fold s1.
  rewrite exec_bind. change (exec (getr scanline) s1) with s1.
  rewrite exec_bind. change (exec (getr cycle) s1) with s1.
  set (l1 := eval (getr scanline) s1). set (c1 := eval (getr cycle) s1).
  rewrite exec_bind.
  match goal with |- context [exec ?m s1] => set (s2 := exec m s1) end.
  assert (E2 : timing (render (fst s2)) = timing (render (fst s1))).
  { apply kept. intros t0. pres_auto; apply pres_modp_t; timing_auto. }
  rewrite exec_bind.
  match goal with |- context [exec ?m s2] => set (s3 := exec m s2) end.
  assert (E3 : timing (render (fst s3)) = timing (render (fst s2))).
  { apply kept. intros t0.
    pres_auto; first [ apply pres_modp_t; timing_auto | apply pres_modr_t; timing_auto ]. }
  rewrite exec_bind.
  match goal with |- context [exec ?m s3] => set (s4 := exec m s3) end.
  assert (E4 : timing (render (fst s4)) = timing (render (fst s3))).
  { apply kept. intros t0. pres_auto. apply pres_render_pixel_t. }
  rewrite exec_bind. change (exec (getp (fun p => p)) s4) with s4.
  rewrite exec_bind.
  match goal with |- context [exec ?m s4] => set (s5 := exec m s4) end.
  assert (E5 : timing (render (fst s5)) = timing (render (fst s4))).
  { apply kept. intros t0. pres_auto. apply pres_pulse_t. }
  assert (E : timing (render (fst s5)) = timing (render (fst s1))) by congruence.
  clearbody s5. clear -E.
  change (exec (modr advance) s5) with (set_render (advance (render (fst s5))) (fst s5), snd s5).
  cbn [fst render set_render].
  revert E. generalize (render (fst s5)) (render (fst s1)). intros a b E.
  destruct a, b. unfold timing in E. cbn in E. inversion E; subst.
  unfold advance. cbv zeta. cbn.
  repeat match goal with |- context [if ?c then _ else _] => destruct c end; reflexivity.
Qed.

(** One PPU cycle moves the beam forward inside the frame, or ends the
    frame. *)
Lemma ppu_clock_beam (s : PS) :
  let r := render (fst s) in
  let r' := render (fst (exec clock s)) in
  beam_ok r ->
  (dot_index r = 89341 /\ frame_ready r' = true /\ scanline r' = -1 /\ cycle r' = 0
   /\ frame_count r' = u64 (frame_count r + 1))
  \/ (beam_ok r'
      /\ (dot_index r' = dot_index r + 1 \/ (dot_index r = 0 /\ dot_index r' = 2))
      /\ frame_ready r' = frame_ready r /\ frame_count r' = frame_count r).
Proof.
  intros r r' [Hl Hc].
  pose proof (clock_split s) as E. cbv zeta in E. fold r r' in E.
  match type of E with context [exec ?m s] => set (s1 := exec m s) in E end.
  assert (E1 : timing (render (fst s1)) = timing r
               \/ (scanline r = -1 /\ cycle r = 0
                   /\ timing (render (fst s1)) = (-1, 1, frame_count r, frame_ready r))).
  { unfold s1. destruct ((-1 <=? scanline r) && (scanline r <? 240)).
    - apply visible_scanline_timing.
    - left. reflexivity. }
  clearbody s1. revert E E1. generalize (render (fst s1)). intros r1 E E1.
  assert (G : forall a b : Render, timing a = timing b ->
            scanline a = scanline b /\ cycle a = cycle b
            /\ frame_count a = frame_count b /\ frame_ready a = frame_ready b).
  { intros a b H. unfold timing in H. inversion H. tauto. }
  apply G in E. destruct E as (A1 & A2 & A3 & A4).
  unfold beam_ok, dot_index. rewrite A1, A2, A3, A4. clear A1 A2 A3 A4 r'.
  assert (T : exists cy0, scanline r1 = scanline r /\ cycle r1 = cy0
                /\ frame_count r1 = frame_count r /\ frame_ready r1 = frame_ready r
                /\ (cy0 = cycle r \/ (scanline r = -1 /\ cycle r = 0 /\ cy0 = 1))).
  { destruct E1 as [E1 | (B1 & B2 & E1)].
    - apply G in E1. exists (cycle r). intuition lia.
    - exists 1. unfold timing in E1. inversion E1. intuition lia. }
  destruct T as (cy0 & T1 & T2 & T3 & T4 & T5). clear E1 G.
  assert (S1 : s16 (cy0 + 1) = cy0 + 1)
    by (unfold s16; rewrite Z.mod_small by lia; lia).
  assert (S2 : s16 (scanline r + 1) = scanline r + 1)
    by (unfold s16; rewrite Z.mod_small by lia; lia).
  destruct r1. cbn in T1, T2, T3, T4. subst.
  unfold advance. cbv zeta.
  cbn [cycle set_cycle scanline set_scanline frame_count set_frame_count frame_ready
       set_frame_ready].
  rewrite S1.
  match goal with |- context [341 <=? ?x] => destruct (Z.leb_spec 341 x) end.
  - rewrite S2.
    match goal with |- context [261 <=? ?x] => destruct (Z.leb_spec 261 x) end.
    + left. cbn. repeat split; try reflexivity. lia.
    + right. cbn. repeat split; lia.
  - right. cbn. repeat split; lia.
Qed.

End Clock.

Section Machine.
Context {M : Type} {MP : Mapper M}.
Local Abbreviation System := (Sys.t M).
Variable r0 : Render.
Local Abbreviation I := (fun s : System => render (Sys.ppu s) = r0).

Lemma ppu_read_render (a : Z) (p : PPU.t) (c : option (Cartridge.t M)) :
  render (fst (snd (cpu_read a p c))) = render p.
Proof.
  unfold cpu_read.
  repeat match goal with
  | |- context [if ?c then _ else _] => destruct c; try reflexivity
  end.
  destruct (ppu_read _ _ _). reflexivity.
Qed.

Lemma ppu_write_render (a d : Z) (p : PPU.t) (c : option (Cartridge.t M)) :
  render (fst (cpu_write a d p c)) = render p.
Proof.
  unfold cpu_write.
  repeat match goal with
  | |- context [if ?c then _ else _] => destruct c; try reflexivity
  end.
  unfold ppu_write.
  repeat match goal with
  | |- context [if ?c then _ else _] => destruct c; try reflexivity
  | |- context [match ?c with Some _ => _ | None => _ end] => destruct c; try reflexivity
  end.
Qed.

Lemma bus_read_render (a : Z) : preserves I (Bus.cpu_read a).
Proof.
  intros s H. unfold exec, Bus.cpu_read.
  pose proof (BusFacts.cart_cpu_read_frame a s) as F.
  destruct (Bus.cart_cpu_read a s) as [r s1]. cbn in F.
  destruct F as (Fc & Fp & Fa & Fb).
  assert (H1 : render (Sys.ppu s1) = r0) by (rewrite Fp; exact H).
  destruct r as [d|]; [ exact H1 | ].
  destruct ((0x0000 <=? a) && (a <=? 0x1FFF)); [ exact H1 | ].
  destruct ((0x2000 <=? a) && (a <=? 0x3FFF)).
  { pose proof (ppu_read_render (Z.land a 7) (Sys.ppu s1) (Sys.cartridge s1)) as R.
    destruct (PPU.cpu_read _ _ _) as [d [p c]]. cbn in R |- *. congruence. }
  destruct ((0x4000 <=? a) && (a <=? 0x4015)).
  { destruct (APU.cpu_read _ _) as [d ap]. exact H1. }
  destruct (a =? 0x4016); [ exact H1 | ].
  destruct (a =? 0x4017); exact H1.
Qed.

Lemma bus_write_render (a d : Z) : preserves I (Bus.cpu_write a d).
Proof.
  intros s H. unfold exec, Bus.cpu_write.
  pose proof (BusFacts.cart_cpu_write_frame a d s) as F.
  destruct (Bus.cart_cpu_write a d s) as [h s1]. cbn in F.
  destruct F as (Fc & Fp & Fa & Fb).
  assert (H1 : render (Sys.ppu s1) = r0) by (rewrite Fp; exact H).
  destruct h; [ exact H1 | ].
  destruct ((0x0000 <=? a) && (a <=? 0x1FFF)); [ exact H1 | ].
  destruct ((0x2000 <=? a) && (a <=? 0x3FFF)).
  { pose proof (ppu_write_render (Z.land a 7) d (Sys.ppu s1) (Sys.cartridge s1)) as R.
    destruct (PPU.cpu_write _ _ _ _) as [p c]. cbn in R |- *. congruence. }
  destruct (((0x4000 <=? a) && (a <=? 0x4013)) || (a =? 0x4015) || (a =? 0x4017));
    [ exact H1 | ].
  destruct (a =? 0x4014); [ exact H1 | ].
  destruct (a =? 0x4016); exact H1.
Qed.

Lemma oam_port_render (d : Z) : preserves I (BusClock.oam_port_write d).
Proof.
  intros s H. unfold exec, BusClock.oam_port_write.
  pose proof (ppu_write_render 4 d (Sys.ppu s) (Sys.cartridge s)) as R.
  destruct (PPU.cpu_write _ _ _ _) as [p c]. cbn in R |- *. congruence.
Qed.

(** Everything in a tick after the PPU cycle leaves the rendering state
    alone. *)
Lemma tick_rest_render :
  preserves I
    (ev1 <- BusClock.cpu_slot ;;
     ev2 <- BusClock.route_nmi ;;
     ev3 <- BusClock.route_irq ;;
     BusClock.modb (fun b =>
       BusState.set_system_clock_counter (u64 (BusState.system_clock_counter b + 1)) b) ;;;
     ret (ev1 ++ ev2 ++ ev3))%st.
Proof.
  assert (Ic : forall (s : System) (c : CPUState.t), I s -> I (Sys.set_cpu c s))
    by (intros s c H; exact H).
  pose proof bus_read_render as Ir. pose proof bus_write_render as Iw.
  apply preserves_bind.
  { exact (MachinePreserves.pres_cpu_slot I Ic (fun s b H => H) (fun s d H => H)
             (fun s H => H) (fun s v H => H) Ir Iw oam_port_render). }
  intros ev1. apply preserves_bind.
  { unfold BusClock.route_nmi.
    pose proof (CPUPreserves.pres_nmi I Ic Ir Iw).
    repeat first [ pres_step | assumption
                 | apply preserves_modify; intros s Hs; exact Hs ]. }
  intros ev2. apply preserves_bind.
  { exact (MachinePreserves.pres_route_irq I Ic Ir Iw (fun s H => H)). }
  intros ev3. apply preserves_bind; [ | intros; apply preserves_ret ].
  apply preserves_modify. intros s Hs. exact Hs.
Qed.

End Machine.

Section Tick.
Context {M : Type} {MP : Mapper M}.
Local Abbreviation System := (Sys.t M).

(** The rendering state after a tick is the one the PPU cycle left. *)
Lemma tick_render (s : System) :
  render (Sys.ppu (exec BusClock.clock s))
  = render (fst (exec clock (Sys.ppu s, Sys.cartridge s))).
Proof.
  unfold BusClock.clock. rewrite exec_bind.
  match goal with |- context [exec ?m (exec BusClock.ppu_clock s)] =>
    pose proof (tick_rest_render (render (Sys.ppu (exec BusClock.ppu_clock s)))
                  (exec BusClock.ppu_clock s) eq_refl) as R
  end.
  cbv beta in R. rewrite R.
  unfold exec at 1, BusClock.ppu_clock. unfold exec.
  destruct (clock (Sys.ppu s, Sys.cartridge s)) as [u [p c]]. reflexivity.
Qed.

(** One tick of the machine moves the beam forward inside the frame, or
    ends the frame. *)
Lemma tick_beam (s : System) :
  let r := render (Sys.ppu s) in
  let r' := render (Sys.ppu (exec BusClock.clock s)) in
  beam_ok r ->
  (dot_index r = 89341 /\ frame_ready r' = true /\ scanline r' = -1 /\ cycle r' = 0
   /\ frame_count r' = u64 (frame_count r + 1))
  \/ (beam_ok r'
      /\ (dot_index r' = dot_index r + 1 \/ (dot_index r = 0 /\ dot_index r' = 2))
      /\ frame_ready r' = frame_ready r /\ frame_count r' = frame_count r).
Proof.
  intros r r' H. unfold r'. rewrite tick_render.
  apply (ppu_clock_beam (Sys.ppu s, Sys.cartridge s)). exact H.
Qed.

End Tick.
End TimingFacts.

Module FrameFacts.
Import PPU TimingFacts.
Section WithMapper.
Context {M : Type} {MP : Mapper M}.
Local Abbreviation System := (Sys.t M).

Lemma cpu_reset_render (r0 : Render) :
  preserves (fun s : System => render (Sys.ppu s) = r0) CPU.reset.
Proof.
  apply CPUPreserves.pres_reset.
  - intros s c H. exact H.
  - apply bus_read_render.
Qed.

Lemma reset_beam (s : System) :
  timing (render (Sys.ppu (exec BusClock.reset s))) = (0, 0, 0, false).
Proof. unfold BusClock.reset. rewrite !exec_bind. reflexivity. Qed.

(** The beam of a reachable machine is inside the frame. *)
Lemma reachable_beam (s : System) : reachable s -> beam_ok (render (Sys.ppu s)).
Proof.
  induction 1 as [ | c s _ IH | s _ IH | s _ IH | k v s _ IH | s _ IH | a s _ IH
                 | a d s _ IH ].
  - unfold BusClock.power_on. cbv zeta.
    match goal with |- context [exec CPU.reset ?x] =>
      rewrite (cpu_reset_render (render (Sys.ppu x)) x eq_refl) end.
    unfold beam_ok. cbn. lia.
  - exact IH.
  - pose proof (reset_beam s) as E. unfold timing in E. inversion E as [[E1 E2 E3 E4]].
    unfold beam_ok. rewrite E1, E2. lia.
  - destruct (tick_beam s IH) as [(_ & _ & E1 & E2 & _) | (H & _)]; [ | exact H ].
    unfold beam_ok. rewrite E1, E2. lia.
  - unfold Bus.set_controller_state. destruct (k <? 2); exact IH.
  - exact IH.
  - rewrite (bus_read_render (render (Sys.ppu s)) a s eq_refl). exact IH.
  - rewrite (bus_write_render (render (Sys.ppu s)) a d s eq_refl). exact IH.
Qed.

(** [frame_complete] clears the flag and nothing else of the beam. *)
Lemma frame_complete_beam (p : PPU.t) :
  let p' := snd (frame_complete p) in
  fst (frame_complete p) = frame_ready (render p)
  /\ frame_ready (render p') = false
  /\ scanline (render p') = scanline (render p)
  /\ cycle (render p') = cycle (render p)
  /\ frame_count (render p') = frame_count (render p).
Proof. cbn. tauto. Qed.

Lemma dot_index_range (r : Render) : beam_ok r -> 0 <= dot_index r <= 89341.
Proof. unfold beam_ok, dot_index. intros [H1 H2]. nia. Qed.

(** The loop of [run_frame] from a machine whose flag is clear: it ends
    within the dots left in the frame, at the first dot of the next. *)
Lemma run_frame_loop (k : nat) :
  forall (s : System) (fuel : nat),
    beam_ok (render (Sys.ppu s)) ->
    frame_ready (render (Sys.ppu s)) = false ->
    89342 - dot_index (render (Sys.ppu s)) <= Z.of_nat k ->
    (k <= fuel)%nat ->
    let r' := render (Sys.ppu (exec (Emulator.run_frame fuel) s)) in
    eval (Emulator.run_frame fuel) s = true
    /\ frame_ready r' = false /\ scanline r' = -1 /\ cycle r' = 0
    /\ frame_count r' = u64 (frame_count (render (Sys.ppu s)) + 1).
Proof.
  induction k as [ | k IH ]; intros s fuel Hb Hf Hk Hfuel.
  { pose proof (dot_index_range _ Hb). lia. }
  destruct fuel as [ | fuel ]; [ lia | ].
  unfold eval, exec. cbn [Emulator.run_frame].
  destruct (frame_complete_beam (Sys.ppu s)) as (F1 & F2 & F3 & F4 & F5).
  destruct (frame_complete (Sys.ppu s)) as [ready p] eqn:Efc. cbn [fst snd] in *.
  rewrite Hf in F1. subst ready.
  set (s0 := Sys.set_ppu p s).
  assert (Hb0 : beam_ok (render (Sys.ppu s0))).
  { unfold beam_ok, s0. cbn. rewrite F3, F4. exact Hb. }
  set (s1 := exec BusClock.clock s0).
  destruct (tick_beam s0 Hb0) as [(_ & T1 & T2 & T3 & T4) | (T1 & T2 & T3 & T4)];
    fold s1 in T1, T2, T3, T4.
  - (* the frame ended on this tick *)
    destruct fuel as [ | fuel ]; cbn [Emulator.run_frame];
      destruct (frame_complete_beam (Sys.ppu s1)) as (G1 & G2 & G3 & G4 & G5);
      destruct (frame_complete (Sys.ppu s1)) as [ready1 p1]; cbn [fst snd] in *;
      rewrite T1 in G1; subst ready1; cbn [fst snd Sys.ppu Sys.set_ppu];
      rewrite G2, G3, G4, G5, T2, T3, T4; unfold s0; cbn [Sys.ppu Sys.set_ppu];
      rewrite F5; tauto.
  - (* the beam moved on *)
    assert (Hf1 : frame_ready (render (Sys.ppu s1)) = false).
    { rewrite T3. unfold s0. cbn. exact F2. }
    assert (Hk1 : 89342 - dot_index (render (Sys.ppu s1)) <= Z.of_nat k).
    { assert (dot_index (render (Sys.ppu s0)) = dot_index (render (Sys.ppu s))).
      { unfold dot_index, s0. cbn. rewrite F3, F4. reflexivity. }
      lia. }
    destruct (IH s1 fuel T1 Hf1 Hk1 ltac:(lia)) as (R1 & R2 & R3 & R4 & R5).
    unfold eval, exec in R1, R2, R3, R4, R5.
    rewrite R5, T4. unfold s0. cbn [Sys.ppu Sys.set_ppu]. rewrite F5. tauto.
Qed.

End WithMapper.
End FrameFacts.

Section FrameProperties.
Context {M : Type} {MP : Mapper M}.
Local Abbreviation System := (Sys.t M).
Import TimingFacts FrameFacts.

(** X24.  The beam never leaves the frame.  On every reachable machine
    the scanline is between -1 and 260 and the cycle between 0 and 340.
    A tick moves the beam one dot on, or from dot 0 to dot 2 (the idle
    cycle skipped), leaving the frame flag and the frame count as they
    are; only from the last dot of the frame (scanline 260, cycle 340)
    does it go back to scanline -1, cycle 0, set the frame flag and
    count the frame. *)
Theorem beam_stays_in_frame (s : System) :
  reachable s ->
  let r := PPU.render (Sys.ppu s) in
  let r' := PPU.render (Sys.ppu (exec BusClock.clock s)) in
  beam_ok r
  /\ ((dot_index r = 89341 /\ PPU.frame_ready r' = true
       /\ PPU.scanline r' = -1 /\ PPU.cycle r' = 0
       /\ PPU.frame_count r' = u64 (PPU.frame_count r + 1))
      \/ (beam_ok r'
          /\ (dot_index r' = dot_index r + 1 \/ (dot_index r = 0 /\ dot_index r' = 2))
          /\ PPU.frame_ready r' = PPU.frame_ready r
          /\ PPU.frame_count r' = PPU.frame_count r)).
Proof.
  intros H r r'. pose proof (reachable_beam s H) as Hb.
  split; [ exact Hb | ]. apply tick_beam. exact Hb.
Qed.

(** X25.  [Emulator::run_frame] returns.  From every reachable machine
    the loop ends within 89342 ticks (262 scanlines of 341 dots) and the
    result is [true], with the frame flag cleared.  When the flag was
    clear at the call, the beam is then at scanline -1, cycle 0 and the
    frame count is one higher; when it was set, no tick is run. *)
Theorem run_frame_terminates (s : System) (fuel : nat) :
  reachable s ->
  89342 <= Z.of_nat fuel ->
  let r := PPU.render (Sys.ppu s) in
  let s' := exec (Emulator.run_frame fuel) s in
  let r' := PPU.render (Sys.ppu s') in
  eval (Emulator.run_frame fuel) s = true
  /\ PPU.frame_ready r' = false
  /\ (PPU.frame_ready r = false ->
      PPU.scanline r' = -1 /\ PPU.cycle r' = 0
      /\ PPU.frame_count r' = u64 (PPU.frame_count r + 1))
  /\ (PPU.frame_ready r = true ->
      s' = Sys.set_ppu (snd (PPU.frame_complete (Sys.ppu s))) s).
Proof.
  intros H Hfuel r s' r'. pose proof (reachable_beam s H) as Hb.
  destruct (PPU.frame_ready r) eqn:Hf.
  - assert (E : Emulator.run_frame fuel s
                = (true, Sys.set_ppu (snd (PPU.frame_complete (Sys.ppu s))) s)).
    { destruct fuel; cbn [Emulator.run_frame]; unfold PPU.frame_complete; fold r;
        rewrite Hf; reflexivity. }
    unfold r', s', eval, exec. rewrite E. cbn. repeat split; congruence.
  - pose proof (dot_index_range _ Hb) as Hd.
    destruct (run_frame_loop (Z.to_nat 89342) s fuel Hb Hf) as (R1 & R2 & R3 & R4 & R5);
      [ lia | lia | ].
    repeat split; try assumption; discriminate.
Qed.

End FrameProperties.

Lemma beam_stays_in_frame_witness : beam_ok (PPU.render (Sys.ppu machine0)).
Proof. exact (proj1 (beam_stays_in_frame machine0 reach_power_on)). Defined.

Lemma run_frame_terminates_witness :
  eval (Emulator.run_frame (Z.to_nat 89342)) machine0 = true.
Proof.
  refine (proj1 (run_frame_terminates machine0 (Z.to_nat 89342) reach_power_on _)).
  lia.
Defined.
(** ** Video memory *)

Module VramFacts.
Import PPU MapperFacts.

Lemma land_1F (x : Z) : Z.land x 0x001F = x mod 32.
Proof. change 0x001F with (Z.ones 5). apply Z.land_ones. lia. Qed.

Lemma land_0FFF (x : Z) : Z.land x 0x0FFF = x mod 4096.
Proof. change 0x0FFF with (Z.ones 12). apply Z.land_ones. lia. Qed.

Lemma land_07FF (x : Z) : Z.land x 0x07FF = x mod 2048.
Proof. change 0x07FF with (Z.ones 11). apply Z.land_ones. lia. Qed.

Lemma land_03FF (x : Z) : Z.land x 0x03FF = x mod 1024.
Proof. change 0x03FF with (Z.ones 10). apply Z.land_ones. lia. Qed.

Lemma land_FF (x : Z) : Z.land x 0x00FF = x mod 256.
Proof. change 0x00FF with (Z.ones 8). apply Z.land_ones. lia. Qed.

(** The palette entry of an address: 32 entries, the first of each
    sprite palette being the first of the background palette. *)
Lemma palette_index_spec (a : Z) :
  palette_index a = (let i := a mod 32 in if i mod 4 =? 0 then i mod 16 else i)
  /\ 0 <= palette_index a < 32.
Proof.
  unfold palette_index. rewrite land_1F. cbv zeta.
  pose proof (Z.mod_pos_bound a 32 ltac:(lia)) as H.
  generalize dependent (a mod 32). intros i H.
  pose (f := fun i =>
    let x := (let addr := if i =? 16 then 0 else i in
              let addr := if addr =? 20 then 4 else addr in
              let addr := if addr =? 24 then 8 else addr in
              let addr := if addr =? 28 then 12 else addr in addr) in
    (x =? (if i mod 4 =? 0 then i mod 16 else i)) && (0 <=? x) && (x <? 32)).
  assert (Hf : f i = true).
  { apply (Mmc1Facts.forall_below 32 f); [ vm_compute; reflexivity | exact H ]. }
  unfold f in Hf. cbv zeta in Hf.
  apply andb_prop in Hf. destruct Hf as [Hf H3]. apply andb_prop in Hf.
  destruct Hf as [H1 H2].
  apply Z.eqb_eq in H1. apply Z.leb_le in H2. apply Z.ltb_lt in H3.
  split; [ exact H1 | lia ].
Qed.

Section WithMapper.
Context {M : Type} {MP : Mapper M}.

(** The mirroring a PPU access sees. *)
Lemma nametable_index_spec (cart : option (Cartridge.t M)) (a : Z) :
  0 <= a < 4096 ->
  let mirror := match cart with Some c => Cartridge.get_mirror c | None => HORIZONTAL end in
  let bank :=
    match mirror with
    | VERTICAL | FOUR_SCREEN => (a / 1024) mod 2
    | HORIZONTAL => a / 2048
    | ONESCREEN_LO => 0
    | ONESCREEN_HI => 1
    end in
  nametable_index cart a = 1024 * bank + a mod 1024.
Proof.
  intros Ha mirror bank. unfold nametable_index. fold mirror.
  unfold bank. destruct mirror; rewrite ?land_07FF, ?land_03FF.
  - destruct (Z.ltb_spec a 0x0800); Z.div_mod_to_equations; lia.
  - Z.div_mod_to_equations; lia.
  - lia.
  - lia.
  - Z.div_mod_to_equations; lia.
Qed.

End WithMapper.
End VramFacts.

Module PortFacts.
Import PPU MapperFacts VramFacts.

(** The address the two [$2006] writes latch. *)
Lemma latched_high (hi y : Z) :
  0 <= hi < 256 -> 0 <= y < 256 ->
  Z.land (Z.lor (u16 (Z.shiftl (Z.land hi 0x3F) 8)) y) 0xFF00 = (hi mod 64) * 256.
Proof.
  intros Hh Hy.
  pose (f := fun hi => forallb (fun y =>
          Z.land (Z.lor (u16 (Z.shiftl (Z.land hi 0x3F) 8)) y) 0xFF00 =? (hi mod 64) * 256)
          (map Z.of_nat (seq 0 256))).
  assert (Hf : f hi = true).
  { apply (Mmc1Facts.forall_below 256 f); [ vm_compute; reflexivity | exact Hh ]. }
  apply Z.eqb_eq. exact (Mmc1Facts.forall_below 256 _ Hf y Hy).
Qed.

Lemma latched_low (h lo : Z) :
  0 <= h < 64 -> 0 <= lo < 256 -> Z.lor (h * 256) lo = h * 256 + lo.
Proof.
  intros Hh Hl.
  pose (f := fun h => forallb (fun lo => Z.lor (h * 256) lo =? h * 256 + lo)
                        (map Z.of_nat (seq 0 256))).
  assert (Hf : f h = true).
  { apply (Mmc1Facts.forall_below 64 f); [ vm_compute; reflexivity | exact Hh ]. }
  apply Z.eqb_eq. exact (Mmc1Facts.forall_below 256 _ Hf lo Hl).
Qed.

Section WithMapper.
Context {M : Type} {MP : Mapper M}.
Local Abbreviation PS := (PPU.t * option (Cartridge.t M))%type.

(** The registers [$2006] and [$2007], as [cpu_write] and [cpu_read]
    select them. *)
Lemma cpu_write_addr (d : Z) (p : PPU.t) (cart : option (Cartridge.t M)) :
  cpu_write 0x2006 d p cart
  = (if negb (address_latch p) then
       (set_address_latch true
          (set_tram_addr
             (Z.lor (u16 (Z.shiftl (Z.land d 0x3F) 8)) (Z.land (tram_addr p) 0x00FF)) p),
        cart)
     else
       (set_address_latch false
          (set_vram_addr (Z.lor (Z.land (tram_addr p) 0xFF00) d)
             (set_tram_addr (Z.lor (Z.land (tram_addr p) 0xFF00) d) p)),
        cart)).
Proof. reflexivity. Qed.

Lemma cpu_write_data (d : Z) (p : PPU.t) (cart : option (Cartridge.t M)) :
  cpu_write 0x2007 d p cart
  = (let '(p', c') := ppu_write (vram_addr p) d p cart in
     (set_vram_addr (u16 (vram_addr p' + vram_step p')) p', c')).
Proof. reflexivity. Qed.

Lemma cpu_read_data (p : PPU.t) (cart : option (Cartridge.t M)) :
  cpu_read 0x2007 p cart
  = (let '(b, c') := ppu_read (vram_addr p) p cart in
     let p' := set_data_buffer b p in
     (if 0x3F00 <=? vram_addr p' then data_buffer p' else data_buffer p,
      (set_vram_addr (u16 (vram_addr p' + vram_step p')) p', c'))).
Proof. reflexivity. Qed.

(** Two writes to [$2006] with the latch clear. *)
Lemma set_address (p : PPU.t) (cart : option (Cartridge.t M)) (hi lo : Z) :
  address_latch p = false -> 0 <= hi < 256 -> 0 <= lo < 256 ->
  let a := (hi mod 64) * 256 + lo in
  exists t1,
    accesses [RegWrite 0x2006 hi; RegWrite 0x2006 lo] (p, cart)
    = (set_address_latch false
         (set_vram_addr a (set_tram_addr a (set_address_latch true (set_tram_addr t1 p)))),
       cart).
Proof.
  intros Hl Hh Hlo a. eexists.
  unfold accesses. cbn [fold_left access fst snd].
  rewrite (cpu_write_addr hi p), Hl. cbn [negb fst snd].
  rewrite cpu_write_addr.
  cbn [address_latch set_address_latch negb tram_addr set_tram_addr].
  rewrite latched_high by (try rewrite land_FF; try apply Z.mod_pos_bound; lia).
  rewrite latched_low by (try apply Z.mod_pos_bound; lia).
  reflexivity.
Qed.

Lemma nametable_access (a d : Z) (p : PPU.t) (cart : option (Cartridge.t M)) :
  0x2000 <= a <= 0x3EFF ->
  let i := nametable_index cart (Z.land a 0x0FFF) in
  ppu_write a d p cart = (set_nametable (byte_set (nametable p) i d) p, cart)
  /\ ppu_read a p cart = (byte_at (nametable p) i, cart)
  /\ 0 <= i < 2048.
Proof.
  intros Ha i. unfold ppu_write, ppu_read. rewrite land_3FFF, Z.mod_small by lia.
  rewrite (off_window 0 0x1FFF) by lia. rewrite in_window by lia.
  split; [ reflexivity | ]. split; [ reflexivity | ].
  unfold i. rewrite land_0FFF.
  pose proof (Z.mod_pos_bound a 4096 ltac:(lia)) as Hx.
  rewrite (nametable_index_spec cart (a mod 4096) Hx). cbv zeta.
  destruct (match cart with Some c => Cartridge.get_mirror c | None => HORIZONTAL end);
    Z.div_mod_to_equations; lia.
Qed.

Lemma palette_access (a d : Z) (p : PPU.t) (cart : option (Cartridge.t M)) :
  0x3F00 <= a <= 0x3FFF ->
  let i := palette_index a in
  ppu_write a d p cart = (set_palette (byte_set (palette p) i d) p, cart)
  /\ ppu_read a p cart
     = (Z.land (byte_at (palette p) i) (if nonzero (mask_grayscale p) then 0x30 else 0x3F),
        cart)
  /\ 0 <= i < 32.
Proof.
  intros Ha i. unfold ppu_write, ppu_read. rewrite land_3FFF, Z.mod_small by lia.
  rewrite (off_window 0 0x1FFF), (off_window 0x2000 0x3EFF) by lia.
  rewrite in_window by lia.
  split; [ reflexivity | ]. split; [ reflexivity | ].
  apply palette_index_spec.
Qed.

Lemma ppu_write_latch (a d : Z) (p : PPU.t) (cart : option (Cartridge.t M)) :
  address_latch (fst (ppu_write a d p cart)) = address_latch p.
Proof.
  unfold ppu_write.
  repeat match goal with
  | |- context [if ?c then _ else _] => destruct c; try reflexivity
  | |- context [match ?c with Some _ => _ | None => _ end] => destruct c; try reflexivity
  end.
Qed.

Lemma accesses_app (l1 l2 : list Access) (s : PS) :
  accesses (l1 ++ l2) s = accesses l2 (accesses l1 s).
Proof. apply fold_left_app. Qed.

End WithMapper.
End PortFacts.

Section VramProperties.
Context {M : Type} {MP : Mapper M}.
Import MapperFacts VramFacts.

(** X26.  Palette RAM through [ppu_write] and [ppu_read]: the 32 entries
    repeat through [$3F00-$3FFF], and entries [$10], [$14], [$18] and
    [$1C] are entries [$00], [$04], [$08] and [$0C].  A byte written at
    one address is read back, masked to 6 bits (to [$30] with the
    grayscale bit set), at every address of the same entry; the other
    entries read as before.  The index stays inside the 32 bytes. *)
Theorem palette_mirrors (p : PPU.t) (cart : option (Cartridge.t M)) (a a' d : Z) :
  Z.of_nat (length (PPU.palette p)) = 32 ->
  0x3F00 <= a <= 0x3FFF -> 0x3F00 <= a' <= 0x3FFF ->
  let entry := fun x => let i := x mod 32 in if i mod 4 =? 0 then i mod 16 else i in
  let gray := if nonzero (PPU.mask_grayscale p) then 0x30 else 0x3F in
  let s1 := PPU.ppu_write a d p cart in
  PPU.palette_index a = entry a
  /\ 0 <= entry a < 32
  /\ snd s1 = cart
  /\ fst (PPU.ppu_read a' (fst s1) (snd s1))
     = (if entry a' =? entry a then Z.land d gray
        else fst (PPU.ppu_read a' p cart)).
Proof.
  intros Hl Ha Ha' entry gray s1.
  destruct (palette_index_spec a) as [E1 R1].
  destruct (palette_index_spec a') as [E2 R2].
  cbv zeta in E1, E2. fold (entry a) in E1. fold (entry a') in E2.
  split; [ exact E1 | ]. split; [ rewrite <- E1; exact R1 | ].
  assert (W : s1 = (PPU.set_palette (byte_set (PPU.palette p) (PPU.palette_index a) d) p,
                    cart)).
  { unfold s1, PPU.ppu_write. rewrite land_3FFF, Z.mod_small by lia.
    rewrite (off_window 0 0x1FFF), (off_window 0x2000 0x3EFF) by lia.
    rewrite in_window by lia. reflexivity. }
  rewrite W. cbn [fst snd]. split; [ reflexivity | ].
  unfold PPU.ppu_read. rewrite land_3FFF, Z.mod_small by lia.
  rewrite (off_window 0 0x1FFF), (off_window 0x2000 0x3EFF) by lia.
  rewrite in_window by lia. cbn [fst PPU.palette PPU.set_palette].
  change (PPU.mask_grayscale (PPU.set_palette _ p)) with (PPU.mask_grayscale p).
  fold gray. rewrite <- E1, <- E2.
  destruct (Z.eqb_spec (PPU.palette_index a') (PPU.palette_index a)) as [-> | Hne].
  - rewrite byte_at_set_eq by lia. reflexivity.
  - rewrite byte_at_set_ne by lia. reflexivity.
Qed.

(** X27.  Nametable mirroring through [ppu_write] and [ppu_read].  An
    address of [$2000-$3EFF] names one of four 1 KiB tables (modulo
    [$1000]) and an offset in it; the table is stored in the first or
    second KiB of the 2 KiB VRAM: tables 0 and 2 share one and 1 and 3
    the other under vertical mirroring (and under four-screen, which the
    PPU treats the same way), 0 and 1 share one and 2 and 3 the other
    under horizontal mirroring (also used without a cartridge), and all
    four are one under the single-screen modes.  A byte written is read
    back at every address of the same VRAM cell, the others read as
    before, and the index stays inside the 2 KiB. *)
Theorem nametable_mirroring (p : PPU.t) (cart : option (Cartridge.t M)) (a a' d : Z) :
  Z.of_nat (length (PPU.nametable p)) = 2048 ->
  0x2000 <= a <= 0x3EFF -> 0x2000 <= a' <= 0x3EFF ->
  let mirror := match cart with Some c => Cartridge.get_mirror c | None => HORIZONTAL end in
  let cell := fun x =>
    let table := (x mod 4096) / 1024 in
    let bank :=
      match mirror with
      | VERTICAL | FOUR_SCREEN => table mod 2
      | HORIZONTAL => table / 2
      | ONESCREEN_LO => 0
      | ONESCREEN_HI => 1
      end in
    1024 * bank + x mod 1024 in
  let s1 := PPU.ppu_write a d p cart in
  PPU.nametable_index cart (Z.land a 0x0FFF) = cell a
  /\ 0 <= cell a < 2048
  /\ snd s1 = cart
  /\ fst (PPU.ppu_read a' (fst s1) (snd s1))
     = (if cell a' =? cell a then d else fst (PPU.ppu_read a' p cart)).
Proof.
  intros Hl Ha Ha' mirror cell s1.
  assert (C : forall x, PPU.nametable_index cart (Z.land x 0x0FFF) = cell x
                        /\ 0 <= cell x < 2048).
  { intros x. rewrite land_0FFF.
    pose proof (Z.mod_pos_bound x 4096 ltac:(lia)) as Hx.
    rewrite (nametable_index_spec cart (x mod 4096) Hx). cbv zeta. fold mirror.
    unfold cell.
    replace ((x mod 4096) mod 1024) with (x mod 1024)
      by (Z.div_mod_to_equations; lia).
    replace ((x mod 4096) / 2048) with ((x mod 4096) / 1024 / 2)
      by (Z.div_mod_to_equations; lia).
    split; [ reflexivity | ].
    destruct mirror; Z.div_mod_to_equations; lia. }
  destruct (C a) as [E1 R1]. destruct (C a') as [E2 R2].
  split; [ exact E1 | ]. split; [ exact R1 | ].
  assert (W : s1 = (PPU.set_nametable
                      (byte_set (PPU.nametable p)
                         (PPU.nametable_index cart (Z.land a 0x0FFF)) d) p, cart)).
  { unfold s1, PPU.ppu_write. rewrite land_3FFF, Z.mod_small by lia.
    rewrite (off_window 0 0x1FFF) by lia. rewrite in_window by lia. reflexivity. }
  rewrite W. cbn [fst snd]. split; [ reflexivity | ].
  unfold PPU.ppu_read. rewrite land_3FFF, Z.mod_small by lia.
  rewrite (off_window 0 0x1FFF) by lia. rewrite in_window by lia.
  cbn [fst PPU.nametable PPU.set_nametable]. rewrite E1, E2.
  destruct (Z.eqb_spec (cell a') (cell a)) as [-> | Hne].
  - rewrite byte_at_set_eq by lia. reflexivity.
  - rewrite byte_at_set_ne by lia. reflexivity.
Qed.

End VramProperties.

Lemma palette_mirrors_witness :
  PPU.palette_index 0x3F10 = (let i := 0x3F10 mod 32 in if i mod 4 =? 0 then i mod 16 else i).
Proof.
  refine (proj1 (palette_mirrors (M := Mapper004.t) PPU.create None 0x3F10 0x3F00 0x2A
                   _ _ _)); first [ lia | reflexivity ].
Defined.

Lemma nametable_mirroring_witness :
  snd (PPU.ppu_write (M := Mapper004.t) 0x2400 0x55 PPU.create None) = None.
Proof.
  refine (proj1 (proj2 (proj2 (nametable_mirroring (M := Mapper004.t) PPU.create None
                                  0x2400 0x2000 0x55 _ _ _))));
    first [ lia | reflexivity ].
Defined.

Section PortProperties.
Context {M : Type} {MP : Mapper M}.
Import MapperFacts VramFacts PortFacts.

(** X28.  Video memory through the CPU ports.  With the write latch
    clear, two writes to [$2006] set the VRAM address to the low six
    bits of the first byte and the second byte.  A byte written through
    [$2007] to the nametables is read back, after the address is set
    again, by the second of two [$2007] reads (the first returns what
    the read buffer held), provided the address after the first read is
    still below [$3F00]; a byte written to the palette is read back by
    the first read, masked to 6 bits (to [$30] with the grayscale bit
    set). *)
Theorem ppudata_read_back (p : PPU.t) (cart : option (Cartridge.t M)) (hi lo d : Z) :
  PPU.address_latch p = false ->
  Z.of_nat (length (PPU.nametable p)) = 2048 ->
  Z.of_nat (length (PPU.palette p)) = 32 ->
  0 <= hi < 256 -> 0 <= lo < 256 ->
  let a := (hi mod 64) * 256 + lo in
  let s1 := accesses [RegWrite 0x2006 hi; RegWrite 0x2006 lo; RegWrite 0x2007 d;
                      RegWrite 0x2006 hi; RegWrite 0x2006 lo] (p, cart) in
  let r1 := PPU.cpu_read 0x2007 (fst s1) (snd s1) in
  let r2 := PPU.cpu_read 0x2007 (fst (snd r1)) (snd (snd r1)) in
  PPU.vram_addr (fst s1) = a
  /\ (0x2000 <= a <= 0x3EFF ->
      fst r1 = PPU.data_buffer p
      /\ (a + PPU.vram_step p < 0x3F00 -> fst r2 = d))
  /\ (0x3F00 <= a ->
      fst r1 = Z.land d (if nonzero (PPU.mask_grayscale p) then 0x30 else 0x3F)).
Proof.
  intros Hl Hn Hp Hh Hlo a s1 r1 r2.
  pose proof (Z.mod_pos_bound hi 64 ltac:(lia)) as Hm.
  assert (Ra : 0 <= a <= 0x3FFF) by (unfold a; lia).
  destruct (set_address p cart hi lo Hl Hh Hlo) as [t1 E1]. fold a in E1.
  set (pA := PPU.set_address_latch false
               (PPU.set_vram_addr a (PPU.set_tram_addr a
                  (PPU.set_address_latch true (PPU.set_tram_addr t1 p))))) in E1.
  set (sB := PPU.cpu_write 0x2007 d pA cart).
  assert (HlB : PPU.address_latch (fst sB) = false).
  { unfold sB. rewrite cpu_write_data.
    pose proof (ppu_write_latch (PPU.vram_addr pA) d pA cart) as L.
    destruct (PPU.ppu_write (PPU.vram_addr pA) d pA cart) as [p' c']. exact L. }
  destruct (set_address (fst sB) (snd sB) hi lo HlB Hh Hlo) as [t2 E2]. fold a in E2.
  assert (S1 : s1 = (PPU.set_address_latch false
                       (PPU.set_vram_addr a (PPU.set_tram_addr a
                          (PPU.set_address_latch true (PPU.set_tram_addr t2 (fst sB))))),
                     snd sB)).
  { unfold s1.
    change [RegWrite 0x2006 hi; RegWrite 0x2006 lo; RegWrite 0x2007 d;
            RegWrite 0x2006 hi; RegWrite 0x2006 lo]
      with ([RegWrite 0x2006 hi; RegWrite 0x2006 lo]
            ++ [RegWrite 0x2007 d] ++ [RegWrite 0x2006 hi; RegWrite 0x2006 lo]).
    rewrite !accesses_app, E1.
    change (accesses [RegWrite 0x2007 d] (pA, cart)) with sB.
    rewrite <- E2. destruct sB; reflexivity. }
  clearbody s1. subst s1. cbn [fst snd] in r1.
  split; [ reflexivity | ].
  split.
  - intros Ha.
    destruct (nametable_access a d pA cart Ha) as (W & _ & Hi). cbv zeta in W, Hi.
    assert (EB : sB = (PPU.set_vram_addr (u16 (a + PPU.vram_step p))
                         (PPU.set_nametable
                            (byte_set (PPU.nametable p)
                               (PPU.nametable_index cart (Z.land a 0x0FFF)) d) pA), cart)).
    { unfold sB. rewrite cpu_write_data.
      change (PPU.vram_addr pA) with a. rewrite W. reflexivity. }
    clearbody sB. subst sB. cbn [fst snd] in r1.
    unfold r2, r1. clear r1 r2.
    rewrite cpu_read_data.
    match goal with |- context [PPU.ppu_read ?x ?q cart] =>
      change x with a;
      destruct (nametable_access a d q cart Ha) as (_ & R & _); cbv zeta in R;
      rewrite R; clear R
    end.
    cbn [fst snd PPU.vram_addr PPU.set_data_buffer PPU.set_address_latch PPU.set_vram_addr
         PPU.set_tram_addr PPU.set_nametable PPU.data_buffer PPU.nametable].
    destruct (Z.leb_spec 0x3F00 a) as [ | _ ]; [ lia | ].
    split; [ reflexivity | ].
    intros Hstep. rewrite cpu_read_data.
    match goal with |- context [PPU.ppu_read ?x ?q cart] =>
      destruct (PPU.ppu_read x q cart) as [b c']
    end.
    cbn [fst snd PPU.vram_addr PPU.set_data_buffer PPU.set_address_latch PPU.set_vram_addr
         PPU.set_tram_addr PPU.set_nametable PPU.data_buffer PPU.nametable].
    change (PPU.vram_step _) with (PPU.vram_step p).
    pose proof (u16_id (a + PPU.vram_step p)) as Hu.
    assert (Hs : 1 <= PPU.vram_step p) by (unfold PPU.vram_step; destruct (nonzero _); lia).
    rewrite Hu by lia.
    destruct (Z.leb_spec 0x3F00 (a + PPU.vram_step p)) as [ | _ ]; [ lia | ].
    apply byte_at_set_eq. lia.
  - intros Ha. assert (Ha' : 0x3F00 <= a <= 0x3FFF) by lia.
    destruct (palette_access a d pA cart Ha') as (W & _ & Hi). cbv zeta in W, Hi.
    assert (EB : sB = (PPU.set_vram_addr (u16 (a + PPU.vram_step p))
                         (PPU.set_palette
                            (byte_set (PPU.palette p) (PPU.palette_index a) d) pA), cart)).
    { unfold sB. rewrite cpu_write_data.
      change (PPU.vram_addr pA) with a. rewrite W. reflexivity. }
    clearbody sB. subst sB. cbn [fst snd] in r1.
    unfold r1. clear r1 r2.
    rewrite cpu_read_data.
    match goal with |- context [PPU.ppu_read ?x ?q cart] =>
      change x with a;
      destruct (palette_access a d q cart Ha') as (_ & R & _); cbv zeta in R;
      rewrite R; clear R
    end.
    cbn [fst snd PPU.vram_addr PPU.set_data_buffer PPU.set_address_latch PPU.set_vram_addr
         PPU.set_tram_addr PPU.set_palette PPU.data_buffer PPU.palette].
    destruct (Z.leb_spec 0x3F00 a) as [ _ | ]; [ | lia ].
    change (PPU.mask_grayscale _) with (PPU.mask_grayscale p).
    rewrite byte_at_set_eq by lia. reflexivity.
Qed.

End PortProperties.

Lemma ppudata_read_back_witness :
  let s1 := accesses (M := Mapper004.t)
              [RegWrite 0x2006 0x20; RegWrite 0x2006 0x00; RegWrite 0x2007 0x42;
               RegWrite 0x2006 0x20; RegWrite 0x2006 0x00] (PPU.create, None) in
  PPU.vram_addr (fst s1) = (0x20 mod 64) * 256 + 0x00.
Proof.
  refine (proj1 (ppudata_read_back (M := Mapper004.t) PPU.create None 0x20 0x00 0x42
                   _ _ _ _ _)); first [ lia | reflexivity ].
Defined.
(** ** The APU status register *)

Module ApuFacts.
Import APU.

Lemma small_high_bits (n k : Z) : 0 <= n < 32 -> 5 <= k -> Z.testbit n k = false.
Proof.
  intros Hn Hk. destruct (Z.eq_dec n 0) as [-> | Hz]; [ apply Z.bits_0 | ].
  apply Z.bits_above_log2; [ lia | ].
  apply Z.lt_le_trans with 5; [ | exact Hk ].
  apply Z.log2_lt_pow2; [ lia | ]. change (2 ^ 5) with 32. lia.
Qed.

(** The status byte from its five conditions. *)
Lemma status_bits (b0 b1 b2 b3 b4 : bool) :
  let st :=
    Z.lor (Z.lor (Z.lor (Z.lor (Z.lor 0x00 (if b0 then 0x01 else 0x00))
                               (if b1 then 0x02 else 0x00))
                        (if b2 then 0x04 else 0x00))
                 (if b3 then 0x08 else 0x00))
          (if b4 then 0x10 else 0x00) in
  Z.testbit st 0 = b0 /\ Z.testbit st 1 = b1 /\ Z.testbit st 2 = b2
  /\ Z.testbit st 3 = b3 /\ Z.testbit st 4 = b4 /\ 0 <= st < 32.
Proof. destruct b0, b1, b2, b3, b4; vm_compute; repeat split; congruence. Qed.

Lemma cpu_read_status (a : t) :
  cpu_read 0x4015 a
  = (Z.lor (Z.lor (Z.lor (Z.lor (Z.lor 0x00
       (if 0 <? Pulse.length_counter (pulse1 a) then 0x01 else 0x00))
       (if 0 <? Pulse.length_counter (pulse2 a) then 0x02 else 0x00))
       (if 0 <? Triangle.length_counter (triangle a) then 0x04 else 0x00))
       (if 0 <? Noise.length_counter (noise a) then 0x08 else 0x00))
       (if 0 <? DMC.bytes_remaining (dmc a) then 0x10 else 0x00), a).
Proof. reflexivity. Qed.

(** The steps of a write to [$4015]: the five enable bits, then the
    counters of the channels switched off. *)
Lemma cpu_write_status (d : Z) (a : t) :
  let a1 := cpu_write 0x4015 d a in
  Pulse.length_counter (pulse1 a1)
  = (if Z.testbit d 0 then Pulse.length_counter (pulse1 a) else 0)
  /\ Pulse.length_counter (pulse2 a1)
     = (if Z.testbit d 1 then Pulse.length_counter (pulse2 a) else 0)
  /\ Triangle.length_counter (triangle a1)
     = (if Z.testbit d 2 then Triangle.length_counter (triangle a) else 0)
  /\ Noise.length_counter (noise a1)
     = (if Z.testbit d 3 then Noise.length_counter (noise a) else 0)
  /\ DMC.bytes_remaining (dmc a1)
     = (if Z.testbit d 4
        then (if DMC.bytes_remaining (dmc a) =? 0 then DMC.sample_length (dmc a)
              else DMC.bytes_remaining (dmc a))
        else 0).
Proof.
  intros w.
  pose (a1 := set_pulse1 (Pulse.set_enabled (nonzero (Z.land d 0x01)) (pulse1 a)) a).
  pose (a2 := set_pulse2 (Pulse.set_enabled (nonzero (Z.land d 0x02)) (pulse2 a1)) a1).
  pose (a3 := set_triangle (Triangle.set_enabled (nonzero (Z.land d 0x04)) (triangle a2)) a2).
  pose (a4 := set_noise (Noise.set_enabled (nonzero (Z.land d 0x08)) (noise a3)) a3).
  pose (a5 := set_dmc (DMC.set_enabled (nonzero (Z.land d 0x10)) (dmc a4)) a4).
  pose (a6 := if negb (Pulse.enabled (pulse1 a5)) then set_pulse1 (Pulse.set_length_counter 0 (pulse1 a5)) a5 else a5).
  pose (a7 := if negb (Pulse.enabled (pulse2 a6)) then set_pulse2 (Pulse.set_length_counter 0 (pulse2 a6)) a6 else a6).
  pose (a8 := if negb (Triangle.enabled (triangle a7)) then set_triangle (Triangle.set_length_counter 0 (triangle a7)) a7 else a7).
  pose (a9 := if negb (Noise.enabled (noise a8)) then set_noise (Noise.set_length_counter 0 (noise a8)) a8 else a8).
  pose (a10 := if negb (DMC.enabled (dmc a9)) then set_dmc (DMC.set_bytes_remaining 0 (dmc a9)) a9
    else if DMC.bytes_remaining (dmc a9) =? 0 then set_dmc (DMC.start_sample (dmc a9)) a9
    else a9).
  assert (E : w = a10) by reflexivity.
  clearbody w. subst w.
  assert (H_a1 : (pulse1 a1, pulse2 a1, triangle a1, noise a1, dmc a1)
            = (Pulse.set_enabled (nonzero (Z.land d 0x01)) (pulse1 a), pulse2 a, triangle a, noise a, dmc a))
    by (reflexivity).
  clearbody a1. injection H_a1 as Q1_a1 Q2_a1 Q3_a1 Q4_a1 Q5_a1.
  assert (H_a2 : (pulse1 a2, pulse2 a2, triangle a2, noise a2, dmc a2)
            = (pulse1 a1, Pulse.set_enabled (nonzero (Z.land d 0x02)) (pulse2 a1), triangle a1, noise a1, dmc a1))
    by (reflexivity).
  clearbody a2. injection H_a2 as Q1_a2 Q2_a2 Q3_a2 Q4_a2 Q5_a2.
  assert (H_a3 : (pulse1 a3, pulse2 a3, triangle a3, noise a3, dmc a3)
            = (pulse1 a2, pulse2 a2, Triangle.set_enabled (nonzero (Z.land d 0x04)) (triangle a2), noise a2, dmc a2))
    by (reflexivity).
  clearbody a3. injection H_a3 as Q1_a3 Q2_a3 Q3_a3 Q4_a3 Q5_a3.
  assert (H_a4 : (pulse1 a4, pulse2 a4, triangle a4, noise a4, dmc a4)
            = (pulse1 a3, pulse2 a3, triangle a3, Noise.set_enabled (nonzero (Z.land d 0x08)) (noise a3), dmc a3))
    by (reflexivity).
  clearbody a4. injection H_a4 as Q1_a4 Q2_a4 Q3_a4 Q4_a4 Q5_a4.
  assert (H_a5 : (pulse1 a5, pulse2 a5, triangle a5, noise a5, dmc a5)
            = (pulse1 a4, pulse2 a4, triangle a4, noise a4, DMC.set_enabled (nonzero (Z.land d 0x10)) (dmc a4)))
    by (reflexivity).
  clearbody a5. injection H_a5 as Q1_a5 Q2_a5 Q3_a5 Q4_a5 Q5_a5.
  assert (H_a6 : (pulse1 a6, pulse2 a6, triangle a6, noise a6, dmc a6)
            = ((if negb (Pulse.enabled (pulse1 a5)) then Pulse.set_length_counter 0 (pulse1 a5) else pulse1 a5), pulse2 a5, triangle a5, noise a5, dmc a5))
    by (unfold a6; destruct (negb _); reflexivity).
  clearbody a6. injection H_a6 as Q1_a6 Q2_a6 Q3_a6 Q4_a6 Q5_a6.
  assert (H_a7 : (pulse1 a7, pulse2 a7, triangle a7, noise a7, dmc a7)
            = (pulse1 a6, (if negb (Pulse.enabled (pulse2 a6)) then Pulse.set_length_counter 0 (pulse2 a6) else pulse2 a6), triangle a6, noise a6, dmc a6))
    by (unfold a7; destruct (negb _); reflexivity).
  clearbody a7. injection H_a7 as Q1_a7 Q2_a7 Q3_a7 Q4_a7 Q5_a7.
  assert (H_a8 : (pulse1 a8, pulse2 a8, triangle a8, noise a8, dmc a8)
            = (pulse1 a7, pulse2 a7, (if negb (Triangle.enabled (triangle a7)) then Triangle.set_length_counter 0 (triangle a7) else triangle a7), noise a7, dmc a7))
    by (unfold a8; destruct (negb _); reflexivity).
  clearbody a8. injection H_a8 as Q1_a8 Q2_a8 Q3_a8 Q4_a8 Q5_a8.
  assert (H_a9 : (pulse1 a9, pulse2 a9, triangle a9, noise a9, dmc a9)
            = (pulse1 a8, pulse2 a8, triangle a8, (if negb (Noise.enabled (noise a8)) then Noise.set_length_counter 0 (noise a8) else noise a8), dmc a8))
    by (unfold a9; destruct (negb _); reflexivity).
  clearbody a9. injection H_a9 as Q1_a9 Q2_a9 Q3_a9 Q4_a9 Q5_a9.
  assert (H_a10 : (pulse1 a10, pulse2 a10, triangle a10, noise a10, dmc a10)
            = (pulse1 a9, pulse2 a9, triangle a9, noise a9, (if negb (DMC.enabled (dmc a9)) then DMC.set_bytes_remaining 0 (dmc a9)
        else if DMC.bytes_remaining (dmc a9) =? 0 then DMC.start_sample (dmc a9)
        else dmc a9)))
    by (unfold a10; destruct (negb _); [ reflexivity | destruct (_ =? 0); reflexivity ]).
  clearbody a10. injection H_a10 as Q1_a10 Q2_a10 Q3_a10 Q4_a10 Q5_a10.
  assert (N0 : nonzero (Z.land d 0x01) = Z.testbit d 0)
    by (apply (nonzero_land_pow2 d 0); lia).
  assert (N1 : nonzero (Z.land d 0x02) = Z.testbit d 1)
    by (apply (nonzero_land_pow2 d 1); lia).
  assert (N2 : nonzero (Z.land d 0x04) = Z.testbit d 2)
    by (apply (nonzero_land_pow2 d 2); lia).
  assert (N3 : nonzero (Z.land d 0x08) = Z.testbit d 3)
    by (apply (nonzero_land_pow2 d 3); lia).
  assert (N4 : nonzero (Z.land d 0x10) = Z.testbit d 4)
    by (apply (nonzero_land_pow2 d 4); lia).
  split; [ | split; [ | split; [ | split ] ] ].
  - rewrite Q1_a10, Q1_a9, Q1_a8, Q1_a7, Q1_a6, Q1_a5, Q1_a4, Q1_a3, Q1_a2, Q1_a1, ?N0.
    destruct (Z.testbit d 0); reflexivity.
  - rewrite Q2_a10, Q2_a9, Q2_a8, Q2_a7, Q2_a6, Q2_a5, Q2_a4, Q2_a3, Q2_a2, Q2_a1, ?N1.
    destruct (Z.testbit d 1); reflexivity.
  - rewrite Q3_a10, Q3_a9, Q3_a8, Q3_a7, Q3_a6, Q3_a5, Q3_a4, Q3_a3, Q3_a2, Q3_a1, ?N2.
    destruct (Z.testbit d 2); reflexivity.
  - rewrite Q4_a10, Q4_a9, Q4_a8, Q4_a7, Q4_a6, Q4_a5, Q4_a4, Q4_a3, Q4_a2, Q4_a1, ?N3.
    destruct (Z.testbit d 3); reflexivity.
  - rewrite Q5_a10, Q5_a9, Q5_a8, Q5_a7, Q5_a6, Q5_a5, Q5_a4, Q5_a3, Q5_a2, Q5_a1, ?N4.
    destruct (Z.testbit d 4); [ | reflexivity ].
    cbn [negb DMC.enabled DMC.set_enabled DMC.bytes_remaining].
    destruct (DMC.bytes_remaining (dmc a) =? 0); reflexivity.
Qed.

End ApuFacts.

Section ApuProperties.
Import ApuFacts.

(** X29.  The APU status register.  After a write of [d] to [$4015], a
    read of [$4015] shows for each of pulse 1, pulse 2, triangle and
    noise (bits 0 to 3) whether the channel was switched on by [d] and
    its length counter is not zero, since switching a channel off clears
    its counter; bit 4 shows whether the DMC was switched on and has
    bytes left, a sample being started when it had none.  Bits 5 to 7
    read 0 and the read changes nothing. *)
Theorem apu_status_read (a : APU.t) (d : Z) :
  let a1 := APU.cpu_write 0x4015 d a in
  let st := fst (APU.cpu_read 0x4015 a1) in
  snd (APU.cpu_read 0x4015 a1) = a1
  /\ Z.testbit st 0 = Z.testbit d 0 && (0 <? Pulse.length_counter (APU.pulse1 a))
  /\ Z.testbit st 1 = Z.testbit d 1 && (0 <? Pulse.length_counter (APU.pulse2 a))
  /\ Z.testbit st 2 = Z.testbit d 2 && (0 <? Triangle.length_counter (APU.triangle a))
  /\ Z.testbit st 3 = Z.testbit d 3 && (0 <? Noise.length_counter (APU.noise a))
  /\ Z.testbit st 4
     = Z.testbit d 4
       && (0 <? (if DMC.bytes_remaining (APU.dmc a) =? 0
                 then DMC.sample_length (APU.dmc a)
                 else DMC.bytes_remaining (APU.dmc a)))
  /\ (forall k, 5 <= k -> Z.testbit st k = false).
Proof.
  intros a1 st. unfold st. rewrite cpu_read_status. cbn [fst snd].
  destruct (cpu_write_status d a) as (E0 & E1 & E2 & E3 & E4). fold a1 in E0, E1, E2, E3, E4.
  rewrite E0, E1, E2, E3, E4.
  match goal with |- context [Z.lor (Z.lor (Z.lor (Z.lor (Z.lor 0
      (if ?b0 then _ else _)) (if ?b1 then _ else _)) (if ?b2 then _ else _))
      (if ?b3 then _ else _)) (if ?b4 then _ else _)] =>
    destruct (status_bits b0 b1 b2 b3 b4) as (S0 & S1 & S2 & S3 & S4 & S5)
  end.
  cbv zeta in S0, S1, S2, S3, S4, S5.
  rewrite S0, S1, S2, S3, S4.
  split; [ reflexivity | ].
  repeat split; try (intros k Hk; apply small_high_bits; assumption).
  - destruct (Z.testbit d 0); reflexivity.
  - destruct (Z.testbit d 1); reflexivity.
  - destruct (Z.testbit d 2); reflexivity.
  - destruct (Z.testbit d 3); reflexivity.
  - destruct (Z.testbit d 4); reflexivity.
Qed.

End ApuProperties.
(** ** Vertical blank *)

Module VblankFacts.
Import PPU TimingFacts.
Section WithMapper.
Context {M : Type} {MP : Mapper M}.
Local Abbreviation System := (Sys.t M).
Local Abbreviation PS := (PPU.t * option (Cartridge.t M))%type.
Local Open Scope st_scope.

(** The PPU cycle at scanline 241, cycle 1. *)
Lemma ppu_clock_vblank (s : PS) :
  scanline (render (fst s)) = 241 -> cycle (render (fst s)) = 1 ->
  let p1 := set_status (field_set 7 1 1 (status (fst s))) (fst s) in
  let p2 := if nonzero (control_nmi_enable p1) then set_nmi true p1 else p1 in
  exec clock s = (set_render (advance (render p2)) p2, snd s).
Proof.
  intros Hl Hc p1 p2. unfold clock.
  rewrite exec_bind. change (eval (getr scanline) s) with (scanline (render (fst s))).
  change (exec (getr scanline) s) with s. rewrite Hl.
  change ((-1 <=? 241) && (241 <? 240)) with false. cbv iota.
  rewrite exec_bind, exec_ret.
  rewrite exec_bind. change (eval (getr scanline) s) with (scanline (render (fst s))).
  change (exec (getr scanline) s) with s. rewrite Hl.
  rewrite exec_bind. change (eval (getr cycle) s) with (cycle (render (fst s))).
  change (exec (getr cycle) s) with s. rewrite Hc.
  change ((241 <=? 241) && (241 <? 261) && (241 =? 241) && (1 =? 1)) with true.
  change ((241 =? -1) && (1 =? 1)) with false.
  change ((0 <=? 241) && (241 <? 240) && (1 <=? 1) && (1 <? 257)) with false.
  cbv iota.
  rewrite !exec_bind, !exec_ret.
  change (exec (modp (fun p => set_status (field_set 7 1 1 (status p)) p)) s)
    with (p1, snd s).
  change (exec (modp (fun p => if nonzero (control_nmi_enable p) then set_nmi true p else p))
            (p1, snd s)) with (p2, snd s).
  change (exec (getp (fun p => p)) (p2, snd s)) with (p2, snd s).
  change (eval (getp (fun p => p)) (p2, snd s)) with p2.
  assert (E : cycle (render p2) = 1).
  { unfold p2, p1. destruct (nonzero _); exact Hc. }
  rewrite E. change (1 =? 260) with false. cbn [andb]. cbv iota.
  rewrite exec_ret. reflexivity.
Qed.

Lemma vblank_bit (x : Z) : field_get 7 1 (field_set 7 1 1 x) = 1.
Proof.
  rewrite PPUFacts.field_get_bit by lia. unfold field_set.
  rewrite Z.lor_spec, Z.shiftl_spec by lia. cbn. rewrite orb_true_r. reflexivity.
Qed.

Section Line.
Variable v : bool.
Local Abbreviation I := (fun s : System => nmi (Sys.ppu s) = v).

Lemma ppu_read_nmi (a : Z) (p : PPU.t) (c : option (Cartridge.t M)) :
  nmi (fst (snd (cpu_read a p c))) = nmi p.
Proof.
  unfold cpu_read.
  repeat match goal with
  | |- context [if ?c then _ else _] => destruct c; try reflexivity
  end.
  destruct (ppu_read _ _ _). reflexivity.
Qed.

Lemma ppu_write_nmi (a d : Z) (p : PPU.t) (c : option (Cartridge.t M)) :
  nmi (fst (cpu_write a d p c)) = nmi p.
Proof.
  unfold cpu_write.
  repeat match goal with
  | |- context [if ?c then _ else _] => destruct c; try reflexivity
  end.
  unfold ppu_write.
  repeat match goal with
  | |- context [if ?c then _ else _] => destruct c; try reflexivity
  | |- context [match ?c with Some _ => _ | None => _ end] => destruct c; try reflexivity
  end.
Qed.

Lemma bus_read_nmi (a : Z) : preserves I (Bus.cpu_read a).
Proof.
  intros s H. unfold exec, Bus.cpu_read.
  pose proof (BusFacts.cart_cpu_read_frame a s) as F.
  destruct (Bus.cart_cpu_read a s) as [r s1]. cbn in F.
  destruct F as (Fc & Fp & Fa & Fb).
  assert (H1 : nmi (Sys.ppu s1) = v) by (rewrite Fp; exact H).
  destruct r as [d|]; [ exact H1 | ].
  destruct ((0x0000 <=? a) && (a <=? 0x1FFF)); [ exact H1 | ].
  destruct ((0x2000 <=? a) && (a <=? 0x3FFF)).
  { pose proof (ppu_read_nmi (Z.land a 7) (Sys.ppu s1) (Sys.cartridge s1)) as R.
    destruct (PPU.cpu_read _ _ _) as [d [p c]]. cbn in R |- *. congruence. }
  destruct ((0x4000 <=? a) && (a <=? 0x4015)).
  { destruct (APU.cpu_read _ _) as [d ap]. exact H1. }
  destruct (a =? 0x4016); [ exact H1 | ].
  destruct (a =? 0x4017); exact H1.
Qed.

Lemma bus_write_nmi (a d : Z) : preserves I (Bus.cpu_write a d).
Proof.
  intros s H. unfold exec, Bus.cpu_write.
  pose proof (BusFacts.cart_cpu_write_frame a d s) as F.
  destruct (Bus.cart_cpu_write a d s) as [h s1]. cbn in F.
  destruct F as (Fc & Fp & Fa & Fb).
  assert (H1 : nmi (Sys.ppu s1) = v) by (rewrite Fp; exact H).
  destruct h; [ exact H1 | ].
  destruct ((0x0000 <=? a) && (a <=? 0x1FFF)); [ exact H1 | ].
  destruct ((0x2000 <=? a) && (a <=? 0x3FFF)).
  { pose proof (ppu_write_nmi (Z.land a 7) d (Sys.ppu s1) (Sys.cartridge s1)) as R.
    destruct (PPU.cpu_write _ _ _ _) as [p c]. cbn in R |- *. congruence. }
  destruct (((0x4000 <=? a) && (a <=? 0x4013)) || (a =? 0x4015) || (a =? 0x4017));
    [ exact H1 | ].
  destruct (a =? 0x4014); [ exact H1 | ].
  destruct (a =? 0x4016); exact H1.
Qed.

Lemma oam_port_nmi (d : Z) : preserves I (BusClock.oam_port_write d).
Proof.
  intros s H. unfold exec, BusClock.oam_port_write.
  pose proof (ppu_write_nmi 4 d (Sys.ppu s) (Sys.cartridge s)) as R.
  destruct (PPU.cpu_write _ _ _ _) as [p c]. cbn in R |- *. congruence.
Qed.

Lemma cpu_slot_nmi : preserves I BusClock.cpu_slot.
Proof.
  exact (MachinePreserves.pres_cpu_slot I (fun s c H => H) (fun s b H => H)
           (fun s d H => H) (fun s H => H) (fun s x H => H)
           bus_read_nmi bus_write_nmi oam_port_nmi).
Qed.

Lemma cpu_nmi_nmi : preserves I CPU.nmi.
Proof. exact (CPUPreserves.pres_nmi I (fun s c H => H) bus_read_nmi bus_write_nmi). Qed.

Lemma route_irq_nmi : preserves I BusClock.route_irq.
Proof.
  exact (MachinePreserves.pres_route_irq I (fun s c H => H) bus_read_nmi bus_write_nmi
           (fun s H => H)).
Qed.

End Line.

(** A pending NMI is delivered by [route_nmi], which lowers the line. *)
Lemma route_nmi_pending (s : System) :
  nmi (Sys.ppu s) = true ->
  eval BusClock.route_nmi s = [NmiEntry]
  /\ nmi (Sys.ppu (exec BusClock.route_nmi s)) = false.
Proof.
  intros H. unfold BusClock.route_nmi. split.
  - rewrite eval_bind. change (eval (gets _) s) with (nmi (Sys.ppu s)). rewrite H.
    rewrite !eval_bind, eval_ret. reflexivity.
  - rewrite exec_bind. change (eval (gets _) s) with (nmi (Sys.ppu s)). rewrite H.
    rewrite !exec_bind, exec_ret.
    apply (cpu_nmi_nmi false). reflexivity.
Qed.

End WithMapper.
End VblankFacts.

Section VblankProperties.
Context {M : Type} {MP : Mapper M}.
Local Abbreviation System := (Sys.t M).
Import VblankFacts.

(** X30.  Vertical blank.  On the tick that finds the beam at scanline
    241, cycle 1, the PPU cycle sets the vblank bit of the status
    register and moves the beam to cycle 2; when the NMI enable bit of
    the control register is set, the CPU's [nmi()] entry is run within
    that same tick and the PPU's NMI line is low again when the tick
    ends. *)
Theorem vblank_nmi (s : System) :
  PPU.scanline (PPU.render (Sys.ppu s)) = 241 ->
  PPU.cycle (PPU.render (Sys.ppu s)) = 1 ->
  let p1 := Sys.ppu (exec BusClock.ppu_clock s) in
  PPU.status_vblank p1 = 1
  /\ PPU.scanline (PPU.render p1) = 241 /\ PPU.cycle (PPU.render p1) = 2
  /\ (nonzero (PPU.control_nmi_enable (Sys.ppu s)) = true ->
      In NmiEntry (eval BusClock.clock s)
      /\ PPU.nmi (Sys.ppu (exec BusClock.clock s)) = false).
Proof.
  intros Hl Hc p1.
  pose proof (ppu_clock_vblank (Sys.ppu s, Sys.cartridge s) Hl Hc) as E. cbv zeta in E.
  cbn [fst snd] in E.
  assert (E1 : exec BusClock.ppu_clock s
               = Sys.set_cartridge (Sys.cartridge s)
                   (Sys.set_ppu (fst (exec PPU.clock (Sys.ppu s, Sys.cartridge s))) s)).
  { clear p1. unfold exec in E |- *. unfold BusClock.ppu_clock.
    destruct (PPU.clock (Sys.ppu s, Sys.cartridge s)) as [u [p c]].
    cbn [fst snd] in *. inversion E. reflexivity. }
  assert (Ep : p1 = fst (exec PPU.clock (Sys.ppu s, Sys.cartridge s)))
    by (unfold p1; rewrite E1; reflexivity).
  rewrite E in Ep. cbn [fst] in Ep.
  set (q := PPU.set_status (PPU.field_set 7 1 1 (PPU.status (Sys.ppu s))) (Sys.ppu s)) in *.
  assert (Hen : PPU.control_nmi_enable q = PPU.control_nmi_enable (Sys.ppu s)) by reflexivity.
  rewrite Hen in Ep.
  split.
  { rewrite Ep. unfold PPU.status_vblank.
    destruct (nonzero _); cbn [PPU.status PPU.set_render PPU.set_nmi];
      unfold q; cbn [PPU.status PPU.set_status]; apply vblank_bit. }
  assert (Ea : timing (PPU.advance (PPU.render (Sys.ppu s)))
               = (241, 2, PPU.frame_count (PPU.render (Sys.ppu s)),
                  PPU.frame_ready (PPU.render (Sys.ppu s)))).
  { unfold PPU.advance, timing. cbv zeta.
    cbn [PPU.cycle PPU.set_cycle PPU.scanline PPU.frame_count PPU.frame_ready].
    rewrite Hc. change (341 <=? PPU.s16 (1 + 1)) with false. cbv iota.
    cbn [PPU.cycle PPU.set_cycle PPU.scanline PPU.frame_count PPU.frame_ready].
    rewrite Hl. reflexivity. }
  assert (Er : PPU.render p1 = PPU.advance (PPU.render (Sys.ppu s))).
  { rewrite Ep. destruct (nonzero _); reflexivity. }
  unfold timing in Ea. rewrite <- Er in Ea. inversion Ea as [[A1 A2 A3 A4]].
  split; [ reflexivity | ]. split; [ reflexivity | ].
  intros Hn. rewrite Hn in Ep.
  assert (N1 : PPU.nmi (Sys.ppu (exec BusClock.ppu_clock s)) = true).
  { fold p1. rewrite Ep. reflexivity. }
  unfold BusClock.clock.
  set (s1 := exec BusClock.ppu_clock s) in *.
  assert (N2 : PPU.nmi (Sys.ppu (exec BusClock.cpu_slot s1)) = true)
    by (apply (cpu_slot_nmi true); exact N1).
  destruct (route_nmi_pending _ N2) as [V1 V2].
  split.
  - rewrite eval_bind. fold s1. rewrite eval_bind, eval_bind, V1.
    rewrite eval_bind, eval_bind, eval_ret.
    apply in_or_app. right. left. reflexivity.
  - rewrite exec_bind. fold s1. rewrite !exec_bind, exec_ret.
    match goal with |- PPU.nmi (Sys.ppu (exec (BusClock.modb ?f) ?x)) = false =>
      change (PPU.nmi (Sys.ppu x) = false) end.
    apply (route_irq_nmi false). exact V2.
Qed.

End VblankProperties.

Lemma vblank_nmi_witness :
  PPU.status_vblank (Sys.ppu (exec BusClock.ppu_clock machine_vblank)) = 1.
Proof.
  refine (proj1 (vblank_nmi machine_vblank _ _)); reflexivity.
Defined.
(** ** The scanline pulse inside a tick *)

Module PulseFacts.
Import PPU.
Local Abbreviation Cart := (option (Cartridge.t Mapper004.t)).
Local Abbreviation PS := (PPU.t * Cart)%type.

Ltac mask_auto :=
  intros;
  cbv beta delta [update_shifters increment_scroll_x increment_scroll_y
                  transfer_address_x transfer_address_y load_background_shifters];
  cbv zeta;
  repeat match goal with
  | |- context [if ?c then _ else _] => destruct c
  end;
  reflexivity.

Section Pipeline.
Variable k : Z.
Variable m : Mapper004.t.
Local Abbreviation K :=
  (fun s : PS => mask (fst s) = k /\ option_map Cartridge.mapper (snd s) = Some (Some m)).

Lemma pres_modp_k (f : PPU.t -> PPU.t) :
  (forall p, mask (f p) = mask p) -> preserves K (modp f).
Proof.
  intros Hf. apply preserves_modify. intros s [H1 H2]. cbn [fst snd].
  rewrite Hf. split; assumption.
Qed.

Lemma pres_modr_k (f : Render -> Render) : preserves K (modr f).
Proof. apply pres_modp_k. intros p. reflexivity. Qed.

Lemma cartridge_ppu_read_mapper (a : Z) (c : Cartridge.t Mapper004.t) :
  Cartridge.mapper (snd (Cartridge.ppu_read a c)) = Cartridge.mapper c.
Proof.
  unfold Cartridge.ppu_read.
  destruct (Cartridge.mapper c) as [m0|] eqn:Em; [ | cbn; rewrite Em; reflexivity ].
  destruct (negb _); [ | cbn; rewrite Em; reflexivity ].
  cbn [m_ppu_read Mapper004_Mapper]. unfold Mapper004.ppu_read.
  destruct (_ && _); reflexivity.
Qed.

Lemma ppu_read_mapper (a : Z) (p : PPU.t) (cart : Cart) :
  option_map Cartridge.mapper (snd (PPU.ppu_read a p cart))
  = option_map Cartridge.mapper cart.
Proof.
  unfold PPU.ppu_read. cbv zeta.
  destruct (_ && _).
  { destruct cart as [c|]; [ | reflexivity ].
    pose proof (cartridge_ppu_read_mapper (Z.land a 0x3FFF) c) as H.
    destruct (Cartridge.ppu_read _ c) as [r c']. cbn [snd option_map] in *. now rewrite H. }
  destruct (_ && _); [ reflexivity | ].
  destruct (_ && _); reflexivity.
Qed.

Lemma pres_fetch_k (a : Z) : preserves K (fetch_byte a).
Proof.
  intros s [H1 H2]. unfold exec, fetch_byte.
  pose proof (ppu_read_mapper a (fst s) (snd s)) as E.
  destruct (ppu_read a (fst s) (snd s)) as [d c]. cbn [fst snd] in *.
  split; [ exact H1 | congruence ].
Qed.

Lemma pres_getp_k {A : Type} (f : PPU.t -> A) : preserves K (getp f).
Proof. apply preserves_gets. Qed.

Lemma pres_getr_k {A : Type} (f : Render -> A) : preserves K (getr f).
Proof. apply preserves_gets. Qed.

Lemma mask_sprite_evaluation (p : PPU.t) : mask (sprite_evaluation p) = mask p.
Proof.
  unfold sprite_evaluation. cbv zeta.
  destruct (evaluate_sprites _ _ _ _ _ _ _) as [n [sl hit]]. reflexivity.
Qed.

Local Hint Resolve pres_getp_k pres_getr_k pres_fetch_k pres_modr_k : pres.
Local Hint Extern 1 (preserves _ (modp _)) =>
  apply pres_modp_k; first [ apply mask_sprite_evaluation | mask_auto ] : pres.

Lemma pres_background_fetch_k : preserves K background_fetch.
Proof. unfold background_fetch. pres_auto. Qed.

Lemma pres_sprite_fetch_one_k (i : Z) : preserves K (sprite_fetch_one i).
Proof. unfold sprite_fetch_one. pres_auto. Qed.

Lemma pres_sprite_fetch_k : preserves K sprite_fetch.
Proof.
  unfold sprite_fetch. apply preserves_bind; [ apply pres_getr_k | intros n ].
  induction (upto n) as [ | i rest IH ]; cbn [for_each].
  - apply preserves_ret.
  - apply preserves_bind; [ apply pres_sprite_fetch_one_k | intros _; exact IH ].
Qed.

Lemma pres_render_pixel_k : preserves K render_pixel.
Proof. unfold render_pixel. pres_auto. Qed.

Local Hint Resolve pres_background_fetch_k pres_sprite_fetch_k pres_render_pixel_k : pres.

Lemma pres_visible_scanline_k : preserves K visible_scanline.
Proof. unfold visible_scanline. pres_auto. Qed.

End Pipeline.

(** A PPU cycle pulses the mapper exactly when it is due, and leaves it
    alone otherwise. *)
Lemma clock_pulse (s : PS) (m : Mapper004.t) :
  option_map Cartridge.mapper (snd s) = Some (Some m) ->
  option_map Cartridge.mapper (snd (exec clock s))
  = Some (Some (if pulse_due (fst s) then Mapper004.scanline m else m)).
Proof.
  intros Hm.
  assert (K0 : mask (fst s) = mask (fst s)
               /\ option_map Cartridge.mapper (snd s) = Some (Some m))
    by (split; [ reflexivity | exact Hm ]).
  set (r := render (fst s)).
  unfold clock.
  rewrite exec_bind. change (exec (getr scanline) s) with s.
  change (eval (getr scanline) s) with (scanline r).
  rewrite exec_bind.
  match goal with |- context [exec ?v s] => set (s1 := exec v s) end.
  assert (K1 : mask (fst s1) = mask (fst s)
               /\ option_map Cartridge.mapper (snd s1) = Some (Some m)).
  { unfold s1. destruct ((-1 <=? scanline r) && (scanline r <? 240)).
    - apply (pres_visible_scanline_k (mask (fst s)) m s K0).
    - exact K0. }
  assert (T1 : timing (render (fst s1)) = timing r
               \/ (scanline r = -1 /\ cycle r = 0
                   /\ timing (render (fst s1)) = (-1, 1, frame_count r, frame_ready r))).
  { unfold s1. destruct ((-1 <=? scanline r) && (scanline r <? 240)).
    - apply TimingFacts.visible_scanline_timing.
    - left. reflexivity. }
  clearbody s1.
  rewrite exec_bind. change (exec (getr scanline) s1) with s1.
  rewrite exec_bind. change (exec (getr cycle) s1) with s1.
  set (l1 := eval (getr scanline) s1). set (c1 := eval (getr cycle) s1).
  rewrite exec_bind.
  match goal with |- context [exec ?v s1] => set (s2 := exec v s1) end.
  assert (K2 : mask (fst s2) = mask (fst s)
               /\ option_map Cartridge.mapper (snd s2) = Some (Some m)).
  { unfold s2.
    match goal with |- context [exec ?v s1] =>
      assert (P : preserves (fun x : PS => mask (fst x) = mask (fst s)
                    /\ option_map Cartridge.mapper (snd x) = Some (Some m)) v)
    end.
    { pres_auto; apply pres_modp_k; mask_auto. }
    exact (P s1 K1). }
  assert (T2 : timing (render (fst s2)) = timing (render (fst s1))).
  { apply TimingFacts.kept. intros t0.
    pres_auto; apply TimingFacts.pres_modp_t; TimingFacts.timing_auto. }
  clearbody s2.
  rewrite exec_bind.
  match goal with |- context [exec ?v s2] => set (s3 := exec v s2) end.
  assert (K3 : mask (fst s3) = mask (fst s)
               /\ option_map Cartridge.mapper (snd s3) = Some (Some m)).
  { unfold s3.
    match goal with |- context [exec ?v s2] =>
      assert (P : preserves (fun x : PS => mask (fst x) = mask (fst s)
                    /\ option_map Cartridge.mapper (snd x) = Some (Some m)) v)
    end.
    { pres_auto; first [ apply pres_modp_k; mask_auto | apply pres_modr_k ]. }
    exact (P s2 K2). }
  assert (T3 : timing (render (fst s3)) = timing (render (fst s2))).
  { apply TimingFacts.kept. intros t0.
    pres_auto; first [ apply TimingFacts.pres_modp_t; TimingFacts.timing_auto
                     | apply TimingFacts.pres_modr_t; TimingFacts.timing_auto ]. }
  clearbody s3.
  rewrite exec_bind.
  match goal with |- context [exec ?v s3] => set (s4 := exec v s3) end.
  assert (K4 : mask (fst s4) = mask (fst s)
               /\ option_map Cartridge.mapper (snd s4) = Some (Some m)).
  { unfold s4.
    match goal with |- context [exec ?v s3] =>
      assert (P : preserves (fun x : PS => mask (fst x) = mask (fst s)
                    /\ option_map Cartridge.mapper (snd x) = Some (Some m)) v)
    end.
    { pres_auto. apply pres_render_pixel_k. }
    exact (P s3 K3). }
  assert (T4 : timing (render (fst s4)) = timing (render (fst s3))).
  { apply TimingFacts.kept. intros t0. pres_auto. apply TimingFacts.pres_render_pixel_t. }
  clearbody s4.
  rewrite exec_bind. change (exec (getp (fun p => p)) s4) with s4.
  change (eval (getp (fun p => p)) s4) with (fst s4).
  rewrite exec_bind.
  assert (Ec : (cycle (render (fst s4)) =? 260) && rendering_enabled (fst s4)
               && (0 <=? scanline (render (fst s4))) && (scanline (render (fst s4)) <? 240)
               = pulse_due (fst s)).
  { unfold pulse_due, rendering_enabled, mask_show_background, mask_show_sprites.
    destruct K4 as [-> _]. fold r.
    assert (T : timing (render (fst s4)) = timing (render (fst s1))) by congruence.
    assert (G : forall a b : Render, timing a = timing b ->
              scanline a = scanline b /\ cycle a = cycle b).
    { intros a b H. unfold timing in H. inversion H. tauto. }
    destruct T1 as [T1 | (El & Ecy & T1)].
    - destruct (G _ _ (eq_trans T T1)) as [-> ->]. reflexivity.
    - rewrite T1 in T.
      assert (Es : scanline (render (fst s4)) = -1)
        by (unfold timing in T; inversion T; reflexivity).
      rewrite Es, El. cbn [Z.leb Z.compare]. rewrite !andb_false_r. reflexivity. }
  rewrite Ec. clear Ec.
  change (exec (modr advance) ?x) with (set_render (advance (render (fst x))) (fst x), snd x).
  cbn [snd].
  destruct (pulse_due (fst s)).
  - unfold pulse_scanline. rewrite exec_modify. cbn [snd].
    destruct K4 as [_ K4]. destruct (snd s4) as [c|]; [ | discriminate ].
    cbn [option_map] in *. injection K4 as K4.
    unfold Cartridge.scanline. rewrite K4. reflexivity.
  - rewrite exec_ret. apply K4.
Qed.

Lemma mapper_of_map (cart : Cart) (m : Mapper004.t) :
  match cart with Some c => Cartridge.mapper c | None => None end = Some m
  <-> option_map Cartridge.mapper cart = Some (Some m).
Proof.
  destruct cart as [c|]; cbn; split; intros H; try discriminate.
  - now rewrite H.
  - now injection H.
Qed.

(** The same for the PPU cycle of a tick. *)
Lemma ppu_clock_mapper (s : Sys.t Mapper004.t) (m : Mapper004.t) :
  mapper_of s = Some m ->
  mapper_of (exec BusClock.ppu_clock s)
  = Some (if pulse_due (Sys.ppu s) then Mapper004.scanline m else m).
Proof.
  intros Hm. apply mapper_of_map in Hm.
  pose proof (clock_pulse (Sys.ppu s, Sys.cartridge s) m Hm) as H.
  unfold mapper_of, exec, BusClock.ppu_clock. unfold exec in H.
  destruct (PPU.clock _) as [u [p c]]. cbn [fst snd Sys.cartridge Sys.set_cartridge] in *.
  apply mapper_of_map. exact H.
Qed.

(** The line of a machine is the [irq_active] flag of its mapper. *)
Lemma irq_line_mapper (s : Sys.t Mapper004.t) (m : Mapper004.t) :
  mapper_of s = Some m -> irq_line s = Mapper004.irq_state m.
Proof.
  unfold mapper_of, irq_line, irq_line_of, Cartridge.irq_state.
  destruct (Sys.cartridge s) as [c|]; [ | discriminate ].
  intros ->. reflexivity.
Qed.

(** A write to an even address of [$E000-$FFFF] acknowledges the IRQ:
    the mapper of a cartridge with PRG ROM takes its line down. *)
Lemma cpu_write_acknowledge (s : Sys.t Mapper004.t) (c : Cartridge.t Mapper004.t)
    (a d : Z) :
  Sys.cartridge s = Some c ->
  Cartridge.is_empty (Cartridge.prg_rom c) = false ->
  0xE000 <= a <= 0xFFFF -> Z.land a 0x0001 = 0 ->
  irq_line (exec (Bus.cpu_write a d) s) = false.
Proof.
  intros Ec Hp Ha He. unfold exec, Bus.cpu_write, Bus.cart_cpu_write. rewrite Ec.
  unfold Cartridge.cpu_write. rewrite Hp. cbn [negb].
  destruct (Cartridge.mapper c) as [m|] eqn:Em.
  - cbn [m_cpu_write Mapper004_Mapper]. unfold Mapper004.cpu_write.
    rewrite !MapperFacts.off_window by lia. rewrite MapperFacts.in_window by lia.
    rewrite He. cbn [nonzero Z.eqb negb snd].
    unfold irq_line, irq_line_of, Cartridge.irq_state. cbn. reflexivity.
  - rewrite !MapperFacts.off_window by lia.
    replace (a =? 0x4015) with false by (symmetry; apply Z.eqb_neq; lia).
    replace (a =? 0x4017) with false by (symmetry; apply Z.eqb_neq; lia).
    replace (a =? 0x4014) with false by (symmetry; apply Z.eqb_neq; lia).
    replace (a =? 0x4016) with false by (symmetry; apply Z.eqb_neq; lia).
    cbn [orb snd]. unfold irq_line, irq_line_of, Cartridge.irq_state.
    cbn [Sys.cartridge Sys.set_cartridge]. rewrite ?Ec, Em. reflexivity.
Qed.

End PulseFacts.
(** ** MMC3 scanline IRQ *)

Section IrqClaims.
Import Mapper004.


End IrqClaims.



(** The same through the machine.  The program's register writes leave
    the mapper in the state above; the PPU pulses the mapper at cycle 260
    of each visible scanline, so after 16 scanlines and 260 cycles it has
    pulsed 16 times, no interrupt entry has been called and the counter is
    at 1; the next tick pulses it the seventeenth time and calls
    [cpu.irq()], which takes the CPU to the vector at [$FFFE]. *)
Example mmc3_irq_through_clock :
  mapper_of machine_mmc3 = Some mmc3_armed
  /\ (let r := BusClock.run (16 * 341 + 260) machine_mmc3 in
      List.filter is_entry (fst r) = []
      /\ option_map Mapper004.irq_counter (mapper_of (snd r)) = Some 1
      /\ List.filter is_entry (fst (BusClock.clock (snd r))) = [IrqEntry]
      /\ CPUState.PC (Sys.cpu (snd (BusClock.clock (snd r)))) = 0xEAEA
      /\ irq_line (snd (BusClock.clock (snd r))) = false).
Proof. vm_compute. repeat split. Qed.
